(** * STM32 I2C master driver (arch/arm/src/stm32/stm32_i2c_alt.c)

    A shallow embedding of the interrupt-level transaction engine
    [stm32_i2c_isr], of the clock configuration [stm32_i2c_setclock], of the
    trace recorder [stm32_i2c_trace*], of the completion wait
    [stm32_i2c_sem_waitdone] in its polled and its interrupt-driven
    variant, and of the transfer [stm32_i2c_process] with
    its entry points [stm32_i2c_write], [stm32_i2c_read] and
    [stm32_i2c_transfer], together with the properties of the driver's
    specification that these functions decide.  A second layer follows the
    life of the controller: bring-up and shutdown ([stm32_i2c_init],
    [stm32_i2c_deinit]), the reference-counted instances
    ([up_i2cinitialize], [up_i2cuninitialize]) and the bus recovery
    ([up_i2creset]), over a log of the calls the driver makes outside the
    file.

    The driver talks to memory-mapped hardware.  Every register read is
    answered by an oracle ([hardware]) that may return any value, and every
    register access the code performs is appended to a log, so that "how many
    times was the data register read" and "was STOP requested before the
    read" are statements about that log.  The same oracle answers for the
    operating system where the driver sleeps: how many interrupts are
    served during a timed wait, and what the wait returns. *)

From Stdlib Require Import ZArith Bool List Lia.
From stdpp Require Import base list.
Import ListNotations.

Local Open Scope Z_scope.

(** ** Fixed-width integers *)

Definition u8 (x : Z) : Z := x mod 256.
Definition u16 (x : Z) : Z := x mod 65536.
Definition u32 (x : Z) : Z := x mod 4294967296.

(** [(v & m) != 0] *)
Definition bit_set (v m : Z) : bool := negb (Z.land v m =? 0).
Arguments bit_set : simpl never.

(** ** Constants of the headers the driver includes

    The register map (chip/stm32_i2c.h), the message flags (nuttx/i2c.h) and
    the error numbers (errno.h) are not part of the file itself; the values
    below are those of the headers of the same source tree. *)

(** Modelled from the spec: the bits of the primary status register SR1
    (chip/stm32_i2c.h is not among the sources). *)
Definition I2C_SR1_SB       : Z := 1.
Definition I2C_SR1_ADDR     : Z := 2.
Definition I2C_SR1_BTF      : Z := 4.
Definition I2C_SR1_RXNE     : Z := 64.
Definition I2C_SR1_TXE      : Z := 128.
Definition I2C_SR1_BERR     : Z := 256.
Definition I2C_SR1_ARLO     : Z := 512.
Definition I2C_SR1_AF       : Z := 1024.
Definition I2C_SR1_OVR      : Z := 2048.
Definition I2C_SR1_PECERR   : Z := 4096.
Definition I2C_SR1_TIMEOUT  : Z := 16384.
Definition I2C_SR1_SMBALERT : Z := 32768.
Definition I2C_SR1_ERRORMASK : Z :=
  Z.lor I2C_SR1_BERR (Z.lor I2C_SR1_ARLO (Z.lor I2C_SR1_AF (Z.lor I2C_SR1_OVR
    (Z.lor I2C_SR1_PECERR (Z.lor I2C_SR1_TIMEOUT I2C_SR1_SMBALERT))))).
Definition I2C_SR2_BUSY     : Z := 2.

(** Modelled from the spec: the bits of the control registers CR1, CR2, of
    CCR and of OAR1 (chip/stm32_i2c.h). *)
Definition I2C_CR1_PE    : Z := 1.
Definition I2C_CR1_START : Z := 256.
Definition I2C_CR1_STOP  : Z := 512.
Definition I2C_CR1_ACK   : Z := 1024.
Definition I2C_CR1_POS   : Z := 2048.
Definition I2C_CR1_PEC   : Z := 4096.
Definition I2C_CR2_ITERREN : Z := 256.
Definition I2C_CR2_ITEVFEN : Z := 512.
Definition I2C_CR2_ITBUFEN : Z := 1024.
Definition I2C_CR2_ALLINTS : Z :=
  Z.lor I2C_CR2_ITERREN (Z.lor I2C_CR2_ITEVFEN I2C_CR2_ITBUFEN).
Definition I2C_CCR_DUTY  : Z := 16384.
Definition I2C_CCR_FS    : Z := 32768.
Definition I2C_OAR1_ONE  : Z := 16384.

(** Modelled from the spec: the message flags of nuttx/i2c.h. *)
Definition I2C_M_READ      : Z := 1.
Definition I2C_M_TEN       : Z := 2.
Definition I2C_M_NORESTART : Z := 128.

(** Modelled from the spec: the error numbers of errno.h, and the failure
    value ERROR of sys/types.h. *)
Definition OK        : Z := 0.
Definition ERROR     : Z := -1.
Definition EINTR     : Z := 4.
Definition EIO       : Z := 5.
Definition ENXIO     : Z := 6.
Definition EAGAIN    : Z := 11.
Definition EBUSY     : Z := 16.
Definition ETIME     : Z := 62.
Definition EPROTO    : Z := 71.
Definition ETIMEDOUT : Z := 110.

(** [enum stm32_intstate_e] *)
Inductive stm32_intstate_e : Type :=
| INTSTATE_IDLE
| INTSTATE_WAITING
| INTSTATE_DONE.

Definition intstate_eqb (a b : stm32_intstate_e) : bool :=
  match a, b with
  | INTSTATE_IDLE, INTSTATE_IDLE
  | INTSTATE_WAITING, INTSTATE_WAITING
  | INTSTATE_DONE, INTSTATE_DONE => true
  | _, _ => false
  end.

(** Trace event codes *)
Definition I2CEVENT_NONE                 : Z := 0.
Definition I2CEVENT_STATE_ERROR          : Z := 1000.
Definition I2CEVENT_ISR_SHUTDOWN         : Z := 1001.
Definition I2CEVENT_ISR_EMPTY_CALL       : Z := 1002.
Definition I2CEVENT_MSG_HANDLING         : Z := 1003.
Definition I2CEVENT_POLL_DEV_NOT_RDY     : Z := 1004.
Definition I2CEVENT_ISR_CALL             : Z := 1111.
Definition I2CEVENT_SENDADDR             : Z := 5.
Definition I2CEVENT_ADDR_HDL_READ_1      : Z := 51.
Definition I2CEVENT_ADDR_HDL_READ_2      : Z := 52.
Definition I2CEVENT_EMPTY_MSG            : Z := 5000.
Definition I2CEVENT_ADDRESS_ACKED        : Z := 6.
Definition I2CEVENT_ADDRESS_ACKED_READ_1 : Z := 63.
Definition I2CEVENT_ADDRESS_ACKED_READ_2 : Z := 61.
Definition I2CEVENT_ADDRESS_ACKED_WRITE  : Z := 681.
Definition I2CEVENT_ADDRESS_NACKED       : Z := 6000.
Definition I2CEVENT_READ                 : Z := 7.
Definition I2CEVENT_READ_3               : Z := 72.
Definition I2CEVENT_READ_2               : Z := 73.
Definition I2CEVENT_READ_SR_EMPTY        : Z := 79.
Definition I2CEVENT_READ_LAST_BYTE       : Z := 72.
Definition I2CEVENT_READ_ERROR           : Z := 7000.
Definition I2CEVENT_WRITE_TO_DR          : Z := 8.
Definition I2CEVENT_WRITE_STOP           : Z := 82.
Definition I2CEVENT_WRITE_RESTART        : Z := 83.
Definition I2CEVENT_WRITE_NO_RESTART     : Z := 84.
Definition I2CEVENT_WRITE_ERROR          : Z := 8000.
Definition I2CEVENT_WRITE_FLAG_ERROR     : Z := 8001.

(** ** Build configuration

    The preprocessor switches and board constants the file is compiled
    under. *)
Record config : Type := {
  CONFIG_I2C_POLLED          : bool;  (* engine is polled, no interrupts *)
  CONFIG_STM32_I2C_DUTY16_9  : bool;  (* fast mode with Tlow/Thigh = 16/9 *)
  CONFIG_I2C_NTRACE          : Z;     (* capacity of the trace table *)
  STM32_PCLK1_FREQUENCY      : Z;     (* peripheral clock, Hz *)
  CONFIG_STM32_I2CTIMEOTICKS : Z;     (* completion timeout, system ticks *)
  CONFIG_STM32_I2CTIMEOSEC   : Z;     (* its whole seconds *)
  CONFIG_STM32_I2CTIMEOMS    : Z      (* and its milliseconds *)
}.

(** ** Data *)

(** [struct i2c_msg_s] (nuttx/i2c.h); [buffer] is the address of the first
    byte of the caller's buffer. *)
Record i2c_msg_s : Type := {
  addr   : Z;   (* uint16_t *)
  mflags : Z;   (* uint16_t flags *)
  buffer : Z;   (* uint8_t * *)
  length : Z    (* int *)
}.

(** [struct stm32_trace_s] *)
Record stm32_trace_s : Type := {
  tr_status : Z;
  tr_count  : Z;
  tr_event  : Z;
  tr_parm   : Z;
  tr_time   : Z
}.

(** [struct stm32_i2c_priv_s], without the port configuration, the
    reference count and the two semaphores.  [msgv] points into the
    caller's message array: [Some i] is the address of element [i], [None]
    is NULL. *)
Record stm32_i2c_priv_s : Type := {
  intstate       : stm32_intstate_e;
  msgc           : Z;               (* uint8_t *)
  msgv           : option nat;      (* struct i2c_msg_s * *)
  ptr            : Z;               (* uint8_t * *)
  dcnt           : Z;               (* int *)
  flags          : Z;               (* uint16_t *)
  check_addr_ACK : bool;
  total_msg_len  : Z;               (* uint8_t *)
  tndx           : Z;               (* int *)
  start_time     : Z;
  trace          : list stm32_trace_s;
  status         : Z                (* uint32_t *)
}.

(** The registers of the controller the driver touches. *)
Inductive reg : Type :=
| STM32_I2C_CR1 | STM32_I2C_CR2 | STM32_I2C_OAR1 | STM32_I2C_DR
| STM32_I2C_SR1 | STM32_I2C_SR2 | STM32_I2C_CCR | STM32_I2C_TRISE.

(** What the driver does to the outside world, in program order. *)
Inductive access : Type :=
| GetReg (r : reg) (v : Z)                       (* getreg16, value read *)
| PutReg (r : reg) (v : Z)                       (* putreg16 *)
| ModifyReg (r : reg) (clearbits setbits : Z)    (* modifyreg16 *)
| SemPost                                        (* sem_post(&priv->sem_isr) *)
| SemTimedwait (sec nsec : Z).                   (* sem_timedwait *)

(** What one call of [sem_timedwait] on [priv->sem_isr] does, as far as
    the driver can tell: how many times the interrupt handler of the
    controller runs while the caller sleeps, the value the call returns
    and the [errno] it leaves. *)
Record timedwait : Type := {
  tw_interrupts : nat;
  tw_ret        : Z;
  tw_errno      : Z
}.

(** The hardware and the operating system as the driver sees them: the
    value the [n]-th register read returns when it reads register [r], the
    value of the [n]-th reading of the system timer, the seconds and
    nanoseconds [clock_gettime] gives when it is that reading, and what
    the [n]-th [sem_timedwait] does. *)
Record hardware : Type := {
  hw_reg      : nat -> reg -> Z;
  hw_clock    : nat -> Z;
  hw_realtime : nat -> Z * Z;
  hw_wait     : nat -> timedwait
}.

(** The state the code runs in: the driver's private structure, byte
    memory (the callers' buffers), how many register and timer reads have
    happened, and the accesses so far, newest first. *)
Record world : Type := {
  w_priv   : stm32_i2c_priv_s;
  w_mem    : Z -> Z;
  w_nreads : nat;
  w_nclock : nat;
  w_log    : list access
}.

(** The accesses in program order. *)
Definition accesses (w : world) : list access := rev (w_log w).

(** ** A state and failure monad

    [None] stands for undefined behaviour of the C code: a dereference of a
    NULL or out-of-range message pointer, an index outside the trace table,
    a division by zero; and for a polling loop that outlives its fuel. *)
Definition M (A : Type) : Type := world -> option (A * world).

Definition ret {A} (a : A) : M A := fun w => Some (a, w).
Definition bind {A B} (m : M A) (k : A -> M B) : M B :=
  fun w => match m w with
           | Some (a, w') => k a w'
           | None => None
           end.
Definition fail {A} : M A := fun _ => None.
Definition gets {A} (f : stm32_i2c_priv_s -> A) : M A :=
  fun w => Some (f (w_priv w), w).
Definition modify (f : stm32_i2c_priv_s -> stm32_i2c_priv_s) : M unit :=
  fun w => Some (tt, {| w_priv := f (w_priv w); w_mem := w_mem w;
                        w_nreads := w_nreads w; w_nclock := w_nclock w;
                        w_log := w_log w |}).

Declare Scope drv_scope.
Delimit Scope drv_scope with drv.
Notation "x <- m ;; k" := (bind m (fun x => k))
  (at level 100, m at next level, right associativity) : drv_scope.
Notation "m ;; k" := (bind m (fun _ => k))
  (at level 100, right associativity) : drv_scope.
Local Open Scope drv_scope.

Definition when (b : bool) (m : M unit) : M unit := if b then m else ret tt.

(** Field updates of the private structure. *)
Definition set_intstate (v : stm32_intstate_e) (p : stm32_i2c_priv_s) :=
  {| intstate := v; msgc := msgc p; msgv := msgv p; ptr := ptr p;
     dcnt := dcnt p; flags := flags p; check_addr_ACK := check_addr_ACK p;
     total_msg_len := total_msg_len p; tndx := tndx p;
     start_time := start_time p; trace := trace p; status := status p |}.
Definition set_msgc (v : Z) (p : stm32_i2c_priv_s) :=
  {| intstate := intstate p; msgc := v; msgv := msgv p; ptr := ptr p;
     dcnt := dcnt p; flags := flags p; check_addr_ACK := check_addr_ACK p;
     total_msg_len := total_msg_len p; tndx := tndx p;
     start_time := start_time p; trace := trace p; status := status p |}.
Definition set_msgv (v : option nat) (p : stm32_i2c_priv_s) :=
  {| intstate := intstate p; msgc := msgc p; msgv := v; ptr := ptr p;
     dcnt := dcnt p; flags := flags p; check_addr_ACK := check_addr_ACK p;
     total_msg_len := total_msg_len p; tndx := tndx p;
     start_time := start_time p; trace := trace p; status := status p |}.
Definition set_ptr (v : Z) (p : stm32_i2c_priv_s) :=
  {| intstate := intstate p; msgc := msgc p; msgv := msgv p; ptr := v;
     dcnt := dcnt p; flags := flags p; check_addr_ACK := check_addr_ACK p;
     total_msg_len := total_msg_len p; tndx := tndx p;
     start_time := start_time p; trace := trace p; status := status p |}.
Definition set_dcnt (v : Z) (p : stm32_i2c_priv_s) :=
  {| intstate := intstate p; msgc := msgc p; msgv := msgv p; ptr := ptr p;
     dcnt := v; flags := flags p; check_addr_ACK := check_addr_ACK p;
     total_msg_len := total_msg_len p; tndx := tndx p;
     start_time := start_time p; trace := trace p; status := status p |}.
Definition set_flags (v : Z) (p : stm32_i2c_priv_s) :=
  {| intstate := intstate p; msgc := msgc p; msgv := msgv p; ptr := ptr p;
     dcnt := dcnt p; flags := v; check_addr_ACK := check_addr_ACK p;
     total_msg_len := total_msg_len p; tndx := tndx p;
     start_time := start_time p; trace := trace p; status := status p |}.
Definition set_check_addr_ACK (v : bool) (p : stm32_i2c_priv_s) :=
  {| intstate := intstate p; msgc := msgc p; msgv := msgv p; ptr := ptr p;
     dcnt := dcnt p; flags := flags p; check_addr_ACK := v;
     total_msg_len := total_msg_len p; tndx := tndx p;
     start_time := start_time p; trace := trace p; status := status p |}.
Definition set_total_msg_len (v : Z) (p : stm32_i2c_priv_s) :=
  {| intstate := intstate p; msgc := msgc p; msgv := msgv p; ptr := ptr p;
     dcnt := dcnt p; flags := flags p; check_addr_ACK := check_addr_ACK p;
     total_msg_len := v; tndx := tndx p;
     start_time := start_time p; trace := trace p; status := status p |}.
Definition set_tndx (v : Z) (p : stm32_i2c_priv_s) :=
  {| intstate := intstate p; msgc := msgc p; msgv := msgv p; ptr := ptr p;
     dcnt := dcnt p; flags := flags p; check_addr_ACK := check_addr_ACK p;
     total_msg_len := total_msg_len p; tndx := v;
     start_time := start_time p; trace := trace p; status := status p |}.
Definition set_start_time (v : Z) (p : stm32_i2c_priv_s) :=
  {| intstate := intstate p; msgc := msgc p; msgv := msgv p; ptr := ptr p;
     dcnt := dcnt p; flags := flags p; check_addr_ACK := check_addr_ACK p;
     total_msg_len := total_msg_len p; tndx := tndx p;
     start_time := v; trace := trace p; status := status p |}.
Definition set_trace (v : list stm32_trace_s) (p : stm32_i2c_priv_s) :=
  {| intstate := intstate p; msgc := msgc p; msgv := msgv p; ptr := ptr p;
     dcnt := dcnt p; flags := flags p; check_addr_ACK := check_addr_ACK p;
     total_msg_len := total_msg_len p; tndx := tndx p;
     start_time := start_time p; trace := v; status := status p |}.
Definition set_status (v : Z) (p : stm32_i2c_priv_s) :=
  {| intstate := intstate p; msgc := msgc p; msgv := msgv p; ptr := ptr p;
     dcnt := dcnt p; flags := flags p; check_addr_ACK := check_addr_ACK p;
     total_msg_len := total_msg_len p; tndx := tndx p;
     start_time := start_time p; trace := trace p; status := v |}.

(** ** Environment of a call

    What the code reads but never changes: the build configuration, the
    hardware oracle and the caller's message array. *)
Record env : Type := {
  cfg  : config;
  hw   : hardware;
  msgs : list i2c_msg_s
}.

Definition with_priv (w : world) (p : stm32_i2c_priv_s) : world :=
  {| w_priv := p; w_mem := w_mem w; w_nreads := w_nreads w;
     w_nclock := w_nclock w; w_log := w_log w |}.

Definition emit (a : access) : M unit :=
  fun w => Some (tt, {| w_priv := w_priv w; w_mem := w_mem w;
                        w_nreads := w_nreads w; w_nclock := w_nclock w;
                        w_log := a :: w_log w |}).

(** ** Register access shim *)

(** [stm32_i2c_getreg]: a 16-bit read answered by the hardware. *)
Definition stm32_i2c_getreg (e : env) (r : reg) : M Z :=
  fun w =>
    let v := u16 (hw_reg (hw e) (w_nreads w) r) in
    Some (v, {| w_priv := w_priv w; w_mem := w_mem w;
                w_nreads := S (w_nreads w); w_nclock := w_nclock w;
                w_log := GetReg r v :: w_log w |}).

(** [stm32_i2c_putreg] *)
Definition stm32_i2c_putreg (r : reg) (value : Z) : M unit :=
  emit (PutReg r (u16 value)).

(** [stm32_i2c_modifyreg] *)
Definition stm32_i2c_modifyreg (r : reg) (clearbits setbits : Z) : M unit :=
  emit (ModifyReg r clearbits setbits).

(** [clock_systimer] *)
Definition clock_systimer (e : env) : M Z :=
  fun w =>
    Some (u32 (hw_clock (hw e) (w_nclock w)),
          {| w_priv := w_priv w; w_mem := w_mem w; w_nreads := w_nreads w;
             w_nclock := S (w_nclock w); w_log := w_log w |}).

(** [*p] and [*p = v] on byte memory. *)
Definition load (a : Z) : M Z := fun w => Some (w_mem w a, w).
Definition store (a v : Z) : M unit :=
  fun w => Some (tt, {| w_priv := w_priv w;
                        w_mem := fun x => if x =? a then u8 v else w_mem w x;
                        w_nreads := w_nreads w; w_nclock := w_nclock w;
                        w_log := w_log w |}).

(** [*priv->msgv]: undefined when the pointer is NULL or outside the
    message array. *)
Definition deref_msgv (e : env) : M i2c_msg_s :=
  fun w => match msgv (w_priv w) with
           | Some i => match msgs e !! i with
                       | Some m => Some (m, w)
                       | None => None
                       end
           | None => None
           end.

(** ** Event tracer *)

Definition trace_zero : stm32_trace_s :=
  {| tr_status := 0; tr_count := 0; tr_event := I2CEVENT_NONE;
     tr_parm := 0; tr_time := 0 |}.

(** [priv->trace[priv->tndx]], undefined outside the table. *)
Definition trace_cur : M stm32_trace_s :=
  fun w =>
    let p := w_priv w in
    if tndx p <? 0 then None
    else match trace p !! Z.to_nat (tndx p) with
         | Some t => Some (t, w)
         | None => None
         end.

(** An assignment to fields of [priv->trace[priv->tndx]]. *)
Definition trace_upd (f : stm32_trace_s -> stm32_trace_s) : M unit :=
  t <- trace_cur ;;
  modify (fun p => set_trace (<[Z.to_nat (tndx p) := f t]> (trace p)) p).

Definition stm32_i2c_traceclear : M unit :=
  trace_upd (fun _ => trace_zero).

Definition stm32_i2c_tracereset (e : env) : M unit :=
  modify (set_tndx 0) ;;
  now <- clock_systimer e ;;
  modify (set_start_time now) ;;
  stm32_i2c_traceclear.

Definition stm32_i2c_tracenew (e : env) (status16 : Z) : M unit :=
  let status := u16 status16 in
  t <- trace_cur ;;
  if (tr_count t =? 0) || negb (status =? tr_status t) then
    let init : M unit :=
      stm32_i2c_traceclear ;;
      trace_upd (fun t => {| tr_status := status; tr_count := tr_count t;
                             tr_event := tr_event t; tr_parm := tr_parm t;
                             tr_time := tr_time t |}) ;;
      trace_upd (fun t => {| tr_status := tr_status t; tr_count := 1;
                             tr_event := tr_event t; tr_parm := tr_parm t;
                             tr_time := tr_time t |}) ;;
      now <- clock_systimer e ;;
      trace_upd (fun t => {| tr_status := tr_status t; tr_count := tr_count t;
                             tr_event := tr_event t; tr_parm := tr_parm t;
                             tr_time := now |}) in
    if negb (tr_count t =? 0) then
      n <- gets tndx ;;
      if n >=? CONFIG_I2C_NTRACE (cfg e) - 1 then ret tt
      else modify (set_tndx (n + 1)) ;; init
    else init
  else
    trace_upd (fun t => {| tr_status := tr_status t;
                           tr_count := u32 (tr_count t + 1);
                           tr_event := tr_event t; tr_parm := tr_parm t;
                           tr_time := tr_time t |}).

(** The guard of [stm32_i2c_traceevent]:
    [event != I2CEVENT_NONE || event != I2CEVENT_POLL_DEV_NOT_RDY]. *)
Definition traceevent_guard (event : Z) : bool :=
  negb (event =? I2CEVENT_NONE) || negb (event =? I2CEVENT_POLL_DEV_NOT_RDY).

Definition stm32_i2c_traceevent (e : env) (event16 parm32 : Z) : M unit :=
  let event := u16 event16 in
  let parm := u32 parm32 in
  if traceevent_guard event then
    trace_upd (fun t => {| tr_status := tr_status t; tr_count := tr_count t;
                           tr_event := event; tr_parm := tr_parm t;
                           tr_time := tr_time t |}) ;;
    trace_upd (fun t => {| tr_status := tr_status t; tr_count := tr_count t;
                           tr_event := tr_event t; tr_parm := parm;
                           tr_time := tr_time t |}) ;;
    n <- gets tndx ;;
    if n >=? CONFIG_I2C_NTRACE (cfg e) - 1 then ret tt
    else modify (set_tndx (n + 1)) ;; stm32_i2c_traceclear
  else ret tt.

(** ** Clock configurator *)

(** Unsigned 32-bit division; the divisor zero is undefined. *)
Definition udiv (a b : Z) : M Z :=
  if b =? 0 then fail else ret (a / b).

Definition stm32_i2c_setclock (e : env) (frequency : Z) : M unit :=
  let pclk := u32 (STM32_PCLK1_FREQUENCY (cfg e)) in
  cr1 <- stm32_i2c_getreg e STM32_I2C_CR1 ;;
  stm32_i2c_putreg STM32_I2C_CR1 (Z.land cr1 (Z.lnot I2C_CR1_PE)) ;;
  let freqmhz := u16 (pclk / 1000000) in
  let ccr := 0 in
  ct <- (if frequency <=? 100000 then
           q <- udiv pclk (u32 (Z.shiftl frequency 1)) ;;
           let speed := u16 q in
           let speed := if speed <? 4 then 4 else speed in
           let ccr := Z.lor ccr speed in
           ret (ccr, u16 (freqmhz + 1))
         else
           sc <- (if CONFIG_STM32_I2C_DUTY16_9 (cfg e) then
                    q <- udiv pclk (u32 (frequency * 25)) ;;
                    ret (u16 q, Z.lor ccr (Z.lor I2C_CCR_DUTY I2C_CCR_FS))
                  else
                    q <- udiv pclk (u32 (frequency * 3)) ;;
                    ret (u16 q, Z.lor ccr I2C_CCR_FS)) ;;
           let speed := fst sc in
           let ccr := snd sc in
           let speed := if speed <? 1 then 1 else speed in
           let ccr := Z.lor ccr speed in
           ret (ccr, u16 ((freqmhz * 300) / 1000 + 1))) ;;
  stm32_i2c_putreg STM32_I2C_CCR (fst ct) ;;
  stm32_i2c_putreg STM32_I2C_TRISE (snd ct) ;;
  stm32_i2c_putreg STM32_I2C_OAR1 I2C_OAR1_ONE ;;
  stm32_i2c_putreg STM32_I2C_CR1 cr1.

(** ** START, STOP and status *)

Definition stm32_i2c_sendstart : M unit :=
  stm32_i2c_modifyreg STM32_I2C_CR1 I2C_CR1_ACK I2C_CR1_START.

Definition stm32_i2c_clrstart : M unit :=
  stm32_i2c_modifyreg STM32_I2C_CR1
    (Z.lor I2C_CR1_START (Z.lor I2C_CR1_STOP I2C_CR1_PEC)) 0.

Definition stm32_i2c_sendstop : M unit :=
  stm32_i2c_modifyreg STM32_I2C_CR1 I2C_CR1_ACK I2C_CR1_STOP.

Definition stm32_i2c_getstatus (e : env) : M Z :=
  sr1 <- stm32_i2c_getreg e STM32_I2C_SR1 ;;
  sr2 <- stm32_i2c_getreg e STM32_I2C_SR2 ;;
  ret (Z.lor sr1 (Z.shiftl sr2 16)).

(** ** The transaction engine: [stm32_i2c_isr]

    The function is one long body; it is cut here at the headings of its own
    comments.  The local [status] is the SR1 value read on entry; the later
    [status |= SR2 << 16] only feed debug output, so what remains of them is
    the read of SR2. *)

(** [*priv->ptr++ = stm32_i2c_getreg(priv, STM32_I2C_DR_OFFSET)] *)
Definition read_dr_to_buffer (e : env) : M unit :=
  v <- stm32_i2c_getreg e STM32_I2C_DR ;;
  a <- gets ptr ;;
  store a v ;;
  modify (set_ptr (a + 1)).

(** [priv->dcnt--] *)
Definition dcnt_decr : M unit :=
  modify (fun p => set_dcnt (dcnt p - 1) p).

(** Messages handling (1/2): the guard of the message advance. *)
Definition msg_advance_due (p : stm32_i2c_priv_s) : bool :=
  (dcnt p =? -1) && (msgc p >? 0).

(** Messages handling (1/2) *)
Definition isr_msg_handling (e : env) : M unit :=
  p <- gets id ;;
  if msg_advance_due p then
    m <- deref_msgv e ;;
    modify (set_ptr (buffer m)) ;;
    modify (set_dcnt (length m)) ;;
    modify (set_total_msg_len (u8 (length m))) ;;
    modify (set_flags (mflags m)) ;;
    modify (fun p => set_msgc (u8 (msgc p - 1)) p) ;;
    c <- gets msgc ;;
    (if c =? 0 then ret tt
     else modify (fun p => set_msgv (option_map S (msgv p)) p)) ;;
    c <- gets msgc ;;
    stm32_i2c_traceevent e I2CEVENT_MSG_HANDLING c
  else ret tt.

(** Address handling: the start bit is set. *)
Definition isr_address_handling (e : env) : M unit :=
  p <- gets id ;;
  if dcnt p >? 0 then
    (if (total_msg_len p =? 1) && bit_set (flags p) I2C_M_READ then
       stm32_i2c_modifyreg STM32_I2C_CR1 I2C_CR1_POS 0 ;;
       stm32_i2c_modifyreg STM32_I2C_CR1 I2C_CR1_ACK 0 ;;
       stm32_i2c_traceevent e I2CEVENT_ADDR_HDL_READ_1 0
     else if (total_msg_len p =? 2) && bit_set (flags p) I2C_M_READ then
       stm32_i2c_modifyreg STM32_I2C_CR1 0 I2C_CR1_POS ;;
       stm32_i2c_modifyreg STM32_I2C_CR1 0 I2C_CR1_ACK ;;
       stm32_i2c_traceevent e I2CEVENT_ADDR_HDL_READ_2 0
     else
       stm32_i2c_modifyreg STM32_I2C_CR1 I2C_CR1_POS 0 ;;
       stm32_i2c_modifyreg STM32_I2C_CR1 0 I2C_CR1_ACK) ;;
    (if bit_set (flags p) I2C_M_TEN then
       stm32_i2c_putreg STM32_I2C_DR 0
     else
       m <- deref_msgv e ;;
       stm32_i2c_putreg STM32_I2C_DR
         (Z.lor (Z.shiftl (addr m) 1) (Z.land (flags p) I2C_M_READ))) ;;
    modify (set_check_addr_ACK true) ;;
    m <- deref_msgv e ;;
    stm32_i2c_traceevent e I2CEVENT_SENDADDR (addr m)
  else
    stm32_i2c_traceevent e I2CEVENT_EMPTY_MSG 0 ;;
    modify (set_dcnt (-1)) ;;
    stm32_i2c_modifyreg STM32_I2C_CR2 0 I2C_CR2_ITBUFEN.

(** Address not acknowledged (interrupt-driven builds only). *)
Definition isr_address_nacked (e : env) : M unit :=
  modify (set_dcnt (-1)) ;;
  modify (set_msgc 0) ;;
  modify (set_check_addr_ACK false) ;;
  stm32_i2c_sendstop ;;
  m <- deref_msgv e ;;
  stm32_i2c_traceevent e I2CEVENT_ADDRESS_NACKED (addr m).

(** Address acknowledged in read mode. *)
Definition isr_address_acked_read (e : env) : M unit :=
  modify (set_check_addr_ACK false) ;;
  _ <- stm32_i2c_getreg e STM32_I2C_SR2 ;;
  p <- gets id ;;
  if (dcnt p =? 1) && (total_msg_len p =? 1) then
    stm32_i2c_modifyreg STM32_I2C_CR2 0 I2C_CR2_ITBUFEN ;;
    stm32_i2c_sendstop ;;
    dcnt_decr ;;
    stm32_i2c_traceevent e I2CEVENT_ADDRESS_ACKED_READ_1 0
  else if (dcnt p =? 2) && (total_msg_len p =? 2) then
    stm32_i2c_modifyreg STM32_I2C_CR1 I2C_CR1_ACK 0 ;;
    stm32_i2c_traceevent e I2CEVENT_ADDRESS_ACKED_READ_2 0
  else
    stm32_i2c_traceevent e I2CEVENT_ADDRESS_ACKED 0.

(** Write mode *)
Definition isr_write_mode (e : env) : M unit :=
  _ <- stm32_i2c_getreg e STM32_I2C_SR2 ;;
  modify (set_check_addr_ACK false) ;;
  p <- gets id ;;
  if dcnt p >=? 1 then
    a <- gets ptr ;;
    b <- load a ;;
    modify (set_ptr (a + 1)) ;;
    stm32_i2c_putreg STM32_I2C_DR b ;;
    stm32_i2c_traceevent e I2CEVENT_WRITE_TO_DR (dcnt p) ;;
    dcnt_decr
  else if dcnt p =? 0 then
    if msgc p =? 0 then
      stm32_i2c_sendstop ;;
      dcnt_decr ;;
      d <- gets dcnt ;;
      stm32_i2c_traceevent e I2CEVENT_WRITE_STOP d
    else
      restart <- (if msgc p >? 0 then
                    m <- deref_msgv e ;;
                    ret ((mflags m =? 0) || bit_set (mflags m) I2C_M_READ)
                  else ret false) ;;
      if restart then
        stm32_i2c_sendstart ;;
        dcnt_decr ;;
        d <- gets dcnt ;;
        stm32_i2c_traceevent e I2CEVENT_WRITE_RESTART d
      else
        norestart <- (if msgc p >? 0 then
                        m <- deref_msgv e ;;
                        ret (bit_set (mflags m) I2C_M_NORESTART)
                      else ret false) ;;
        if norestart then
          modify (set_dcnt (-1)) ;;
          d <- gets dcnt ;;
          stm32_i2c_traceevent e I2CEVENT_WRITE_NO_RESTART d
        else
          m <- deref_msgv e ;;
          stm32_i2c_traceevent e I2CEVENT_WRITE_FLAG_ERROR (mflags m)
  else
    stm32_i2c_traceevent e I2CEVENT_WRITE_ERROR 0.

(** Read mode *)
Definition isr_read_mode (e : env) (status : Z) : M unit :=
  p <- gets id ;;
  let btf := bit_set status I2C_SR1_BTF in
  (if (dcnt p =? 0) && (total_msg_len p =? 1) then
     read_dr_to_buffer e ;;
     dcnt_decr ;;
     stm32_i2c_traceevent e I2CEVENT_READ 0
   else if (dcnt p =? 2) && (total_msg_len p =? 2) && negb btf then
     stm32_i2c_traceevent e I2CEVENT_READ_SR_EMPTY 0
   else if (dcnt p =? 2) && (total_msg_len p =? 2) && btf then
     stm32_i2c_sendstop ;;
     read_dr_to_buffer e ;;
     dcnt_decr ;;
     read_dr_to_buffer e ;;
     dcnt_decr ;;
     dcnt_decr ;;
     stm32_i2c_traceevent e I2CEVENT_READ_2 0
   else if (total_msg_len p >=? 3) && negb btf then
     stm32_i2c_traceevent e I2CEVENT_READ_SR_EMPTY 0
   else if (dcnt p >=? 4) && (total_msg_len p >=? 3) && btf then
     read_dr_to_buffer e ;;
     dcnt_decr ;;
     stm32_i2c_traceevent e I2CEVENT_READ 0
   else if (dcnt p =? 3) && btf && (total_msg_len p >=? 3) then
     stm32_i2c_traceevent e I2CEVENT_READ_3 (dcnt p) ;;
     stm32_i2c_modifyreg STM32_I2C_CR1 I2C_CR1_ACK 0 ;;
     read_dr_to_buffer e ;;
     dcnt_decr
   else if (dcnt p =? 2) && btf && (total_msg_len p >=? 3) then
     stm32_i2c_traceevent e I2CEVENT_READ_3 (dcnt p) ;;
     stm32_i2c_sendstop ;;
     read_dr_to_buffer e ;;
     read_dr_to_buffer e ;;
     modify (set_dcnt (-1))
   else
     modify (set_dcnt (-1)) ;;
     modify (set_msgc 0) ;;
     stm32_i2c_traceevent e I2CEVENT_READ_ERROR 0) ;;
  _ <- stm32_i2c_getreg e STM32_I2C_SR2 ;;
  ret tt.

(** Empty call handler *)
Definition isr_empty_call (e : env) : M unit :=
  _ <- stm32_i2c_getreg e STM32_I2C_SR2 ;;
  stm32_i2c_traceevent e I2CEVENT_ISR_EMPTY_CALL 0.

(** Error handler *)
Definition isr_state_error (e : env) : M unit :=
  if CONFIG_I2C_POLLED (cfg e) then
    stm32_i2c_traceevent e I2CEVENT_POLL_DEV_NOT_RDY 0
  else
    _ <- stm32_i2c_getreg e STM32_I2C_SR2 ;;
    modify (set_dcnt (-1)) ;;
    modify (set_msgc 0) ;;
    stm32_i2c_traceevent e I2CEVENT_STATE_ERROR 0.

(** The branch of the protocol logic that one invocation executes. *)
Inductive phase : Type :=
| PhaseStart | PhaseAddrNacked | PhaseAddrAckedRead | PhaseWrite
| PhaseRead | PhaseEmptyCall | PhaseStateError.

(** The conditions of the if-else chain, in the order of the source. *)
Definition isr_phase (e : env) (status : Z) (p : stm32_i2c_priv_s) : phase :=
  if bit_set status I2C_SR1_SB then PhaseStart
  else if negb (CONFIG_I2C_POLLED (cfg e)) &&
          (negb (bit_set status I2C_SR1_ADDR) && check_addr_ACK p)
  then PhaseAddrNacked
  else if bit_set (flags p) I2C_M_READ && bit_set status I2C_SR1_ADDR &&
          check_addr_ACK p
  then PhaseAddrAckedRead
  else if negb (bit_set (flags p) I2C_M_READ) &&
          bit_set status (Z.lor I2C_SR1_ADDR I2C_SR1_TXE)
  then PhaseWrite
  else if bit_set (flags p) I2C_M_READ && bit_set status I2C_SR1_RXNE
  then PhaseRead
  else if (dcnt p =? -1) && (msgc p =? 0) then PhaseEmptyCall
  else PhaseStateError.

(** I2C protocol logic *)
Definition isr_protocol (e : env) (status : Z) : M unit :=
  p <- gets id ;;
  match isr_phase e status p with
  | PhaseStart => isr_address_handling e
  | PhaseAddrNacked => isr_address_nacked e
  | PhaseAddrAckedRead => isr_address_acked_read e
  | PhaseWrite => isr_write_mode e
  | PhaseRead => isr_read_mode e status
  | PhaseEmptyCall => isr_empty_call e
  | PhaseStateError => isr_state_error e
  end.

(** Messages handling (2/2): the guard of the termination. *)
Definition transfer_finished (p : stm32_i2c_priv_s) : bool :=
  (dcnt p =? -1) && (msgc p =? 0).

(** Messages handling (2/2) *)
Definition isr_shutdown (e : env) : M unit :=
  p <- gets id ;;
  if transfer_finished p then
    stm32_i2c_traceevent e I2CEVENT_ISR_SHUTDOWN 0 ;;
    modify (set_msgv None) ;;
    if CONFIG_I2C_POLLED (cfg e) then
      modify (set_intstate INTSTATE_DONE)
    else
      regval <- stm32_i2c_getreg e STM32_I2C_CR2 ;;
      stm32_i2c_putreg STM32_I2C_CR2 (Z.land regval (Z.lnot I2C_CR2_ALLINTS)) ;;
      s <- gets intstate ;;
      if intstate_eqb s INTSTATE_WAITING then
        emit SemPost ;;
        modify (set_intstate INTSTATE_DONE)
      else ret tt
  else ret tt.

Definition stm32_i2c_isr (e : env) : M Z :=
  status <- stm32_i2c_getreg e STM32_I2C_SR1 ;;
  modify (set_status status) ;;
  stm32_i2c_tracenew e status ;;
  stm32_i2c_traceevent e I2CEVENT_ISR_CALL 0 ;;
  isr_msg_handling e ;;
  isr_protocol e status ;;
  isr_shutdown e ;;
  ret OK.

(** ** Vocabulary of the properties *)

Arguments stm32_i2c_tracenew : simpl never.
Arguments stm32_i2c_traceevent : simpl never.
Arguments u8 : simpl never.
Arguments u16 : simpl never.
Arguments u32 : simpl never.
Arguments isr_phase : simpl never.
Arguments isr_shutdown : simpl never.

(** The trace table has [CONFIG_I2C_NTRACE] entries and the index is
    inside it. *)
Definition trace_ok (e : env) (i : Z) (t : list stm32_trace_s) : Prop :=
  0 <= i < CONFIG_I2C_NTRACE (cfg e) /\
  Z.of_nat (List.length t) = CONFIG_I2C_NTRACE (cfg e).

Definition trace_wf (e : env) (w : world) : Prop :=
  trace_ok e (tndx (w_priv w)) (trace (w_priv w)).

(** State [w] with the trace index, the trace table and the count of
    timer readings replaced. *)
Definition retrace (w : world) (i : Z) (t : list stm32_trace_s) (n : nat)
  : world :=
  {| w_priv := set_trace t (set_tndx i (w_priv w)); w_mem := w_mem w;
     w_nreads := w_nreads w; w_nclock := n; w_log := w_log w |}.

(** A computation that is defined under the trace invariant and changes
    the trace only. *)
Definition trace_only (e : env) (m : M unit) : Prop :=
  forall w, trace_wf e w ->
    exists i t n, m w = Some (tt, retrace w i t n) /\ trace_ok e i t.

(** The value the [k]-th register read counted from state [w] returns when
    it reads register [r]. *)
Definition reg_read (e : env) (w : world) (k : nat) (r : reg) : Z :=
  u16 (hw_reg (hw e) (k + w_nreads w)%nat r).

Definition is_dr_read (a : access) : bool :=
  match a with GetReg STM32_I2C_DR _ => true | _ => false end.

(** A request for STOP: [stm32_i2c_sendstop]. *)
Definition is_stop (a : access) : bool :=
  match a with
  | ModifyReg STM32_I2C_CR1 _ s => bit_set s I2C_CR1_STOP
  | _ => false
  end.

(** A request for START: [stm32_i2c_sendstart]. *)
Definition is_start (a : access) : bool :=
  match a with
  | ModifyReg STM32_I2C_CR1 _ s => bit_set s I2C_CR1_START
  | _ => false
  end.

(** A write to a data or control register. *)
Definition is_reg_write (a : access) : bool :=
  match a with
  | PutReg _ _ | ModifyReg _ _ _ => true
  | _ => false
  end.

Definition count_if (f : access -> bool) (l : list access) : nat :=
  List.length (List.filter f l).

(** What the termination step may do to the outside: read and write CR2
    and post the semaphore. *)
Definition shutdown_access (a : access) : bool :=
  match a with
  | GetReg STM32_I2C_CR2 _ | PutReg STM32_I2C_CR2 _ | SemPost => true
  | _ => false
  end.

(** The session fields the termination step leaves alone. *)
Definition same_session (w w' : world) : Prop :=
  dcnt (w_priv w') = dcnt (w_priv w) /\
  msgc (w_priv w') = msgc (w_priv w) /\
  ptr (w_priv w') = ptr (w_priv w) /\
  flags (w_priv w') = flags (w_priv w) /\
  check_addr_ACK (w_priv w') = check_addr_ACK (w_priv w) /\
  total_msg_len (w_priv w') = total_msg_len (w_priv w) /\
  status (w_priv w') = status (w_priv w) /\
  w_mem w' = w_mem w.

(** The state in which the protocol logic starts when no message is
    loaded in this invocation: status stored, trace advanced. *)
Definition entered (e : env) (w : world) (i : Z) (t : list stm32_trace_s)
  (n : nat) : world :=
  {| w_priv := set_trace t (set_tndx i
                 (set_status (reg_read e w 0 STM32_I2C_SR1) (w_priv w)));
     w_mem := w_mem w; w_nreads := S (w_nreads w); w_nclock := n;
     w_log := GetReg STM32_I2C_SR1 (reg_read e w 0 STM32_I2C_SR1) :: w_log w |}.

(** ** Concrete machines for the examples *)

Definition cfg_irq : config :=
  {| CONFIG_I2C_POLLED := false; CONFIG_STM32_I2C_DUTY16_9 := false;
     CONFIG_I2C_NTRACE := 32; STM32_PCLK1_FREQUENCY := 42000000;
     CONFIG_STM32_I2CTIMEOTICKS := 50; CONFIG_STM32_I2CTIMEOSEC := 0;
     CONFIG_STM32_I2CTIMEOMS := 500 |}.

Definition cfg_polled : config :=
  {| CONFIG_I2C_POLLED := true; CONFIG_STM32_I2C_DUTY16_9 := false;
     CONFIG_I2C_NTRACE := 32; STM32_PCLK1_FREQUENCY := 42000000;
     CONFIG_STM32_I2CTIMEOTICKS := 50; CONFIG_STM32_I2CTIMEOSEC := 0;
     CONFIG_STM32_I2CTIMEOMS := 500 |}.

(** A session between transfers, as the static initializers leave it, with
    an empty trace table of 32 entries. *)
Definition priv_idle : stm32_i2c_priv_s :=
  {| intstate := INTSTATE_IDLE; msgc := 0; msgv := None; ptr := 0;
     dcnt := 0; flags := 0; check_addr_ACK := false; total_msg_len := 0;
     tndx := 0; start_time := 0; trace := repeat trace_zero 32;
     status := 0 |}.

Definition world_of (p : stm32_i2c_priv_s) : world :=
  {| w_priv := p; w_mem := fun _ => 0; w_nreads := 0; w_nclock := 0;
     w_log := [] |}.

(** A [sem_timedwait] that times out with no interrupt served. *)
Definition wait_timeout : timedwait :=
  {| tw_interrupts := 0; tw_ret := ERROR; tw_errno := ETIMEDOUT |}.

(** Hardware whose status register always reads [sr1], whose data register
    always reads [dr], whose timer advances by one tick, and whose clock
    by one second, per reading, and where every timed wait times out. *)
Definition hw_const (sr1 dr : Z) : hardware :=
  {| hw_reg := fun _ r => match r with
                          | STM32_I2C_SR1 => sr1
                          | STM32_I2C_DR => dr
                          | _ => 0
                          end;
     hw_clock := fun n => Z.of_nat n;
     hw_realtime := fun n => (Z.of_nat n, 0);
     hw_wait := fun _ => wait_timeout |}.

(** The session in the middle of a read: [d] bytes to go of [n]. *)
Definition priv_reading (n d : Z) : stm32_i2c_priv_s :=
  set_total_msg_len n (set_dcnt d (set_flags I2C_M_READ
    (set_ptr 1000 (set_intstate INTSTATE_WAITING priv_idle)))).


(** The state in which the protocol logic starts when message [m] is
    loaded in this invocation. *)
Definition loaded (e : env) (w : world) (m : i2c_msg_s) (i : Z)
  (t : list stm32_trace_s) (n : nat) : world :=
  let p := w_priv w in
  let c := u8 (msgc p - 1) in
  {| w_priv :=
       set_trace t (set_tndx i
         (set_msgv (if c =? 0 then msgv p else option_map S (msgv p))
           (set_msgc c
             (set_flags (mflags m)
               (set_total_msg_len (u8 (length m))
                 (set_dcnt (length m)
                   (set_ptr (buffer m)
                     (set_status (reg_read e w 0 STM32_I2C_SR1) p))))))));
     w_mem := w_mem w; w_nreads := S (w_nreads w); w_nclock := n;
     w_log := GetReg STM32_I2C_SR1 (reg_read e w 0 STM32_I2C_SR1) :: w_log w |}.

(** The message [priv->msgv] points to. *)
Definition msgv_at (e : env) (p : stm32_i2c_priv_s) : option i2c_msg_s :=
  match msgv p with
  | Some i => msgs e !! i
  | None => None
  end.

(** [k] invocations of the engine in a row. *)
Fixpoint run_isr (e : env) (k : nat) : M unit :=
  match k with
  | O => ret tt
  | S k' => _ <- stm32_i2c_isr e ;; run_isr e k'
  end.

(** Where [priv->msgv] points once the message advance has run. *)
Definition cursor_after_load (p : stm32_i2c_priv_s) : option nat :=
  if u8 (msgc p - 1) =? 0 then msgv p else option_map S (msgv p).

(** The address byte the engine sends for the loaded message with flags
    [fl] when the cursor points to message [m]. *)
Definition address_byte (fl : Z) (m : i2c_msg_s) : Z :=
  if bit_set fl I2C_M_TEN then u16 0
  else u16 (Z.lor (Z.shiftl (addr m) 1) (Z.land fl I2C_M_READ)).

(** The ACK and POS programming that precedes the address byte, for a
    message of total length [n] and flags [fl]. *)
Definition address_setup (n fl : Z) : list access :=
  if (n =? 1) && bit_set fl I2C_M_READ then
    [ModifyReg STM32_I2C_CR1 I2C_CR1_POS 0;
     ModifyReg STM32_I2C_CR1 I2C_CR1_ACK 0]
  else if (n =? 2) && bit_set fl I2C_M_READ then
    [ModifyReg STM32_I2C_CR1 0 I2C_CR1_POS;
     ModifyReg STM32_I2C_CR1 0 I2C_CR1_ACK]
  else
    [ModifyReg STM32_I2C_CR1 I2C_CR1_POS 0;
     ModifyReg STM32_I2C_CR1 0 I2C_CR1_ACK].

(** The state after the invocation that loads message [m] and sends its
    address byte, the cursor then pointing to [m']. *)
Definition sent_address (e : env) (w : world) (m m' : i2c_msg_s) (i : Z)
  (t : list stm32_trace_s) (n : nat) : world :=
  let l := loaded e w m i t n in
  {| w_priv := set_check_addr_ACK true (w_priv l);
     w_mem := w_mem w; w_nreads := S (w_nreads w); w_nclock := n;
     w_log := PutReg STM32_I2C_DR (address_byte (mflags m) m')
              :: rev (address_setup (u8 (length m)) (mflags m)) ++ w_log l |}.

(** The state after the invocation that sees the address of a one-byte
    read acknowledged. *)
Definition acked_read_one (e : env) (w : world) (i : Z)
  (t : list stm32_trace_s) (n : nat) : world :=
  let st := reg_read e w 0 STM32_I2C_SR1 in
  {| w_priv := set_trace t (set_tndx i (set_dcnt 0
                 (set_check_addr_ACK false (set_status st (w_priv w)))));
     w_mem := w_mem w; w_nreads := S (S (w_nreads w)); w_nclock := n;
     w_log := ModifyReg STM32_I2C_CR1 I2C_CR1_ACK I2C_CR1_STOP
              :: ModifyReg STM32_I2C_CR2 0 I2C_CR2_ITBUFEN
              :: GetReg STM32_I2C_SR2 (reg_read e w 1 STM32_I2C_SR2)
              :: GetReg STM32_I2C_SR1 st :: w_log w |}.

(** The state after the invocation that writes one byte of the message. *)
Definition wrote_byte (e : env) (w : world) (i : Z)
  (t : list stm32_trace_s) (n : nat) : world :=
  let st := reg_read e w 0 STM32_I2C_SR1 in
  let p := w_priv w in
  {| w_priv := set_trace t (set_tndx i (set_dcnt (dcnt p - 1)
                 (set_ptr (ptr p + 1)
                    (set_check_addr_ACK false (set_status st p)))));
     w_mem := w_mem w; w_nreads := S (S (w_nreads w)); w_nclock := n;
     w_log := PutReg STM32_I2C_DR (u16 (w_mem w (ptr p)))
              :: GetReg STM32_I2C_SR2 (reg_read e w 1 STM32_I2C_SR2)
              :: GetReg STM32_I2C_SR1 st :: w_log w |}.

(** Hardware that answers the [n]-th register read with the [n]-th value
    of a script, and with 0 once the script is exhausted. *)
Definition hw_script (l : list Z) : hardware :=
  {| hw_reg := fun n _ => List.nth n l 0;
     hw_clock := fun n => Z.of_nat n;
     hw_realtime := fun n => (Z.of_nat n, 0);
     hw_wait := fun _ => wait_timeout |}.

(** The same hardware, where every timed wait serves [k] interrupts and
    then returns OK. *)
Definition hw_served (h : hardware) (k : nat) : hardware :=
  {| hw_reg := hw_reg h; hw_clock := hw_clock h;
     hw_realtime := hw_realtime h;
     hw_wait := fun _ => {| tw_interrupts := k; tw_ret := OK;
                            tw_errno := 0 |} |}.

(** The session as [stm32_i2c_process] arms it for [count] messages. *)
Definition priv_armed (count : Z) : stm32_i2c_priv_s :=
  set_dcnt (-1) (set_msgc count (set_msgv (Some 0%nat)
    (set_intstate INTSTATE_WAITING priv_idle))).

(** ** Completion gate and transfer orchestrator

    The timeouts are those of a build without CONFIG_STM32_I2C_DYNTIMEO.
    The loops poll hardware and the system timer, or sleep on the
    semaphore of the engine; [fuel] bounds the number of iterations the
    model follows. *)

(** The loop of [stm32_i2c_sem_waitstop]. *)
Fixpoint waitstop_loop (e : env) (fuel : nat) (start timeout : Z) : M unit :=
  match fuel with
  | O => fail
  | S fuel' =>
      cr1 <- stm32_i2c_getreg e STM32_I2C_CR1 ;;
      if negb (bit_set cr1 I2C_CR1_STOP) then ret tt
      else
        sr1 <- stm32_i2c_getreg e STM32_I2C_SR1 ;;
        if bit_set sr1 I2C_SR1_TIMEOUT then ret tt
        else
          now <- clock_systimer e ;;
          let elapsed := u32 (now - start) in
          if elapsed <? timeout then waitstop_loop e fuel' start timeout
          else ret tt
  end.

Definition stm32_i2c_sem_waitstop (e : env) (fuel : nat) : M unit :=
  let timeout := CONFIG_STM32_I2CTIMEOTICKS (cfg e) in
  start <- clock_systimer e ;;
  waitstop_loop e fuel start timeout.

(** The loop of the polled [stm32_i2c_sem_waitdone]. *)
Fixpoint waitdone_loop (e : env) (fuel : nat) (start timeout : Z) : M unit :=
  match fuel with
  | O => fail
  | S fuel' =>
      _ <- stm32_i2c_isr e ;;
      now <- clock_systimer e ;;
      let elapsed := u32 (now - start) in
      s <- gets intstate ;;
      if negb (intstate_eqb s INTSTATE_DONE) && (elapsed <? timeout)
      then waitdone_loop e fuel' start timeout
      else ret tt
  end.

(** [stm32_i2c_sem_waitdone] as it is compiled with CONFIG_I2C_POLLED. *)
Definition sem_waitdone_polled (e : env) (fuel : nat) : M Z :=
  let timeout := CONFIG_STM32_I2CTIMEOTICKS (cfg e) in
  modify (set_intstate INTSTATE_WAITING) ;;
  start <- clock_systimer e ;;
  waitdone_loop e fuel start timeout ;;
  s <- gets intstate ;;
  let r := if intstate_eqb s INTSTATE_DONE then OK else - ETIMEDOUT in
  modify (set_intstate INTSTATE_IDLE) ;;
  ret r.

(** [clock_gettime(CLOCK_REALTIME, &abstime)]: [tv_sec] and [tv_nsec]. *)
Definition clock_gettime (e : env) : M (Z * Z) :=
  fun w =>
    Some (hw_realtime (hw e) (w_nclock w),
          {| w_priv := w_priv w; w_mem := w_mem w; w_nreads := w_nreads w;
             w_nclock := S (w_nclock w); w_log := w_log w |}).

(** "Calculate a time in the future": the configured timeout added to
    [abstime].  [tv_sec] is unsigned and wraps at 32 bits; [tv_nsec] is a
    signed [long], whose overflow is undefined. *)
Definition timedwait_deadline (c : config) (abstime : Z * Z) : M (Z * Z) :=
  let sec := if CONFIG_STM32_I2CTIMEOSEC c >? 0
             then u32 (fst abstime + CONFIG_STM32_I2CTIMEOSEC c)
             else fst abstime in
  if CONFIG_STM32_I2CTIMEOMS c >? 0 then
    let nsec := snd abstime + CONFIG_STM32_I2CTIMEOMS c * 1000 * 1000 in
    if nsec >? 2147483647 then fail
    else if nsec >=? 1000 * 1000 * 1000
         then ret (u32 (sec + 1), nsec - 1000 * 1000 * 1000)
         else ret (sec, nsec)
  else ret (sec, snd abstime).

Definition is_timedwait (a : access) : bool :=
  match a with SemTimedwait _ _ => true | _ => false end.

(** [sem_timedwait(&priv->sem_isr, &abstime)].  The call is an answer of
    the operating system: while the caller sleeps the interrupts of the
    controller are open, so the handler [stm32_i2c_isr] runs as many
    times as the oracle says, and then the call returns what the oracle
    says.  Nothing is assumed on how the result depends on the semaphore
    having been posted. *)
Definition sem_timedwait (e : env) (abstime : Z * Z) : M timedwait :=
  fun w =>
    let o := hw_wait (hw e) (count_if is_timedwait (w_log w)) in
    (emit (SemTimedwait (fst abstime) (snd abstime)) ;;
     run_isr e (tw_interrupts o) ;;
     ret o) w.

(** The loop of the interrupt-driven [stm32_i2c_sem_waitdone]; the result
    is [ret]. *)
Fixpoint waitdone_irq_loop (e : env) (fuel : nat) : M Z :=
  match fuel with
  | O => fail
  | S fuel' =>
      now <- clock_gettime e ;;
      abstime <- timedwait_deadline (cfg e) now ;;
      o <- sem_timedwait e abstime ;;
      if negb (tw_ret o =? OK) && negb (tw_errno o =? EINTR)
      then ret (tw_ret o)
      else
        s <- gets intstate ;;
        if negb (intstate_eqb s INTSTATE_DONE)
        then waitdone_irq_loop e fuel'
        else ret (tw_ret o)
  end.

(** [stm32_i2c_sem_waitdone] as it is compiled without CONFIG_I2C_POLLED.
    [irqsave] and [irqrestore] leave no trace in the model: the handler
    runs inside [sem_timedwait] only. *)
Definition sem_waitdone_irq (e : env) (fuel : nat) : M Z :=
  regval <- stm32_i2c_getreg e STM32_I2C_CR2 ;;
  stm32_i2c_putreg STM32_I2C_CR2
    (Z.lor regval (Z.lor I2C_CR2_ITERREN I2C_CR2_ITEVFEN)) ;;
  modify (set_intstate INTSTATE_WAITING) ;;
  r <- waitdone_irq_loop e fuel ;;
  modify (set_intstate INTSTATE_IDLE) ;;
  regval <- stm32_i2c_getreg e STM32_I2C_CR2 ;;
  stm32_i2c_putreg STM32_I2C_CR2 (Z.land regval (Z.lnot I2C_CR2_ALLINTS)) ;;
  ret r.

(** [stm32_i2c_sem_waitdone]: the variant the build selects. *)
Definition stm32_i2c_sem_waitdone (e : env) (fuel : nat) : M Z :=
  if CONFIG_I2C_POLLED (cfg e) then sem_waitdone_polled e fuel
  else sem_waitdone_irq e fuel.

(** "Check for error status conditions" in [stm32_i2c_process]: the error
    number for the status word, [errval] being the number so far. *)
Definition classify_status (errval status : Z) : Z :=
  if bit_set status I2C_SR1_ERRORMASK then
    if bit_set status I2C_SR1_BERR then EIO
    else if bit_set status I2C_SR1_ARLO then EAGAIN
    else if bit_set status I2C_SR1_AF then ENXIO
    else if bit_set status I2C_SR1_OVR then EIO
    else if bit_set status I2C_SR1_PECERR then EPROTO
    else if bit_set status I2C_SR1_TIMEOUT then ETIME
    else EINTR
  else if bit_set status (Z.shiftl I2C_SR2_BUSY 16) then EBUSY
  else errval.

(** [stm32_i2c_process] from the return of [stm32_i2c_sem_waitdone] on:
    [waitdone] is what the wait returned. *)
Definition process_finish (e : env) (waitdone : Z) : M Z :=
  se <- (if waitdone <? 0 then
           _ <- stm32_i2c_getstatus e ;;
           stm32_i2c_clrstart ;;
           when (CONFIG_I2C_POLLED (cfg e)) stm32_i2c_sendstop ;;
           s <- gets status ;;
           ret (Z.land s 65535, ETIMEDOUT)
         else
           s <- gets status ;;
           ret (Z.land s 65535, 0)) ;;
  let errval := classify_status (snd se) (fst se) in
  _ <- clock_systimer e ;;
  ret (- errval).

(** [stm32_i2c_process] of a build without the FSMC conflict, for the
    message array of the environment.  The exclusion semaphore, taken by
    the caller and given back here, is left out. *)
Definition stm32_i2c_process (e : env) (fuel : nat) (frequency count : Z)
  : M Z :=
  if count =? 0 then fail
  else
    stm32_i2c_sem_waitstop e fuel ;;
    stm32_i2c_putreg STM32_I2C_SR1 0 ;;
    stm32_i2c_clrstart ;;
    modify (set_msgv (Some 0%nat)) ;;
    modify (set_msgc (u8 count)) ;;
    stm32_i2c_tracereset e ;;
    stm32_i2c_setclock e frequency ;;
    modify (set_dcnt (-1)) ;;
    modify (set_status 0) ;;
    stm32_i2c_sendstart ;;
    r <- stm32_i2c_sem_waitdone e fuel ;;
    process_finish e r.

(** A session at the end of a written message with the pending-ACK flag
    still set, one message left. *)
Definition priv_write_done_pending : stm32_i2c_priv_s :=
  set_check_addr_ACK true (set_total_msg_len 1 (set_ptr 2001
    (set_dcnt 0 (set_msgc 1 (set_msgv (Some 0%nat)
      (set_intstate INTSTATE_WAITING priv_idle)))))).

(** A message whose only flag is the ten-bit address flag. *)
Definition msg_ten_bit : i2c_msg_s :=
  {| addr := 16; mflags := I2C_M_TEN; buffer := 3000; length := 1 |}.

(** ** Frame properties of monadic code

    [preserves R m]: whenever [m] returns, the states before and after are
    related by [R]. *)
Definition preserves {A : Type} (R : world -> world -> Prop) (m : M A)
  : Prop :=
  forall w a w', m w = Some (a, w') -> R w w'.

(** [F] between two states, under the trace invariant, which is kept. *)
Definition under_wf (e : env) (F : world -> world -> Prop)
  : world -> world -> Prop :=
  fun w w' => trace_wf e w -> trace_wf e w' /\ F w w'.

(** The handshake state is the same. *)
Definition same_intstate (w w' : world) : Prop :=
  intstate (w_priv w') = intstate (w_priv w).

(** Memory is the same. *)
Definition same_mem (w w' : world) : Prop :=
  w_mem w' = w_mem w.

(** Nothing was written to a register: the accesses added are reads. *)
Definition only_reads (w w' : world) : Prop :=
  exists new, accesses w' = accesses w ++ new /\
              count_if is_reg_write new = 0%nat.

(** [stm32_i2c_isr] up to, and without, "Messages handling (2/2)". *)
Definition isr_before_shutdown (e : env) : M unit :=
  status <- stm32_i2c_getreg e STM32_I2C_SR1 ;;
  modify (set_status status) ;;
  stm32_i2c_tracenew e status ;;
  stm32_i2c_traceevent e I2CEVENT_ISR_CALL 0 ;;
  isr_msg_handling e ;;
  isr_protocol e status.

(** The last reading of the system timer before state [w]. *)
Definition last_clock (e : env) (w : world) : Z :=
  u32 (hw_clock (hw e) (Nat.pred (w_nclock w))).

(** A one-byte read from address 0x50 into the buffer at 1000. *)
Definition msg_read_one : i2c_msg_s :=
  {| addr := 80; mflags := I2C_M_READ; buffer := 1000; length := 1 |}.

(** The error number [stm32_i2c_process] derives from the status word the
    engine stored last and from whether the wait timed out. *)
Definition error_of_status (st : Z) (timed_out : bool) : Z :=
  if bit_set st I2C_SR1_BERR then EIO
  else if bit_set st I2C_SR1_ARLO then EAGAIN
  else if bit_set st I2C_SR1_AF then ENXIO
  else if bit_set st I2C_SR1_OVR then EIO
  else if bit_set st I2C_SR1_PECERR then EPROTO
  else if bit_set st I2C_SR1_TIMEOUT then ETIME
  else if bit_set st I2C_SR1_SMBALERT then EINTR
  else if timed_out then ETIMEDOUT
  else 0.

(** What [stm32_i2c_process] does to the controller after the wait. *)
Definition recovery_accesses (e : env) (w : world) (timed_out : bool)
  : list access :=
  if timed_out then
    [GetReg STM32_I2C_SR1 (reg_read e w 0 STM32_I2C_SR1);
     GetReg STM32_I2C_SR2 (reg_read e w 1 STM32_I2C_SR2);
     ModifyReg STM32_I2C_CR1
       (Z.lor I2C_CR1_START (Z.lor I2C_CR1_STOP I2C_CR1_PEC)) 0]
    ++ (if CONFIG_I2C_POLLED (cfg e)
        then [ModifyReg STM32_I2C_CR1 I2C_CR1_ACK I2C_CR1_STOP] else [])
  else [].

(** An access to the data register, in either direction. *)
Definition is_dr_access (a : access) : bool :=
  match a with
  | GetReg STM32_I2C_DR _ | PutReg STM32_I2C_DR _ => true
  | _ => false
  end.

(** What an invocation on a finished transfer leaves behind. *)
Definition finished_frame (w w' : world) : Prop :=
  transfer_finished (w_priv w') = true /\
  msgv (w_priv w') = None /\
  w_mem w' = w_mem w /\
  ptr (w_priv w') = ptr (w_priv w) /\
  exists new,
    accesses w' = accesses w ++ new /\
    count_if is_dr_access new = 0%nat /\
    count_if is_start new = 0%nat.

(** The accesses between two states all satisfy [P]. *)
Definition adds (P : access -> bool) (w w' : world) : Prop :=
  exists new, w_log w' = new ++ w_log w /\ forallb P new = true.

(** Memory is the same and the data register was not read. *)
Definition no_data_in (w w' : world) : Prop :=
  w_mem w' = w_mem w /\ adds (fun a => negb (is_dr_read a)) w w'.

(** The flags of the loaded message are the same. *)
Definition same_flags (w w' : world) : Prop :=
  flags (w_priv w') = flags (w_priv w).

(** Both of the above. *)
Definition same_flags_no_data_in (w w' : world) : Prop :=
  same_flags w w' /\ no_data_in w w'.

(** The values written to the data register, in order. *)
Definition dr_writes (l : list access) : list Z :=
  flat_map (fun a => match a with
                     | PutReg STM32_I2C_DR v => [v]
                     | _ => []
                     end) l.

(** The [n] bytes of memory from address [a] on, as the shim passes them
    to a 16-bit register. *)
Definition buffer_bytes (mem : Z -> Z) (a : Z) (n : nat) : list Z :=
  List.map (fun j => u16 (mem (a + Z.of_nat j))) (seq 0 n).

(** The status word lets a write go on: no start bit, and ADDR or TXE. *)
Definition write_ready (st : Z) : bool :=
  negb (bit_set st I2C_SR1_SB) &&
  bit_set st (Z.lor I2C_SR1_ADDR I2C_SR1_TXE).

(** The values read from the data register, in order. *)
Definition dr_reads (l : list access) : list Z :=
  flat_map (fun a => match a with
                     | GetReg STM32_I2C_DR v => [v]
                     | _ => []
                     end) l.

(** The status word lets a read of three or more bytes go on: no start
    bit, RXNE and BTF. *)
Definition read_ready (st : Z) : bool :=
  negb (bit_set st I2C_SR1_SB) && bit_set st I2C_SR1_RXNE &&
  bit_set st I2C_SR1_BTF.

(** A request to stop acknowledging: ACK cleared, nothing set. *)
Definition is_nack (a : access) : bool :=
  match a with
  | ModifyReg STM32_I2C_CR1 c s => bit_set c I2C_CR1_ACK && (s =? 0)
  | _ => false
  end.

Module Inst.

(** [struct stm32_i2c_inst_s] without the two pointers. *)
Record t : Type := {
  frequency : Z;   (* uint32_t *)
  address   : Z;   (* int *)
  flags     : Z    (* uint16_t *)
}.

End Inst.

(** The instance [up_i2cinitialize] returns. *)
Definition inst_initial : Inst.t :=
  {| Inst.frequency := 100000; Inst.address := 0; Inst.flags := 0 |}.

(** [stm32_i2c_setfrequency]: the new instance and the value returned. *)
Definition stm32_i2c_setfrequency (c : config) (i : Inst.t) (frequency : Z)
  : Inst.t * Z :=
  let f := if STM32_PCLK1_FREQUENCY c <? 4000000 then 100000
           else u32 frequency in
  ({| Inst.frequency := f; Inst.address := Inst.address i;
      Inst.flags := Inst.flags i |}, f).

(** [stm32_i2c_setaddress]: the new instance and the value returned. *)
Definition stm32_i2c_setaddress (i : Inst.t) (addr nbits : Z)
  : Inst.t * Z :=
  ({| Inst.frequency := Inst.frequency i; Inst.address := addr;
      Inst.flags := if nbits =? 10 then I2C_M_TEN else 0 |}, OK).

(** The one message [stm32_i2c_write] and [stm32_i2c_read] build on their
    stack; [rd] is the flag the read adds. *)
Definition inst_msg (i : Inst.t) (rd : Z) (buf buflen : Z) : i2c_msg_s :=
  {| addr := u16 (Inst.address i);
     mflags := u16 (Z.lor (Inst.flags i) rd);
     buffer := buf; length := buflen |}.

Definition stm32_i2c_write (c : config) (h : hardware) (fuel : nat)
  (i : Inst.t) (buf buflen : Z) : M Z :=
  stm32_i2c_process {| cfg := c; hw := h; msgs := [inst_msg i 0 buf buflen] |}
    fuel (Inst.frequency i) 1.

Definition stm32_i2c_read (c : config) (h : hardware) (fuel : nat)
  (i : Inst.t) (buf buflen : Z) : M Z :=
  stm32_i2c_process
    {| cfg := c; hw := h; msgs := [inst_msg i I2C_M_READ buf buflen] |}
    fuel (Inst.frequency i) 1.

(** [stm32_i2c_transfer] *)
Definition stm32_i2c_transfer (e : env) (fuel : nat) (i : Inst.t)
  (count : Z) : M Z :=
  stm32_i2c_process e fuel (Inst.frequency i) count.

(** The flags are the same and the message count is the same or zero. *)
Definition same_flags_msgc (w w' : world) : Prop :=
  flags (w_priv w') = flags (w_priv w) /\
  (msgc (w_priv w') = msgc (w_priv w) \/ msgc (w_priv w') = 0).

(** The session of a transfer of the one write message [m]: the message
    is still to be loaded, or is loaded and the last. *)
Definition write_session (e : env) (m : i2c_msg_s) (p : stm32_i2c_priv_s)
  : Prop :=
  (bit_set (flags p) I2C_M_READ = false /\ msgc p = 0) \/
  (dcnt p = -1 /\ msgc p = 1 /\ msgv_at e p = Some m).

(** The number of bytes the engine may still store for the loaded
    message: the byte counter, or 1 between the acknowledge and the data
    of a one-byte read, where the counter is already 0. *)
Definition store_budget (p : stm32_i2c_priv_s) : Z :=
  if (dcnt p =? 0) && (total_msg_len p =? 1) &&
     bit_set (flags p) I2C_M_READ
  then 1 else Z.max (dcnt p) 0.

(** Stores are confined to the addresses the buffer pointer moved over,
    and the pointer moved by no more than the budget spent. *)
Definition within_budget (w w' : world) : Prop :=
  ptr (w_priv w) <= ptr (w_priv w') /\
  ptr (w_priv w') + store_budget (w_priv w') <=
    ptr (w_priv w) + store_budget (w_priv w) /\
  forall x, x < ptr (w_priv w) \/ ptr (w_priv w') <= x ->
    w_mem w' x = w_mem w x.

(** The session of a transfer of the one message [m]: the message is
    still to be loaded, or it is loaded, the last, and the buffer pointer
    and what may still be stored lie inside its buffer. *)
Definition one_message_session (e : env) (m : i2c_msg_s)
  (p : stm32_i2c_priv_s) : Prop :=
  (msgc p = 0 /\ buffer m <= ptr p /\
   ptr p + store_budget p <= buffer m + Z.max (length m) 0) \/
  (dcnt p = -1 /\ msgc p = 1 /\ msgv_at e p = Some m).

(** Memory outside the [n] bytes from [a] is the same. *)
Definition same_outside (a n : Z) (f g : Z -> Z) : Prop :=
  forall x, x < a \/ a + Z.max n 0 <= x -> g x = f x.

Inductive rcc_reg : Type := STM32_RCC_APB1ENR | STM32_RCC_APB1RSTR.

Inductive sem : Type := sem_excl | sem_isr.

Inductive call : Type :=
| Reg (a : access)
| Modifyreg32 (r : rcc_reg) (clearbits setbits : Z)
| Configgpio (cfgset : Z) (result : Z)
| Unconfiggpio (cfgset : Z)
| Gpiowrite (pinset : Z) (value : bool)
| Gpioread (pinset : Z) (value : bool)
| Udelay (us : Z)
| IrqAttach (irq : Z)
| IrqDetach (irq : Z)
| EnableIrq (irq : Z)
| DisableIrq (irq : Z)
| SemInit (s : sem) (value : Z)
| SemDestroy (s : sem)
| SemWait (s : sem)
| SemPostCall (s : sem)
| Malloc (ok : bool)
| Free.

(** [struct stm32_i2c_config_s], and the port number the structure is
    registered under in [up_i2cinitialize]. *)
Record stm32_i2c_config_s : Type := {
  port      : Z;
  clk_bit   : Z;
  reset_bit : Z;
  scl_pin   : Z;
  sda_pin   : Z;
  ev_irq    : Z;
  er_irq    : Z
}.

(** The rest of the system: what the [n]-th answered call returns, and
    the two GPIO constants of [MKI2C_OUTPUT]. *)
Record outside : Type := {
  out_configgpio : nat -> Z;
  out_gpioread   : nat -> bool;
  out_malloc     : nat -> bool;
  gpio_port_pin_mask : Z;   (* GPIO_PORT_MASK | GPIO_PIN_MASK *)
  I2C_OUTPUT     : Z
}.

Record system : Type := {
  sy_world : world;
  sy_refs  : Z;           (* priv->refs *)
  sy_calls : list call;   (* newest first *)
  sy_nout  : nat          (* answered calls so far *)
}.

(** Whether the peripheral clock of the controller is on: what the
    latest write to the clock enable register did. *)
Fixpoint powered (l : list call) : bool :=
  match l with
  | [] => false
  | Modifyreg32 STM32_RCC_APB1ENR _ setbits :: _ => negb (setbits =? 0)
  | _ :: l' => powered l'
  end.

(** The calls in program order. *)
Definition calls (s : system) : list call := rev (sy_calls s).

Definition Sys (A : Type) : Type := system -> option (A * system).

Definition sret {A} (a : A) : Sys A := fun s => Some (a, s).
Definition sbind {A B} (m : Sys A) (k : A -> Sys B) : Sys B :=
  fun s => match m s with
           | Some (a, s') => k a s'
           | None => None
           end.
Definition sfail {A} : Sys A := fun _ => None.

Declare Scope sys_scope.
Delimit Scope sys_scope with sys.
Notation "x <- m ;; k" := (sbind m (fun x => k))
  (at level 100, m at next level, right associativity) : sys_scope.
Notation "m ;; k" := (sbind m (fun _ => k))
  (at level 100, right associativity) : sys_scope.

(** A call without a result. *)
Definition do_call (c : call) : Sys unit :=
  fun s => Some (tt, {| sy_world := sy_world s; sy_refs := sy_refs s;
                        sy_calls := c :: sy_calls s;
                        sy_nout := sy_nout s |}).

(** A call whose result [v] the oracle gives. *)
Definition ask {A} (answer : nat -> A) (c : A -> call) : Sys A :=
  fun s => let v := answer (sy_nout s) in
           Some (v, {| sy_world := sy_world s; sy_refs := sy_refs s;
                       sy_calls := c v :: sy_calls s;
                       sy_nout := S (sy_nout s) |}).

(** The accesses [w'] has more than [w]. *)
Definition new_accesses (w w' : world) : list access :=
  firstn (List.length (w_log w') - List.length (w_log w)) (w_log w').

(** Code of the register shim, run as part of the system. *)
Definition lift {A} (m : M A) : Sys A :=
  fun s => match m (sy_world s) with
           | Some (a, w') =>
               Some (a, {| sy_world := w'; sy_refs := sy_refs s;
                           sy_calls := List.map Reg
                                         (new_accesses (sy_world s) w')
                                       ++ sy_calls s;
                           sy_nout := sy_nout s |})
           | None => None
           end.

Definition set_refs (v : Z) : Sys unit :=
  fun s => Some (tt, {| sy_world := sy_world s; sy_refs := v;
                        sy_calls := sy_calls s; sy_nout := sy_nout s |}).

Definition get_refs : Sys Z := fun s => Some (sy_refs s, s).

Definition modifyreg32 (r : rcc_reg) (clearbits setbits : Z) : Sys unit :=
  do_call (Modifyreg32 r clearbits setbits).
Definition stm32_configgpio (o : outside) (cfgset : Z) : Sys Z :=
  ask (out_configgpio o) (Configgpio cfgset).
Definition stm32_unconfiggpio (cfgset : Z) : Sys unit :=
  do_call (Unconfiggpio cfgset).
Definition stm32_gpiowrite (pinset : Z) (value : bool) : Sys unit :=
  do_call (Gpiowrite pinset value).
Definition stm32_gpioread (o : outside) (pinset : Z) : Sys bool :=
  ask (out_gpioread o) (Gpioread pinset).
Definition up_udelay (us : Z) : Sys unit := do_call (Udelay us).
Definition kmm_malloc (o : outside) : Sys bool := ask (out_malloc o) Malloc.

(** [MKI2C_OUTPUT(p)] *)
Definition MKI2C_OUTPUT (o : outside) (p : Z) : Z :=
  Z.lor (Z.land p (gpio_port_pin_mask o)) (I2C_OUTPUT o).

Definition stm32_i2c_sem_init (e : env) : Sys unit :=
  (do_call (SemInit sem_excl 1) ;;
   if CONFIG_I2C_POLLED (cfg e) then sret tt
   else do_call (SemInit sem_isr 0))%sys.

Definition stm32_i2c_sem_destroy (e : env) : Sys unit :=
  (do_call (SemDestroy sem_excl) ;;
   if CONFIG_I2C_POLLED (cfg e) then sret tt
   else do_call (SemDestroy sem_isr))%sys.

Definition stm32_i2c_init (e : env) (b : stm32_i2c_config_s) (o : outside)
  : Sys Z :=
  (modifyreg32 STM32_RCC_APB1ENR 0 (clk_bit b) ;;
   modifyreg32 STM32_RCC_APB1RSTR 0 (reset_bit b) ;;
   modifyreg32 STM32_RCC_APB1RSTR (reset_bit b) 0 ;;
   r <- stm32_configgpio o (scl_pin b) ;;
   if r <? 0 then sret ERROR
   else
     r <- stm32_configgpio o (sda_pin b) ;;
     if r <? 0 then
       stm32_unconfiggpio (scl_pin b) ;;
       sret ERROR
     else
       (if CONFIG_I2C_POLLED (cfg e) then sret tt
        else
          do_call (IrqAttach (ev_irq b)) ;;
          do_call (IrqAttach (er_irq b)) ;;
          do_call (EnableIrq (ev_irq b)) ;;
          do_call (EnableIrq (er_irq b))) ;;
       lift (stm32_i2c_putreg STM32_I2C_CR2
               (STM32_PCLK1_FREQUENCY (cfg e) / 1000000)) ;;
       lift (stm32_i2c_setclock e 100000) ;;
       lift (stm32_i2c_putreg STM32_I2C_CR1 I2C_CR1_PE) ;;
       sret OK)%sys.

Definition stm32_i2c_deinit (e : env) (b : stm32_i2c_config_s) : Sys Z :=
  (lift (stm32_i2c_putreg STM32_I2C_CR1 0) ;;
   stm32_unconfiggpio (scl_pin b) ;;
   stm32_unconfiggpio (sda_pin b) ;;
   (if CONFIG_I2C_POLLED (cfg e) then sret tt
    else
      do_call (DisableIrq (ev_irq b)) ;;
      do_call (DisableIrq (er_irq b)) ;;
      do_call (IrqDetach (ev_irq b)) ;;
      do_call (IrqDetach (er_irq b))) ;;
   modifyreg32 STM32_RCC_APB1ENR (clk_bit b) 0 ;;
   sret OK)%sys.

(** [up_i2cinitialize] of a build with the one controller [b]; [None] is
    the NULL pointer. *)
Definition up_i2cinitialize (e : env) (b : stm32_i2c_config_s) (o : outside)
  (prt : Z) : Sys (option Inst.t) :=
  (if STM32_PCLK1_FREQUENCY (cfg e) <? 2000000 then sret None
   else if negb (prt =? port b) then sret None
   else
     ok <- kmm_malloc o ;;
     if negb ok then sret None
     else
       refs <- get_refs ;;
       set_refs (refs + 1) ;;
       (if refs =? 0 then
          stm32_i2c_sem_init e ;;
          _ <- stm32_i2c_init e b o ;;
          sret tt
        else sret tt) ;;
       sret (Some inst_initial))%sys.

Definition up_i2cuninitialize (e : env) (b : stm32_i2c_config_s) : Sys Z :=
  (refs <- get_refs ;;
   if refs =? 0 then sret ERROR
   else
     set_refs (refs - 1) ;;
     if negb (refs - 1 =? 0) then
       do_call Free ;;
       sret OK
     else
       _ <- stm32_i2c_deinit e b ;;
       stm32_i2c_sem_destroy e ;;
       do_call Free ;;
       sret OK)%sys.

(** The inner loop of [up_i2creset]: waits for SCL to be released.  The
    result tells whether the code gave up ([goto out]). *)
Fixpoint reset_stretch_loop (o : outside) (scl_gpio : Z) (fuel : nat)
  (stretch_count : Z) : Sys bool :=
  match fuel with
  | O => sfail
  | S fuel' =>
      (v <- stm32_gpioread o scl_gpio ;;
       if v then sret false
       else if stretch_count >? 10 then sret true
       else
         up_udelay 10 ;;
         reset_stretch_loop o scl_gpio fuel' (u32 (stretch_count + 1)))%sys
  end.

(** The outer loop of [up_i2creset]: clocks the bus until SDA is
    released. *)
Fixpoint reset_clock_loop (o : outside) (scl_gpio sda_gpio : Z)
  (stretch_fuel fuel : nat) (clock_count : Z) : Sys bool :=
  match fuel with
  | O => sfail
  | S fuel' =>
      (v <- stm32_gpioread o sda_gpio ;;
       if v then sret false
       else if clock_count >? 10 then sret true
       else
         gave_up <- reset_stretch_loop o scl_gpio stretch_fuel 0 ;;
         if gave_up then sret true
         else
           stm32_gpiowrite scl_gpio false ;;
           up_udelay 10 ;;
           stm32_gpiowrite scl_gpio true ;;
           up_udelay 10 ;;
           reset_clock_loop o scl_gpio sda_gpio stretch_fuel fuel'
             (u32 (clock_count + 1)))%sys
  end.

(** [up_i2creset]; a failed assertion that the caller owns a reference
    stops the system: the model gives no result.  [fuel] bounds the iterations the
    model follows in each of the two loops. *)
Definition up_i2creset (e : env) (b : stm32_i2c_config_s) (o : outside)
  (fuel : nat) : Sys Z :=
  (refs <- get_refs ;;
   if negb (refs >? 0) then sfail
   else
     do_call (SemWait sem_excl) ;;
     _ <- stm32_i2c_deinit e b ;;
     let scl_gpio := MKI2C_OUTPUT o (scl_pin b) in
     let sda_gpio := MKI2C_OUTPUT o (sda_pin b) in
     stm32_gpiowrite sda_gpio true ;;
     gave_up <- reset_clock_loop o scl_gpio sda_gpio fuel fuel 0 ;;
     if gave_up then
       do_call (SemPostCall sem_excl) ;;
       sret ERROR
     else
       stm32_gpiowrite sda_gpio false ;;
       up_udelay 10 ;;
       stm32_gpiowrite scl_gpio false ;;
       up_udelay 10 ;;
       stm32_gpiowrite scl_gpio true ;;
       up_udelay 10 ;;
       stm32_gpiowrite sda_gpio true ;;
       up_udelay 10 ;;
       stm32_unconfiggpio sda_gpio ;;
       stm32_unconfiggpio scl_gpio ;;
       _ <- stm32_i2c_init e b o ;;
       do_call (SemPostCall sem_excl) ;;
       sret OK)%sys.

(** The reference count guards the power of the controller. *)
Definition refs_guard (s : system) : Prop :=
  0 <= sy_refs s /\ powered (sy_calls s) = (0 <? sy_refs s).

(** The two calls that create and destroy instances. *)
Inductive lifecycle_op : Type :=
| OpInitialize (prt : Z)
| OpUninitialize.

(** A sequence of such calls, in order; the results are dropped. *)
Fixpoint run_lifecycle (e : env) (b : stm32_i2c_config_s) (o : outside)
  (ops : list lifecycle_op) : Sys unit :=
  match ops with
  | [] => sret tt
  | OpInitialize prt :: ops' =>
      (_ <- up_i2cinitialize e b o prt ;; run_lifecycle e b o ops')%sys
  | OpUninitialize :: ops' =>
      (_ <- up_i2cuninitialize e b ;; run_lifecycle e b o ops')%sys
  end.

(** A system before the first instance is created. *)
Definition system_of (w : world) : system :=
  {| sy_world := w; sy_refs := 0; sy_calls := []; sy_nout := 0 |}.

(** A board for the examples: controller 1, every outside call
    succeeding, SDA and SCL released. *)
Definition board_i2c1 : stm32_i2c_config_s :=
  {| port := 1; clk_bit := 2097152; reset_bit := 2097152;
     scl_pin := 22; sda_pin := 23; ev_irq := 31; er_irq := 32 |}.

Definition outside_ok : outside :=
  {| out_configgpio := fun _ => 0; out_gpioread := fun _ => true;
     out_malloc := fun _ => true; gpio_port_pin_mask := 255;
     I2C_OUTPUT := 256 |}.

(** What [stm32_i2c_init] does to the reset and clock controller. *)
Definition init_power_up (b : stm32_i2c_config_s) : list call :=
  [Modifyreg32 STM32_RCC_APB1ENR 0 (clk_bit b);
   Modifyreg32 STM32_RCC_APB1RSTR 0 (reset_bit b);
   Modifyreg32 STM32_RCC_APB1RSTR (reset_bit b) 0].

(** The interrupts it attaches and enables. *)
Definition init_irqs (e : env) (b : stm32_i2c_config_s) : list call :=
  if CONFIG_I2C_POLLED (cfg e) then []
  else [IrqAttach (ev_irq b); IrqAttach (er_irq b);
        EnableIrq (ev_irq b); EnableIrq (er_irq b)].

(** The registers it programs, [cr1] being what CR1 reads. *)
Definition init_registers (e : env) (cr1 : Z) : list call :=
  let pclk := STM32_PCLK1_FREQUENCY (cfg e) in
  List.map Reg
    [PutReg STM32_I2C_CR2 (u16 (pclk / 1000000));
     GetReg STM32_I2C_CR1 cr1;
     PutReg STM32_I2C_CR1 (u16 (Z.land cr1 (Z.lnot I2C_CR1_PE)));
     PutReg STM32_I2C_CCR (Z.max 4 (u16 (pclk / 200000)));
     PutReg STM32_I2C_TRISE (pclk / 1000000 + 1);
     PutReg STM32_I2C_OAR1 I2C_OAR1_ONE;
     PutReg STM32_I2C_CR1 cr1;
     PutReg STM32_I2C_CR1 (u16 I2C_CR1_PE)].

(** The interrupts [stm32_i2c_deinit] disables and detaches. *)
Definition deinit_irqs (e : env) (b : stm32_i2c_config_s) : list call :=
  if CONFIG_I2C_POLLED (cfg e) then []
  else [DisableIrq (ev_irq b); DisableIrq (er_irq b);
        IrqDetach (ev_irq b); IrqDetach (er_irq b)].

(** All that [stm32_i2c_deinit] does. *)
Definition deinit_calls (e : env) (b : stm32_i2c_config_s) : list call :=
  [Reg (PutReg STM32_I2C_CR1 0); Unconfiggpio (scl_pin b);
   Unconfiggpio (sda_pin b)] ++ deinit_irqs e b ++
  [Modifyreg32 STM32_RCC_APB1ENR (clk_bit b) 0].

(** A call of the bus-recovery loops of [up_i2creset]: a pin read, a
    write to the SCL pin, or the delay. *)
Definition reset_bus_call (scl_gpio : Z) (c : call) : bool :=
  match c with
  | Gpioread _ _ => true
  | Gpiowrite p _ => p =? scl_gpio
  | Udelay us => us =? 10
  | _ => false
  end.

(** A clock pulse: SCL driven low. *)
Definition is_scl_pulse (scl_gpio : Z) (c : call) : bool :=
  match c with
  | Gpiowrite p false => p =? scl_gpio
  | _ => false
  end.

(** The START followed by STOP that ends a successful recovery. *)
Definition reset_start_stop (scl_gpio sda_gpio : Z) : list call :=
  [Gpiowrite sda_gpio false; Udelay 10; Gpiowrite scl_gpio false; Udelay 10;
   Gpiowrite scl_gpio true; Udelay 10; Gpiowrite sda_gpio true; Udelay 10].

(** Spec-side: among the [limit] readings from the [n]-th on, how many
    low ones come before the first high one; nothing when all are low. *)
Fixpoint first_high (reads : nat -> bool) (n limit : nat) : option nat :=
  match limit with
  | O => None
  | S limit' =>
      if reads n then Some O
      else option_map S (first_high reads (S n) limit')
  end.

(** Spec-side: one wait for the clock, [j] low readings of SCL, each
    followed by the delay, and then the reading [last]. *)
Definition stretch_calls (scl_gpio : Z) (j : nat) (last : bool) : list call :=
  concat (repeat [Gpioread scl_gpio false; Udelay 10] j) ++
  [Gpioread scl_gpio last].

(** Spec-side: one clock pulse. *)
Definition pulse_calls (scl_gpio : Z) : list call :=
  [Gpiowrite scl_gpio false; Udelay 10; Gpiowrite scl_gpio true; Udelay 10].

(** Spec-side: the bus recovery as the pin readings decide it, with
    [budget] pulses left and the next reading the [n]-th.  SDA read high
    ends it with the bus free.  SDA read low with no pulse left, or SCL
    read low twelve times in one wait, ends it with the bus stuck.
    Otherwise SCL is pulsed once and the recovery goes on.  The result is
    whether the bus is free, the calls made, and the number of the next
    reading. *)
Fixpoint recovery (reads : nat -> bool) (scl_gpio sda_gpio : Z)
  (budget n : nat) : bool * list call * nat :=
  if reads n then (true, [Gpioread sda_gpio true], S n)
  else
    match budget with
    | O => (false, [Gpioread sda_gpio false], S n)
    | S budget' =>
        match first_high reads (S n) 12 with
        | None =>
            (false,
             Gpioread sda_gpio false :: stretch_calls scl_gpio 11 false,
             (S n + 12)%nat)
        | Some j =>
            let rest := recovery reads scl_gpio sda_gpio budget'
                          (S n + S j)%nat in
            (fst (fst rest),
             Gpioread sda_gpio false :: stretch_calls scl_gpio j true ++
               pulse_calls scl_gpio ++ snd (fst rest),
             snd rest)
        end
    end.

(** The calls of [stm32_i2c_init] when its pin configurations are the
    [n]-th and the next answered call and CR1 reads [cr1]. *)
Definition bring_up_calls (e : env) (b : stm32_i2c_config_s) (o : outside)
  (n : nat) (cr1 : Z) : list call :=
  let a0 := out_configgpio o n in
  let a1 := out_configgpio o (S n) in
  init_power_up b ++
  (if a0 <? 0 then [Configgpio (scl_pin b) a0]
   else if a1 <? 0 then
     [Configgpio (scl_pin b) a0; Configgpio (sda_pin b) a1;
      Unconfiggpio (scl_pin b)]
   else
     [Configgpio (scl_pin b) a0; Configgpio (sda_pin b) a1] ++
     init_irqs e b ++ init_registers e cr1).

(** What [up_i2creset] does after the recovery: with the bus free, START
    and STOP by hand, the pins released and the bring-up; in both cases
    the exclusion semaphore given back. *)
Definition reset_tail (e : env) (b : stm32_i2c_config_s) (o : outside)
  (free : bool) (n : nat) (cr1 : Z) : list call :=
  let scl := MKI2C_OUTPUT o (scl_pin b) in
  let sda := MKI2C_OUTPUT o (sda_pin b) in
  (if free then
     reset_start_stop scl sda ++ [Unconfiggpio sda; Unconfiggpio scl] ++
     bring_up_calls e b o n cr1
   else []) ++ [SemPostCall sem_excl].

(** A read of 256 bytes from address 0x50 into the buffer at 1000. *)
Definition msg_read_256 : i2c_msg_s :=
  {| addr := 80; mflags := I2C_M_READ; buffer := 1000; length := 256 |}.

(** A read of three bytes that carries the no-restart flag as well. *)
Definition msg_read_norestart : i2c_msg_s :=
  {| addr := 16; mflags := Z.lor I2C_M_READ I2C_M_NORESTART;
     buffer := 3000; length := 3 |}.

(** A session at the end of a written message, one message left. *)
Definition priv_write_done : stm32_i2c_priv_s :=
  set_check_addr_ACK false priv_write_done_pending.

(** * Properties *)

(** ** The tracer only touches the trace

    Under the trace invariant a trace operation is defined and changes
    nothing but the index, the table and the count of timer readings. *)

Lemma retrace_self (w : world) :
  retrace w (tndx (w_priv w)) (trace (w_priv w)) (w_nclock w) = w.
Proof. destruct w as [[] ? ? ? ?]; reflexivity. Qed.

Lemma trace_only_ret (e : env) : trace_only e (ret tt).
Proof.
  intros w Hw. exists (tndx (w_priv w)), (trace (w_priv w)), (w_nclock w).
  rewrite retrace_self. split; [reflexivity | exact Hw].
Qed.

Lemma trace_only_seq (e : env) (m k : M unit) :
  trace_only e m -> trace_only e k -> trace_only e (m ;; k).
Proof.
  intros Hm Hk w Hw. unfold bind.
  destruct (Hm w Hw) as (i & t & n & -> & Hit).
  destruct (Hk (retrace w i t n) Hit) as (i' & t' & n' & -> & Hit').
  exists i', t', n'. split; [reflexivity | exact Hit'].
Qed.

Lemma trace_cur_defined (e : env) (w : world) :
  trace_wf e w -> exists t, trace_cur w = Some (t, w).
Proof.
  intros [Hi Hl]. unfold trace_cur.
  destruct (Z.ltb_spec (tndx (w_priv w)) 0) as [|_]; [lia|].
  destruct (lookup_lt_is_Some_2 (trace (w_priv w)) (Z.to_nat (tndx (w_priv w))))
    as [t Ht]; [lia|].
  exists t. rewrite Ht. reflexivity.
Qed.

Lemma trace_only_upd (e : env) (f : stm32_trace_s -> stm32_trace_s) :
  trace_only e (trace_upd f).
Proof.
  intros w Hw. unfold trace_upd, bind.
  destruct (trace_cur_defined e w Hw) as [t ->].
  exists (tndx (w_priv w)),
         (<[Z.to_nat (tndx (w_priv w)) := f t]> (trace (w_priv w))),
         (w_nclock w).
  split.
  - destruct w as [[] ? ? ? ?]; reflexivity.
  - destruct Hw as [Hi Hl]. split; [exact Hi|].
    rewrite length_insert. exact Hl.
Qed.

Lemma trace_only_traceclear (e : env) : trace_only e stm32_i2c_traceclear.
Proof. apply trace_only_upd. Qed.

Lemma trace_only_bump (e : env) (k : M unit) :
  trace_only e k ->
  trace_only e (n <- gets tndx ;;
                if n >=? CONFIG_I2C_NTRACE (cfg e) - 1 then ret tt
                else modify (set_tndx (n + 1)) ;; k).
Proof.
  intros Hk w Hw. unfold bind, gets.
  destruct (Z.geb_spec (tndx (w_priv w)) (CONFIG_I2C_NTRACE (cfg e) - 1)) as [Hge|Hlt].
  - apply trace_only_ret; exact Hw.
  - unfold modify.
    set (w1 := {| w_priv := set_tndx (tndx (w_priv w) + 1) (w_priv w);
                  w_mem := w_mem w; w_nreads := w_nreads w;
                  w_nclock := w_nclock w; w_log := w_log w |}).
    assert (Hw1 : trace_wf e w1).
    { destruct Hw as [Hi Hl]. split; simpl; [lia | exact Hl]. }
    destruct (Hk w1 Hw1) as (i & t & n & -> & Hit).
    exists i, t, n. split; [reflexivity | exact Hit].
Qed.

Lemma trace_only_clock (e : env) (k : Z -> M unit) :
  (forall now, trace_only e (k now)) ->
  trace_only e (now <- clock_systimer e ;; k now).
Proof.
  intros Hk w Hw. unfold bind, clock_systimer.
  set (w1 := {| w_priv := w_priv w; w_mem := w_mem w; w_nreads := w_nreads w;
                w_nclock := S (w_nclock w); w_log := w_log w |}).
  destruct (Hk (u32 (hw_clock (hw e) (w_nclock w))) w1 Hw)
    as (i & t & n & -> & Hit).
  exists i, t, n. split; [reflexivity | exact Hit].
Qed.

Lemma trace_only_traceevent (e : env) (event parm : Z) :
  trace_only e (stm32_i2c_traceevent e event parm).
Proof.
  unfold stm32_i2c_traceevent.
  destruct (traceevent_guard (u16 event)); [|apply trace_only_ret].
  apply trace_only_seq; [apply trace_only_upd|].
  apply trace_only_seq; [apply trace_only_upd|].
  apply trace_only_bump, trace_only_traceclear.
Qed.

Lemma trace_only_tracenew (e : env) (status16 : Z) :
  trace_only e (stm32_i2c_tracenew e status16).
Proof.
  intros w Hw. unfold stm32_i2c_tracenew.
  unfold bind at 1.
  destruct (trace_cur_defined e w Hw) as [t ->].
  assert (Hinit : trace_only e
    (stm32_i2c_traceclear ;;
     trace_upd (fun t => {| tr_status := u16 status16; tr_count := tr_count t;
                            tr_event := tr_event t; tr_parm := tr_parm t;
                            tr_time := tr_time t |}) ;;
     trace_upd (fun t => {| tr_status := tr_status t; tr_count := 1;
                            tr_event := tr_event t; tr_parm := tr_parm t;
                            tr_time := tr_time t |}) ;;
     now <- clock_systimer e ;;
     trace_upd (fun t => {| tr_status := tr_status t; tr_count := tr_count t;
                            tr_event := tr_event t; tr_parm := tr_parm t;
                            tr_time := now |}))).
  { apply trace_only_seq; [apply trace_only_traceclear|].
    apply trace_only_seq; [apply trace_only_upd|].
    apply trace_only_seq; [apply trace_only_upd|].
    apply trace_only_clock. intros now. apply trace_only_upd. }
  destruct ((tr_count t =? 0) || negb (u16 status16 =? tr_status t)).
  - destruct (negb (tr_count t =? 0)).
    + apply trace_only_bump; [exact Hinit | exact Hw].
    + apply Hinit; exact Hw.
  - apply trace_only_upd; exact Hw.
Qed.

(** ** Reading the access log *)

Lemma accesses_cons (w w' : world) (l : list access) :
  w_log w' = rev l ++ w_log w -> accesses w' = accesses w ++ l.
Proof.
  unfold accesses. intros ->. rewrite rev_app_distr, rev_involutive.
  reflexivity.
Qed.

(** Reads off the accesses between two states from the two logs. *)
Ltac log_prefix t base :=
  lazymatch t with
  | base => constr:(@nil access)
  | ?a :: ?r => let r' := log_prefix r base in constr:(a :: r')
  end.

Ltac accesses_now :=
  lazymatch goal with
  | |- accesses ?w' = accesses ?w ++ ?tl =>
      let l := eval simpl in (w_log w') in
      let b := eval simpl in (w_log w) in
      let p := log_prefix l b in
      let r := eval simpl in (rev p) in
      unify tl r; apply accesses_cons; reflexivity
  end.

(** The same when a tail of further accesses follows. *)
Ltac accesses_tail :=
  lazymatch goal with
  | |- accesses ?w1 ++ ?rest = accesses ?w ++ _ =>
      let l := eval simpl in (w_log w1) in
      let b := eval simpl in (w_log w) in
      let p := log_prefix l b in
      let r := eval simpl in (rev p) in
      transitivity ((accesses w ++ r) ++ rest);
      [ f_equal; apply accesses_cons; reflexivity
      | rewrite <- app_assoc; reflexivity ]
  end.

Ltac trace_wf_now :=
  unfold trace_wf, retrace in *; simpl in *; assumption.

Ltac trace_step :=
  match goal with
  | |- context [stm32_i2c_tracenew ?e ?s ?w] =>
      let H := fresh "Hrun" in
      let Hok := fresh "Hok" in
      destruct (trace_only_tracenew e s w) as (? & ? & ? & H & Hok);
      [ trace_wf_now | rewrite H; clear H; unfold retrace; simpl ]
  | |- context [stm32_i2c_traceevent ?e ?ev ?a ?w] =>
      let H := fresh "Hrun" in
      let Hok := fresh "Hok" in
      destruct (trace_only_traceevent e ev a w) as (? & ? & ? & H & Hok);
      [ trace_wf_now | rewrite H; clear H; unfold retrace; simpl ]
  end.

(** The termination step: what it does when it fires and that it does
    nothing when it does not. *)
Lemma isr_shutdown_run (e : env) (w : world) :
  trace_wf e w ->
  exists w' tl,
    isr_shutdown e w = Some (tt, w') /\
    accesses w' = accesses w ++ tl /\
    forallb shutdown_access tl = true /\
    same_session w w' /\
    trace_wf e w' /\
    (transfer_finished (w_priv w) = false -> w' = w /\ tl = []) /\
    (transfer_finished (w_priv w) = true ->
       msgv (w_priv w') = None /\
       (CONFIG_I2C_POLLED (cfg e) = true ->
          intstate (w_priv w') = INTSTATE_DONE /\ tl = []) /\
       (CONFIG_I2C_POLLED (cfg e) = false ->
          (intstate (w_priv w) = INTSTATE_WAITING ->
             intstate (w_priv w') = INTSTATE_DONE) /\
          (intstate (w_priv w) <> INTSTATE_WAITING ->
             intstate (w_priv w') = intstate (w_priv w)) /\
          exists tl',
            tl = GetReg STM32_I2C_CR2 (reg_read e w 0 STM32_I2C_CR2)
                 :: PutReg STM32_I2C_CR2
                      (u16 (Z.land (reg_read e w 0 STM32_I2C_CR2)
                                   (Z.lnot I2C_CR2_ALLINTS)))
                 :: tl')).
Proof.
  intros Hw. unfold isr_shutdown. unfold bind at 1. unfold gets at 1.
  unfold id.
  destruct (transfer_finished (w_priv w)) eqn:Hfin.
  - unfold bind at 1. trace_step.
    unfold bind, modify; simpl.
    destruct (CONFIG_I2C_POLLED (cfg e)) eqn:Hpoll; simpl.
    + eexists; exists []. split; [reflexivity|].
      split; [accesses_now|].
      split; [reflexivity|].
      split; [repeat split|].
      split; [trace_wf_now|].
      split; [discriminate|]. intros _.
      split; [reflexivity|].
      split; [intros _; split; reflexivity | discriminate].
    + unfold gets, stm32_i2c_putreg, emit; simpl.
      destruct (intstate (w_priv w)) eqn:Hst; simpl.
      all: eexists; eexists; (split; [reflexivity|]).
      all: (split; [accesses_now|]).
      all: (split; [reflexivity|]).
      all: (split; [repeat split|]).
      all: (split; [trace_wf_now|]).
      all: (split; [discriminate|]); intros _.
      all: (split; [reflexivity|]).
      all: (split; [discriminate|]); intros _.
      all: (split; [intros; simpl; first [reflexivity | congruence]|]).
      all: (split; [intros; simpl; first [reflexivity | congruence]|]).
      all: eexists; reflexivity.
  - exists w, []. split; [reflexivity|].
    split; [symmetry; apply app_nil_r|].
    split; [reflexivity|].
    split; [repeat split|].
    split; [exact Hw|].
    split; [intros _; split; reflexivity | discriminate].
Qed.

(** Decides the integer comparisons of a goal from the hypotheses. *)
Ltac zbool :=
  repeat match goal with
  | |- context [Z.eqb ?a ?b] =>
      first [ replace (Z.eqb a b) with true by (symmetry; apply Z.eqb_eq; lia)
            | replace (Z.eqb a b) with false by (symmetry; apply Z.eqb_neq; lia) ]
  | |- context [Z.geb ?a ?b] =>
      rewrite (Z.geb_leb a b)
  | |- context [Z.gtb ?a ?b] =>
      rewrite (Z.gtb_ltb a b)
  | |- context [Z.leb ?a ?b] =>
      first [ replace (Z.leb a b) with true by (symmetry; apply Z.leb_le; lia)
            | replace (Z.leb a b) with false by (symmetry; apply Z.leb_gt; lia) ]
  | |- context [Z.ltb ?a ?b] =>
      first [ replace (Z.ltb a b) with true by (symmetry; apply Z.ltb_lt; lia)
            | replace (Z.ltb a b) with false by (symmetry; apply Z.ltb_ge; lia) ]
  end.

(** The phase depends on four fields of the session only. *)
Lemma isr_phase_ext (e : env) (st : Z) (p q : stm32_i2c_priv_s) :
  flags p = flags q -> check_addr_ACK p = check_addr_ACK q ->
  dcnt p = dcnt q -> msgc p = msgc q ->
  isr_phase e st p = isr_phase e st q.
Proof.
  intros Hf Hc Hd Hm. unfold isr_phase. rewrite Hf, Hc, Hd, Hm. reflexivity.
Qed.

Lemma isr_entry_same_message (e : env) (w : world) :
  trace_wf e w ->
  msg_advance_due (w_priv w) = false ->
  exists i t n,
    trace_ok e i t /\
    stm32_i2c_isr e w =
      (isr_protocol e (reg_read e w 0 STM32_I2C_SR1) ;;
       isr_shutdown e ;; ret OK) (entered e w i t n).
Proof.
  intros Hw Hadv. unfold stm32_i2c_isr.
  unfold bind at 1. unfold stm32_i2c_getreg at 1.
  unfold bind at 1. unfold modify at 1. simpl.
  unfold bind at 1. trace_step.
  unfold bind at 1. trace_step.
  unfold bind at 1. unfold isr_msg_handling.
  unfold bind at 1. unfold gets at 1, id. simpl.
  unfold msg_advance_due in *. simpl. rewrite Hadv.
  unfold ret at 1.
  eexists _, _, _. split; [eassumption|]. reflexivity.
Qed.

Ltac run_code :=
  unfold bind, read_dr_to_buffer, dcnt_decr, stm32_i2c_getreg,
    stm32_i2c_putreg, stm32_i2c_modifyreg, stm32_i2c_sendstop,
    stm32_i2c_sendstart, emit, gets, load, store, modify, entered, ret, id;
  simpl.

(** The same with [cbn], which is faster on long straight-line code. *)
Ltac run_code_cbn :=
  unfold bind, read_dr_to_buffer, dcnt_decr, stm32_i2c_getreg,
    stm32_i2c_putreg, stm32_i2c_modifyreg, stm32_i2c_sendstop,
    stm32_i2c_sendstart, emit, gets, load, store, modify, entered, ret, id;
  cbn.

Ltac shutdown_step w' tl Hacc Htl Hsame Hwf Hnot Hfin :=
  match goal with
  | |- context [isr_shutdown ?e ?w] =>
      let Hsd := fresh "Hsd" in
      destruct (isr_shutdown_run e w)
        as (w' & tl & Hsd & Hacc & Htl & Hsame & Hwf & Hnot & Hfin);
      [ trace_wf_now | rewrite Hsd; clear Hsd ]
  end.

Lemma count_if_app (f : access -> bool) (l1 l2 : list access) :
  count_if f (l1 ++ l2) = (count_if f l1 + count_if f l2)%nat.
Proof. unfold count_if. rewrite List.filter_app, length_app. reflexivity. Qed.

(** The termination step reads no data, and requests neither START nor
    STOP. *)
Lemma shutdown_access_quiet (tl : list access) :
  forallb shutdown_access tl = true ->
  count_if is_dr_read tl = 0%nat /\
  count_if is_stop tl = 0%nat /\
  count_if is_start tl = 0%nat.
Proof.
  induction tl as [|a tl IH]; intros H.
  - repeat split.
  - simpl in H. apply andb_prop in H as [Ha Htl].
    destruct (IH Htl) as (H1 & H2 & H3). unfold count_if in *.
    destruct a as [[] v|[] v|r c s| |sec nsec]; simpl in *;
      try discriminate; repeat split; assumption.
Qed.

(** What it means that the read-mode branch is the one taken. *)
Lemma isr_phase_read (e : env) (st : Z) (p : stm32_i2c_priv_s) :
  isr_phase e st p = PhaseRead <->
  bit_set st I2C_SR1_SB = false /\
  bit_set (flags p) I2C_M_READ = true /\
  bit_set st I2C_SR1_RXNE = true /\
  (check_addr_ACK p = true ->
     CONFIG_I2C_POLLED (cfg e) = true /\ bit_set st I2C_SR1_ADDR = false).
Proof.
  unfold isr_phase.
  destruct (bit_set st I2C_SR1_SB), (CONFIG_I2C_POLLED (cfg e)),
    (bit_set st I2C_SR1_ADDR), (check_addr_ACK p),
    (bit_set (flags p) I2C_M_READ), (bit_set st I2C_SR1_RXNE),
    (bit_set st (Z.lor I2C_SR1_ADDR I2C_SR1_TXE));
    simpl; try destruct ((dcnt p =? -1) && (msgc p =? 0));
    intuition (try discriminate; try congruence).
Qed.

Section ReadDrain.

Variable e : env.
Variable w : world.
Let st := reg_read e w 0 STM32_I2C_SR1.
Let p := w_priv w.

Hypothesis Hw : trace_wf e w.
Hypothesis Hph : isr_phase e st p = PhaseRead.

Lemma read_mode_entered (i : Z) (t : list stm32_trace_s) (n : nat) :
  isr_protocol e st (entered e w i t n) =
  isr_read_mode e st (entered e w i t n).
Proof.
  unfold isr_protocol. unfold bind at 1. unfold gets at 1, id.
  rewrite (isr_phase_ext e _ _ (w_priv w)) by reflexivity.
  fold p. rewrite Hph. reflexivity.
Qed.

(** Total length at least 3, shift register still empty: wait. *)
Lemma read_ge3_wait :
  msg_advance_due p = false ->
  3 <= total_msg_len p ->
  bit_set st I2C_SR1_BTF = false ->
  exists w' tl,
    stm32_i2c_isr e w = Some (OK, w') /\
    accesses w' = accesses w ++
      [GetReg STM32_I2C_SR1 st;
       GetReg STM32_I2C_SR2 (reg_read e w 1 STM32_I2C_SR2)] ++ tl /\
    forallb shutdown_access tl = true /\
    dcnt (w_priv w') = dcnt p /\
    w_mem w' = w_mem w.
Proof.
  intros Hadv Hlen Hbtf. unfold p in *.
  destruct (isr_entry_same_message e w Hw Hadv) as (i & t & n & Hok & ->).
  unfold bind at 1. rewrite read_mode_entered.
  unfold isr_read_mode. unfold bind at 1. unfold gets at 1, id.
  simpl. fold st. rewrite Hbtf. zbool. simpl.
  rewrite !andb_false_r. simpl.
  run_code. repeat trace_step.
  shutdown_step w' tl0 Hacc Htl Hsame Hwf' Hnot Hfin.
  destruct Hsame as (Hd & _ & _ & _ & _ & _ & _ & Hmem).
  exists w', tl0. split; [reflexivity|].
  split.
  { rewrite Hacc. accesses_tail. }
  split; [exact Htl|]. split; [exact Hd | exact Hmem].
Qed.

(** Total length at least 3, BTF set, at least 4 bytes to go: one read. *)
Lemma read_ge3_ge4 :
  3 <= total_msg_len p ->
  bit_set st I2C_SR1_BTF = true ->
  4 <= dcnt p ->
  exists w',
    stm32_i2c_isr e w = Some (OK, w') /\
    accesses w' = accesses w ++
      [GetReg STM32_I2C_SR1 st;
       GetReg STM32_I2C_DR (reg_read e w 1 STM32_I2C_DR);
       GetReg STM32_I2C_SR2 (reg_read e w 2 STM32_I2C_SR2)] /\
    dcnt (w_priv w') = dcnt p - 1 /\
    w_mem w' (ptr p) = u8 (reg_read e w 1 STM32_I2C_DR) /\
    ptr (w_priv w') = ptr p + 1.
Proof.
  intros Hlen Hbtf Hd. unfold p in *.
  destruct (isr_entry_same_message e w Hw) as (i & t & n & Hok & ->).
  { unfold msg_advance_due. zbool. reflexivity. }
  unfold bind at 1. rewrite read_mode_entered.
  unfold isr_read_mode. unfold bind at 1. unfold gets at 1, id.
  simpl. fold st. rewrite Hbtf. zbool. simpl.
  run_code. repeat trace_step.
  shutdown_step w' tl0 Hacc Htl Hsame Hwf' Hnot Hfin.
  destruct Hnot as [-> ->].
  { unfold transfer_finished. simpl. zbool. reflexivity. }
  eexists. split; [reflexivity|]. split; [accesses_now|].
  simpl. rewrite Z.eqb_refl. repeat split.
Qed.

(** Total length at least 3, BTF set, 3 bytes to go: NACK, then one read. *)
Lemma read_ge3_eq3 :
  3 <= total_msg_len p ->
  bit_set st I2C_SR1_BTF = true ->
  dcnt p = 3 ->
  exists w',
    stm32_i2c_isr e w = Some (OK, w') /\
    accesses w' = accesses w ++
      [GetReg STM32_I2C_SR1 st;
       ModifyReg STM32_I2C_CR1 I2C_CR1_ACK 0;
       GetReg STM32_I2C_DR (reg_read e w 1 STM32_I2C_DR);
       GetReg STM32_I2C_SR2 (reg_read e w 2 STM32_I2C_SR2)] /\
    dcnt (w_priv w') = 2 /\
    w_mem w' (ptr p) = u8 (reg_read e w 1 STM32_I2C_DR) /\
    ptr (w_priv w') = ptr p + 1.
Proof.
  intros Hlen Hbtf Hd. unfold p in *.
  destruct (isr_entry_same_message e w Hw) as (i & t & n & Hok & ->).
  { unfold msg_advance_due. zbool. reflexivity. }
  unfold bind at 1. rewrite read_mode_entered.
  unfold isr_read_mode. unfold bind at 1. unfold gets at 1, id.
  simpl. fold st. rewrite Hbtf. zbool. simpl.
  run_code. repeat trace_step.
  shutdown_step w' tl0 Hacc Htl Hsame Hwf' Hnot Hfin.
  destruct Hnot as [-> ->].
  { unfold transfer_finished. simpl. zbool. reflexivity. }
  eexists. split; [reflexivity|]. split; [accesses_now|].
  simpl. rewrite Z.eqb_refl, Hd. repeat split.
Qed.

(** BTF set, 2 bytes to go, total length 2 or more: STOP, two reads, and the
    counter goes to -1. *)
Lemma read_last_two :
  2 <= total_msg_len p ->
  bit_set st I2C_SR1_BTF = true ->
  dcnt p = 2 ->
  exists w' tl,
    stm32_i2c_isr e w = Some (OK, w') /\
    accesses w' = accesses w ++
      [GetReg STM32_I2C_SR1 st;
       ModifyReg STM32_I2C_CR1 I2C_CR1_ACK I2C_CR1_STOP;
       GetReg STM32_I2C_DR (reg_read e w 1 STM32_I2C_DR);
       GetReg STM32_I2C_DR (reg_read e w 2 STM32_I2C_DR);
       GetReg STM32_I2C_SR2 (reg_read e w 3 STM32_I2C_SR2)] ++ tl /\
    forallb shutdown_access tl = true /\
    dcnt (w_priv w') = -1 /\
    w_mem w' (ptr p) = u8 (reg_read e w 1 STM32_I2C_DR) /\
    w_mem w' (ptr p + 1) = u8 (reg_read e w 2 STM32_I2C_DR) /\
    ptr (w_priv w') = ptr p + 2.
Proof.
  intros Hlen Hbtf Hd. unfold p in *.
  destruct (isr_entry_same_message e w Hw) as (i & t & n & Hok & ->).
  { unfold msg_advance_due. zbool. reflexivity. }
  unfold bind at 1. rewrite read_mode_entered.
  unfold isr_read_mode. unfold bind at 1. unfold gets at 1, id.
  simpl. fold st. rewrite Hbtf. zbool. simpl.
  destruct (Z.eq_dec (total_msg_len (w_priv w)) 2) as [H2|H2].
  - rewrite H2. simpl.
    run_code_cbn. repeat trace_step.
    shutdown_step w' tl0 Hacc Htl Hsame Hwf' Hnot Hfin.
    destruct Hsame as (Hdc & _ & Hptr & _ & _ & _ & _ & Hmem).
    exists w', tl0. split; [reflexivity|].
    split.
    { rewrite Hacc. accesses_tail. }
    split; [exact Htl|]. rewrite Hdc, Hmem, Hptr. simpl.
    replace (ptr (w_priv w) =? ptr (w_priv w) + 1) with false
      by (symmetry; apply Z.eqb_neq; lia).
    rewrite !Z.eqb_refl.
    repeat split; lia.
  - zbool. simpl.
    run_code_cbn. repeat trace_step.
    shutdown_step w' tl0 Hacc Htl Hsame Hwf' Hnot Hfin.
    destruct Hsame as (Hdc & _ & Hptr & _ & _ & _ & _ & Hmem).
    exists w', tl0. split; [reflexivity|].
    split.
    { rewrite Hacc. accesses_tail. }
    split; [exact Htl|]. rewrite Hdc, Hmem, Hptr. simpl.
    replace (ptr (w_priv w) =? ptr (w_priv w) + 1) with false
      by (symmetry; apply Z.eqb_neq; lia).
    rewrite !Z.eqb_refl.
    repeat split; lia.
Qed.

End ReadDrain.

Section ReadShort.

Variable e : env.
Variable w : world.
Let st := reg_read e w 0 STM32_I2C_SR1.
Let p := w_priv w.

Hypothesis Hw : trace_wf e w.
Hypothesis Hph : isr_phase e st p = PhaseRead.

(** Total length 2, shift register still empty: no byte is taken, whatever
    the counter says. *)
Lemma read_two_wait :
  msg_advance_due p = false ->
  total_msg_len p = 2 ->
  bit_set st I2C_SR1_BTF = false ->
  exists w' tl,
    stm32_i2c_isr e w = Some (OK, w') /\
    accesses w' = accesses w ++
      [GetReg STM32_I2C_SR1 st;
       GetReg STM32_I2C_SR2 (reg_read e w 1 STM32_I2C_SR2)] ++ tl /\
    forallb shutdown_access tl = true /\
    w_mem w' = w_mem w /\
    (dcnt p = 2 -> dcnt (w_priv w') = 2 /\ tl = []).
Proof.
  intros Hadv Hlen Hbtf. unfold p in *.
  destruct (isr_entry_same_message e w Hw Hadv) as (i & t & n & Hok & ->).
  unfold bind at 1. rewrite (read_mode_entered e w Hph).
  unfold isr_read_mode. unfold bind at 1. unfold gets at 1, id.
  simpl. fold st. rewrite Hbtf, Hlen. simpl.
  rewrite !andb_false_r. simpl.
  destruct (Z.eq_dec (dcnt (w_priv w)) 2) as [H2|H2].
  - rewrite H2. simpl.
    run_code. repeat trace_step.
    shutdown_step w' tl0 Hacc Htl Hsame Hwf' Hnot Hfin.
    destruct Hnot as [-> ->].
    { unfold transfer_finished. simpl. rewrite H2. reflexivity. }
    eexists _, []. split; [reflexivity|].
    split; [accesses_now|]. split; [reflexivity|].
    split; [reflexivity|]. intros _. simpl. split; [exact H2 | reflexivity].
  - zbool. simpl.
    run_code. repeat trace_step.
    shutdown_step w' tl0 Hacc Htl Hsame Hwf' Hnot Hfin.
    destruct Hsame as (_ & _ & _ & _ & _ & _ & _ & Hmem).
    exists w', tl0. split; [reflexivity|].
    split; [rewrite Hacc; accesses_tail|].
    split; [exact Htl|]. split; [exact Hmem|]. intros H; contradiction.
Qed.

End ReadShort.

(** ** Draining a read of three bytes or more *)

(** X26.  An invocation that takes the read-mode branch (read flag, RXNE
    set) for a message whose total-length snapshot is at least 3:
    with BTF clear it reads SR1 and SR2 only, so no data-register read;
    with BTF set and at least 4 bytes to go it reads the data register
    exactly once and the counter drops by one; with BTF set and 3 bytes to
    go it clears ACK, then reads the data register once, and the counter
    becomes 2; with BTF set and 2 bytes to go it requests STOP, then reads
    the data register twice in a row, and the counter becomes -1. *)
Theorem read_drain_three_or_more (e : env) (w : world) :
  let st := reg_read e w 0 STM32_I2C_SR1 in
  let p := w_priv w in
  trace_wf e w ->
  isr_phase e st p = PhaseRead ->
  3 <= total_msg_len p ->
  (msg_advance_due p = false ->
   bit_set st I2C_SR1_BTF = false ->
   exists w' new,
     stm32_i2c_isr e w = Some (OK, w') /\
     accesses w' = accesses w ++ new /\
     count_if is_dr_read new = 0%nat /\
     dcnt (w_priv w') = dcnt p) /\
  (bit_set st I2C_SR1_BTF = true -> 4 <= dcnt p ->
   exists w' new,
     stm32_i2c_isr e w = Some (OK, w') /\
     accesses w' = accesses w ++ new /\
     count_if is_dr_read new = 1%nat /\
     dcnt (w_priv w') = dcnt p - 1) /\
  (bit_set st I2C_SR1_BTF = true -> dcnt p = 3 ->
   exists w' new,
     stm32_i2c_isr e w = Some (OK, w') /\
     accesses w' = accesses w ++ new /\
     new = [GetReg STM32_I2C_SR1 st;
            ModifyReg STM32_I2C_CR1 I2C_CR1_ACK 0;
            GetReg STM32_I2C_DR (reg_read e w 1 STM32_I2C_DR);
            GetReg STM32_I2C_SR2 (reg_read e w 2 STM32_I2C_SR2)] /\
     count_if is_dr_read new = 1%nat /\
     dcnt (w_priv w') = 2) /\
  (bit_set st I2C_SR1_BTF = true -> dcnt p = 2 ->
   exists w' new tl,
     stm32_i2c_isr e w = Some (OK, w') /\
     accesses w' = accesses w ++ new /\
     new = [GetReg STM32_I2C_SR1 st;
            ModifyReg STM32_I2C_CR1 I2C_CR1_ACK I2C_CR1_STOP;
            GetReg STM32_I2C_DR (reg_read e w 1 STM32_I2C_DR);
            GetReg STM32_I2C_DR (reg_read e w 2 STM32_I2C_DR);
            GetReg STM32_I2C_SR2 (reg_read e w 3 STM32_I2C_SR2)] ++ tl /\
     forallb shutdown_access tl = true /\
     count_if is_stop new = 1%nat /\
     count_if is_dr_read new = 2%nat /\
     dcnt (w_priv w') = -1).
Proof.
  intros st p Hw Hph Hlen. repeat split.
  - intros Hadv Hbtf.
    destruct (read_ge3_wait e w Hw Hph Hadv Hlen Hbtf)
      as (w' & tl & Hrun & Hacc & Htl & Hd & _).
    exists w'. eexists. split; [exact Hrun|]. split; [exact Hacc|].
    split; [|exact Hd].
    rewrite count_if_app. destruct (shutdown_access_quiet tl Htl) as (-> & _).
    reflexivity.
  - intros Hbtf Hd.
    destruct (read_ge3_ge4 e w Hw Hph Hlen Hbtf Hd)
      as (w' & Hrun & Hacc & Hdc & _).
    exists w'. eexists. split; [exact Hrun|]. split; [exact Hacc|].
    split; [reflexivity | exact Hdc].
  - intros Hbtf Hd.
    destruct (read_ge3_eq3 e w Hw Hph Hlen Hbtf Hd)
      as (w' & Hrun & Hacc & Hdc & _).
    exists w'. eexists. split; [exact Hrun|]. split; [exact Hacc|].
    split; [reflexivity|]. split; [reflexivity | exact Hdc].
  - intros Hbtf Hd.
    assert (Hlen2 : 2 <= total_msg_len (w_priv w)) by (unfold p in Hlen; lia).
    destruct (read_last_two e w Hw Hph Hlen2 Hbtf Hd)
      as (w' & tl & Hrun & Hacc & Htl & Hdc & _).
    exists w'. eexists. exists tl. split; [exact Hrun|].
    split; [exact Hacc|]. split; [reflexivity|]. split; [exact Htl|].
    rewrite !count_if_app.
    destruct (shutdown_access_quiet tl Htl) as (-> & -> & _).
    repeat split. exact Hdc.
Qed.

(** The theorem at work: interrupt-driven build, a read of 5 bytes with 3
    to go, RXNE and BTF set. *)
Lemma read_drain_three_or_more_witness :
  let e := {| cfg := cfg_irq; hw := hw_const 68 171; msgs := [] |} in
  let w := world_of (priv_reading 5 3) in
  (trace_wf e w /\
   isr_phase e (reg_read e w 0 STM32_I2C_SR1) (w_priv w) = PhaseRead /\
   3 <= total_msg_len (w_priv w)) /\
  exists w' new,
    stm32_i2c_isr e w = Some (OK, w') /\
    accesses w' = accesses w ++ new /\
    new = [GetReg STM32_I2C_SR1 68;
           ModifyReg STM32_I2C_CR1 I2C_CR1_ACK 0;
           GetReg STM32_I2C_DR 171;
           GetReg STM32_I2C_SR2 0] /\
    count_if is_dr_read new = 1%nat /\
    dcnt (w_priv w') = 2.
Proof.
  intros e w.
  assert (Hw : trace_wf e w) by (repeat split; vm_compute; congruence).
  assert (Hph : isr_phase e (reg_read e w 0 STM32_I2C_SR1) (w_priv w)
                = PhaseRead) by reflexivity.
  assert (Hlen : 3 <= total_msg_len (w_priv w)) by (vm_compute; congruence).
  split; [split; [exact Hw | split; [exact Hph | exact Hlen]]|].
  destruct (read_drain_three_or_more e w Hw Hph Hlen) as (_ & _ & H3 & _).
  apply H3; reflexivity.
Defined.

(** ** C1 on a read of 256 bytes or more *)

(** C1.  The claim does not hold for every read message of three bytes or
    more: the engine compares the length it keeps in eight bits.  When
    that snapshot is below 3 while three bytes or more are still to be
    read, as after loading a message of 256 bytes, an invocation of the
    read branch, whatever BTF says, reads no data register: it takes the
    read-error branch, sets the counter to -1 and the message count to 0,
    and the termination step ends the transfer.  Memory is unchanged. *)
Theorem read_long_message_aborts (e : env) (w : world) :
  let st := reg_read e w 0 STM32_I2C_SR1 in
  let p := w_priv w in
  trace_wf e w ->
  isr_phase e st p = PhaseRead ->
  total_msg_len p < 3 ->
  3 <= dcnt p ->
  exists w' tl,
    stm32_i2c_isr e w = Some (OK, w') /\
    accesses w' = accesses w ++
      [GetReg STM32_I2C_SR1 st;
       GetReg STM32_I2C_SR2 (reg_read e w 1 STM32_I2C_SR2)] ++ tl /\
    forallb shutdown_access tl = true /\
    count_if is_dr_read
      ([GetReg STM32_I2C_SR1 st;
        GetReg STM32_I2C_SR2 (reg_read e w 1 STM32_I2C_SR2)] ++ tl) = 0%nat /\
    dcnt (w_priv w') = -1 /\
    msgc (w_priv w') = 0 /\
    msgv (w_priv w') = None /\
    ptr (w_priv w') = ptr p /\
    w_mem w' = w_mem w.
Proof.
  intros st p Hw Hph Hlen Hd. unfold p in *.
  destruct (isr_entry_same_message e w Hw) as (i & t & n & Hok & ->).
  { unfold msg_advance_due. zbool. reflexivity. }
  unfold bind at 1. rewrite (read_mode_entered e w Hph).
  unfold isr_read_mode. unfold bind at 1. unfold gets at 1, id.
  simpl. fold st. zbool. simpl.
  rewrite ?andb_false_r, ?andb_false_l. simpl.
  run_code_cbn. repeat trace_step.
  shutdown_step w' tl0 Hacc Htl Hsame Hwf' Hnot Hfin.
  destruct Hsame as (Hdc & Hmc & Hptr & _ & _ & _ & _ & Hmem).
  destruct Hfin as (Hv & _); [reflexivity|].
  exists w', tl0. split; [reflexivity|].
  split.
  { rewrite Hacc. accesses_tail. }
  split; [exact Htl|].
  split.
  { destruct (shutdown_access_quiet tl0 Htl) as (Hq & _).
    unfold count_if in *. simpl. exact Hq. }
  split; [rewrite Hdc; reflexivity|].
  split; [rewrite Hmc; reflexivity|].
  split; [exact Hv|].
  split; [rewrite Hptr; reflexivity | rewrite Hmem; reflexivity].
Qed.

(** The theorem at work, interrupt-driven build: the engine loads a read
    of 256 bytes and sends its address, sees the address acknowledged,
    and at the first byte received (RXNE and BTF set, 256 bytes to go)
    ends the transfer without reading the data register. *)
Lemma read_long_message_aborts_witness :
  let e := {| cfg := cfg_irq; hw := hw_script [1; 2; 0; 68; 0; 0];
              msgs := [msg_read_256] |} in
  let w := world_of (priv_armed 1) in
  exists w2 w3 tl,
    run_isr e 2 w = Some (tt, w2) /\
    dcnt (w_priv w2) = 256 /\
    total_msg_len (w_priv w2) = 0 /\
    bit_set (reg_read e w2 0 STM32_I2C_SR1) I2C_SR1_RXNE = true /\
    bit_set (reg_read e w2 0 STM32_I2C_SR1) I2C_SR1_BTF = true /\
    stm32_i2c_isr e w2 = Some (OK, w3) /\
    accesses w3 = accesses w2 ++
      [GetReg STM32_I2C_SR1 68; GetReg STM32_I2C_SR2 0] ++ tl /\
    count_if is_dr_read (accesses w3) = 0%nat /\
    dcnt (w_priv w3) = -1 /\
    msgc (w_priv w3) = 0 /\
    w_mem w3 = w_mem w.
Proof.
  intros e w.
  destruct (run_isr e 2 w) as [[[] w2]|] eqn:E2;
    [|vm_compute in E2; discriminate E2].
  vm_compute in E2. injection E2 as Hw2.
  assert (Hwf : trace_wf e w2)
    by (rewrite <- Hw2; repeat split; vm_compute; congruence).
  assert (Hph : isr_phase e (reg_read e w2 0 STM32_I2C_SR1) (w_priv w2)
                = PhaseRead) by (rewrite <- Hw2; reflexivity).
  assert (Hlen : total_msg_len (w_priv w2) < 3)
    by (rewrite <- Hw2; reflexivity).
  assert (Hd : 3 <= dcnt (w_priv w2))
    by (rewrite <- Hw2; vm_compute; congruence).
  destruct (read_long_message_aborts e w2 Hwf Hph Hlen Hd)
    as (w3 & tl & Hrun & Hacc & _ & Hnone & Hdc & Hmc & _ & _ & Hmem).
  exists w2, w3, tl.
  split; [reflexivity|].
  split; [rewrite <- Hw2; reflexivity|].
  split; [rewrite <- Hw2; reflexivity|].
  split; [rewrite <- Hw2; reflexivity|].
  split; [rewrite <- Hw2; reflexivity|].
  split; [exact Hrun|].
  split; [rewrite Hacc, <- Hw2; reflexivity|].
  split.
  { rewrite Hacc, count_if_app.
    replace (count_if is_dr_read (accesses w2)) with 0%nat
      by (rewrite <- Hw2; reflexivity).
    exact Hnone. }
  split; [exact Hdc|]. split; [exact Hmc|].
  rewrite Hmem, <- Hw2. reflexivity.
Defined.

(** The whole call: [stm32_i2c_read] of 256 bytes reports success, on
    either build, with no byte read from the data register and the
    buffer untouched. *)
Lemma read_256_bytes_reports_success :
  let polled := hw_script [0; 0; 1; 2; 0; 68; 0] in
  let irq := hw_served (hw_script [0; 0; 0; 1; 2; 0; 68; 0; 0; 0]) 3 in
  let w := world_of priv_idle in
  (exists w',
     stm32_i2c_read cfg_polled polled 10 inst_initial 1000 256 w
       = Some (0, w') /\
     count_if is_dr_read (accesses w') = 0%nat /\ w_mem w' = w_mem w) /\
  (exists w',
     stm32_i2c_read cfg_irq irq 10 inst_initial 1000 256 w = Some (0, w') /\
     count_if is_dr_read (accesses w') = 0%nat /\ w_mem w' = w_mem w).
Proof.
  intros polled irq w. split.
  - destruct (stm32_i2c_read cfg_polled polled 10 inst_initial 1000 256 w)
      as [[r w']|] eqn:E; [|vm_compute in E; discriminate E].
    vm_compute in E. injection E as Hr Hw'.
    exists w'. rewrite <- Hr, <- Hw'. repeat split.
  - destruct (stm32_i2c_read cfg_irq irq 10 inst_initial 1000 256 w)
      as [[r w']|] eqn:E; [|vm_compute in E; discriminate E].
    vm_compute in E. injection E as Hr Hw'.
    exists w'. rewrite <- Hr, <- Hw'. repeat split.
Qed.


(** ** C2: a read of exactly two bytes *)

(** C2.  An invocation that takes the read-mode branch for a message whose
    total length is 2: with BTF clear it performs no data-register read;
    with BTF set (and both bytes still to go) it requests STOP once, then
    reads the data register twice, stores the two bytes at the buffer
    pointer and the byte after it, and leaves the counter at -1. *)
Theorem read_two_bytes (e : env) (w : world) :
  let st := reg_read e w 0 STM32_I2C_SR1 in
  let p := w_priv w in
  trace_wf e w ->
  isr_phase e st p = PhaseRead ->
  total_msg_len p = 2 ->
  (msg_advance_due p = false ->
   bit_set st I2C_SR1_BTF = false ->
   exists w' new,
     stm32_i2c_isr e w = Some (OK, w') /\
     accesses w' = accesses w ++ new /\
     count_if is_dr_read new = 0%nat /\
     w_mem w' = w_mem w) /\
  (bit_set st I2C_SR1_BTF = true -> dcnt p = 2 ->
   exists w' new tl,
     stm32_i2c_isr e w = Some (OK, w') /\
     accesses w' = accesses w ++ new /\
     new = [GetReg STM32_I2C_SR1 st;
            ModifyReg STM32_I2C_CR1 I2C_CR1_ACK I2C_CR1_STOP;
            GetReg STM32_I2C_DR (reg_read e w 1 STM32_I2C_DR);
            GetReg STM32_I2C_DR (reg_read e w 2 STM32_I2C_DR);
            GetReg STM32_I2C_SR2 (reg_read e w 3 STM32_I2C_SR2)] ++ tl /\
     forallb shutdown_access tl = true /\
     count_if is_stop new = 1%nat /\
     count_if is_dr_read new = 2%nat /\
     w_mem w' (ptr p) = u8 (reg_read e w 1 STM32_I2C_DR) /\
     w_mem w' (ptr p + 1) = u8 (reg_read e w 2 STM32_I2C_DR) /\
     dcnt (w_priv w') = -1).
Proof.
  intros st p Hw Hph Hlen. split.
  - intros Hadv Hbtf.
    destruct (read_two_wait e w Hw Hph Hadv Hlen Hbtf)
      as (w' & tl & Hrun & Hacc & Htl & Hmem & _).
    exists w'. eexists. split; [exact Hrun|]. split; [exact Hacc|].
    split; [|exact Hmem].
    rewrite count_if_app. destruct (shutdown_access_quiet tl Htl) as (-> & _).
    reflexivity.
  - intros Hbtf Hd.
    assert (Hlen2 : 2 <= total_msg_len (w_priv w)) by (unfold p in Hlen; lia).
    destruct (read_last_two e w Hw Hph Hlen2 Hbtf Hd)
      as (w' & tl & Hrun & Hacc & Htl & Hdc & Hm1 & Hm2 & _).
    exists w'. eexists. exists tl. split; [exact Hrun|].
    split; [exact Hacc|]. split; [reflexivity|]. split; [exact Htl|].
    rewrite !count_if_app.
    destruct (shutdown_access_quiet tl Htl) as (-> & -> & _).
    repeat split; assumption.
Qed.

(** The theorem at work: polled build, a read of 2 bytes, RXNE and BTF
    set; the last message, so the transfer also finishes. *)
Lemma read_two_bytes_witness :
  let e := {| cfg := cfg_polled; hw := hw_const 68 171; msgs := [] |} in
  let w := world_of (priv_reading 2 2) in
  (trace_wf e w /\
   isr_phase e (reg_read e w 0 STM32_I2C_SR1) (w_priv w) = PhaseRead /\
   total_msg_len (w_priv w) = 2) /\
  exists w',
    stm32_i2c_isr e w = Some (OK, w') /\
    accesses w' =
      [GetReg STM32_I2C_SR1 68;
       ModifyReg STM32_I2C_CR1 I2C_CR1_ACK I2C_CR1_STOP;
       GetReg STM32_I2C_DR 171; GetReg STM32_I2C_DR 171;
       GetReg STM32_I2C_SR2 0] /\
    w_mem w' 1000 = 171 /\ w_mem w' 1001 = 171 /\
    dcnt (w_priv w') = -1 /\ intstate (w_priv w') = INTSTATE_DONE.
Proof.
  intros e w.
  assert (Hw : trace_wf e w) by (repeat split; vm_compute; congruence).
  assert (Hph : isr_phase e (reg_read e w 0 STM32_I2C_SR1) (w_priv w)
                = PhaseRead) by reflexivity.
  assert (Hlen : total_msg_len (w_priv w) = 2) by reflexivity.
  split; [split; [exact Hw | split; [exact Hph | exact Hlen]]|].
  destruct (read_two_bytes e w Hw Hph Hlen) as (_ & H2).
  destruct (H2 eq_refl eq_refl)
    as (w' & new & tl & Hrun & Hacc & Hnew & Htl & _ & _ & Hm1 & Hm2 & Hd).
  exists w'. split; [exact Hrun|].
  assert (Hc : stm32_i2c_isr e w = Some (OK, w')) by exact Hrun.
  vm_compute in Hc. injection Hc as <-.
  repeat split.
Defined.

Lemma deref_msgv_at (e : env) (w : world) (m : i2c_msg_s) :
  msgv_at e (w_priv w) = Some m -> deref_msgv e w = Some (m, w).
Proof.
  unfold msgv_at, deref_msgv. destruct (msgv (w_priv w)); [|discriminate].
  intros ->. reflexivity.
Qed.

Lemma isr_entry_next_message (e : env) (w : world) (m : i2c_msg_s) :
  trace_wf e w ->
  msg_advance_due (w_priv w) = true ->
  msgv_at e (w_priv w) = Some m ->
  exists i t n,
    trace_ok e i t /\
    stm32_i2c_isr e w =
      (isr_protocol e (reg_read e w 0 STM32_I2C_SR1) ;;
       isr_shutdown e ;; ret OK) (loaded e w m i t n).
Proof.
  intros Hw Hadv Hm. unfold stm32_i2c_isr.
  unfold bind at 1. unfold stm32_i2c_getreg at 1.
  unfold bind at 1. unfold modify at 1. simpl.
  unfold bind at 1. trace_step.
  unfold bind at 1. trace_step.
  unfold bind at 1. unfold isr_msg_handling.
  unfold bind at 1. unfold gets at 1, id. simpl.
  unfold msg_advance_due in *. simpl. rewrite Hadv.
  unfold bind at 1.
  rewrite (deref_msgv_at e _ m) by exact Hm.
  unfold bind, modify, gets, ret. simpl.
  destruct (u8 (msgc (w_priv w) - 1) =? 0) eqn:Hc; simpl.
  - trace_step. unfold loaded. rewrite Hc.
    eexists _, _, _. split; [eassumption|]. reflexivity.
  - trace_step. unfold loaded. rewrite Hc.
    eexists _, _, _. split; [eassumption|]. reflexivity.
Qed.

(** ** Single invocations along a transfer *)

Ltac shutdown_idle :=
  match goal with
  | |- context [isr_shutdown ?e ?w] =>
      let w' := fresh "w'" in
      let tl0 := fresh "tl0" in
      let Hsd := fresh "Hsd" in
      let Hnot := fresh "Hnot" in
      destruct (isr_shutdown_run e w)
        as (w' & tl0 & Hsd & _ & _ & _ & _ & Hnot & _);
      [ trace_wf_now
      | rewrite Hsd; clear Hsd;
        destruct Hnot as [-> ->];
        [ unfold transfer_finished; simpl; zbool; try reflexivity | ] ]
  end.

(** The invocation that loads a non-empty message and sends its address. *)
Lemma isr_send_address (e : env) (w : world) (m m' : i2c_msg_s) :
  trace_wf e w ->
  msg_advance_due (w_priv w) = true ->
  msgv_at e (w_priv w) = Some m ->
  0 < length m ->
  match cursor_after_load (w_priv w) with
  | Some k => msgs e !! k
  | None => None
  end = Some m' ->
  bit_set (reg_read e w 0 STM32_I2C_SR1) I2C_SR1_SB = true ->
  exists i t n,
    trace_ok e i t /\
    stm32_i2c_isr e w = Some (OK, sent_address e w m m' i t n).
Proof.
  intros Hw Hadv Hm Hlen Hm' Hsb. unfold cursor_after_load in Hm'.
  destruct (isr_entry_next_message e w m Hw Hadv Hm) as (i & t & n & Hok & ->).
  unfold bind at 1. unfold isr_protocol. unfold bind at 1. unfold gets at 1, id.
  unfold isr_phase. rewrite Hsb.
  unfold isr_address_handling. unfold bind at 1. unfold gets at 1, id.
  assert (Hd : forall W, msgv (w_priv W) =
                 (if u8 (msgc (w_priv w) - 1) =? 0 then msgv (w_priv w)
                  else option_map S (msgv (w_priv w))) ->
               deref_msgv e W = Some (m', W)).
  { intros W HW. apply deref_msgv_at. unfold msgv_at. rewrite HW. exact Hm'. }
  unfold sent_address, address_setup, address_byte, loaded. simpl.
  zbool. simpl.
  destruct ((u8 (length m) =? 1) && bit_set (mflags m) I2C_M_READ);
    [| destruct ((u8 (length m) =? 2) && bit_set (mflags m) I2C_M_READ)];
    destruct (bit_set (mflags m) I2C_M_TEN);
    run_code; repeat trace_step;
    repeat (rewrite Hd by reflexivity; simpl);
    repeat trace_step;
    shutdown_idle;
    eexists _, _, _; (split; [eassumption | reflexivity]).
Qed.

(** The invocation that sees the address of a one-byte read acknowledged. *)
Lemma isr_addr_acked_read_one (e : env) (w : world) :
  trace_wf e w ->
  isr_phase e (reg_read e w 0 STM32_I2C_SR1) (w_priv w) = PhaseAddrAckedRead ->
  dcnt (w_priv w) = 1 ->
  total_msg_len (w_priv w) = 1 ->
  exists i t n,
    trace_ok e i t /\
    stm32_i2c_isr e w = Some (OK, acked_read_one e w i t n).
Proof.
  intros Hw Hph Hd Hlen.
  destruct (isr_entry_same_message e w Hw) as (i & t & n & Hok & ->).
  { unfold msg_advance_due. zbool. reflexivity. }
  unfold bind at 1. unfold isr_protocol. unfold bind at 1. unfold gets at 1, id.
  rewrite (isr_phase_ext e _ _ (w_priv w)) by reflexivity. rewrite Hph.
  unfold isr_address_acked_read, acked_read_one.
  run_code. rewrite Hd, Hlen. simpl.
  repeat trace_step. shutdown_idle. rewrite ?Hd.
  eexists _, _, _; (split; [eassumption | reflexivity]).
Qed.

(** The invocation that writes one byte of the message. *)
Lemma isr_write_byte (e : env) (w : world) :
  trace_wf e w ->
  isr_phase e (reg_read e w 0 STM32_I2C_SR1) (w_priv w) = PhaseWrite ->
  1 <= dcnt (w_priv w) ->
  exists i t n,
    trace_ok e i t /\
    stm32_i2c_isr e w = Some (OK, wrote_byte e w i t n).
Proof.
  intros Hw Hph Hd.
  destruct (isr_entry_same_message e w Hw) as (i & t & n & Hok & ->).
  { unfold msg_advance_due. zbool. reflexivity. }
  unfold bind at 1. unfold isr_protocol. unfold bind at 1. unfold gets at 1, id.
  rewrite (isr_phase_ext e _ _ (w_priv w)) by reflexivity. rewrite Hph.
  unfold isr_write_mode, wrote_byte.
  run_code. zbool. simpl.
  repeat trace_step. shutdown_idle.
  eexists _, _, _; (split; [eassumption | reflexivity]).
Qed.

(** The invocation that takes the only byte of a one-byte read. *)
Lemma isr_read_one (e : env) (w : world) :
  trace_wf e w ->
  isr_phase e (reg_read e w 0 STM32_I2C_SR1) (w_priv w) = PhaseRead ->
  dcnt (w_priv w) = 0 ->
  total_msg_len (w_priv w) = 1 ->
  exists w' tl,
    stm32_i2c_isr e w = Some (OK, w') /\
    accesses w' = accesses w ++
      [GetReg STM32_I2C_SR1 (reg_read e w 0 STM32_I2C_SR1);
       GetReg STM32_I2C_DR (reg_read e w 1 STM32_I2C_DR);
       GetReg STM32_I2C_SR2 (reg_read e w 2 STM32_I2C_SR2)] ++ tl /\
    forallb shutdown_access tl = true /\
    dcnt (w_priv w') = -1 /\
    w_mem w' (ptr (w_priv w)) = u8 (reg_read e w 1 STM32_I2C_DR).
Proof.
  intros Hw Hph Hd Hlen.
  destruct (isr_entry_same_message e w Hw) as (i & t & n & Hok & ->).
  { unfold msg_advance_due. zbool. reflexivity. }
  unfold bind at 1. rewrite (read_mode_entered e w Hph).
  unfold isr_read_mode. unfold bind at 1. unfold gets at 1, id.
  simpl. rewrite Hd, Hlen. simpl.
  run_code. repeat trace_step.
  shutdown_step w' tl0 Hacc Htl Hsame Hwf' Hnot Hfin.
  destruct Hsame as (Hdc & _ & _ & _ & _ & _ & _ & Hmem).
  exists w', tl0. split; [reflexivity|].
  split; [rewrite Hacc; accesses_tail|].
  split; [exact Htl|]. rewrite Hdc, Hmem. simpl. rewrite Hd, Z.eqb_refl.
  split; reflexivity.
Qed.

(** What it means that the address-acknowledged branch of a read is the
    one taken. *)
Lemma isr_phase_addr_acked_read (e : env) (st : Z) (p : stm32_i2c_priv_s) :
  isr_phase e st p = PhaseAddrAckedRead <->
  bit_set st I2C_SR1_SB = false /\
  bit_set (flags p) I2C_M_READ = true /\
  bit_set st I2C_SR1_ADDR = true /\
  check_addr_ACK p = true.
Proof.
  unfold isr_phase.
  destruct (bit_set st I2C_SR1_SB), (CONFIG_I2C_POLLED (cfg e)),
    (bit_set st I2C_SR1_ADDR), (check_addr_ACK p),
    (bit_set (flags p) I2C_M_READ), (bit_set st I2C_SR1_RXNE),
    (bit_set st (Z.lor I2C_SR1_ADDR I2C_SR1_TXE));
    simpl; try destruct ((dcnt p =? -1) && (msgc p =? 0));
    intuition (try discriminate; try congruence).
Qed.

(** ** C3: a read of exactly one byte *)

(** The whole of a one-byte read: the invocation that sends the address,
    the one that sees it acknowledged, the one that finds the byte. *)
Lemma read_one_byte_run (e : env) (w : world) (m m' : i2c_msg_s) :
  let p := w_priv w in
  let st1 := reg_read e w 0 STM32_I2C_SR1 in
  let st2 := reg_read e w 1 STM32_I2C_SR1 in
  let st3 := reg_read e w 3 STM32_I2C_SR1 in
  trace_wf e w ->
  msg_advance_due p = true ->
  msgv_at e p = Some m ->
  bit_set (mflags m) I2C_M_READ = true ->
  length m = 1 ->
  match cursor_after_load p with
  | Some k => msgs e !! k
  | None => None
  end = Some m' ->
  bit_set st1 I2C_SR1_SB = true ->
  bit_set st2 I2C_SR1_SB = false ->
  bit_set st2 I2C_SR1_ADDR = true ->
  bit_set st3 I2C_SR1_SB = false ->
  bit_set st3 I2C_SR1_RXNE = true ->
  exists w' tl,
    run_isr e 3 w = Some (tt, w') /\
    accesses w' = accesses w ++
      [GetReg STM32_I2C_SR1 st1;
       ModifyReg STM32_I2C_CR1 I2C_CR1_POS 0;
       ModifyReg STM32_I2C_CR1 I2C_CR1_ACK 0;
       PutReg STM32_I2C_DR (address_byte (mflags m) m');
       GetReg STM32_I2C_SR1 st2;
       GetReg STM32_I2C_SR2 (reg_read e w 2 STM32_I2C_SR2);
       ModifyReg STM32_I2C_CR2 0 I2C_CR2_ITBUFEN;
       ModifyReg STM32_I2C_CR1 I2C_CR1_ACK I2C_CR1_STOP;
       GetReg STM32_I2C_SR1 st3;
       GetReg STM32_I2C_DR (reg_read e w 4 STM32_I2C_DR);
       GetReg STM32_I2C_SR2 (reg_read e w 5 STM32_I2C_SR2)] ++ tl /\
    forallb shutdown_access tl = true /\
    w_mem w' (buffer m) = u8 (reg_read e w 4 STM32_I2C_DR) /\
    dcnt (w_priv w') = -1.
Proof.
  intros p st1 st2 st3 Hw Hadv Hm Hrd Hlen Hm' Hsb1 Hsb2 Haddr2 Hsb3 Hrx3.
  unfold p in *. clear p.
  unfold run_isr. unfold bind at 1.
  destruct (isr_send_address e w m m' Hw Hadv Hm) as (i & t & n & Hok & ->);
    [lia | exact Hm' | exact Hsb1 |].
  unfold bind at 1.
  destruct (isr_addr_acked_read_one e (sent_address e w m m' i t n))
    as (i2 & t2 & n2 & Hok2 & ->).
  { trace_wf_now. }
  { apply isr_phase_addr_acked_read.
    unfold sent_address, loaded, reg_read in *. simpl.
    repeat split; assumption. }
  { unfold sent_address, loaded. simpl. exact Hlen. }
  { unfold sent_address, loaded. simpl. rewrite Hlen. reflexivity. }
  unfold bind at 1.
  destruct (isr_read_one e (acked_read_one e (sent_address e w m m' i t n)
                              i2 t2 n2))
    as (w' & tl & -> & Hacc & Htl & Hd & Hmem).
  { trace_wf_now. }
  { apply isr_phase_read.
    unfold acked_read_one, sent_address, loaded, reg_read in *. simpl.
    repeat split; try assumption; discriminate. }
  { reflexivity. }
  { unfold acked_read_one, sent_address, loaded. simpl. rewrite Hlen.
    reflexivity. }
  exists w', tl. split; [reflexivity|].
  split.
  { rewrite Hacc.
    unfold acked_read_one, sent_address, loaded, address_setup, accesses,
      reg_read.
    simpl. rewrite Hlen, Hrd. simpl.
    rewrite <- !app_assoc. reflexivity. }
  split; [exact Htl|]. split; [exact Hmem | exact Hd].
Qed.

(** C3.  A read of total length 1.  The invocation that takes the
    address-acknowledged branch (address cleared, pending flag set) clears
    the pending flag, reads SR2, requests STOP and takes the counter from 1
    to 0.  A later invocation that takes the read branch reads the data
    register exactly once and takes the counter to -1.  Over the whole
    message (address sent, address acknowledged, byte received) the data
    register is read exactly once, after the one STOP request. *)
Theorem read_one_byte (e : env) :
  (forall w,
     trace_wf e w ->
     isr_phase e (reg_read e w 0 STM32_I2C_SR1) (w_priv w)
       = PhaseAddrAckedRead ->
     dcnt (w_priv w) = 1 ->
     total_msg_len (w_priv w) = 1 ->
     exists w',
       stm32_i2c_isr e w = Some (OK, w') /\
       accesses w' = accesses w ++
         [GetReg STM32_I2C_SR1 (reg_read e w 0 STM32_I2C_SR1);
          GetReg STM32_I2C_SR2 (reg_read e w 1 STM32_I2C_SR2);
          ModifyReg STM32_I2C_CR2 0 I2C_CR2_ITBUFEN;
          ModifyReg STM32_I2C_CR1 I2C_CR1_ACK I2C_CR1_STOP] /\
       check_addr_ACK (w_priv w') = false /\
       dcnt (w_priv w') = 0) /\
  (forall w,
     trace_wf e w ->
     isr_phase e (reg_read e w 0 STM32_I2C_SR1) (w_priv w) = PhaseRead ->
     dcnt (w_priv w) = 0 ->
     total_msg_len (w_priv w) = 1 ->
     exists w' new,
       stm32_i2c_isr e w = Some (OK, w') /\
       accesses w' = accesses w ++ new /\
       count_if is_dr_read new = 1%nat /\
       count_if is_stop new = 0%nat /\
       w_mem w' (ptr (w_priv w)) = u8 (reg_read e w 1 STM32_I2C_DR) /\
       dcnt (w_priv w') = -1) /\
  (forall w m m',
     trace_wf e w ->
     msg_advance_due (w_priv w) = true ->
     msgv_at e (w_priv w) = Some m ->
     bit_set (mflags m) I2C_M_READ = true ->
     length m = 1 ->
     match cursor_after_load (w_priv w) with
     | Some k => msgs e !! k
     | None => None
     end = Some m' ->
     bit_set (reg_read e w 0 STM32_I2C_SR1) I2C_SR1_SB = true ->
     bit_set (reg_read e w 1 STM32_I2C_SR1) I2C_SR1_SB = false ->
     bit_set (reg_read e w 1 STM32_I2C_SR1) I2C_SR1_ADDR = true ->
     bit_set (reg_read e w 3 STM32_I2C_SR1) I2C_SR1_SB = false ->
     bit_set (reg_read e w 3 STM32_I2C_SR1) I2C_SR1_RXNE = true ->
     exists w' before between after,
       run_isr e 3 w = Some (tt, w') /\
       accesses w' = accesses w ++
         before ++ [ModifyReg STM32_I2C_CR1 I2C_CR1_ACK I2C_CR1_STOP]
         ++ between ++ [GetReg STM32_I2C_DR (reg_read e w 4 STM32_I2C_DR)]
         ++ after /\
       count_if is_dr_read (before ++ between ++ after) = 0%nat /\
       count_if is_stop (before ++ between ++ after) = 0%nat /\
       w_mem w' (buffer m) = u8 (reg_read e w 4 STM32_I2C_DR) /\
       dcnt (w_priv w') = -1).
Proof.
  split; [|split].
  - intros w Hw Hph Hd Hlen.
    destruct (isr_addr_acked_read_one e w Hw Hph Hd Hlen)
      as (i & t & n & Hok & Hrun).
    eexists. split; [exact Hrun|].
    split; [unfold acked_read_one; accesses_now|].
    split; reflexivity.
  - intros w Hw Hph Hd Hlen.
    destruct (isr_read_one e w Hw Hph Hd Hlen)
      as (w' & tl & Hrun & Hacc & Htl & Hdc & Hmem).
    exists w'. eexists. split; [exact Hrun|]. split; [exact Hacc|].
    rewrite !count_if_app.
    destruct (shutdown_access_quiet tl Htl) as (-> & -> & _).
    repeat split; assumption.
  - intros w m m' Hw Hadv Hm Hrd Hlen Hm' Hsb1 Hsb2 Haddr2 Hsb3 Hrx3.
    destruct (read_one_byte_run e w m m' Hw Hadv Hm Hrd Hlen Hm'
                Hsb1 Hsb2 Haddr2 Hsb3 Hrx3)
      as (w' & tl & Hrun & Hacc & Htl & Hmem & Hd).
    exists w'.
    exists [GetReg STM32_I2C_SR1 (reg_read e w 0 STM32_I2C_SR1);
            ModifyReg STM32_I2C_CR1 I2C_CR1_POS 0;
            ModifyReg STM32_I2C_CR1 I2C_CR1_ACK 0;
            PutReg STM32_I2C_DR (address_byte (mflags m) m');
            GetReg STM32_I2C_SR1 (reg_read e w 1 STM32_I2C_SR1);
            GetReg STM32_I2C_SR2 (reg_read e w 2 STM32_I2C_SR2);
            ModifyReg STM32_I2C_CR2 0 I2C_CR2_ITBUFEN].
    exists [GetReg STM32_I2C_SR1 (reg_read e w 3 STM32_I2C_SR1)].
    exists (GetReg STM32_I2C_SR2 (reg_read e w 5 STM32_I2C_SR2) :: tl).
    split; [exact Hrun|]. split; [exact Hacc|].
    change (GetReg STM32_I2C_SR2 (reg_read e w 5 STM32_I2C_SR2) :: tl)
      with ([GetReg STM32_I2C_SR2 (reg_read e w 5 STM32_I2C_SR2)] ++ tl).
    rewrite !count_if_app.
    destruct (shutdown_access_quiet tl Htl) as (-> & -> & _).
    repeat split; assumption.
Qed.

(** The theorem at work: one message, a read of one byte from address
    0x50, on an interrupt-driven build. *)
Lemma read_one_byte_witness :
  let e := {| cfg := cfg_irq; hw := hw_script [1; 2; 0; 64; 90; 0; 0];
              msgs := [{| addr := 80; mflags := 1; buffer := 1000;
                          length := 1 |}] |} in
  let w := world_of (priv_armed 1) in
  let m := {| addr := 80; mflags := 1; buffer := 1000; length := 1 |} in
  (trace_wf e w /\ msg_advance_due (w_priv w) = true /\
   msgv_at e (w_priv w) = Some m) /\
  exists w',
    run_isr e 3 w = Some (tt, w') /\
    accesses w' =
      [GetReg STM32_I2C_SR1 1;
       ModifyReg STM32_I2C_CR1 I2C_CR1_POS 0;
       ModifyReg STM32_I2C_CR1 I2C_CR1_ACK 0;
       PutReg STM32_I2C_DR 161;
       GetReg STM32_I2C_SR1 2;
       GetReg STM32_I2C_SR2 0;
       ModifyReg STM32_I2C_CR2 0 I2C_CR2_ITBUFEN;
       ModifyReg STM32_I2C_CR1 I2C_CR1_ACK I2C_CR1_STOP;
       GetReg STM32_I2C_SR1 64;
       GetReg STM32_I2C_DR 90;
       GetReg STM32_I2C_SR2 0;
       GetReg STM32_I2C_CR2 0;
       PutReg STM32_I2C_CR2 0;
       SemPost] /\
    w_mem w' 1000 = 90 /\
    intstate (w_priv w') = INTSTATE_DONE.
Proof.
  intros e w m.
  assert (Hw : trace_wf e w) by (repeat split; vm_compute; congruence).
  split; [split; [exact Hw | split; reflexivity]|].
  destruct (read_one_byte e) as (_ & _ & H).
  destruct (H w m m Hw) as (w' & b & c & a & Hrun & _);
    try reflexivity.
  exists w'. split; [exact Hrun|].
  assert (Hc : run_isr e 3 w = Some (tt, w')) by exact Hrun.
  vm_compute in Hc. injection Hc as <-.
  repeat split.
Defined.

(** ** C4: the end of a written message *)

(** What it means that the write-mode branch is the one taken. *)
Lemma isr_phase_write (e : env) (st : Z) (p : stm32_i2c_priv_s) :
  isr_phase e st p = PhaseWrite <->
  bit_set st I2C_SR1_SB = false /\
  bit_set (flags p) I2C_M_READ = false /\
  bit_set st (Z.lor I2C_SR1_ADDR I2C_SR1_TXE) = true /\
  (check_addr_ACK p = true ->
     CONFIG_I2C_POLLED (cfg e) = true \/ bit_set st I2C_SR1_ADDR = true).
Proof.
  unfold isr_phase.
  destruct (bit_set st I2C_SR1_SB), (CONFIG_I2C_POLLED (cfg e)),
    (bit_set st I2C_SR1_ADDR), (check_addr_ACK p),
    (bit_set (flags p) I2C_M_READ), (bit_set st I2C_SR1_RXNE),
    (bit_set st (Z.lor I2C_SR1_ADDR I2C_SR1_TXE));
    simpl; try destruct ((dcnt p =? -1) && (msgc p =? 0));
    intuition (try discriminate; try congruence).
Qed.

Section WriteEnd.

Variable e : env.
Variable w : world.
Let st := reg_read e w 0 STM32_I2C_SR1.
Let p := w_priv w.

Hypothesis Hw : trace_wf e w.
Hypothesis Hph : isr_phase e st p = PhaseWrite.
Hypothesis Hd : dcnt p = 0.

Lemma write_mode_entered (i : Z) (t : list stm32_trace_s) (n : nat) :
  isr_protocol e st (entered e w i t n) =
  isr_write_mode e (entered e w i t n).
Proof.
  unfold isr_protocol. unfold bind at 1. unfold gets at 1, id.
  rewrite (isr_phase_ext e _ _ (w_priv w)) by reflexivity.
  fold p. rewrite Hph. reflexivity.
Qed.

Lemma write_end_entry :
  exists i t n,
    trace_ok e i t /\
    stm32_i2c_isr e w =
      (isr_write_mode e ;; isr_shutdown e ;; ret OK) (entered e w i t n).
Proof.
  destruct (isr_entry_same_message e w Hw) as (i & t & n & Hok & ->).
  { unfold msg_advance_due. fold p. rewrite Hd. reflexivity. }
  exists i, t, n. split; [exact Hok|].
  unfold bind at 1 3. rewrite write_mode_entered. reflexivity.
Qed.

(** No message left: STOP. *)
Lemma write_end_stop :
  msgc p = 0 ->
  exists w' tl,
    stm32_i2c_isr e w = Some (OK, w') /\
    accesses w' = accesses w ++
      [GetReg STM32_I2C_SR1 st;
       GetReg STM32_I2C_SR2 (reg_read e w 1 STM32_I2C_SR2);
       ModifyReg STM32_I2C_CR1 I2C_CR1_ACK I2C_CR1_STOP] ++ tl /\
    forallb shutdown_access tl = true /\
    dcnt (w_priv w') = -1.
Proof.
  intros Hc. unfold p in *.
  destruct write_end_entry as (i & t & n & Hok & ->).
  unfold isr_write_mode. run_code. rewrite Hd, Hc. simpl.
  repeat trace_step.
  shutdown_step w' tl0 Hacc Htl Hsame Hwf' Hnot Hfin.
  destruct Hsame as (Hdc & _).
  exists w', tl0. split; [reflexivity|].
  split; [rewrite Hacc; accesses_tail|].
  split; [exact Htl|]. rewrite Hdc. simpl. rewrite Hd. reflexivity.
Qed.

(** A next message without flags or with the read flag: repeated START. *)
Lemma write_end_restart (m' : i2c_msg_s) :
  0 < msgc p ->
  msgv_at e p = Some m' ->
  mflags m' = 0 \/ bit_set (mflags m') I2C_M_READ = true ->
  exists w',
    stm32_i2c_isr e w = Some (OK, w') /\
    accesses w' = accesses w ++
      [GetReg STM32_I2C_SR1 st;
       GetReg STM32_I2C_SR2 (reg_read e w 1 STM32_I2C_SR2);
       ModifyReg STM32_I2C_CR1 I2C_CR1_ACK I2C_CR1_START] /\
    dcnt (w_priv w') = -1 /\
    msgc (w_priv w') = msgc p /\
    msgv (w_priv w') = msgv p.
Proof.
  intros Hc Hm Hfl. unfold p in *.
  destruct write_end_entry as (i & t & n & Hok & ->).
  unfold isr_write_mode. run_code. rewrite Hd. simpl. zbool. simpl.
  rewrite (deref_msgv_at e _ m') by exact Hm. simpl.
  assert (Hr : (mflags m' =? 0) || bit_set (mflags m') I2C_M_READ = true).
  { destruct Hfl as [-> | ->]; [reflexivity | apply orb_true_r]. }
  rewrite Hr. simpl.
  repeat trace_step. shutdown_idle.
  eexists. split; [reflexivity|]. split; [accesses_now|].
  simpl. rewrite Hd. repeat split.
Qed.

(** A next message with the no-restart flag (and without the read flag):
    nothing is requested. *)
Lemma write_end_norestart (m' : i2c_msg_s) :
  0 < msgc p ->
  msgv_at e p = Some m' ->
  bit_set (mflags m') I2C_M_READ = false ->
  bit_set (mflags m') I2C_M_NORESTART = true ->
  exists w',
    stm32_i2c_isr e w = Some (OK, w') /\
    accesses w' = accesses w ++
      [GetReg STM32_I2C_SR1 st;
       GetReg STM32_I2C_SR2 (reg_read e w 1 STM32_I2C_SR2)] /\
    dcnt (w_priv w') = -1 /\
    msgc (w_priv w') = msgc p /\
    msgv (w_priv w') = msgv p.
Proof.
  intros Hc Hm Hrd Hnr. unfold p in *.
  destruct write_end_entry as (i & t & n & Hok & ->).
  unfold isr_write_mode. run_code. rewrite Hd. simpl. zbool. simpl.
  rewrite (deref_msgv_at e _ m') by exact Hm. simpl.
  assert (Hz : (mflags m' =? 0) = false).
  { apply Z.eqb_neq. intros H0. rewrite H0 in Hnr. discriminate. }
  rewrite Hz, Hrd. simpl. zbool. simpl.
  rewrite (deref_msgv_at e _ m') by exact Hm. simpl.
  rewrite Hnr.
  repeat trace_step. shutdown_idle.
  eexists. split; [reflexivity|]. split; [accesses_now|].
  repeat split.
Qed.

(** A next message with other flags only: a trace event and nothing
    else, except that SR2 is read and the pending flag is dropped. *)
Lemma write_end_flag_error (m' : i2c_msg_s) :
  0 < msgc p ->
  msgv_at e p = Some m' ->
  mflags m' <> 0 ->
  bit_set (mflags m') I2C_M_READ = false ->
  bit_set (mflags m') I2C_M_NORESTART = false ->
  exists i t n,
    trace_ok e i t /\
    stm32_i2c_isr e w =
      Some (OK,
            {| w_priv := set_trace t (set_tndx i
                           (set_check_addr_ACK false (set_status st p)));
               w_mem := w_mem w; w_nreads := S (S (w_nreads w));
               w_nclock := n;
               w_log := GetReg STM32_I2C_SR2 (reg_read e w 1 STM32_I2C_SR2)
                        :: GetReg STM32_I2C_SR1 st :: w_log w |}).
Proof.
  intros Hc Hm Hnz Hrd Hnr. unfold p in *.
  destruct write_end_entry as (i & t & n & Hok & ->).
  unfold isr_write_mode. run_code. rewrite Hd. simpl. zbool. simpl.
  rewrite (deref_msgv_at e _ m') by exact Hm. simpl.
  rewrite Hrd. simpl. zbool. simpl.
  rewrite (deref_msgv_at e _ m') by exact Hm. simpl.
  rewrite Hnr.
  rewrite (deref_msgv_at e _ m') by exact Hm. simpl.
  repeat trace_step. shutdown_idle.
  eexists _, _, _. split; [eassumption | reflexivity].
Qed.

End WriteEnd.

(** A write of two bytes followed by a read: the four invocations that
    send the address and the two bytes and then close the write. *)
Lemma write_then_read_run (e : env) (w : world) (k : nat) (m1 m2 : i2c_msg_s) :
  let p := w_priv w in
  trace_wf e w ->
  dcnt p = -1 -> msgc p = 2 -> msgv p = Some k ->
  msgs e !! k = Some m1 -> msgs e !! S k = Some m2 ->
  bit_set (mflags m1) I2C_M_READ = false -> length m1 = 2 ->
  bit_set (mflags m2) I2C_M_READ = true ->
  bit_set (reg_read e w 0 STM32_I2C_SR1) I2C_SR1_SB = true ->
  bit_set (reg_read e w 1 STM32_I2C_SR1) I2C_SR1_SB = false ->
  bit_set (reg_read e w 1 STM32_I2C_SR1) I2C_SR1_ADDR = true ->
  bit_set (reg_read e w 3 STM32_I2C_SR1) I2C_SR1_SB = false ->
  bit_set (reg_read e w 3 STM32_I2C_SR1)
    (Z.lor I2C_SR1_ADDR I2C_SR1_TXE) = true ->
  bit_set (reg_read e w 5 STM32_I2C_SR1) I2C_SR1_SB = false ->
  bit_set (reg_read e w 5 STM32_I2C_SR1)
    (Z.lor I2C_SR1_ADDR I2C_SR1_TXE) = true ->
  exists w',
    run_isr e 4 w = Some (tt, w') /\
    accesses w' = accesses w ++
      [GetReg STM32_I2C_SR1 (reg_read e w 0 STM32_I2C_SR1);
       ModifyReg STM32_I2C_CR1 I2C_CR1_POS 0;
       ModifyReg STM32_I2C_CR1 0 I2C_CR1_ACK;
       PutReg STM32_I2C_DR (address_byte (mflags m1) m2);
       GetReg STM32_I2C_SR1 (reg_read e w 1 STM32_I2C_SR1);
       GetReg STM32_I2C_SR2 (reg_read e w 2 STM32_I2C_SR2);
       PutReg STM32_I2C_DR (u16 (w_mem w (buffer m1)));
       GetReg STM32_I2C_SR1 (reg_read e w 3 STM32_I2C_SR1);
       GetReg STM32_I2C_SR2 (reg_read e w 4 STM32_I2C_SR2);
       PutReg STM32_I2C_DR (u16 (w_mem w (buffer m1 + 1)));
       GetReg STM32_I2C_SR1 (reg_read e w 5 STM32_I2C_SR1);
       GetReg STM32_I2C_SR2 (reg_read e w 6 STM32_I2C_SR2);
       ModifyReg STM32_I2C_CR1 I2C_CR1_ACK I2C_CR1_START] /\
    dcnt (w_priv w') = -1 /\
    msgc (w_priv w') = 1 /\
    msgv_at e (w_priv w') = Some m2.
Proof.
  intros p Hw Hd Hc Hv Hm1 Hm2 Hwr Hlen Hrd Hsb1 Hsb2 Haddr2 Hsb3 Htx3
    Hsb4 Htx4.
  unfold p in *. clear p.
  assert (Haddr2' : bit_set (reg_read e w 1 STM32_I2C_SR1)
                      (Z.lor I2C_SR1_ADDR I2C_SR1_TXE) = true).
  { unfold bit_set in *. apply negb_true_iff, Z.eqb_neq.
    apply negb_true_iff, Z.eqb_neq in Haddr2. intros H0. apply Haddr2.
    apply Z.bits_inj'. intros j Hj. rewrite Z.bits_0.
    assert (Hb := f_equal (fun x => Z.testbit x j) H0). simpl in Hb.
    rewrite Z.bits_0 in Hb.
    rewrite Z.land_spec, Z.lor_spec in Hb. rewrite Z.land_spec.
    destruct (Z.testbit (reg_read e w 1 STM32_I2C_SR1) j);
      destruct (Z.testbit I2C_SR1_ADDR j); simpl in *; congruence. }
  unfold run_isr. unfold bind at 1.
  destruct (isr_send_address e w m1 m2 Hw) as (i & t & n & Hok & ->).
  { unfold msg_advance_due. rewrite Hd, Hc. reflexivity. }
  { unfold msgv_at. rewrite Hv. exact Hm1. }
  { lia. }
  { unfold cursor_after_load. rewrite Hc, Hv. simpl. exact Hm2. }
  { exact Hsb1. }
  unfold bind at 1.
  destruct (isr_write_byte e (sent_address e w m1 m2 i t n))
    as (i2 & t2 & n2 & Hok2 & ->).
  { trace_wf_now. }
  { apply isr_phase_write.
    unfold sent_address, loaded, reg_read in *. simpl.
    repeat split; try assumption. intros _. right. assumption. }
  { unfold sent_address, loaded. simpl. lia. }
  unfold bind at 1.
  destruct (isr_write_byte e
              (wrote_byte e (sent_address e w m1 m2 i t n) i2 t2 n2))
    as (i3 & t3 & n3 & Hok3 & ->).
  { trace_wf_now. }
  { apply isr_phase_write.
    unfold wrote_byte, sent_address, loaded, reg_read in *. simpl.
    repeat split; try assumption. discriminate. }
  { unfold wrote_byte, sent_address, loaded. simpl. lia. }
  unfold bind at 1.
  destruct (write_end_restart e
              (wrote_byte e
                 (wrote_byte e (sent_address e w m1 m2 i t n) i2 t2 n2)
                 i3 t3 n3) ltac:(trace_wf_now))
    with (m' := m2) as (w' & -> & Hacc & Hdc & Hmc & Hmv).
  { apply isr_phase_write.
    unfold wrote_byte, sent_address, loaded, reg_read in *. simpl.
    repeat split; try assumption. discriminate. }
  { unfold wrote_byte, sent_address, loaded. simpl. rewrite Hlen.
    reflexivity. }
  { unfold wrote_byte, sent_address, loaded. simpl. rewrite Hc.
    reflexivity. }
  { unfold msgv_at, wrote_byte, sent_address, loaded. simpl.
    rewrite Hc, Hv. simpl. exact Hm2. }
  { right. exact Hrd. }
  exists w'. split; [reflexivity|].
  split.
  { rewrite Hacc.
    unfold wrote_byte, sent_address, loaded, address_setup, accesses,
      reg_read.
    simpl. rewrite Hlen, Hwr. simpl. rewrite ?andb_false_r. simpl.
    rewrite <- !app_assoc. reflexivity. }
  split; [exact Hdc|].
  split.
  { rewrite Hmc. unfold wrote_byte, sent_address, loaded. simpl.
    rewrite Hc. reflexivity. }
  unfold msgv_at. rewrite Hmv.
  unfold wrote_byte, sent_address, loaded. simpl.
  rewrite Hc, Hv. simpl. exact Hm2.
Qed.

(** C4.  In the write branch with the counter at 0: when no message
    remains, exactly one STOP is requested and the counter becomes -1; when
    a next message remains whose flags are zero or include the read flag, a
    START is requested, no STOP, and the counter becomes -1; when the next
    message carries the no-restart flag (the read flag, which is tested
    first, being clear), the counter becomes -1 and neither START nor STOP
    is requested.  In particular a two-byte write followed by a read sends
    address and data, then requests a repeated START, and never requests
    STOP. *)
Theorem write_message_end (e : env) :
  (forall w,
     trace_wf e w ->
     isr_phase e (reg_read e w 0 STM32_I2C_SR1) (w_priv w) = PhaseWrite ->
     dcnt (w_priv w) = 0 ->
     (msgc (w_priv w) = 0 ->
      exists w' new,
        stm32_i2c_isr e w = Some (OK, w') /\
        accesses w' = accesses w ++ new /\
        count_if is_stop new = 1%nat /\
        count_if is_start new = 0%nat /\
        dcnt (w_priv w') = -1) /\
     (forall m',
        0 < msgc (w_priv w) ->
        msgv_at e (w_priv w) = Some m' ->
        mflags m' = 0 \/ bit_set (mflags m') I2C_M_READ = true ->
        exists w' new,
          stm32_i2c_isr e w = Some (OK, w') /\
          accesses w' = accesses w ++ new /\
          count_if is_start new = 1%nat /\
          count_if is_stop new = 0%nat /\
          dcnt (w_priv w') = -1) /\
     (forall m',
        0 < msgc (w_priv w) ->
        msgv_at e (w_priv w) = Some m' ->
        bit_set (mflags m') I2C_M_READ = false ->
        bit_set (mflags m') I2C_M_NORESTART = true ->
        exists w' new,
          stm32_i2c_isr e w = Some (OK, w') /\
          accesses w' = accesses w ++ new /\
          count_if is_start new = 0%nat /\
          count_if is_stop new = 0%nat /\
          dcnt (w_priv w') = -1)) /\
  (forall w k m1 m2,
     trace_wf e w ->
     dcnt (w_priv w) = -1 -> msgc (w_priv w) = 2 ->
     msgv (w_priv w) = Some k ->
     msgs e !! k = Some m1 -> msgs e !! S k = Some m2 ->
     bit_set (mflags m1) I2C_M_READ = false -> length m1 = 2 ->
     bit_set (mflags m2) I2C_M_READ = true ->
     bit_set (reg_read e w 0 STM32_I2C_SR1) I2C_SR1_SB = true ->
     bit_set (reg_read e w 1 STM32_I2C_SR1) I2C_SR1_SB = false ->
     bit_set (reg_read e w 1 STM32_I2C_SR1) I2C_SR1_ADDR = true ->
     bit_set (reg_read e w 3 STM32_I2C_SR1) I2C_SR1_SB = false ->
     bit_set (reg_read e w 3 STM32_I2C_SR1)
       (Z.lor I2C_SR1_ADDR I2C_SR1_TXE) = true ->
     bit_set (reg_read e w 5 STM32_I2C_SR1) I2C_SR1_SB = false ->
     bit_set (reg_read e w 5 STM32_I2C_SR1)
       (Z.lor I2C_SR1_ADDR I2C_SR1_TXE) = true ->
     exists w' sent,
       run_isr e 4 w = Some (tt, w') /\
       accesses w' = accesses w ++
         sent ++ [ModifyReg STM32_I2C_CR1 I2C_CR1_ACK I2C_CR1_START] /\
       count_if is_stop sent = 0%nat /\
       List.filter is_reg_write sent =
         [ModifyReg STM32_I2C_CR1 I2C_CR1_POS 0;
          ModifyReg STM32_I2C_CR1 0 I2C_CR1_ACK;
          PutReg STM32_I2C_DR (address_byte (mflags m1) m2);
          PutReg STM32_I2C_DR (u16 (w_mem w (buffer m1)));
          PutReg STM32_I2C_DR (u16 (w_mem w (buffer m1 + 1)))] /\
       msg_advance_due (w_priv w') = true /\
       msgv_at e (w_priv w') = Some m2).
Proof.
  split.
  - intros w Hw Hph Hd. split; [|split].
    + intros Hc.
      destruct (write_end_stop e w Hw Hph Hd Hc)
        as (w' & tl & Hrun & Hacc & Htl & Hdc).
      exists w'. eexists. split; [exact Hrun|]. split; [exact Hacc|].
      rewrite !count_if_app.
      destruct (shutdown_access_quiet tl Htl) as (_ & -> & ->).
      repeat split. exact Hdc.
    + intros m' Hc Hm Hfl.
      destruct (write_end_restart e w Hw Hph Hd m' Hc Hm Hfl)
        as (w' & Hrun & Hacc & Hdc & _).
      exists w'. eexists. split; [exact Hrun|]. split; [exact Hacc|].
      repeat split. exact Hdc.
    + intros m' Hc Hm Hrd Hnr.
      destruct (write_end_norestart e w Hw Hph Hd m' Hc Hm Hrd Hnr)
        as (w' & Hrun & Hacc & Hdc & _).
      exists w'. eexists. split; [exact Hrun|]. split; [exact Hacc|].
      repeat split. exact Hdc.
  - intros w k m1 m2 Hw Hd Hc Hv Hm1 Hm2 Hwr Hlen Hrd Hsb1 Hsb2 Haddr2
      Hsb3 Htx3 Hsb4 Htx4.
    destruct (write_then_read_run e w k m1 m2 Hw Hd Hc Hv Hm1 Hm2 Hwr Hlen
                Hrd Hsb1 Hsb2 Haddr2 Hsb3 Htx3 Hsb4 Htx4)
      as (w' & Hrun & Hacc & Hdc & Hmc & Hmv).
    exists w'. eexists. split; [exact Hrun|].
    split.
    { rewrite Hacc. f_equal.
      match goal with
      | |- ?a :: ?b :: ?c :: ?d :: ?f :: ?g :: ?h :: ?i :: ?j :: ?k0 :: ?l
             :: ?n :: ?last = _ =>
          change (a :: b :: c :: d :: f :: g :: h :: i :: j :: k0 :: l
                    :: n :: last)
            with ([a; b; c; d; f; g; h; i; j; k0; l; n] ++ last)
      end.
      reflexivity. }
    split; [reflexivity|]. split; [reflexivity|].
    split; [|exact Hmv].
    unfold msg_advance_due. rewrite Hdc, Hmc. reflexivity.
Qed.

(** The theorem at work: write two bytes to address 0x10, then read three
    bytes from it, on an interrupt-driven build. *)
Lemma write_message_end_witness :
  let m1 := {| addr := 16; mflags := 0; buffer := 2000; length := 2 |} in
  let m2 := {| addr := 16; mflags := 1; buffer := 3000; length := 3 |} in
  let e := {| cfg := cfg_irq; hw := hw_script [1; 2; 0; 128; 0; 128; 0];
              msgs := [m1; m2] |} in
  let w := {| w_priv := priv_armed 2;
              w_mem := fun a => if a =? 2000 then 170
                                else if a =? 2001 then 187 else 0;
              w_nreads := 0; w_nclock := 0; w_log := [] |} in
  (trace_wf e w /\ dcnt (w_priv w) = -1 /\ msgc (w_priv w) = 2 /\
   msgs e !! 0%nat = Some m1 /\ msgs e !! 1%nat = Some m2) /\
  exists w',
    run_isr e 4 w = Some (tt, w') /\
    accesses w' =
      [GetReg STM32_I2C_SR1 1;
       ModifyReg STM32_I2C_CR1 I2C_CR1_POS 0;
       ModifyReg STM32_I2C_CR1 0 I2C_CR1_ACK;
       PutReg STM32_I2C_DR 32;
       GetReg STM32_I2C_SR1 2; GetReg STM32_I2C_SR2 0;
       PutReg STM32_I2C_DR 170;
       GetReg STM32_I2C_SR1 128; GetReg STM32_I2C_SR2 0;
       PutReg STM32_I2C_DR 187;
       GetReg STM32_I2C_SR1 128; GetReg STM32_I2C_SR2 0;
       ModifyReg STM32_I2C_CR1 I2C_CR1_ACK I2C_CR1_START] /\
    msgv_at e (w_priv w') = Some m2.
Proof.
  intros m1 m2 e w.
  assert (Hw : trace_wf e w) by (repeat split; vm_compute; congruence).
  split; [split; [exact Hw | repeat split]|].
  destruct (write_message_end e) as (_ & H).
  destruct (H w 0%nat m1 m2 Hw) as (w' & sent & Hrun & _ & _ & _ & _ & Hmv);
    try reflexivity.
  exists w'. split; [exact Hrun|].
  assert (Hc : run_isr e 4 w = Some (tt, w')) by exact Hrun.
  vm_compute in Hc. injection Hc as <-.
  split; reflexivity.
Defined.

(** C4 as the claim words its third case fails: the write branch with the
    counter at 0 finds a next message that carries the no-restart flag,
    and the engine requests a repeated START, because the message carries
    the read flag too and that flag is tested first. *)
Lemma write_message_end_counterexample :
  let e := {| cfg := cfg_irq; hw := hw_const 128 0;
              msgs := [msg_read_norestart] |} in
  let w := world_of priv_write_done in
  (trace_wf e w /\
   isr_phase e (reg_read e w 0 STM32_I2C_SR1) (w_priv w) = PhaseWrite /\
   dcnt (w_priv w) = 0 /\
   0 < msgc (w_priv w) /\
   msgv_at e (w_priv w) = Some msg_read_norestart /\
   bit_set (mflags msg_read_norestart) I2C_M_NORESTART = true) /\
  ~ (exists w' new,
       stm32_i2c_isr e w = Some (OK, w') /\
       accesses w' = accesses w ++ new /\
       count_if is_start new = 0%nat /\
       count_if is_stop new = 0%nat /\
       dcnt (w_priv w') = -1) /\
  exists w',
    stm32_i2c_isr e w = Some (OK, w') /\
    accesses w' = accesses w ++
      [GetReg STM32_I2C_SR1 128; GetReg STM32_I2C_SR2 0;
       ModifyReg STM32_I2C_CR1 I2C_CR1_ACK I2C_CR1_START] /\
    dcnt (w_priv w') = -1.
Proof.
  intros e w.
  destruct (stm32_i2c_isr e w) as [[r w0]|] eqn:E;
    [|vm_compute in E; discriminate E].
  vm_compute in E. injection E as Hr Hw0.
  split.
  { split; [repeat split; vm_compute; congruence|]. repeat split. }
  split.
  - intros (w' & new & Hrun & Hacc & Hstart & _).
    injection Hrun as _ Hw'. rewrite <- Hw', <- Hw0 in Hacc.
    change (accesses w) with (@nil access) in Hacc.
    cbn [app] in Hacc. rewrite <- Hacc in Hstart.
    vm_compute in Hstart. discriminate Hstart.
  - exists w0. rewrite <- Hr, <- Hw0. repeat split.
Qed.


(** ** C10: the guard of the trace recorder *)

Lemma traceevent_guard_true (event : Z) : traceevent_guard event = true.
Proof.
  unfold traceevent_guard.
  destruct (Z.eqb_spec event I2CEVENT_NONE) as [->|]; reflexivity.
Qed.

Lemma trace_upd_exact (f : stm32_trace_s -> stm32_trace_s) (w : world)
  (old : stm32_trace_s) :
  0 <= tndx (w_priv w) ->
  trace (w_priv w) !! Z.to_nat (tndx (w_priv w)) = Some old ->
  trace_upd f w =
    Some (tt, with_priv w
                (set_trace (<[Z.to_nat (tndx (w_priv w)) := f old]>
                              (trace (w_priv w))) (w_priv w))).
Proof.
  intros Hi Hold. unfold trace_upd, trace_cur, bind, modify.
  replace (tndx (w_priv w) <? 0) with false by (symmetry; apply Z.ltb_ge; lia).
  rewrite Hold. reflexivity.
Qed.

(** C10.  The guard [event != I2CEVENT_NONE || event !=
    I2CEVENT_POLL_DEV_NOT_RDY] is true for every event code, the two named
    ones included; so every call stores event and parameter in the current
    trace entry, and, while the index is below the last entry, advances the
    index and clears the entry it moves to; at the last entry the index
    stays. *)
Theorem traceevent_never_filters (e : env) (event parm : Z) (w : world) :
  trace_wf e w ->
  traceevent_guard (u16 event) = true /\
  traceevent_guard I2CEVENT_NONE = true /\
  traceevent_guard I2CEVENT_POLL_DEV_NOT_RDY = true /\
  exists old w',
    let p := w_priv w in
    let i := Z.to_nat (tndx p) in
    trace p !! i = Some old /\
    stm32_i2c_traceevent e event parm w = Some (tt, w') /\
    trace (w_priv w') !! i =
      Some {| tr_status := tr_status old; tr_count := tr_count old;
              tr_event := u16 event; tr_parm := u32 parm;
              tr_time := tr_time old |} /\
    (tndx p < CONFIG_I2C_NTRACE (cfg e) - 1 ->
       tndx (w_priv w') = tndx p + 1 /\
       trace (w_priv w') !! S i = Some trace_zero) /\
    (CONFIG_I2C_NTRACE (cfg e) - 1 <= tndx p ->
       tndx (w_priv w') = tndx p).
Proof.
  intros Hw. split; [apply traceevent_guard_true|].
  split; [reflexivity|]. split; [reflexivity|].
  destruct Hw as [Hi Hl].
  destruct (lookup_lt_is_Some_2 (trace (w_priv w)) (Z.to_nat (tndx (w_priv w))))
    as [old Hold]; [lia|].
  exists old.
  unfold stm32_i2c_traceevent. rewrite traceevent_guard_true.
  unfold bind at 1.
  rewrite (trace_upd_exact _ w old) by (lia || exact Hold).
  unfold bind at 1.
  erewrite trace_upd_exact;
    [ | simpl; lia | simpl; apply list_lookup_insert_eq; lia ].
  unfold with_priv. simpl.
  unfold bind at 1. unfold gets at 1. simpl.
  destruct (Z.geb_spec (tndx (w_priv w)) (CONFIG_I2C_NTRACE (cfg e) - 1))
    as [Hge|Hlt].
  - eexists. split; [exact Hold|]. split; [reflexivity|]. simpl.
    split; [|split].
    + rewrite list_lookup_insert_eq; [reflexivity|].
      rewrite length_insert. lia.
    + intros H. lia.
    + intros _. reflexivity.
  - unfold bind at 1. unfold modify at 1. simpl.
    unfold stm32_i2c_traceclear.
    assert (Hn : Z.to_nat (tndx (w_priv w) + 1) = S (Z.to_nat (tndx (w_priv w))))
      by lia.
    match goal with
    | |- context [trace_upd ?f ?W] =>
        destruct (lookup_lt_is_Some_2 (trace (w_priv W))
                    (Z.to_nat (tndx (w_priv W)))) as [nxt Hnxt];
        [ simpl; rewrite !length_insert; lia
        | rewrite (trace_upd_exact f W nxt) by (simpl; lia || exact Hnxt) ]
    end.
    unfold with_priv. simpl. rewrite Hn.
    eexists. split; [exact Hold|]. split; [reflexivity|]. simpl.
    split; [|split].
    + rewrite list_lookup_insert_ne by lia.
      rewrite list_lookup_insert_eq; [reflexivity|].
      rewrite length_insert. lia.
    + intros _. split; [reflexivity|].
      rewrite list_lookup_insert_eq; [reflexivity|].
      rewrite !length_insert. lia.
    + intros H. lia.
Qed.

(** The theorem at work: tracing the code "none" into an empty table. *)
Lemma traceevent_never_filters_witness :
  let e := {| cfg := cfg_polled; hw := hw_const 0 0; msgs := [] |} in
  let w := world_of priv_idle in
  trace_wf e w /\
  exists w',
    stm32_i2c_traceevent e I2CEVENT_NONE 7 w = Some (tt, w') /\
    trace (w_priv w') !! 0%nat =
      Some {| tr_status := 0; tr_count := 0; tr_event := 0; tr_parm := 7;
              tr_time := 0 |} /\
    tndx (w_priv w') = 1.
Proof.
  intros e w.
  assert (Hw : trace_wf e w) by (repeat split; vm_compute; congruence).
  split; [exact Hw|].
  destruct (traceevent_never_filters e I2CEVENT_NONE 7 w Hw)
    as (_ & _ & _ & old & w' & Hold & Hrun & Hent & Hadv & _).
  exists w'. split; [exact Hrun|].
  assert (Hc : stm32_i2c_traceevent e I2CEVENT_NONE 7 w = Some (tt, w'))
    by exact Hrun.
  vm_compute in Hc. injection Hc as <-.
  split; reflexivity.
Defined.

(** ** C8: the next message has an unrecognized flag *)




(** ** Frame rules *)

Section Frame.

Variable e : env.
Variable F : world -> world -> Prop.
Hypothesis F_refl : forall w, F w w.
Hypothesis F_trans : forall w1 w2 w3, F w1 w2 -> F w2 w3 -> F w1 w3.
Hypothesis F_retrace : forall w i t n, F w (retrace w i t n).

Lemma pres_ret {A : Type} (a : A) : preserves (under_wf e F) (ret a).
Proof.
  intros w a' w' H Hw. inversion H; subst. split; [exact Hw | apply F_refl].
Qed.

Lemma pres_fail {A : Type} : preserves (under_wf e F) (@fail A).
Proof. intros w a w' H. discriminate H. Qed.

Lemma pres_bind {A B : Type} (m : M A) (k : A -> M B) :
  preserves (under_wf e F) m ->
  (forall a, preserves (under_wf e F) (k a)) ->
  preserves (under_wf e F) (bind m k).
Proof.
  intros Hm Hk w b w' H Hw. unfold bind in H.
  destruct (m w) as [[a w1]|] eqn:Em; [|discriminate].
  destruct (Hm w a w1 Em Hw) as [Hw1 F1].
  destruct (Hk a w1 b w' H Hw1) as [Hw' F2].
  split; [exact Hw' | exact (F_trans _ _ _ F1 F2)].
Qed.

(** A step that leaves the trace alone. *)
Lemma pres_prim {A : Type} (m : M A) :
  (forall w a w', m w = Some (a, w') ->
     tndx (w_priv w') = tndx (w_priv w) /\
     trace (w_priv w') = trace (w_priv w) /\ F w w') ->
  preserves (under_wf e F) m.
Proof.
  intros Hm w a w' H Hw. destruct (Hm w a w' H) as (Hi & Ht & HF).
  split; [|exact HF]. unfold trace_wf. rewrite Hi, Ht. exact Hw.
Qed.

Lemma pres_trace_only (m : M unit) :
  trace_only e m -> preserves (under_wf e F) m.
Proof.
  intros Hm w a w' H Hw. destruct (Hm w Hw) as (i & t & n & Heq & Hok).
  rewrite Heq in H. inversion H; subst.
  split; [exact Hok | apply F_retrace].
Qed.

Lemma pres_traceevent (event parm : Z) :
  preserves (under_wf e F) (stm32_i2c_traceevent e event parm).
Proof. apply pres_trace_only, trace_only_traceevent. Qed.

Lemma pres_tracenew (status16 : Z) :
  preserves (under_wf e F) (stm32_i2c_tracenew e status16).
Proof. apply pres_trace_only, trace_only_tracenew. Qed.

Lemma pres_deref_msgv : preserves (under_wf e F) (deref_msgv e).
Proof.
  intros w a w' H Hw. unfold deref_msgv in H.
  destruct (msgv (w_priv w)); [|discriminate].
  destruct (msgs e !! n); [|discriminate].
  inversion H; subst. split; [exact Hw | apply F_refl].
Qed.

Lemma pres_gets {A : Type} (f : stm32_i2c_priv_s -> A) :
  preserves (under_wf e F) (gets f).
Proof.
  intros w a w' H Hw. inversion H; subst. split; [exact Hw | apply F_refl].
Qed.

Lemma pres_load (a : Z) : preserves (under_wf e F) (load a).
Proof.
  intros w v w' H Hw. inversion H; subst. split; [exact Hw | apply F_refl].
Qed.

End Frame.

(** Proves that a primitive step keeps the trace and a frame that
    [simpl] decides. *)
Ltac prim_step :=
  apply pres_prim;
  let w := fresh "w" in
  let a := fresh "a" in
  let w' := fresh "w'" in
  let H := fresh "H" in
  intros w a w' H;
  unfold modify, emit, stm32_i2c_getreg, stm32_i2c_putreg,
    stm32_i2c_modifyreg, stm32_i2c_sendstop, stm32_i2c_sendstart,
    stm32_i2c_clrstart, store, clock_systimer, dcnt_decr in H;
  inversion H; subst; clear H; simpl.

(** Walks through straight-line monadic code, leaving one goal for each
    primitive step that changes the state. *)
Ltac pres_walk Hrefl Htrans Hretrace :=
  repeat lazymatch goal with
    | |- preserves _ (ret _) => apply (pres_ret _ _ Hrefl)
    | |- preserves _ fail => apply pres_fail
    | |- preserves _ (stm32_i2c_traceevent _ _ _) =>
        apply (pres_traceevent _ _ Hretrace)
    | |- preserves _ (stm32_i2c_tracenew _ _) =>
        apply (pres_tracenew _ _ Hretrace)
    | |- preserves _ (deref_msgv _) => apply (pres_deref_msgv _ _ Hrefl)
    | |- preserves _ (gets _) => apply (pres_gets _ _ Hrefl)
    | |- preserves _ (load _) => apply (pres_load _ _ Hrefl)
    | |- preserves _ (bind _ _) =>
        apply (pres_bind _ _ Htrans); [ | intros ?; cbv beta ]
    | |- preserves _ (if ?b then _ else _) => destruct b
    | |- preserves _ (match ?x with _ => _ end) => destruct x
    | |- preserves _ (when _ _) => unfold when
    | |- preserves _ (let _ := _ in _) => cbv zeta
    end.

(** ** The handshake: when the engine reports completion *)

Lemma same_intstate_refl (w : world) : same_intstate w w.
Proof. reflexivity. Qed.

Lemma same_intstate_trans (w1 w2 w3 : world) :
  same_intstate w1 w2 -> same_intstate w2 w3 -> same_intstate w1 w3.
Proof. unfold same_intstate. intros H1 H2. congruence. Qed.

Lemma same_intstate_retrace (w : world) (i : Z) (t : list stm32_trace_s)
  (n : nat) : same_intstate w (retrace w i t n).
Proof. reflexivity. Qed.

Lemma isr_split (e : env) (w : world) :
  stm32_i2c_isr e w =
  (isr_before_shutdown e ;; isr_shutdown e ;; ret OK) w.
Proof.
  unfold stm32_i2c_isr, isr_before_shutdown, bind.
  repeat match goal with
         | |- context [match ?x with Some _ => _ | None => _ end] =>
             lazymatch x with
             | context [match _ with Some _ => _ | None => _ end] => fail
             | _ => destruct x as [[? ?]|]
             end
         end; reflexivity.
Qed.

Ltac intstate_walk :=
  pres_walk same_intstate_refl same_intstate_trans same_intstate_retrace;
  try (prim_step; repeat split).

Lemma isr_msg_handling_intstate (e : env) :
  preserves (under_wf e same_intstate) (isr_msg_handling e).
Proof. unfold isr_msg_handling. intstate_walk. Qed.

Lemma isr_address_handling_intstate (e : env) :
  preserves (under_wf e same_intstate) (isr_address_handling e).
Proof. unfold isr_address_handling. intstate_walk. Qed.

Lemma isr_address_nacked_intstate (e : env) :
  preserves (under_wf e same_intstate) (isr_address_nacked e).
Proof. unfold isr_address_nacked. intstate_walk. Qed.

Lemma isr_address_acked_read_intstate (e : env) :
  preserves (under_wf e same_intstate) (isr_address_acked_read e).
Proof. unfold isr_address_acked_read. intstate_walk. Qed.

Lemma isr_write_mode_intstate (e : env) :
  preserves (under_wf e same_intstate) (isr_write_mode e).
Proof. unfold isr_write_mode. intstate_walk. Qed.

Lemma isr_read_mode_intstate (e : env) (st : Z) :
  preserves (under_wf e same_intstate) (isr_read_mode e st).
Proof. unfold isr_read_mode, read_dr_to_buffer. intstate_walk. Qed.

Lemma isr_empty_call_intstate (e : env) :
  preserves (under_wf e same_intstate) (isr_empty_call e).
Proof. unfold isr_empty_call. intstate_walk. Qed.

Lemma isr_state_error_intstate (e : env) :
  preserves (under_wf e same_intstate) (isr_state_error e).
Proof. unfold isr_state_error. intstate_walk. Qed.

Lemma isr_protocol_intstate (e : env) (st : Z) :
  preserves (under_wf e same_intstate) (isr_protocol e st).
Proof.
  unfold isr_protocol.
  apply (pres_bind _ _ same_intstate_trans);
    [apply (pres_gets _ _ same_intstate_refl)|].
  intros p. destruct (isr_phase e st p).
  - apply isr_address_handling_intstate.
  - apply isr_address_nacked_intstate.
  - apply isr_address_acked_read_intstate.
  - apply isr_write_mode_intstate.
  - apply isr_read_mode_intstate.
  - apply isr_empty_call_intstate.
  - apply isr_state_error_intstate.
Qed.

(** Everything before the termination step leaves the handshake state
    alone and keeps the trace table in shape. *)
Lemma isr_before_shutdown_intstate (e : env) :
  preserves (under_wf e same_intstate) (isr_before_shutdown e).
Proof.
  unfold isr_before_shutdown.
  apply (pres_bind _ _ same_intstate_trans); [prim_step; repeat split|].
  intros st.
  apply (pres_bind _ _ same_intstate_trans); [prim_step; repeat split|].
  intros _.
  apply (pres_bind _ _ same_intstate_trans);
    [apply (pres_tracenew _ _ same_intstate_retrace)|].
  intros _.
  apply (pres_bind _ _ same_intstate_trans);
    [apply (pres_traceevent _ _ same_intstate_retrace)|].
  intros _.
  apply (pres_bind _ _ same_intstate_trans);
    [apply isr_msg_handling_intstate|].
  intros _. apply isr_protocol_intstate.
Qed.

Lemma isr_termination (e : env) (w w' : world) (r : Z) :
  trace_wf e w ->
  stm32_i2c_isr e w = Some (r, w') ->
  r = OK /\ trace_wf e w' /\
  (transfer_finished (w_priv w') = false ->
     intstate (w_priv w') = intstate (w_priv w)) /\
  (transfer_finished (w_priv w') = true ->
     msgv (w_priv w') = None /\
     (CONFIG_I2C_POLLED (cfg e) = true ->
        intstate (w_priv w') = INTSTATE_DONE) /\
     (CONFIG_I2C_POLLED (cfg e) = false ->
        (intstate (w_priv w) = INTSTATE_WAITING ->
           intstate (w_priv w') = INTSTATE_DONE) /\
        (intstate (w_priv w) <> INTSTATE_WAITING ->
           intstate (w_priv w') = intstate (w_priv w)))).
Proof.
  intros Hw Hrun. rewrite isr_split in Hrun. unfold bind in Hrun.
  destruct (isr_before_shutdown e w) as [[u w1]|] eqn:E1; [|discriminate].
  destruct (isr_before_shutdown_intstate e w u w1 E1 Hw) as [Hw1 Hint].
  destruct (isr_shutdown_run e w1 Hw1)
    as (w2 & tl & Hsd & _ & _ & Hsame & Hw2 & Hnot & Hfin).
  rewrite Hsd in Hrun. inversion Hrun; subst. clear Hrun.
  split; [reflexivity|]. split; [exact Hw2|].
  destruct Hsame as (Hd & Hc & _).
  assert (Hfeq : transfer_finished (w_priv w') = transfer_finished (w_priv w1)).
  { unfold transfer_finished. rewrite Hd, Hc. reflexivity. }
  rewrite Hfeq. unfold same_intstate in Hint. split.
  - intros Hf. destruct (Hnot Hf) as [-> _]. exact Hint.
  - intros Hf. destruct (Hfin Hf) as (Hv & Hp & Hi).
    split; [exact Hv|]. split.
    + intros Hpoll. apply (Hp Hpoll).
    + intros Hirq. destruct (Hi Hirq) as (Ha & Hb & _).
      rewrite <- Hint. split; [exact Ha|].
      intros Hne. rewrite (Hb Hne). reflexivity.
Qed.

(** X1.  Whenever an invocation of the engine returns, it returns OK and
    the trace table is still in shape.  If the session is not finished
    afterwards (counter -1 and no message left), the handshake state is
    what it was.  If it is finished, the message pointer is NULL; a polled
    build has set the handshake state to DONE; an interrupt-driven build
    has set it to DONE if it was WAITING and has left it alone otherwise. *)
Theorem isr_handshake (e : env) (w w' : world) (r : Z) :
  trace_wf e w ->
  stm32_i2c_isr e w = Some (r, w') ->
  r = OK /\ trace_wf e w' /\
  (transfer_finished (w_priv w') = false ->
     intstate (w_priv w') = intstate (w_priv w)) /\
  (transfer_finished (w_priv w') = true ->
     msgv (w_priv w') = None /\
     (CONFIG_I2C_POLLED (cfg e) = true ->
        intstate (w_priv w') = INTSTATE_DONE) /\
     (CONFIG_I2C_POLLED (cfg e) = false ->
        (intstate (w_priv w) = INTSTATE_WAITING ->
           intstate (w_priv w') = INTSTATE_DONE) /\
        (intstate (w_priv w) <> INTSTATE_WAITING ->
           intstate (w_priv w') = intstate (w_priv w)))).
Proof. exact (isr_termination e w w' r). Qed.

(** The theorem at work: the last invocation of a two-byte read on a
    polled build. *)
Lemma isr_handshake_witness :
  let e := {| cfg := cfg_polled; hw := hw_const 68 171; msgs := [] |} in
  let w := world_of (priv_reading 2 2) in
  trace_wf e w /\
  exists w',
    stm32_i2c_isr e w = Some (OK, w') /\
    transfer_finished (w_priv w') = true /\
    msgv (w_priv w') = None /\
    intstate (w_priv w') = INTSTATE_DONE.
Proof.
  intros e w.
  assert (Hw : trace_wf e w) by (repeat split; vm_compute; congruence).
  split; [exact Hw|].
  destruct (stm32_i2c_isr e w) as [[r w']|] eqn:E;
    [|vm_compute in E; discriminate E].
  destruct (isr_handshake e w w' r Hw E) as (-> & _ & _ & Hfin).
  exists w'. split; [reflexivity|].
  assert (Hf : transfer_finished (w_priv w') = true).
  { vm_compute in E. injection E as <-. reflexivity. }
  destruct (Hfin Hf) as (Hv & Hp & _).
  split; [exact Hf|]. split; [exact Hv|]. apply Hp. reflexivity.
Defined.

(** ** The polled completion wait *)

Lemma bind_Some {A B : Type} (m : M A) (k : A -> M B) (w w' : world) (b : B) :
  bind m k w = Some (b, w') ->
  exists a w1, m w = Some (a, w1) /\ k a w1 = Some (b, w').
Proof.
  unfold bind. destruct (m w) as [[a w1]|]; [|discriminate].
  intros H. exists a, w1. split; [reflexivity | exact H].
Qed.

Lemma waitdone_loop_exit (e : env) (fuel : nat) (start timeout : Z) :
  forall w w',
    trace_wf e w ->
    intstate (w_priv w) <> INTSTATE_DONE ->
    waitdone_loop e fuel start timeout w = Some (tt, w') ->
    trace_wf e w' /\
    (intstate (w_priv w') = INTSTATE_DONE ->
       transfer_finished (w_priv w') = true /\ msgv (w_priv w') = None) /\
    (intstate (w_priv w') <> INTSTATE_DONE ->
       timeout <= u32 (last_clock e w' - start)).
Proof.
  induction fuel as [|fuel IH]; intros w w' Hw Hnd Hrun; [discriminate|].
  simpl in Hrun.
  apply bind_Some in Hrun as (r & w1 & Hisr & Hrun).
  destruct (isr_termination e w w1 r Hw Hisr) as (_ & Hw1 & Hnf & Hf).
  unfold bind, clock_systimer, gets in Hrun. simpl in Hrun.
  destruct (negb (intstate_eqb (intstate (w_priv w1)) INTSTATE_DONE) &&
            (u32 (u32 (hw_clock (hw e) (w_nclock w1)) - start) <? timeout))
    eqn:Hc.
  - apply andb_prop in Hc as [Hc1 Hc2].
    apply IH in Hrun; [exact Hrun | exact Hw1 |].
    simpl. intros Heq. rewrite Heq in Hc1. discriminate.
  - inversion Hrun; subst. clear Hrun. simpl.
    split; [exact Hw1|]. split.
    + intros Hd.
      destruct (transfer_finished (w_priv w1)) eqn:Hfin.
      * split; [reflexivity|]. apply (Hf eq_refl).
      * rewrite (Hnf eq_refl) in Hd. contradiction.
    + intros Hnd1. unfold last_clock. simpl.
      apply andb_false_iff in Hc as [Hc|Hc].
      * destruct (intstate (w_priv w1)); simpl in Hc;
          try discriminate. contradiction.
      * apply Z.ltb_ge in Hc. exact Hc.
Qed.

Lemma sem_waitdone_returns (e : env) (fuel : nat) (w w' : world) (r : Z) :
  CONFIG_I2C_POLLED (cfg e) = true ->
  trace_wf e w ->
  stm32_i2c_sem_waitdone e fuel w = Some (r, w') ->
  trace_wf e w' /\
  intstate (w_priv w') = INTSTATE_IDLE /\
  ((r = OK /\ dcnt (w_priv w') = -1 /\ msgc (w_priv w') = 0 /\
    msgv (w_priv w') = None) \/
   (r = - ETIMEDOUT /\
    CONFIG_STM32_I2CTIMEOTICKS (cfg e) <=
      u32 (last_clock e w' - u32 (hw_clock (hw e) (w_nclock w))))).
Proof.
  intros Hpoll Hw Hrun. unfold stm32_i2c_sem_waitdone in Hrun.
  rewrite Hpoll in Hrun. unfold sem_waitdone_polled in Hrun.
  unfold bind at 1 in Hrun. unfold modify at 1 in Hrun.
  unfold bind at 1 in Hrun. unfold clock_systimer at 1 in Hrun.
  simpl in Hrun.
  apply bind_Some in Hrun as ([] & w1 & Hloop & Hrun).
  apply waitdone_loop_exit in Hloop as (Hw1 & Hdone & Htime);
    [ | exact Hw | simpl; discriminate ].
  unfold bind, gets, modify, ret in Hrun. simpl in Hrun.
  inversion Hrun; subst. clear Hrun. simpl.
  split; [exact Hw1|]. split; [reflexivity|].
  destruct (intstate (w_priv w1)) eqn:Hs; simpl.
  - right. split; [reflexivity|].
    unfold last_clock in *. simpl. apply Htime. discriminate.
  - right. split; [reflexivity|].
    unfold last_clock in *. simpl. apply Htime. discriminate.
  - left. destruct (Hdone eq_refl) as (Hfin & Hv).
    unfold transfer_finished in Hfin. apply andb_prop in Hfin as [Hd Hc].
    apply Z.eqb_eq in Hd. apply Z.eqb_eq in Hc.
    repeat split; assumption.
Qed.

(** X2.  The polled wait for completion, when it returns, returns OK or
    -ETIMEDOUT and has put the handshake state back to IDLE.  It returns
    OK only with the session finished: counter -1, no message left, message
    pointer NULL.  It returns -ETIMEDOUT only when the last timer reading
    is at least the timeout after the first. *)
Theorem sem_waitdone_result (e : env) (fuel : nat) (w w' : world) (r : Z) :
  CONFIG_I2C_POLLED (cfg e) = true ->
  trace_wf e w ->
  stm32_i2c_sem_waitdone e fuel w = Some (r, w') ->
  trace_wf e w' /\
  intstate (w_priv w') = INTSTATE_IDLE /\
  ((r = OK /\ dcnt (w_priv w') = -1 /\ msgc (w_priv w') = 0 /\
    msgv (w_priv w') = None) \/
   (r = - ETIMEDOUT /\
    CONFIG_STM32_I2CTIMEOTICKS (cfg e) <=
      u32 (last_clock e w' - u32 (hw_clock (hw e) (w_nclock w))))).
Proof. exact (sem_waitdone_returns e fuel w w' r). Qed.

(** The theorem at work: a one-byte read that the hardware completes in
    three polls. *)
Lemma sem_waitdone_result_witness :
  let e := {| cfg := cfg_polled; hw := hw_script [1; 2; 0; 64; 90; 0];
              msgs := [msg_read_one] |} in
  let w := world_of (priv_armed 1) in
  (CONFIG_I2C_POLLED (cfg e) = true /\ trace_wf e w) /\
  exists w',
    stm32_i2c_sem_waitdone e 10 w = Some (OK, w') /\
    intstate (w_priv w') = INTSTATE_IDLE /\
    dcnt (w_priv w') = -1 /\ msgc (w_priv w') = 0 /\
    w_mem w' 1000 = 90.
Proof.
  intros e w.
  assert (Hw : trace_wf e w) by (repeat split; vm_compute; congruence).
  split; [split; [reflexivity | exact Hw]|].
  destruct (stm32_i2c_sem_waitdone e 10 w) as [[r w']|] eqn:E;
    [|vm_compute in E; discriminate E].
  destruct (sem_waitdone_result e 10 w w' r eq_refl Hw E) as (_ & Hi & Hr).
  vm_compute in E. injection E as Hr' Hw'.
  exists w'. rewrite <- Hr'. split; [reflexivity|]. split; [exact Hi|].
  rewrite <- Hw'. repeat split.
Defined.

(** ** The status classification of [stm32_i2c_process] *)

Lemma bit_set_lor (v a b : Z) :
  bit_set v (Z.lor a b) = bit_set v a || bit_set v b.
Proof.
  unfold bit_set. rewrite Z.land_lor_distr_r.
  destruct (Z.eqb_spec (Z.land v a) 0) as [Ha|Ha];
    destruct (Z.eqb_spec (Z.land v b) 0) as [Hb|Hb]; simpl.
  - rewrite Ha, Hb. reflexivity.
  - apply negb_true_iff, Z.eqb_neq. intros H.
    apply Z.lor_eq_0_iff in H as [_ H]. contradiction.
  - apply negb_true_iff, Z.eqb_neq. intros H.
    apply Z.lor_eq_0_iff in H as [H _]. contradiction.
  - apply negb_true_iff, Z.eqb_neq. intros H.
    apply Z.lor_eq_0_iff in H as [H _]. contradiction.
Qed.

(** Masking to 16 bits keeps the bits inside the mask. *)
Lemma bit_set_low16 (v m : Z) :
  Z.land 65535 m = m -> bit_set (Z.land v 65535) m = bit_set v m.
Proof.
  intros Hm. unfold bit_set. rewrite <- Z.land_assoc, Hm. reflexivity.
Qed.

(** ... and clears the bits outside it. *)
Lemma bit_set_high16 (v m : Z) :
  Z.land 65535 m = 0 -> bit_set (Z.land v 65535) m = false.
Proof.
  intros Hm. unfold bit_set. rewrite <- Z.land_assoc, Hm, Z.land_0_r.
  reflexivity.
Qed.

Lemma classify_masked (st : Z) (timed_out : bool) :
  classify_status (if timed_out then ETIMEDOUT else 0) (Z.land st 65535) =
  error_of_status st timed_out.
Proof.
  unfold classify_status, error_of_status, I2C_SR1_ERRORMASK.
  rewrite !bit_set_lor.
  rewrite !bit_set_low16 by reflexivity.
  rewrite bit_set_high16 by reflexivity.
  destruct (bit_set st I2C_SR1_BERR), (bit_set st I2C_SR1_ARLO),
    (bit_set st I2C_SR1_AF), (bit_set st I2C_SR1_OVR),
    (bit_set st I2C_SR1_PECERR), (bit_set st I2C_SR1_TIMEOUT),
    (bit_set st I2C_SR1_SMBALERT); reflexivity.
Qed.

Lemma process_finish_returns (e : env) (waitdone : Z) (w : world) :
  let timed_out := waitdone <? 0 in
  exists w',
    process_finish e waitdone w =
      Some (- error_of_status (status (w_priv w)) timed_out, w') /\
    w_priv w' = w_priv w /\
    w_mem w' = w_mem w /\
    accesses w' = accesses w ++ recovery_accesses e w timed_out /\
    error_of_status (status (w_priv w)) timed_out <> EBUSY.
Proof.
  intros timed_out. unfold process_finish, recovery_accesses.
  fold timed_out.
  assert (Hnb : error_of_status (status (w_priv w)) timed_out <> EBUSY).
  { unfold error_of_status. set (st := status (w_priv w)).
    destruct (bit_set st I2C_SR1_BERR), (bit_set st I2C_SR1_ARLO),
      (bit_set st I2C_SR1_AF), (bit_set st I2C_SR1_OVR),
      (bit_set st I2C_SR1_PECERR), (bit_set st I2C_SR1_TIMEOUT),
      (bit_set st I2C_SR1_SMBALERT), timed_out; discriminate. }
  destruct timed_out eqn:Ht.
  - destruct (CONFIG_I2C_POLLED (cfg e)) eqn:Hp;
      unfold stm32_i2c_getstatus, stm32_i2c_clrstart, when, clock_systimer;
      run_code;
      rewrite (classify_masked (status (w_priv w)) true);
      (eexists; split; [reflexivity|]);
      (split; [reflexivity|]); (split; [reflexivity|]);
      (split; [accesses_now | exact Hnb]).
  - unfold clock_systimer. run_code.
    rewrite (classify_masked (status (w_priv w)) false).
    eexists. split; [reflexivity|].
    split; [reflexivity|]. split; [reflexivity|].
    split; [symmetry; apply app_nil_r | exact Hnb].
Qed.

(** X3.  What [stm32_i2c_process] returns once the wait is over: the
    negated error number read off the status word the engine stored last,
    in the order bus error, arbitration lost, acknowledge failure, overrun,
    PEC error, timeout, SMBus alert; with none of these bits set,
    -ETIMEDOUT if the wait failed and 0 otherwise.  The bus-busy test is
    applied to the status masked to 16 bits, so EBUSY is never the
    result.  After a failed wait the START, STOP and PEC requests are
    cleared (and a polled build requests STOP); the session and memory are
    left alone. *)
Theorem process_finish_result (e : env) (waitdone : Z) (w : world) :
  let timed_out := waitdone <? 0 in
  exists w',
    process_finish e waitdone w =
      Some (- error_of_status (status (w_priv w)) timed_out, w') /\
    w_priv w' = w_priv w /\
    w_mem w' = w_mem w /\
    accesses w' = accesses w ++ recovery_accesses e w timed_out /\
    error_of_status (status (w_priv w)) timed_out <> EBUSY.
Proof. exact (process_finish_returns e waitdone w). Qed.

(** ** Waiting for STOP *)

Lemma waitstop_loop_frame (e : env) (fuel : nat) (start timeout : Z) :
  forall w w',
    waitstop_loop e fuel start timeout w = Some (tt, w') ->
    w_priv w' = w_priv w /\ w_mem w' = w_mem w /\ only_reads w w'.
Proof.
  induction fuel as [|fuel IH]; intros w w' Hrun; [discriminate|].
  simpl in Hrun.
  apply bind_Some in Hrun as (cr1 & w1 & H1 & Hrun).
  unfold stm32_i2c_getreg in H1. inversion H1; subst cr1 w1; clear H1.
  destruct (negb (bit_set (u16 (hw_reg (hw e) (w_nreads w) STM32_I2C_CR1))
                    I2C_CR1_STOP)).
  { inversion Hrun; subst. simpl. repeat split.
    eexists. split; [accesses_now | reflexivity]. }
  apply bind_Some in Hrun as (sr1 & w2 & H2 & Hrun).
  unfold stm32_i2c_getreg in H2. simpl in H2.
  inversion H2; subst sr1 w2; clear H2.
  destruct (bit_set (u16 (hw_reg (hw e) (S (w_nreads w)) STM32_I2C_SR1))
              I2C_SR1_TIMEOUT).
  { inversion Hrun; subst. simpl. repeat split.
    eexists. split; [accesses_now | reflexivity]. }
  apply bind_Some in Hrun as (now & w3 & H3 & Hrun).
  unfold clock_systimer in H3. simpl in H3.
  inversion H3; subst now w3; clear H3.
  destruct (u32 (u32 (hw_clock (hw e) (w_nclock w)) - start) <? timeout).
  - apply IH in Hrun as (Hp & Hm & new & Hacc & Hcnt). simpl in *.
    repeat split; try assumption.
    exists ([GetReg STM32_I2C_CR1
               (u16 (hw_reg (hw e) (w_nreads w) STM32_I2C_CR1));
             GetReg STM32_I2C_SR1
               (u16 (hw_reg (hw e) (S (w_nreads w)) STM32_I2C_SR1))] ++ new).
    split.
    + rewrite Hacc. unfold accesses. simpl. rewrite <- !app_assoc.
      reflexivity.
    + rewrite count_if_app, Hcnt. reflexivity.
  - inversion Hrun; subst. simpl. repeat split.
    eexists. split; [accesses_now | reflexivity].
Qed.

Lemma sem_waitstop_returns (e : env) (fuel : nat) (w : world) :
  (forall w',
     stm32_i2c_sem_waitstop e fuel w = Some (tt, w') ->
     w_priv w' = w_priv w /\ w_mem w' = w_mem w /\ only_reads w w') /\
  (bit_set (reg_read e w 0 STM32_I2C_CR1) I2C_CR1_STOP = false ->
   (0 < fuel)%nat ->
   exists w',
     stm32_i2c_sem_waitstop e fuel w = Some (tt, w') /\
     accesses w' = accesses w ++
       [GetReg STM32_I2C_CR1 (reg_read e w 0 STM32_I2C_CR1)]).
Proof.
  split.
  - intros w' Hrun. unfold stm32_i2c_sem_waitstop in Hrun.
    unfold bind at 1 in Hrun. unfold clock_systimer at 1 in Hrun.
    apply waitstop_loop_frame in Hrun as (Hp & Hm & new & Hacc & Hcnt).
    simpl in *. repeat split; try assumption.
    exists new. split; [exact Hacc | exact Hcnt].
  - intros Hstop Hfuel. destruct fuel as [|fuel]; [lia|].
    unfold stm32_i2c_sem_waitstop, bind, clock_systimer. simpl.
    unfold bind, stm32_i2c_getreg. simpl.
    unfold reg_read in Hstop. simpl in Hstop. rewrite Hstop. simpl.
    eexists. split; [reflexivity|]. accesses_now.
Qed.

(** X4.  The wait for STOP, whenever it returns, has left the session and
    memory as they were and has written no register.  When the first read
    of CR1 shows the STOP bit clear, it returns after that one read. *)
Theorem sem_waitstop_frame (e : env) (fuel : nat) (w : world) :
  (forall w',
     stm32_i2c_sem_waitstop e fuel w = Some (tt, w') ->
     w_priv w' = w_priv w /\ w_mem w' = w_mem w /\ only_reads w w') /\
  (bit_set (reg_read e w 0 STM32_I2C_CR1) I2C_CR1_STOP = false ->
   (0 < fuel)%nat ->
   exists w',
     stm32_i2c_sem_waitstop e fuel w = Some (tt, w') /\
     accesses w' = accesses w ++
       [GetReg STM32_I2C_CR1 (reg_read e w 0 STM32_I2C_CR1)]).
Proof. exact (sem_waitstop_returns e fuel w). Qed.

(** The theorem at work: STOP is not pending. *)
Lemma sem_waitstop_frame_witness :
  let e := {| cfg := cfg_polled; hw := hw_script [0]; msgs := [] |} in
  let w := world_of priv_idle in
  (bit_set (reg_read e w 0 STM32_I2C_CR1) I2C_CR1_STOP = false /\
   (0 < 1)%nat) /\
  exists w',
    stm32_i2c_sem_waitstop e 1 w = Some (tt, w') /\
    accesses w' = [GetReg STM32_I2C_CR1 0] /\
    w_priv w' = w_priv w.
Proof.
  intros e w.
  assert (H1 : bit_set (reg_read e w 0 STM32_I2C_CR1) I2C_CR1_STOP = false)
    by reflexivity.
  assert (H2 : (0 < 1)%nat) by lia.
  split; [split; assumption|].
  destruct (sem_waitstop_frame e 1 w) as (Hframe & Hfast).
  destruct (Hfast H1 H2) as (w' & Hrun & Hacc).
  exists w'. split; [exact Hrun|]. split; [exact Hacc|].
  apply (Hframe w' Hrun).
Defined.

(** ** The clock configurator *)

Lemma u16_small (x : Z) : 0 <= x < 65536 -> u16 x = x.
Proof. intros H. unfold u16. apply Z.mod_small. exact H. Qed.
Lemma u32_small (x : Z) : 0 <= x < 4294967296 -> u32 x = x.
Proof. intros H. unfold u32. apply Z.mod_small. exact H. Qed.
Lemma u16_range (x : Z) : 0 <= u16 x < 65536.
Proof. unfold u16. apply Z.mod_pos_bound. lia. Qed.
Lemma u16_idem (x : Z) : u16 (u16 x) = u16 x.
Proof. apply u16_small, u16_range. Qed.

Lemma lor_high_bit (n x : Z) :
  0 <= n -> 0 <= x < 2 ^ n -> Z.lor (2 ^ n) x = 2 ^ n + x.
Proof.
  intros Hn Hx.
  assert (Hland : Z.land (2 ^ n) x = 0).
  { apply Z.bits_inj'. intros j Hj. rewrite Z.land_spec, Z.bits_0.
    rewrite Z.pow2_bits_eqb by lia.
    destruct (Z.eqb_spec n j) as [<-|]; [|reflexivity]. simpl.
    rewrite <- (Z.mod_small x (2 ^ n)) by lia.
    apply Z.mod_pow2_bits_high. lia. }
  rewrite <- Z.lxor_lor by exact Hland.
  symmetry. apply Z.add_nocarry_lxor. exact Hland.
Qed.

Lemma setclock_returns (e : env) (f : Z) (w : world) :
  let cr1 := reg_read e w 0 STM32_I2C_CR1 in
  (forall w',
     stm32_i2c_setclock e f w = Some (tt, w') ->
     w_priv w' = w_priv w /\ w_mem w' = w_mem w /\
     exists ccr trise,
       accesses w' = accesses w ++
         [GetReg STM32_I2C_CR1 cr1;
          PutReg STM32_I2C_CR1 (u16 (Z.land cr1 (Z.lnot I2C_CR1_PE)));
          PutReg STM32_I2C_CCR ccr;
          PutReg STM32_I2C_TRISE trise;
          PutReg STM32_I2C_OAR1 I2C_OAR1_ONE;
          PutReg STM32_I2C_CR1 cr1]) /\
  stm32_i2c_setclock e 0 w = None.
Proof.
  intros cr1. split.
  - intros w' Hrun. unfold stm32_i2c_setclock in Hrun.
    apply bind_Some in Hrun as (c & w1 & H1 & Hrun).
    unfold stm32_i2c_getreg in H1. inversion H1; subst c w1; clear H1.
    apply bind_Some in Hrun as ([] & w2 & H2 & Hrun).
    unfold stm32_i2c_putreg, emit in H2. simpl in H2.
    inversion H2; subst w2; clear H2.
    apply bind_Some in Hrun as ([ccr trise] & w3 & H3 & Hrun).
    assert (Hw3 : w3 = {| w_priv := w_priv w; w_mem := w_mem w;
                          w_nreads := S (w_nreads w);
                          w_nclock := w_nclock w;
                          w_log := PutReg STM32_I2C_CR1
                                     (u16 (Z.land cr1 (Z.lnot I2C_CR1_PE)))
                                   :: GetReg STM32_I2C_CR1 cr1 :: w_log w |}).
    { unfold udiv, bind, ret, fail in H3.
      repeat match type of H3 with
             | context [if ?b then _ else _] => destruct b
             end; inversion H3; reflexivity. }
    subst w3. clear H3.
    unfold bind, stm32_i2c_putreg, emit in Hrun. simpl in Hrun.
    inversion Hrun; subst w'. clear Hrun. simpl.
    split; [reflexivity|]. split; [reflexivity|].
    exists (u16 ccr), (u16 trise).
    apply accesses_cons. simpl. unfold cr1, reg_read. simpl.
    rewrite (u16_small (u16 _)) by apply u16_range.
    reflexivity.
  - unfold stm32_i2c_setclock, bind, stm32_i2c_getreg, stm32_i2c_putreg,
      emit, udiv, fail. simpl. reflexivity.
Qed.

(** X5.  The clock configurator, whenever it returns, has left the
    session and memory as they were; it has read CR1 once, written it back
    with the enable bit cleared, written the divider, rise-time and
    own-address registers, and last written back to CR1 the value it read.
    For the frequency 0 it divides by zero. *)
Theorem setclock_frame (e : env) (f : Z) (w : world) :
  let cr1 := reg_read e w 0 STM32_I2C_CR1 in
  (forall w',
     stm32_i2c_setclock e f w = Some (tt, w') ->
     w_priv w' = w_priv w /\ w_mem w' = w_mem w /\
     exists ccr trise,
       accesses w' = accesses w ++
         [GetReg STM32_I2C_CR1 cr1;
          PutReg STM32_I2C_CR1 (u16 (Z.land cr1 (Z.lnot I2C_CR1_PE)));
          PutReg STM32_I2C_CCR ccr;
          PutReg STM32_I2C_TRISE trise;
          PutReg STM32_I2C_OAR1 I2C_OAR1_ONE;
          PutReg STM32_I2C_CR1 cr1]) /\
  stm32_i2c_setclock e 0 w = None.
Proof. exact (setclock_returns e f w). Qed.

(** The theorem at work: 100 kHz on a 42 MHz peripheral clock. *)
Lemma setclock_frame_witness :
  let e := {| cfg := cfg_irq; hw := hw_script [1]; msgs := [] |} in
  let w := world_of priv_idle in
  exists w',
    stm32_i2c_setclock e 100000 w = Some (tt, w') /\
    w_priv w' = w_priv w /\
    List.last (accesses w') SemPost = PutReg STM32_I2C_CR1 1.
Proof.
  intros e w.
  destruct (stm32_i2c_setclock e 100000 w) as [[[] w']|] eqn:E;
    [|vm_compute in E; discriminate E].
  destruct (setclock_frame e 100000 w) as (Hframe & _).
  destruct (Hframe w' E) as (Hp & _ & ccr & trise & Hacc).
  exists w'. split; [reflexivity|]. split; [exact Hp|].
  rewrite Hacc. reflexivity.
Defined.

Section SetClock.

Variable e : env.
Variable w : world.
Let pclk := STM32_PCLK1_FREQUENCY (cfg e).
Let cr1 := reg_read e w 0 STM32_I2C_CR1.
Let mhz := pclk / 1000000.

Hypothesis Hpclk : 0 <= pclk < 4294967296.

Lemma mhz_range : 0 <= mhz < 4295.
Proof.
  unfold mhz. split; [apply Z.div_pos; lia|].
  apply Z.div_lt_upper_bound; lia.
Qed.

(** Standard mode. *)
Lemma setclock_standard (f : Z) :
  0 < f <= 100000 ->
  exists w',
    stm32_i2c_setclock e f w = Some (tt, w') /\
    accesses w' = accesses w ++
      [GetReg STM32_I2C_CR1 cr1;
       PutReg STM32_I2C_CR1 (u16 (Z.land cr1 (Z.lnot I2C_CR1_PE)));
       PutReg STM32_I2C_CCR (Z.max 4 (u16 (pclk / (2 * f))));
       PutReg STM32_I2C_TRISE (mhz + 1);
       PutReg STM32_I2C_OAR1 I2C_OAR1_ONE;
       PutReg STM32_I2C_CR1 cr1].
Proof.
  intros Hf. pose proof mhz_range as Hm.
  pose proof (u16_range (pclk / (2 * f))) as Hq.
  unfold stm32_i2c_setclock. fold pclk.
  rewrite (u32_small pclk) by exact Hpclk. fold mhz.
  rewrite (u16_small mhz) by lia.
  rewrite Z.shiftl_mul_pow2 by lia.
  replace (f * 2 ^ 1) with (2 * f) by lia.
  rewrite (u32_small (2 * f)) by lia.
  unfold udiv.
  replace (f <=? 100000) with true by (symmetry; apply Z.leb_le; lia).
  replace (2 * f =? 0) with false by (symmetry; apply Z.eqb_neq; lia).
  unfold bind, stm32_i2c_getreg, stm32_i2c_putreg, emit, ret. simpl.
  eexists. split; [reflexivity|].
  apply accesses_cons. simpl.
  change (u16 (hw_reg (hw e) (w_nreads w) STM32_I2C_CR1)) with cr1.
  replace (if u16 (pclk / (2 * f)) <? 4 then 4 else u16 (pclk / (2 * f)))
    with (Z.max 4 (u16 (pclk / (2 * f))))
    by (destruct (Z.ltb_spec (u16 (pclk / (2 * f))) 4); lia).
  rewrite Z.lor_0_l.
  repeat f_equal; rewrite ?u16_idem;
    first [ apply u16_small, u16_range
          | apply u16_small; lia
          | reflexivity ].
Qed.

(** Fast mode; the divisor is 3 times the frequency, or 25 times with the
    16/9 duty cycle. *)
Lemma setclock_fast (f : Z) :
  100000 < f ->
  let k := if CONFIG_STM32_I2C_DUTY16_9 (cfg e) then 25 else 3 in
  let mode := if CONFIG_STM32_I2C_DUTY16_9 (cfg e)
              then Z.lor I2C_CCR_DUTY I2C_CCR_FS else I2C_CCR_FS in
  k * f < 4294967296 ->
  exists w',
    stm32_i2c_setclock e f w = Some (tt, w') /\
    accesses w' = accesses w ++
      [GetReg STM32_I2C_CR1 cr1;
       PutReg STM32_I2C_CR1 (u16 (Z.land cr1 (Z.lnot I2C_CR1_PE)));
       PutReg STM32_I2C_CCR (Z.lor mode (Z.max 1 (pclk / (k * f))));
       PutReg STM32_I2C_TRISE (mhz * 300 / 1000 + 1);
       PutReg STM32_I2C_OAR1 I2C_OAR1_ONE;
       PutReg STM32_I2C_CR1 cr1] /\
    Z.lor mode (Z.max 1 (pclk / (k * f))) = mode + Z.max 1 (pclk / (k * f)).
Proof.
  intros Hf k mode Hk. pose proof mhz_range as Hm.
  assert (Hk3 : k = 3 \/ k = 25)
    by (unfold k; destruct (CONFIG_STM32_I2C_DUTY16_9 (cfg e)); auto).
  assert (Hq : 0 <= pclk / (k * f) < 16384).
  { split; [apply Z.div_pos; nia|].
    apply Z.div_lt_upper_bound; nia. }
  assert (Ht : 0 <= mhz * 300 / 1000 < 1289).
  { split; [apply Z.div_pos; lia|].
    apply Z.div_lt_upper_bound; lia. }
  set (q := Z.max 1 (pclk / (k * f))).
  assert (Hqm : 1 <= q < 16384) by (unfold q; lia).
  assert (Hlor : Z.lor mode q = mode + q).
  { unfold mode. destruct (CONFIG_STM32_I2C_DUTY16_9 (cfg e)).
    - change (Z.lor I2C_CCR_DUTY I2C_CCR_FS) with (Z.lor (2 ^ 15) (2 ^ 14)).
      rewrite <- Z.lor_assoc.
      rewrite (lor_high_bit 14 q) by lia.
      rewrite (lor_high_bit 15 (2 ^ 14 + q)) by lia.
      rewrite (lor_high_bit 15 (2 ^ 14)) by lia. lia.
    - change I2C_CCR_FS with (2 ^ 15). apply lor_high_bit; lia. }
  assert (Hmode : 0 <= mode + q < 65536).
  { unfold mode. destruct (CONFIG_STM32_I2C_DUTY16_9 (cfg e)).
    - change (Z.lor I2C_CCR_DUTY I2C_CCR_FS) with 49152. lia.
    - change I2C_CCR_FS with 32768. lia. }
  split with
    {| w_priv := w_priv w; w_mem := w_mem w;
       w_nreads := S (w_nreads w); w_nclock := w_nclock w;
       w_log := rev [GetReg STM32_I2C_CR1 cr1;
                     PutReg STM32_I2C_CR1
                       (u16 (Z.land cr1 (Z.lnot I2C_CR1_PE)));
                     PutReg STM32_I2C_CCR (Z.lor mode q);
                     PutReg STM32_I2C_TRISE (mhz * 300 / 1000 + 1);
                     PutReg STM32_I2C_OAR1 I2C_OAR1_ONE;
                     PutReg STM32_I2C_CR1 cr1] ++ w_log w |}.
  split; [|split; [apply accesses_cons; reflexivity | exact Hlor]].
  unfold stm32_i2c_setclock. fold pclk.
  rewrite (u32_small pclk) by exact Hpclk. fold mhz.
  rewrite (u16_small mhz) by lia.
  unfold udiv.
  replace (f <=? 100000) with false by (symmetry; apply Z.leb_gt; lia).
  rewrite Hlor in *.
  subst q k mode.
  destruct (CONFIG_STM32_I2C_DUTY16_9 (cfg e)).
  - replace (f * 25) with (25 * f) by lia.
    rewrite (u32_small (25 * f)) by lia.
    replace (25 * f =? 0) with false by (symmetry; apply Z.eqb_neq; lia).
    unfold bind, stm32_i2c_getreg, stm32_i2c_putreg, emit, ret. simpl.
    change (u16 (hw_reg (hw e) (w_nreads w) STM32_I2C_CR1)) with cr1.
    rewrite (u16_small (pclk / (25 * f))) by lia.
    replace (if pclk / (25 * f) <? 1 then 1 else pclk / (25 * f))
      with (Z.max 1 (pclk / (25 * f)))
      by (destruct (Z.ltb_spec (pclk / (25 * f)) 1); lia).
    rewrite Z.lor_0_l. rewrite Hlor.
    repeat f_equal; rewrite ?u16_idem;
      first [ apply u16_small, u16_range
            | apply u16_small; lia
            | reflexivity ].
  - replace (f * 3) with (3 * f) by lia.
    rewrite (u32_small (3 * f)) by lia.
    replace (3 * f =? 0) with false by (symmetry; apply Z.eqb_neq; lia).
    unfold bind, stm32_i2c_getreg, stm32_i2c_putreg, emit, ret. simpl.
    change (u16 (hw_reg (hw e) (w_nreads w) STM32_I2C_CR1)) with cr1.
    rewrite (u16_small (pclk / (3 * f))) by lia.
    replace (if pclk / (3 * f) <? 1 then 1 else pclk / (3 * f))
      with (Z.max 1 (pclk / (3 * f)))
      by (destruct (Z.ltb_spec (pclk / (3 * f)) 1); lia).
    rewrite Z.lor_0_l. rewrite Hlor.
    repeat f_equal; rewrite ?u16_idem;
      first [ apply u16_small, u16_range
            | apply u16_small; lia
            | reflexivity ].
Qed.
End SetClock.


(** X6.  The values the clock configurator programs, for a 32-bit
    peripheral clock.  Standard mode ([0 < f <= 100000]): the divider
    register receives the larger of 4 and the quotient [pclk / (2 f)]
    truncated to 16 bits, the rise-time register [pclk / 1000000 + 1].
    Fast mode ([f > 100000], [3 f] or [25 f] inside 32 bits): the divider
    register receives the larger of 1 and [pclk / (3 f)] plus the fast-mode
    bit, or the larger of 1 and [pclk / (25 f)] plus the duty and fast-mode
    bits; the rise-time register [(pclk / 1000000) * 300 / 1000 + 1]. *)
Theorem setclock_programs (e : env) (w : world) (f : Z) :
  let pclk := STM32_PCLK1_FREQUENCY (cfg e) in
  let cr1 := reg_read e w 0 STM32_I2C_CR1 in
  let mhz := pclk / 1000000 in
  let duty := CONFIG_STM32_I2C_DUTY16_9 (cfg e) in
  let k := if duty then 25 else 3 in
  let mode := if duty then Z.lor I2C_CCR_DUTY I2C_CCR_FS else I2C_CCR_FS in
  0 <= pclk < 4294967296 ->
  (0 < f <= 100000 ->
   exists w',
     stm32_i2c_setclock e f w = Some (tt, w') /\
     accesses w' = accesses w ++
       [GetReg STM32_I2C_CR1 cr1;
        PutReg STM32_I2C_CR1 (u16 (Z.land cr1 (Z.lnot I2C_CR1_PE)));
        PutReg STM32_I2C_CCR (Z.max 4 (u16 (pclk / (2 * f))));
        PutReg STM32_I2C_TRISE (mhz + 1);
        PutReg STM32_I2C_OAR1 I2C_OAR1_ONE;
        PutReg STM32_I2C_CR1 cr1] /\
     (pclk / (2 * f) < 65536 -> u16 (pclk / (2 * f)) = pclk / (2 * f))) /\
  (100000 < f -> k * f < 4294967296 ->
   exists w',
     stm32_i2c_setclock e f w = Some (tt, w') /\
     accesses w' = accesses w ++
       [GetReg STM32_I2C_CR1 cr1;
        PutReg STM32_I2C_CR1 (u16 (Z.land cr1 (Z.lnot I2C_CR1_PE)));
        PutReg STM32_I2C_CCR (mode + Z.max 1 (pclk / (k * f)));
        PutReg STM32_I2C_TRISE (mhz * 300 / 1000 + 1);
        PutReg STM32_I2C_OAR1 I2C_OAR1_ONE;
        PutReg STM32_I2C_CR1 cr1]).
Proof.
  intros pclk cr1 mhz duty k mode Hpclk. split.
  - intros Hf.
    destruct (setclock_standard e w Hpclk f Hf) as (w' & Hrun & Hacc).
    exists w'. split; [exact Hrun|]. split; [exact Hacc|].
    intros Hq. apply u16_small. split; [|exact Hq].
    apply Z.div_pos; [unfold pclk in Hpclk|]; lia.
  - intros Hf Hk.
    destruct (setclock_fast e w Hpclk f Hf Hk) as (w' & Hrun & Hacc & Hlor).
    exists w'. split; [exact Hrun|].
    fold duty k mode pclk in Hlor, Hacc. rewrite <- Hlor. exact Hacc.
Qed.

(** The theorem at work: a 42 MHz peripheral clock, 100 kHz, 400 kHz, and
    100 Hz, where the quotient 210000 does not fit the register. *)
Lemma setclock_programs_witness :
  let e := {| cfg := cfg_irq; hw := hw_script [1]; msgs := [] |} in
  let w := world_of priv_idle in
  (0 <= STM32_PCLK1_FREQUENCY (cfg e) < 4294967296 /\
   0 < 100000 <= 100000 /\ 0 < 100 <= 100000 /\
   100000 < 400000 /\ 3 * 400000 < 4294967296) /\
  (exists w',
     stm32_i2c_setclock e 100000 w = Some (tt, w') /\
     accesses w' =
       [GetReg STM32_I2C_CR1 1; PutReg STM32_I2C_CR1 0;
        PutReg STM32_I2C_CCR 210; PutReg STM32_I2C_TRISE 43;
        PutReg STM32_I2C_OAR1 16384; PutReg STM32_I2C_CR1 1]) /\
  (exists w',
     stm32_i2c_setclock e 400000 w = Some (tt, w') /\
     accesses w' =
       [GetReg STM32_I2C_CR1 1; PutReg STM32_I2C_CR1 0;
        PutReg STM32_I2C_CCR 32803; PutReg STM32_I2C_TRISE 13;
        PutReg STM32_I2C_OAR1 16384; PutReg STM32_I2C_CR1 1]) /\
  (exists w',
     stm32_i2c_setclock e 100 w = Some (tt, w') /\
     accesses w' =
       [GetReg STM32_I2C_CR1 1; PutReg STM32_I2C_CR1 0;
        PutReg STM32_I2C_CCR 13392; PutReg STM32_I2C_TRISE 43;
        PutReg STM32_I2C_OAR1 16384; PutReg STM32_I2C_CR1 1]).
Proof.
  intros e w.
  assert (H1 : 0 <= STM32_PCLK1_FREQUENCY (cfg e) < 4294967296)
    by (simpl; lia).
  assert (H2 : 0 < 100000 <= 100000) by lia.
  assert (H3 : 0 < 100 <= 100000) by lia.
  assert (H4 : 100000 < 400000) by lia.
  assert (H5 : 3 * 400000 < 4294967296) by lia.
  split; [repeat split; first [assumption | lia]|].
  split; [|split].
  - destruct (setclock_programs e w 100000 H1) as (Hs & _).
    destruct (Hs H2) as (w' & Hrun & Hacc & _).
    exists w'. split; [exact Hrun|]. rewrite Hacc. reflexivity.
  - destruct (setclock_programs e w 400000 H1) as (_ & Hf).
    destruct (Hf H4 H5) as (w' & Hrun & Hacc).
    exists w'. split; [exact Hrun|]. rewrite Hacc. reflexivity.
  - destruct (setclock_programs e w 100 H1) as (Hs & _).
    destruct (Hs H3) as (w' & Hrun & Hacc & _).
    exists w'. split; [exact Hrun|]. rewrite Hacc. reflexivity.
Defined.

(** ** The transfer as a whole (polled build) *)

Lemma tracereset_run (e : env) (w : world) :
  1 <= CONFIG_I2C_NTRACE (cfg e) ->
  Z.of_nat (List.length (trace (w_priv w))) = CONFIG_I2C_NTRACE (cfg e) ->
  exists w',
    stm32_i2c_tracereset e w = Some (tt, w') /\
    trace_wf e w' /\
    tndx (w_priv w') = 0 /\
    trace (w_priv w') !! 0%nat = Some trace_zero /\
    start_time (w_priv w') = u32 (hw_clock (hw e) (w_nclock w)) /\
    set_start_time 0 (set_tndx 0 (set_trace [] (w_priv w'))) =
      set_start_time 0 (set_tndx 0 (set_trace [] (w_priv w))) /\
    w_mem w' = w_mem w /\ w_log w' = w_log w /\
    w_nreads w' = w_nreads w.
Proof.
  intros Hn Hl. unfold stm32_i2c_tracereset.
  unfold bind, modify, clock_systimer. simpl.
  unfold stm32_i2c_traceclear.
  destruct (lookup_lt_is_Some_2 (trace (w_priv w)) 0%nat) as [old Hold];
    [lia|].
  erewrite trace_upd_exact; [ | simpl; lia | simpl; exact Hold ].
  eexists. split; [reflexivity|]. unfold with_priv. simpl.
  split.
  { split; simpl; [lia|]. rewrite length_insert. exact Hl. }
  split; [reflexivity|].
  split; [apply list_lookup_insert_eq; lia|].
  repeat split.
Qed.

Lemma error_of_status_zero (st : Z) (timed_out : bool) :
  error_of_status st timed_out = 0 ->
  timed_out = false /\ bit_set st I2C_SR1_ERRORMASK = false.
Proof.
  unfold error_of_status, I2C_SR1_ERRORMASK. rewrite !bit_set_lor.
  destruct (bit_set st I2C_SR1_BERR), (bit_set st I2C_SR1_ARLO),
    (bit_set st I2C_SR1_AF), (bit_set st I2C_SR1_OVR),
    (bit_set st I2C_SR1_PECERR), (bit_set st I2C_SR1_TIMEOUT),
    (bit_set st I2C_SR1_SMBALERT), timed_out;
    intros H; try discriminate H; split; reflexivity.
Qed.

(** X7.  A transfer of the polled build that returns was asked for at least
    one message, leaves the handshake state idle, and returns the negated
    error number of the status word the engine stored last; that number is
    never EBUSY.  It returns 0 only with the session at the end mark the
    termination step of the engine leaves (byte counter -1, message count
    0, cursor NULL) and with a status word without error bit.  The end
    mark is not a proof that every byte was transferred: the read-error
    branch of the engine sets it as well. *)
Theorem process_result (e : env) (fuel : nat) (frequency count : Z)
  (w w' : world) (r : Z) :
  CONFIG_I2C_POLLED (cfg e) = true ->
  1 <= CONFIG_I2C_NTRACE (cfg e) ->
  Z.of_nat (List.length (trace (w_priv w))) = CONFIG_I2C_NTRACE (cfg e) ->
  stm32_i2c_process e fuel frequency count w = Some (r, w') ->
  count <> 0 /\
  intstate (w_priv w') = INTSTATE_IDLE /\
  (exists timed_out,
     r = - error_of_status (status (w_priv w')) timed_out) /\
  r <> - EBUSY /\
  (r = 0 ->
     dcnt (w_priv w') = -1 /\ msgc (w_priv w') = 0 /\
     msgv (w_priv w') = None /\
     bit_set (status (w_priv w')) I2C_SR1_ERRORMASK = false).
Proof.
  intros Hpoll Hn Hl Hrun. unfold stm32_i2c_process in Hrun.
  destruct (Z.eqb_spec count 0) as [|Hc]; [discriminate|].
  split; [exact Hc|].
  apply bind_Some in Hrun as ([] & w1 & H1 & Hrun).
  destruct (sem_waitstop_returns e fuel w) as (Hws & _).
  destruct (Hws w1 H1) as (Hp1 & _). clear Hws H1.
  unfold bind at 1 in Hrun. unfold stm32_i2c_putreg at 1 in Hrun.
  unfold emit at 1 in Hrun.
  unfold bind at 1 in Hrun. unfold stm32_i2c_clrstart at 1 in Hrun.
  unfold stm32_i2c_modifyreg at 1 in Hrun. unfold emit at 1 in Hrun.
  unfold bind at 1 in Hrun. unfold modify at 1 in Hrun.
  unfold bind at 1 in Hrun. unfold modify at 1 in Hrun.
  simpl in Hrun.
  apply bind_Some in Hrun as ([] & w2 & H2 & Hrun).
  match type of H2 with
  | stm32_i2c_tracereset e ?W = _ =>
      destruct (tracereset_run e W Hn) as (w2' & H2' & Hw2 & _);
        [simpl; rewrite Hp1; exact Hl|]
  end.
  rewrite H2' in H2. inversion H2; subst w2'. clear H2 H2'.
  apply bind_Some in Hrun as ([] & w3 & H3 & Hrun).
  destruct (setclock_returns e frequency w2) as (Hsc & _).
  destruct (Hsc w3 H3) as (Hp3 & _). clear Hsc H3.
  unfold bind at 1 in Hrun. unfold modify at 1 in Hrun.
  unfold bind at 1 in Hrun. unfold modify at 1 in Hrun.
  unfold bind at 1 in Hrun. unfold stm32_i2c_sendstart at 1 in Hrun.
  unfold stm32_i2c_modifyreg at 1 in Hrun. unfold emit at 1 in Hrun.
  simpl in Hrun.
  apply bind_Some in Hrun as (rw & w4 & H4 & Hrun).
  apply sem_waitdone_returns in H4 as (Hw4 & Hi4 & Hr4);
    [ | exact Hpoll | unfold trace_wf; simpl; rewrite Hp3; exact Hw2 ].
  destruct (process_finish_returns e rw w4)
    as (w5 & H5 & Hp5 & _ & _ & Hnb).
  rewrite H5 in Hrun. inversion Hrun; subst r w5. clear Hrun H5.
  rewrite Hp5.
  split; [exact Hi4|].
  split; [eexists; reflexivity|].
  split.
  { intros H. apply Hnb. lia. }
  intros Hz.
  assert (Hz' : error_of_status (status (w_priv w4)) (rw <? 0) = 0) by lia.
  apply error_of_status_zero in Hz' as (Hto & Hmask).
  destruct Hr4 as [(Hok & Hd & Hm & Hv) | (Hto' & _)].
  - repeat split; assumption.
  - rewrite Hto' in Hto. discriminate Hto.
Qed.

(** The theorem at work: a one-byte read, completed in three polls. *)
Lemma process_result_witness :
  let e := {| cfg := cfg_polled;
              hw := hw_script [0; 0; 1; 2; 0; 64; 90; 0];
              msgs := [msg_read_one] |} in
  let w := world_of priv_idle in
  (CONFIG_I2C_POLLED (cfg e) = true /\
   1 <= CONFIG_I2C_NTRACE (cfg e) /\
   Z.of_nat (List.length (trace (w_priv w))) = CONFIG_I2C_NTRACE (cfg e)) /\
  exists w',
    stm32_i2c_process e 10 100000 1 w = Some (0, w') /\
    intstate (w_priv w') = INTSTATE_IDLE /\
    dcnt (w_priv w') = -1 /\ msgc (w_priv w') = 0 /\
    msgv (w_priv w') = None /\
    w_mem w' 1000 = 90.
Proof.
  intros e w.
  assert (Hn : 1 <= CONFIG_I2C_NTRACE (cfg e)) by (vm_compute; congruence).
  assert (Hl : Z.of_nat (List.length (trace (w_priv w))) =
               CONFIG_I2C_NTRACE (cfg e)) by reflexivity.
  split; [split; [reflexivity | split; [exact Hn | exact Hl]]|].
  destruct (stm32_i2c_process e 10 100000 1 w) as [[r w']|] eqn:E;
    [|vm_compute in E; discriminate E].
  destruct (process_result e 10 100000 1 w w' r eq_refl Hn Hl E)
    as (_ & Hi & _ & _ & Hz).
  assert (Hr : r = 0) by (vm_compute in E; injection E as Hr' _; congruence).
  destruct (Hz Hr) as (Hd & Hc & Hv & _).
  subst r. exists w'. split; [reflexivity|].
  split; [exact Hi|]. split; [exact Hd|]. split; [exact Hc|].
  split; [exact Hv|].
  vm_compute in E. injection E as Hw'. rewrite <- Hw'. reflexivity.
Defined.

(** ** After the end of the transfer *)

Lemma count_if_none (f : access -> bool) (tl : list access) :
  (forall a, shutdown_access a = true -> f a = false) ->
  forallb shutdown_access tl = true ->
  count_if f tl = 0%nat.
Proof.
  intros Hf. induction tl as [|a tl IH]; intros H; [reflexivity|].
  simpl in H. apply andb_prop in H as [Ha Htl].
  unfold count_if in *. simpl. rewrite (Hf a Ha). exact (IH Htl).
Qed.

Lemma shutdown_no_dr (a : access) :
  shutdown_access a = true -> is_dr_access a = false.
Proof. destruct a as [[] v|[] v|r c s| |sec nsec]; simpl; congruence. Qed.

Lemma shutdown_no_start (a : access) :
  shutdown_access a = true -> is_start a = false.
Proof. destruct a as [[] v|[] v|r c s| |sec nsec]; simpl; congruence. Qed.

Ltac finished_tac Hd Hc :=
  let w' := fresh "w'" in
  let tl0 := fresh "tl0" in
  let Hacc := fresh "Hacc" in
  let Htl := fresh "Htl" in
  let Hsame := fresh "Hsame" in
  let Hwf' := fresh "Hwf'" in
  let Hnot := fresh "Hnot" in
  let Hfin := fresh "Hfin" in
  let Hdc := fresh "Hdc" in
  let Hmc := fresh "Hmc" in
  let Hptr := fresh "Hptr" in
  let Hmem := fresh "Hmem" in
  let Hv := fresh "Hv" in
  shutdown_step w' tl0 Hacc Htl Hsame Hwf' Hnot Hfin;
  destruct Hsame as (Hdc & Hmc & Hptr & _ & _ & _ & _ & Hmem);
  destruct Hfin as (Hv & _);
  [ unfold transfer_finished; simpl; rewrite ?Hd, ?Hc; reflexivity | ];
  unfold finished_frame;
  split; [unfold transfer_finished; rewrite Hdc, Hmc; simpl;
          rewrite ?Hd, ?Hc; reflexivity|];
  split; [exact Hv|]; split; [exact Hmem|]; split; [exact Hptr|];
  eexists; split; [rewrite Hacc; accesses_tail|];
  rewrite !count_if_app,
    (count_if_none is_dr_access tl0 shutdown_no_dr Htl),
    (count_if_none is_start tl0 shutdown_no_start Htl);
  split; reflexivity.

Lemma isr_finished_stays_aux (e : env) (w : world) :
  trace_wf e w ->
  dcnt (w_priv w) = -1 -> msgc (w_priv w) = 0 ->
  match stm32_i2c_isr e w with
  | Some (_, w') => finished_frame w w'
  | None => True
  end.
Proof.
  intros Hw Hd Hc.
  destruct (isr_entry_same_message e w Hw) as (i & t & n & Hok & Heq).
  { unfold msg_advance_due. rewrite Hc. apply andb_false_r. }
  rewrite Heq. clear Heq.
  unfold bind at 1. unfold isr_protocol.
  unfold bind at 1. unfold gets at 1, id.
  rewrite (isr_phase_ext e _ _ (w_priv w)) by reflexivity.
  destruct (isr_phase e (reg_read e w 0 STM32_I2C_SR1) (w_priv w)) eqn:Hph.
  - unfold isr_address_handling.
    run_code. rewrite Hd. simpl. repeat trace_step.
    finished_tac Hd Hc.
  - unfold isr_address_nacked. run_code.
    unfold deref_msgv. simpl.
    destruct (msgv (w_priv w)) as [k|]; [|exact I].
    destruct (msgs e !! k) as [m|]; [|exact I].
    repeat trace_step. finished_tac Hd Hc.
  - unfold isr_address_acked_read. run_code. rewrite Hd. simpl.
    repeat trace_step. finished_tac Hd Hc.
  - unfold isr_write_mode. run_code. rewrite Hd. simpl.
    repeat trace_step. finished_tac Hd Hc.
  - unfold isr_read_mode. run_code. rewrite Hd. simpl.
    destruct ((total_msg_len (w_priv w) >=? 3) &&
              negb (bit_set (reg_read e w 0 STM32_I2C_SR1) I2C_SR1_BTF));
      simpl; rewrite ?andb_false_r; simpl;
      repeat trace_step; finished_tac Hd Hc.
  - unfold isr_empty_call. run_code. repeat trace_step. finished_tac Hd Hc.
  - unfold isr_state_error.
    destruct (CONFIG_I2C_POLLED (cfg e)); run_code; repeat trace_step;
      finished_tac Hd Hc.
Qed.

(** X8.  Once a transfer is finished (byte counter -1, no message left),
    further invocations of the engine, however many and whatever the
    hardware shows, leave it finished: they store nothing to memory, do not
    move the buffer pointer, neither read nor write the data register, and
    request no START; after the first of them the message cursor is
    cleared. *)
Theorem finished_stays_finished (e : env) (k : nat) (w w' : world) :
  trace_wf e w ->
  transfer_finished (w_priv w) = true ->
  run_isr e k w = Some (tt, w') ->
  transfer_finished (w_priv w') = true /\
  ((0 < k)%nat -> msgv (w_priv w') = None) /\
  w_mem w' = w_mem w /\
  ptr (w_priv w') = ptr (w_priv w) /\
  exists new,
    accesses w' = accesses w ++ new /\
    count_if is_dr_access new = 0%nat /\
    count_if is_start new = 0%nat.
Proof.
  revert w w'.
  induction k as [|k IH]; intros w w' Hw Hfin Hrun.
  - inversion Hrun; subst. split; [exact Hfin|]. split; [lia|].
    split; [reflexivity|]. split; [reflexivity|].
    exists []. split; [symmetry; apply app_nil_r|]. split; reflexivity.
  - simpl in Hrun. apply bind_Some in Hrun as (r & w1 & Hisr & Hrun).
    destruct (isr_termination e w w1 r Hw Hisr) as (_ & Hw1 & _).
    assert (H1 : finished_frame w w1).
    { unfold transfer_finished in Hfin. apply andb_prop in Hfin as [Hd Hc].
      apply Z.eqb_eq in Hd. apply Z.eqb_eq in Hc.
      pose proof (isr_finished_stays_aux e w Hw Hd Hc) as H.
      rewrite Hisr in H. exact H. }
    destruct H1 as (Hf1 & Hv1 & Hm1 & Hp1 & new1 & Ha1 & Hn1 & Hs1).
    destruct (IH w1 w' Hw1 Hf1 Hrun)
      as (Hf2 & Hv2 & Hm2 & Hp2 & new2 & Ha2 & Hn2 & Hs2).
    split; [exact Hf2|]. split.
    { intros _. destruct k as [|k]; [|apply Hv2; lia].
      inversion Hrun; subst. exact Hv1. }
    split; [congruence|]. split; [congruence|].
    exists (new1 ++ new2). rewrite Ha2, Ha1, <- app_assoc.
    split; [reflexivity|]. rewrite !count_if_app, Hn1, Hn2, Hs1, Hs2.
    split; reflexivity.
Qed.

(** The theorem at work: three spurious interrupts with TXE set. *)
Lemma finished_stays_finished_witness :
  let e := {| cfg := cfg_irq; hw := hw_const 128 0; msgs := [] |} in
  let w := world_of (set_dcnt (-1) priv_idle) in
  (trace_wf e w /\ transfer_finished (w_priv w) = true) /\
  exists w',
    run_isr e 3 w = Some (tt, w') /\
    transfer_finished (w_priv w') = true /\
    w_mem w' = w_mem w.
Proof.
  intros e w.
  assert (Hw : trace_wf e w) by (repeat split; vm_compute; congruence).
  split; [split; [exact Hw | reflexivity]|].
  destruct (run_isr e 3 w) as [[[] w']|] eqn:E;
    [|vm_compute in E; discriminate E].
  destruct (finished_stays_finished e 3 w w' Hw eq_refl E)
    as (Hf & _ & Hm & _).
  exists w'. split; [reflexivity|]. split; [exact Hf | exact Hm].
Defined.


(** ** Where data enters: the read branch only *)

Lemma adds_refl (P : access -> bool) (w : world) : adds P w w.
Proof. exists []. split; reflexivity. Qed.

Lemma adds_trans (P : access -> bool) (w1 w2 w3 : world) :
  adds P w1 w2 -> adds P w2 w3 -> adds P w1 w3.
Proof.
  intros (n1 & H1 & P1) (n2 & H2 & P2). exists (n2 ++ n1).
  rewrite H2, H1, app_assoc. split; [reflexivity|].
  rewrite forallb_app, P1, P2. reflexivity.
Qed.

Lemma adds_accesses (P f : access -> bool) (w w' : world) :
  (forall a, P a = true -> f a = false) ->
  adds P w w' ->
  exists new, accesses w' = accesses w ++ new /\ count_if f new = 0%nat.
Proof.
  intros Hf (new & Hlog & HP). exists (rev new). unfold accesses.
  rewrite Hlog, rev_app_distr. split; [reflexivity|].
  unfold count_if. clear Hlog.
  induction new as [|a new IH]; [reflexivity|].
  simpl in HP. apply andb_prop in HP as [Ha Hn].
  simpl. rewrite List.filter_app, length_app. simpl.
  rewrite (Hf a Ha). simpl. rewrite (IH Hn). reflexivity.
Qed.

Lemma no_data_in_refl (w : world) : no_data_in w w.
Proof. split; [reflexivity | apply adds_refl]. Qed.

Lemma no_data_in_trans (w1 w2 w3 : world) :
  no_data_in w1 w2 -> no_data_in w2 w3 -> no_data_in w1 w3.
Proof.
  intros [M1 A1] [M2 A2]. split; [congruence|].
  exact (adds_trans _ _ _ _ A1 A2).
Qed.

Lemma no_data_in_retrace (w : world) (i : Z) (t : list stm32_trace_s)
  (n : nat) : no_data_in w (retrace w i t n).
Proof. split; [reflexivity | exists []; split; reflexivity]. Qed.

Lemma same_flags_refl (w : world) : same_flags w w.
Proof. reflexivity. Qed.

Lemma same_flags_trans (w1 w2 w3 : world) :
  same_flags w1 w2 -> same_flags w2 w3 -> same_flags w1 w3.
Proof. unfold same_flags. congruence. Qed.

Lemma same_flags_retrace (w : world) (i : Z) (t : list stm32_trace_s)
  (n : nat) : same_flags w (retrace w i t n).
Proof. reflexivity. Qed.

Lemma sfnd_refl (w : world) : same_flags_no_data_in w w.
Proof. split; [reflexivity | apply no_data_in_refl]. Qed.

Lemma sfnd_trans (w1 w2 w3 : world) :
  same_flags_no_data_in w1 w2 -> same_flags_no_data_in w2 w3 ->
  same_flags_no_data_in w1 w3.
Proof.
  intros [F1 N1] [F2 N2].
  split; [exact (same_flags_trans _ _ _ F1 F2)
         | exact (no_data_in_trans _ _ _ N1 N2)].
Qed.

Lemma sfnd_retrace (w : world) (i : Z) (t : list stm32_trace_s)
  (n : nat) : same_flags_no_data_in w (retrace w i t n).
Proof. split; [reflexivity | apply no_data_in_retrace]. Qed.

(** Closes the goal of a primitive step for a frame made of field
    equalities and of [adds]. *)
Ltac adds_now :=
  repeat split;
  try (first [ exists []; split; reflexivity
             | eexists [_]; split; reflexivity ]).

Ltac sfnd_walk :=
  pres_walk sfnd_refl sfnd_trans sfnd_retrace;
  try (prim_step; adds_now).

Ltac flags_walk :=
  pres_walk same_flags_refl same_flags_trans same_flags_retrace;
  try (prim_step; repeat split).

Lemma isr_address_handling_sfnd (e : env) :
  preserves (under_wf e same_flags_no_data_in) (isr_address_handling e).
Proof. unfold isr_address_handling. sfnd_walk. Qed.

Lemma isr_address_nacked_sfnd (e : env) :
  preserves (under_wf e same_flags_no_data_in) (isr_address_nacked e).
Proof. unfold isr_address_nacked. sfnd_walk. Qed.

Lemma isr_address_acked_read_sfnd (e : env) :
  preserves (under_wf e same_flags_no_data_in) (isr_address_acked_read e).
Proof. unfold isr_address_acked_read. sfnd_walk. Qed.

Lemma isr_write_mode_sfnd (e : env) :
  preserves (under_wf e same_flags_no_data_in) (isr_write_mode e).
Proof. unfold isr_write_mode. sfnd_walk. Qed.

Lemma isr_empty_call_sfnd (e : env) :
  preserves (under_wf e same_flags_no_data_in) (isr_empty_call e).
Proof. unfold isr_empty_call. sfnd_walk. Qed.

Lemma isr_state_error_sfnd (e : env) :
  preserves (under_wf e same_flags_no_data_in) (isr_state_error e).
Proof. unfold isr_state_error. sfnd_walk. Qed.

Lemma isr_read_mode_flags (e : env) (st : Z) :
  preserves (under_wf e same_flags) (isr_read_mode e st).
Proof. unfold isr_read_mode, read_dr_to_buffer. flags_walk. Qed.

Ltac nodata_walk :=
  pres_walk no_data_in_refl no_data_in_trans no_data_in_retrace;
  try (prim_step; adds_now).

Lemma isr_msg_handling_no_data_in (e : env) :
  preserves (under_wf e no_data_in) (isr_msg_handling e).
Proof. unfold isr_msg_handling. nodata_walk. Qed.

Lemma isr_protocol_data (e : env) (st : Z) (w w' : world) :
  trace_wf e w ->
  isr_protocol e st w = Some (tt, w') ->
  trace_wf e w' /\ same_flags w w' /\
  (bit_set (flags (w_priv w)) I2C_M_READ = false -> no_data_in w w').
Proof.
  intros Hw Hrun. unfold isr_protocol in Hrun.
  unfold bind at 1 in Hrun. unfold gets at 1, id in Hrun.
  destruct (isr_phase e st (w_priv w)) eqn:Hph.
  - destruct (isr_address_handling_sfnd e w tt w' Hrun Hw) as (H1 & H2 & H3).
    auto.
  - destruct (isr_address_nacked_sfnd e w tt w' Hrun Hw) as (H1 & H2 & H3).
    auto.
  - destruct (isr_address_acked_read_sfnd e w tt w' Hrun Hw)
      as (H1 & H2 & H3).
    auto.
  - destruct (isr_write_mode_sfnd e w tt w' Hrun Hw) as (H1 & H2 & H3).
    auto.
  - destruct (isr_read_mode_flags e st w tt w' Hrun Hw) as (H1 & H2).
    split; [exact H1|]. split; [exact H2|].
    apply isr_phase_read in Hph as (_ & Hr & _). congruence.
  - destruct (isr_empty_call_sfnd e w tt w' Hrun Hw) as (H1 & H2 & H3).
    auto.
  - destruct (isr_state_error_sfnd e w tt w' Hrun Hw) as (H1 & H2 & H3).
    auto.
Qed.

Lemma isr_data_enters_in_read_only (e : env) (w w' : world) (r : Z) :
  trace_wf e w ->
  stm32_i2c_isr e w = Some (r, w') ->
  bit_set (flags (w_priv w')) I2C_M_READ = false ->
  w_mem w' = w_mem w /\
  exists new,
    accesses w' = accesses w ++ new /\ count_if is_dr_read new = 0%nat.
Proof.
  intros Hw Hrun Hfl. rewrite isr_split in Hrun.
  apply bind_Some in Hrun as ([] & w2 & Hbefore & Hrun).
  unfold isr_before_shutdown in Hbefore.
  assert (Hpre : preserves (under_wf e no_data_in)
            (status <- stm32_i2c_getreg e STM32_I2C_SR1 ;;
             modify (set_status status) ;;
             stm32_i2c_tracenew e status ;;
             stm32_i2c_traceevent e I2CEVENT_ISR_CALL 0 ;;
             isr_msg_handling e ;;
             ret status)).
  { apply (pres_bind _ _ no_data_in_trans); [prim_step; adds_now|].
    intros st.
    apply (pres_bind _ _ no_data_in_trans); [prim_step; adds_now|].
    intros _.
    apply (pres_bind _ _ no_data_in_trans);
      [apply (pres_tracenew _ _ no_data_in_retrace)|].
    intros _.
    apply (pres_bind _ _ no_data_in_trans);
      [apply (pres_traceevent _ _ no_data_in_retrace)|].
    intros _.
    apply (pres_bind _ _ no_data_in_trans);
      [apply isr_msg_handling_no_data_in|].
    intros _. apply (pres_ret _ _ no_data_in_refl). }
  assert (Hsplit : exists st w1,
            (status <- stm32_i2c_getreg e STM32_I2C_SR1 ;;
             modify (set_status status) ;;
             stm32_i2c_tracenew e status ;;
             stm32_i2c_traceevent e I2CEVENT_ISR_CALL 0 ;;
             isr_msg_handling e ;;
             ret status) w = Some (st, w1) /\
            isr_protocol e st w1 = Some (tt, w2)).
  { clear Hpre Hrun Hfl.
    apply bind_Some in Hbefore as (st & wa & Ha & Hbefore).
    apply bind_Some in Hbefore as ([] & wb & Hb & Hbefore).
    apply bind_Some in Hbefore as ([] & wc & Hc & Hbefore).
    apply bind_Some in Hbefore as ([] & wd & Hd & Hbefore).
    apply bind_Some in Hbefore as ([] & we & He & Hbefore).
    exists st, we. split; [|exact Hbefore].
    unfold bind. rewrite Ha, Hb, Hc, Hd, He. reflexivity. }
  destruct Hsplit as (st & w1 & Hone & Hproto).
  destruct (Hpre w st w1 Hone Hw) as (Hw1 & Hnd1).
  destruct (isr_protocol_data e st w1 w2 Hw1 Hproto) as (Hw2 & Hsf & Hnd2).
  apply bind_Some in Hrun as ([] & w3 & Hsd & Hret).
  inversion Hret; subst r w3. clear Hret.
  destruct (isr_shutdown_run e w2 Hw2)
    as (w3 & tl & Hsd' & Hacc & Htl & Hsame & _).
  rewrite Hsd' in Hsd. inversion Hsd; subst w3. clear Hsd Hsd'.
  destruct Hsame as (_ & _ & _ & Hfl' & _ & _ & _ & Hmem).
  rewrite Hfl' in Hfl. unfold same_flags in Hsf. rewrite Hsf in Hfl.
  specialize (Hnd2 Hfl).
  destruct (no_data_in_trans _ _ _ Hnd1 Hnd2) as (Hm & Hadd).
  split; [congruence|].
  destruct (adds_accesses _ is_dr_read w w2
              (fun a => proj1 (negb_true_iff _)) Hadd) as (new & Hn & Hz).
  exists (new ++ tl). rewrite Hacc, Hn, <- app_assoc.
  split; [reflexivity|].
  rewrite count_if_app, Hz.
  destruct (shutdown_access_quiet tl Htl) as (-> & _). reflexivity.
Qed.

(** X9.  Data enters only through the read branch: an invocation of the
    engine that ends with a write message loaded (READ flag clear) has
    stored nothing to memory and has not read the data register, whatever
    the status register showed. *)
Theorem write_message_takes_no_data (e : env) (w w' : world) (r : Z) :
  trace_wf e w ->
  stm32_i2c_isr e w = Some (r, w') ->
  bit_set (flags (w_priv w')) I2C_M_READ = false ->
  w_mem w' = w_mem w /\
  exists new,
    accesses w' = accesses w ++ new /\ count_if is_dr_read new = 0%nat.
Proof. exact (isr_data_enters_in_read_only e w w' r). Qed.

(** The theorem at work: RXNE and TXE both set while a write message of
    one byte is under way. *)
Lemma write_message_takes_no_data_witness :
  let e := {| cfg := cfg_irq; hw := hw_const 192 7; msgs := [] |} in
  let w := world_of (set_dcnt 1 (set_ptr 2000 priv_idle)) in
  trace_wf e w /\
  exists w',
    stm32_i2c_isr e w = Some (OK, w') /\
    bit_set (flags (w_priv w')) I2C_M_READ = false /\
    w_mem w' = w_mem w.
Proof.
  intros e w.
  assert (Hw : trace_wf e w) by (repeat split; vm_compute; congruence).
  split; [exact Hw|].
  destruct (stm32_i2c_isr e w) as [[r w']|] eqn:E;
    [|vm_compute in E; discriminate E].
  assert (Hfl : bit_set (flags (w_priv w')) I2C_M_READ = false).
  { vm_compute in E. injection E as _ Hw'. rewrite <- Hw'. reflexivity. }
  destruct (write_message_takes_no_data e w w' r Hw E Hfl) as (Hm & _).
  assert (Hr : r = OK)
    by (vm_compute in E; injection E as Hr' _; rewrite <- Hr'; reflexivity).
  subst r. exists w'. split; [reflexivity|]. split; [exact Hfl | exact Hm].
Defined.


(** X10.  The invocation that finds the start bit set with a new message of
    positive length due: it loads the message the cursor points to (buffer,
    length, flags; the total length modulo 256), counts the message off,
    moves the cursor on unless that was the last message, programs POS and
    ACK for the length and direction, and writes the address byte; the
    address in that byte is the one of the message the cursor points to
    after the move, the direction bit the one of the message loaded, and
    for a ten-bit message the byte is zero. *)
Theorem start_sends_address (e : env) (w : world) (k : nat)
  (m m' : i2c_msg_s) :
  let p := w_priv w in
  let st := reg_read e w 0 STM32_I2C_SR1 in
  let last := u8 (msgc p - 1) =? 0 in
  trace_wf e w ->
  dcnt p = -1 -> 0 < msgc p ->
  msgv p = Some k ->
  msgs e !! k = Some m ->
  msgs e !! (if last then k else S k) = Some m' ->
  0 < length m ->
  bit_set st I2C_SR1_SB = true ->
  exists w',
    stm32_i2c_isr e w = Some (OK, w') /\
    accesses w' = accesses w ++
      GetReg STM32_I2C_SR1 st ::
      address_setup (u8 (length m)) (mflags m) ++
      [PutReg STM32_I2C_DR
         (if bit_set (mflags m) I2C_M_TEN then 0
          else u16 (Z.lor (Z.shiftl (addr m') 1)
                          (Z.land (mflags m) I2C_M_READ)))] /\
    ptr (w_priv w') = buffer m /\
    dcnt (w_priv w') = length m /\
    total_msg_len (w_priv w') = u8 (length m) /\
    flags (w_priv w') = mflags m /\
    msgc (w_priv w') = u8 (msgc p - 1) /\
    msgv (w_priv w') = Some (if last then k else S k) /\
    check_addr_ACK (w_priv w') = true /\
    intstate (w_priv w') = intstate p /\
    w_mem w' = w_mem w.
Proof.
  intros p st last Hw Hd Hc Hv Hm Hm' Hlen Hsb.
  destruct (isr_send_address e w m m' Hw) as (i & t & n & Hok & Hrun).
  - unfold msg_advance_due. fold p. rewrite Hd. simpl.
    apply Z.gtb_lt. exact Hc.
  - unfold msgv_at. fold p. rewrite Hv. exact Hm.
  - exact Hlen.
  - unfold cursor_after_load. fold p. rewrite Hv. fold last.
    destruct last; exact Hm'.
  - exact Hsb.
  - eexists. split; [exact Hrun|].
    unfold sent_address, loaded, address_byte. fold p. fold st. fold last.
    rewrite Hv. simpl.
    split.
    { unfold accesses. simpl. rewrite rev_app_distr, rev_involutive.
      simpl. rewrite <- !app_assoc. simpl.
      destruct (bit_set (mflags m) I2C_M_TEN); reflexivity. }
    destruct last; repeat split.
Qed.

(** The theorem at work: the first of two messages, a write to address
    0x10 followed by a read from address 0x50. *)
Lemma start_sends_address_witness :
  let e := {| cfg := cfg_irq; hw := hw_const 1 0;
              msgs := [ {| addr := 16; mflags := 0; buffer := 2000;
                           length := 1 |}; msg_read_one ] |} in
  let w := world_of (priv_armed 2) in
  exists w',
    stm32_i2c_isr e w = Some (OK, w') /\
    accesses w' =
      [GetReg STM32_I2C_SR1 1;
       ModifyReg STM32_I2C_CR1 I2C_CR1_POS 0;
       ModifyReg STM32_I2C_CR1 0 I2C_CR1_ACK;
       PutReg STM32_I2C_DR 160].
Proof.
  intros e w.
  assert (Hw : trace_wf e w) by (repeat split; vm_compute; congruence).
  destruct (start_sends_address e w 0 _ msg_read_one Hw eq_refl eq_refl
              eq_refl eq_refl eq_refl eq_refl eq_refl)
    as (w' & Hrun & Hacc & _).
  exists w'. split; [exact Hrun | exact Hacc].
Defined.


(** X11.  The invocation that finds the start bit set with a new message of
    length zero or less due: no address byte is written and neither START
    nor STOP is requested; the byte counter goes back to -1 and the buffer
    interrupt is enabled, so that the next invocation moves on to the next
    message; when the empty message was the last one the transfer ends in
    this same invocation. *)
Theorem start_skips_empty_message (e : env) (w : world) (m : i2c_msg_s) :
  let p := w_priv w in
  let st := reg_read e w 0 STM32_I2C_SR1 in
  trace_wf e w ->
  dcnt p = -1 -> 0 < msgc p ->
  msgv_at e p = Some m ->
  length m <= 0 ->
  bit_set st I2C_SR1_SB = true ->
  exists w' tl,
    stm32_i2c_isr e w = Some (OK, w') /\
    accesses w' = accesses w ++
      [GetReg STM32_I2C_SR1 st;
       ModifyReg STM32_I2C_CR2 0 I2C_CR2_ITBUFEN] ++ tl /\
    forallb shutdown_access tl = true /\
    dcnt (w_priv w') = -1 /\
    msgc (w_priv w') = u8 (msgc p - 1) /\
    check_addr_ACK (w_priv w') = check_addr_ACK p /\
    w_mem w' = w_mem w /\
    (u8 (msgc p - 1) <> 0 ->
       tl = [] /\ msgv (w_priv w') = option_map S (msgv p) /\
       intstate (w_priv w') = intstate p) /\
    (u8 (msgc p - 1) = 0 -> msgv (w_priv w') = None).
Proof.
  intros p st Hw Hd Hc Hm Hlen Hsb. unfold p in *.
  destruct (isr_entry_next_message e w m Hw) as (i & t & n & Hok & ->);
    [ unfold msg_advance_due; rewrite Hd; simpl; apply Z.gtb_lt; exact Hc
    | exact Hm | ].
  unfold bind at 1. unfold isr_protocol. unfold bind at 1. unfold gets at 1, id.
  unfold isr_phase. fold st. rewrite Hsb.
  unfold isr_address_handling. unfold bind at 1. unfold gets at 1, id.
  unfold loaded. simpl. zbool. simpl.
  run_code. repeat trace_step.
  shutdown_step w' tl0 Hacc Htl Hsame Hwf' Hnot Hfin.
  destruct Hsame as (Hdc & Hmc & _ & _ & Hck & _ & _ & Hmem).
  exists w', tl0. split; [reflexivity|].
  split; [rewrite Hacc; accesses_tail|].
  split; [exact Htl|]. split; [exact Hdc|]. split; [exact Hmc|].
  split; [exact Hck|]. split; [exact Hmem|].
  unfold transfer_finished in Hnot, Hfin. simpl in Hnot, Hfin.
  destruct (Z.eqb_spec (u8 (msgc (w_priv w) - 1)) 0) as [Hz|Hnz].
  - split; [intros H; contradiction|]. intros _.
    destruct (Hfin eq_refl) as (Hv & _). exact Hv.
  - split; [|intros H; contradiction]. intros _.
    destruct (Hnot eq_refl) as (-> & ->). simpl.
    repeat split.
Qed.

(** The theorem at work: an empty message, the only one of the transfer. *)
Lemma start_skips_empty_message_witness :
  let e := {| cfg := cfg_irq; hw := hw_const 1 0;
              msgs := [ {| addr := 16; mflags := 0; buffer := 2000;
                           length := 0 |} ] |} in
  let w := world_of (priv_armed 1) in
  exists w' tl,
    stm32_i2c_isr e w = Some (OK, w') /\
    accesses w' =
      [GetReg STM32_I2C_SR1 1; ModifyReg STM32_I2C_CR2 0 I2C_CR2_ITBUFEN]
      ++ tl /\
    count_if is_stop tl = 0%nat /\
    msgv (w_priv w') = None.
Proof.
  intros e w.
  assert (Hw : trace_wf e w) by (repeat split; vm_compute; congruence).
  destruct (start_skips_empty_message e w _ Hw eq_refl eq_refl eq_refl)
    as (w' & tl & Hrun & Hacc & Htl & _ & _ & _ & _ & _ & Hv);
    [simpl; lia | reflexivity |].
  exists w', tl. split; [exact Hrun|]. split; [exact Hacc|].
  split; [apply (shutdown_access_quiet tl Htl) | apply Hv; reflexivity].
Defined.


(** X12.  Interrupt-driven build: the invocation that follows an address
    byte and finds neither the start bit nor ADDR set gives the transfer
    up.  It requests STOP, drops the messages still to come, clears the
    pending-address flag and ends the transfer in the same invocation: the
    cursor is cleared, the interrupts are disabled in CR2, and a waiting
    thread is posted and the handshake state set to done.  No data is
    moved. *)
Theorem address_nack_aborts (e : env) (w : world) (m : i2c_msg_s) :
  let p := w_priv w in
  let st := reg_read e w 0 STM32_I2C_SR1 in
  let cr2 := reg_read e w 1 STM32_I2C_CR2 in
  trace_wf e w ->
  CONFIG_I2C_POLLED (cfg e) = false ->
  dcnt p <> -1 ->
  msgv_at e p = Some m ->
  check_addr_ACK p = true ->
  bit_set st I2C_SR1_SB = false ->
  bit_set st I2C_SR1_ADDR = false ->
  exists w',
    stm32_i2c_isr e w = Some (OK, w') /\
    accesses w' = accesses w ++
      [GetReg STM32_I2C_SR1 st;
       ModifyReg STM32_I2C_CR1 I2C_CR1_ACK I2C_CR1_STOP;
       GetReg STM32_I2C_CR2 cr2;
       PutReg STM32_I2C_CR2 (u16 (Z.land cr2 (Z.lnot I2C_CR2_ALLINTS)))] ++
      (if intstate_eqb (intstate p) INTSTATE_WAITING then [SemPost] else []) /\
    dcnt (w_priv w') = -1 /\
    msgc (w_priv w') = 0 /\
    msgv (w_priv w') = None /\
    check_addr_ACK (w_priv w') = false /\
    intstate (w_priv w') =
      (if intstate_eqb (intstate p) INTSTATE_WAITING then INTSTATE_DONE
       else intstate p) /\
    ptr (w_priv w') = ptr p /\
    w_mem w' = w_mem w.
Proof.
  intros p st cr2 Hw Hpoll Hd Hm Hck Hsb Haddr. unfold p in *.
  destruct (isr_entry_same_message e w Hw) as (i & t & n & Hok & ->).
  { unfold msg_advance_due.
    replace (dcnt (w_priv w) =? -1) with false
      by (symmetry; apply Z.eqb_neq; exact Hd).
    reflexivity. }
  unfold bind at 1. unfold isr_protocol. unfold bind at 1. unfold gets at 1, id.
  rewrite (isr_phase_ext e _ _ (w_priv w)) by reflexivity.
  unfold isr_phase. fold st. rewrite Hsb, Hpoll, Haddr, Hck. simpl.
  unfold isr_address_nacked. run_code.
  match goal with
  | |- context [deref_msgv e ?W] =>
      rewrite (deref_msgv_at e W m) by exact Hm
  end.
  repeat trace_step.
  unfold isr_shutdown, transfer_finished. run_code.
  repeat trace_step. rewrite Hpoll.
  destruct (intstate (w_priv w)) eqn:Hst; simpl; rewrite ?Hst; simpl;
    (eexists; split; [reflexivity|]; split; [accesses_now|];
     repeat split; simpl; exact Hst).
Qed.

(** The theorem at work: the address of a one-byte read stays without
    answer while the caller waits. *)
Lemma address_nack_aborts_witness :
  let e := {| cfg := cfg_irq; hw := hw_const 0 0; msgs := [msg_read_one] |} in
  let w := world_of (set_check_addr_ACK true (set_dcnt 1 (set_flags 1
             (set_msgv (Some 0%nat)
                (set_intstate INTSTATE_WAITING priv_idle))))) in
  exists w',
    stm32_i2c_isr e w = Some (OK, w') /\
    accesses w' =
      [GetReg STM32_I2C_SR1 0;
       ModifyReg STM32_I2C_CR1 I2C_CR1_ACK I2C_CR1_STOP;
       GetReg STM32_I2C_CR2 0; PutReg STM32_I2C_CR2 0; SemPost] /\
    intstate (w_priv w') = INTSTATE_DONE.
Proof.
  intros e w.
  assert (Hw : trace_wf e w) by (repeat split; vm_compute; congruence).
  destruct (address_nack_aborts e w msg_read_one Hw eq_refl)
    as (w' & Hrun & Hacc & _ & _ & _ & _ & Hi & _);
    [ simpl; lia | reflexivity | reflexivity | reflexivity | reflexivity | ].
  exists w'. split; [exact Hrun|]. split; [exact Hacc | exact Hi].
Defined.


Lemma isr_phase_state_error (e : env) (st : Z) (p : stm32_i2c_priv_s) :
  bit_set st I2C_SR1_SB = false ->
  bit_set st I2C_SR1_ADDR = false ->
  bit_set st I2C_SR1_TXE = false ->
  bit_set st I2C_SR1_RXNE = false ->
  check_addr_ACK p = false ->
  transfer_finished p = false ->
  isr_phase e st p = PhaseStateError.
Proof.
  intros Hsb Haddr Htxe Hrxne Hck Hfin. unfold isr_phase.
  rewrite bit_set_lor, Hsb, Haddr, Htxe, Hrxne, Hck.
  unfold transfer_finished in Hfin. rewrite Hfin.
  rewrite !andb_false_r. simpl.
  destruct (bit_set (flags p) I2C_M_READ); reflexivity.
Qed.

(** X13.  An invocation in the middle of a message that finds none of SB,
    ADDR, TXE and RXNE set, no address pending.  The polled build takes it
    for a device that is not ready yet: it reads the status register and
    leaves the session, memory and the other registers alone.  The
    interrupt-driven build takes it for an error: it drops the rest of the
    transfer and ends it in the same invocation, without requesting
    STOP. *)
Theorem unknown_state_polled_waits_irq_aborts (e : env) (w : world) :
  let p := w_priv w in
  let st := reg_read e w 0 STM32_I2C_SR1 in
  trace_wf e w ->
  dcnt p <> -1 ->
  check_addr_ACK p = false ->
  bit_set st I2C_SR1_SB = false ->
  bit_set st I2C_SR1_ADDR = false ->
  bit_set st I2C_SR1_TXE = false ->
  bit_set st I2C_SR1_RXNE = false ->
  exists w',
    stm32_i2c_isr e w = Some (OK, w') /\
    w_mem w' = w_mem w /\ ptr (w_priv w') = ptr p /\
    status (w_priv w') = st /\
    (CONFIG_I2C_POLLED (cfg e) = true ->
       accesses w' = accesses w ++ [GetReg STM32_I2C_SR1 st] /\
       dcnt (w_priv w') = dcnt p /\ msgc (w_priv w') = msgc p /\
       msgv (w_priv w') = msgv p /\
       intstate (w_priv w') = intstate p) /\
    (CONFIG_I2C_POLLED (cfg e) = false ->
       dcnt (w_priv w') = -1 /\ msgc (w_priv w') = 0 /\
       msgv (w_priv w') = None /\
       (intstate p = INTSTATE_WAITING ->
          intstate (w_priv w') = INTSTATE_DONE) /\
       exists tl,
         accesses w' = accesses w ++
           [GetReg STM32_I2C_SR1 st;
            GetReg STM32_I2C_SR2 (reg_read e w 1 STM32_I2C_SR2)] ++ tl /\
         forallb shutdown_access tl = true).
Proof.
  intros p st Hw Hd Hck Hsb Haddr Htxe Hrxne. unfold p, st in *.
  assert (Hnf : transfer_finished (w_priv w) = false).
  { unfold transfer_finished.
    replace (dcnt (w_priv w) =? -1) with false
      by (symmetry; apply Z.eqb_neq; exact Hd).
    reflexivity. }
  destruct (isr_entry_same_message e w Hw) as (i & t & n & Hok & ->).
  { unfold msg_advance_due.
    replace (dcnt (w_priv w) =? -1) with false
      by (symmetry; apply Z.eqb_neq; exact Hd).
    reflexivity. }
  unfold bind at 1. unfold isr_protocol. unfold bind at 1. unfold gets at 1, id.
  rewrite (isr_phase_ext e _ _ (w_priv w)) by reflexivity.
  rewrite (isr_phase_state_error e _ _ Hsb Haddr Htxe Hrxne Hck Hnf).
  unfold isr_state_error.
  destruct (CONFIG_I2C_POLLED (cfg e)) eqn:Hpoll.
  - run_code. repeat trace_step.
    shutdown_step w' tl0 Hacc Htl Hsame Hwf' Hnot Hfin.
    destruct Hnot as [-> ->]; [simpl; exact Hnf|].
    eexists. split; [reflexivity|]. simpl.
    split; [reflexivity|]. split; [reflexivity|]. split; [reflexivity|].
    split; [|discriminate]. intros _.
    split; [accesses_now|]. repeat split.
  - run_code. repeat trace_step.
    shutdown_step w' tl0 Hacc Htl Hsame Hwf' Hnot Hfin.
    destruct Hsame as (Hdc & Hmc & Hptr & _ & _ & _ & Hst & Hmem).
    destruct (Hfin eq_refl) as (Hv & _ & Hirq).
    destruct (Hirq Hpoll) as (Hwait & _).
    exists w'. split; [reflexivity|].
    split; [exact Hmem|]. split; [exact Hptr|]. split; [exact Hst|].
    split; [discriminate|]. intros _.
    split; [exact Hdc|]. split; [exact Hmc|]. split; [exact Hv|].
    split; [exact Hwait|].
    exists tl0. split; [rewrite Hacc; accesses_tail | exact Htl].
Qed.

(** The theorem at work: a status word of zero while a write is under
    way, on a polled build. *)
Lemma unknown_state_polled_waits_irq_aborts_witness :
  let e := {| cfg := cfg_polled; hw := hw_const 0 0; msgs := [] |} in
  let w := world_of (set_dcnt 1 (set_msgc 1 priv_idle)) in
  exists w',
    stm32_i2c_isr e w = Some (OK, w') /\
    accesses w' = [GetReg STM32_I2C_SR1 0] /\
    dcnt (w_priv w') = 1 /\ msgc (w_priv w') = 1.
Proof.
  intros e w.
  assert (Hw : trace_wf e w) by (repeat split; vm_compute; congruence).
  destruct (unknown_state_polled_waits_irq_aborts e w Hw)
    as (w' & Hrun & _ & _ & _ & Hp & _);
    [ simpl; lia | reflexivity | reflexivity | reflexivity | reflexivity
    | reflexivity | ].
  destruct (Hp eq_refl) as (Hacc & Hd & Hc & _).
  exists w'. split; [exact Hrun|]. split; [exact Hacc|].
  split; [exact Hd | exact Hc].
Defined.


(** ** A write message from the address to STOP *)

Lemma dr_writes_app (l1 l2 : list access) :
  dr_writes (l1 ++ l2) = dr_writes l1 ++ dr_writes l2.
Proof. unfold dr_writes. apply flat_map_app. Qed.

Lemma dr_writes_shutdown (tl : list access) :
  forallb shutdown_access tl = true -> dr_writes tl = [].
Proof.
  induction tl as [|a tl IH]; intros H; [reflexivity|].
  simpl in H. apply andb_prop in H as [Ha Htl].
  simpl. rewrite (IH Htl).
  destruct a as [[] v|[] v|r c s| |sec nsec]; simpl in *; try discriminate;
    reflexivity.
Qed.

Lemma run_isr_app (e : env) (a b : nat) (w : world) :
  run_isr e (a + b) w = (run_isr e a ;; run_isr e b) w.
Proof.
  revert w. induction a as [|a IH]; intros w; [reflexivity|].
  simpl. unfold bind in *.
  destruct (stm32_i2c_isr e w) as [[r w1]|]; [|reflexivity].
  apply IH.
Qed.

Lemma buffer_bytes_S (mem : Z -> Z) (a : Z) (n : nat) :
  buffer_bytes mem a (S n) = u16 (mem a) :: buffer_bytes mem (a + 1) n.
Proof.
  unfold buffer_bytes. simpl. rewrite Z.add_0_r. f_equal.
  rewrite <- seq_shift, List.map_map. apply List.map_ext. intros j.
  do 2 f_equal. lia.
Qed.

Lemma reg_read_shift (e : env) (w w1 : world) (k j : nat) (r : reg) :
  w_nreads w1 = (k + w_nreads w)%nat ->
  reg_read e w1 j r = reg_read e w (j + k) r.
Proof.
  intros H. unfold reg_read. rewrite H. do 2 f_equal. lia.
Qed.

(** The invocations that write the [d] bytes still to go. *)
Lemma write_bytes_run (e : env) (d : nat) :
  forall w,
    trace_wf e w ->
    dcnt (w_priv w) = Z.of_nat d ->
    bit_set (flags (w_priv w)) I2C_M_READ = false ->
    (forall j, (j < d)%nat ->
       write_ready (reg_read e w (2 * j) STM32_I2C_SR1) = true) ->
    (check_addr_ACK (w_priv w) = true ->
     CONFIG_I2C_POLLED (cfg e) = true \/
     bit_set (reg_read e w 0 STM32_I2C_SR1) I2C_SR1_ADDR = true) ->
    exists w' new,
      run_isr e d w = Some (tt, w') /\
      trace_wf e w' /\
      accesses w' = accesses w ++ new /\
      dr_writes new = buffer_bytes (w_mem w) (ptr (w_priv w)) d /\
      count_if is_stop new = 0%nat /\
      count_if is_start new = 0%nat /\
      count_if is_dr_read new = 0%nat /\
      w_nreads w' = (2 * d + w_nreads w)%nat /\
      dcnt (w_priv w') = 0 /\
      ptr (w_priv w') = ptr (w_priv w) + Z.of_nat d /\
      flags (w_priv w') = flags (w_priv w) /\
      msgc (w_priv w') = msgc (w_priv w) /\
      msgv (w_priv w') = msgv (w_priv w) /\
      intstate (w_priv w') = intstate (w_priv w) /\
      check_addr_ACK (w_priv w') =
        match d with
        | O => check_addr_ACK (w_priv w)
        | S _ => false
        end /\
      w_mem w' = w_mem w.
Proof.
  induction d as [|d IH]; intros w Hw Hd Hfl Hhw Hck.
  - exists w, []. split; [reflexivity|]. split; [exact Hw|].
    split; [symmetry; apply app_nil_r|].
    rewrite Z.add_0_r. repeat split; try reflexivity; try assumption.
  - assert (Hr0 := Hhw 0%nat ltac:(lia)). simpl in Hr0.
    unfold write_ready in Hr0. apply andb_prop in Hr0 as [Hsb Hat].
    apply negb_true_iff in Hsb.
    assert (Hph : isr_phase e (reg_read e w 0 STM32_I2C_SR1) (w_priv w)
                  = PhaseWrite).
    { apply isr_phase_write. repeat split; assumption. }
    destruct (isr_write_byte e w Hw Hph) as (i & t & n & Hok & Hrun);
      [lia|].
    set (w1 := wrote_byte e w i t n) in *.
    destruct (IH w1) as (w' & new & Hrun' & Hw' & Hacc & Hdr & Hst & Hsta
                         & Hrd & Hnr & Hdc & Hptr & Hflg & Hmc & Hmv & Hint
                         & Hck' & Hmem).
    + exact Hok.
    + unfold w1, wrote_byte. simpl. lia.
    + exact Hfl.
    + intros j Hj.
      rewrite (reg_read_shift e w w1 2 (2 * j)) by reflexivity.
      replace (2 * j + 2)%nat with (2 * S j)%nat by lia.
      apply Hhw. lia.
    + intros H. discriminate H.
    + exists w', (GetReg STM32_I2C_SR1 (reg_read e w 0 STM32_I2C_SR1)
                  :: GetReg STM32_I2C_SR2 (reg_read e w 1 STM32_I2C_SR2)
                  :: PutReg STM32_I2C_DR (u16 (w_mem w (ptr (w_priv w))))
                  :: new).
      split.
      { simpl. unfold bind. rewrite Hrun. exact Hrun'. }
      split; [exact Hw'|].
      split.
      { rewrite Hacc. unfold w1, wrote_byte, accesses. simpl.
        rewrite <- !app_assoc. reflexivity. }
      split.
      { rewrite buffer_bytes_S. simpl. f_equal. exact Hdr. }
      split; [exact Hst|]. split; [exact Hsta|]. split; [exact Hrd|].
      split; [rewrite Hnr; unfold w1, wrote_byte; simpl; lia|].
      split; [exact Hdc|].
      split; [rewrite Hptr; unfold w1, wrote_byte; simpl; lia|].
      split; [exact Hflg|]. split; [exact Hmc|]. split; [exact Hmv|].
      split; [exact Hint|].
      split; [|exact Hmem].
      rewrite Hck'. destruct d; reflexivity.
Qed.

(** The invocation that closes the last message of a write. *)
Lemma write_stop_run (e : env) (w : world) :
  let st := reg_read e w 0 STM32_I2C_SR1 in
  trace_wf e w ->
  isr_phase e st (w_priv w) = PhaseWrite ->
  dcnt (w_priv w) = 0 -> msgc (w_priv w) = 0 ->
  exists w' tl,
    stm32_i2c_isr e w = Some (OK, w') /\
    trace_wf e w' /\
    accesses w' = accesses w ++
      [GetReg STM32_I2C_SR1 st;
       GetReg STM32_I2C_SR2 (reg_read e w 1 STM32_I2C_SR2);
       ModifyReg STM32_I2C_CR1 I2C_CR1_ACK I2C_CR1_STOP] ++ tl /\
    forallb shutdown_access tl = true /\
    transfer_finished (w_priv w') = true /\
    msgv (w_priv w') = None /\
    (CONFIG_I2C_POLLED (cfg e) = true \/
     intstate (w_priv w) = INTSTATE_WAITING ->
     intstate (w_priv w') = INTSTATE_DONE) /\
    w_mem w' = w_mem w.
Proof.
  intros st Hw Hph Hd Hc. unfold st in *.
  destruct (write_end_entry e w Hw Hph Hd) as (i & t & n & Hok & ->).
  unfold isr_write_mode. run_code. rewrite Hd, Hc. simpl.
  repeat trace_step.
  shutdown_step w' tl0 Hacc Htl Hsame Hwf' Hnot Hfin.
  destruct Hsame as (Hdc & Hmc & _ & _ & _ & _ & _ & Hmem).
  assert (Hf : transfer_finished (w_priv w') = true).
  { unfold transfer_finished. rewrite Hdc, Hmc. simpl. rewrite Hd, Hc.
    reflexivity. }
  destruct Hfin as (Hv & Hp & Hirq).
  { unfold transfer_finished. simpl. rewrite Hd, Hc. reflexivity. }
  exists w', tl0. split; [reflexivity|]. split; [exact Hwf'|].
  split; [rewrite Hacc; accesses_tail|].
  split; [exact Htl|]. split; [exact Hf|]. split; [exact Hv|].
  split; [|exact Hmem].
  destruct (CONFIG_I2C_POLLED (cfg e)) eqn:Hpoll.
  - intros _. apply Hp. reflexivity.
  - intros [H|H]; [discriminate H|].
    destruct (Hirq eq_refl) as (Hwait & _). apply Hwait. exact H.
Qed.

(** X14.  A transfer of one write message of [L] bytes, the hardware
    showing the start bit first and ADDR or TXE at every later invocation:
    after [L + 2] invocations the engine has written to the data register
    the address byte and then the [L] bytes of the buffer in order, has
    requested STOP exactly once and START never, has read no data and
    changed no memory, and the transfer is finished with the cursor
    cleared and the waiting caller released. *)
Theorem write_message_run (e : env) (w : world) (k L : nat)
  (m : i2c_msg_s) :
  let p := w_priv w in
  trace_wf e w ->
  dcnt p = -1 -> msgc p = 1 -> msgv p = Some k ->
  msgs e !! k = Some m ->
  bit_set (mflags m) I2C_M_READ = false ->
  length m = Z.of_nat L -> (0 < L)%nat ->
  bit_set (reg_read e w 0 STM32_I2C_SR1) I2C_SR1_SB = true ->
  (forall j, (j <= L)%nat ->
     write_ready (reg_read e w (1 + 2 * j) STM32_I2C_SR1) = true) ->
  CONFIG_I2C_POLLED (cfg e) = true \/
  bit_set (reg_read e w 1 STM32_I2C_SR1) I2C_SR1_ADDR = true ->
  exists w' new,
    run_isr e (L + 2) w = Some (tt, w') /\
    accesses w' = accesses w ++ new /\
    dr_writes new =
      address_byte (mflags m) m :: buffer_bytes (w_mem w) (buffer m) L /\
    count_if is_stop new = 1%nat /\
    count_if is_start new = 0%nat /\
    count_if is_dr_read new = 0%nat /\
    transfer_finished (w_priv w') = true /\
    msgv (w_priv w') = None /\
    (CONFIG_I2C_POLLED (cfg e) = true \/ intstate p = INTSTATE_WAITING ->
     intstate (w_priv w') = INTSTATE_DONE) /\
    w_mem w' = w_mem w.
Proof.
  intros p Hw Hd Hc Hv Hm Hrd Hlen HL Hsb Hhw Hack. unfold p in *.
  (* the address *)
  destruct (isr_send_address e w m m Hw) as (i & t & n & Hok & Hrun0).
  { unfold msg_advance_due. rewrite Hd, Hc. reflexivity. }
  { unfold msgv_at. rewrite Hv. exact Hm. }
  { lia. }
  { unfold cursor_after_load. rewrite Hc, Hv. exact Hm. }
  { exact Hsb. }
  set (w1 := sent_address e w m m i t n) in *.
  (* the bytes *)
  destruct (write_bytes_run e L w1)
    as (w2 & new2 & Hrun2 & Hw2 & Hacc2 & Hdr2 & Hst2 & Hsta2 & Hrd2 & Hnr2
        & Hdc2 & _ & Hfl2 & Hmc2 & _ & Hint2 & Hck2 & Hmem2).
  { exact Hok. }
  { unfold w1, sent_address, loaded. simpl. exact Hlen. }
  { unfold w1, sent_address, loaded. simpl. exact Hrd. }
  { intros j Hj.
    rewrite (reg_read_shift e w w1 1 (2 * j)) by reflexivity.
    replace (2 * j + 1)%nat with (1 + 2 * j)%nat by lia.
    apply Hhw. lia. }
  { intros _.
    rewrite (reg_read_shift e w w1 1 0) by reflexivity. exact Hack. }
  (* the end *)
  assert (Hr : write_ready (reg_read e w2 0 STM32_I2C_SR1) = true).
  { rewrite (reg_read_shift e w w2 (2 * L + 1) 0)
      by (rewrite Hnr2; unfold w1, sent_address; simpl; lia).
    replace (0 + (2 * L + 1))%nat with (1 + 2 * L)%nat by lia.
    apply Hhw. lia. }
  unfold write_ready in Hr. apply andb_prop in Hr as [Hsb2 Hat2].
  apply negb_true_iff in Hsb2.
  destruct (write_stop_run e w2 Hw2)
    as (w3 & tl & Hrun3 & _ & Hacc3 & Htl & Hfin & Hv3 & Hint3 & Hmem3).
  { apply isr_phase_write. rewrite Hfl2.
    split; [exact Hsb2|]. split; [exact Hrd|]. split; [exact Hat2|].
    rewrite Hck2. destruct L; [lia|]. intros H; discriminate H. }
  { exact Hdc2. }
  { rewrite Hmc2. unfold w1, sent_address, loaded. simpl. rewrite Hc.
    reflexivity. }
  destruct (shutdown_access_quiet tl Htl) as (Hq1 & Hq2 & Hq3).
  exists w3,
    ((GetReg STM32_I2C_SR1 (reg_read e w 0 STM32_I2C_SR1)
      :: address_setup (u8 (length m)) (mflags m) ++
         [PutReg STM32_I2C_DR (address_byte (mflags m) m)]) ++
     new2 ++
     [GetReg STM32_I2C_SR1 (reg_read e w2 0 STM32_I2C_SR1);
      GetReg STM32_I2C_SR2 (reg_read e w2 1 STM32_I2C_SR2);
      ModifyReg STM32_I2C_CR1 I2C_CR1_ACK I2C_CR1_STOP] ++ tl).
  split.
  { replace (L + 2)%nat with (S (L + 1)) by lia.
    simpl. unfold bind at 1. rewrite Hrun0.
    rewrite run_isr_app. unfold bind at 1. fold w1. rewrite Hrun2.
    simpl. unfold bind. rewrite Hrun3. reflexivity. }
  split.
  { rewrite Hacc3, Hacc2. unfold w1, sent_address, loaded, accesses. simpl.
    rewrite rev_app_distr, rev_involutive. simpl.
    rewrite <- !app_assoc. simpl. reflexivity. }
  assert (Hsetup : dr_writes (address_setup (u8 (length m)) (mflags m)) = []
                   /\ count_if is_stop
                        (address_setup (u8 (length m)) (mflags m)) = 0%nat
                   /\ count_if is_start
                        (address_setup (u8 (length m)) (mflags m)) = 0%nat
                   /\ count_if is_dr_read
                        (address_setup (u8 (length m)) (mflags m)) = 0%nat).
  { unfold address_setup.
    destruct ((u8 (length m) =? 1) && bit_set (mflags m) I2C_M_READ);
      [|destruct ((u8 (length m) =? 2) && bit_set (mflags m) I2C_M_READ)];
      repeat split. }
  destruct Hsetup as (Hs1 & Hs2 & Hs3 & Hs4).
  split.
  { rewrite !dr_writes_app, Hdr2, (dr_writes_shutdown tl Htl).
    change (dr_writes (GetReg STM32_I2C_SR1 (reg_read e w 0 STM32_I2C_SR1)
                       :: address_setup (u8 (length m)) (mflags m) ++
                          [PutReg STM32_I2C_DR (address_byte (mflags m) m)]))
      with (dr_writes (address_setup (u8 (length m)) (mflags m) ++
                       [PutReg STM32_I2C_DR (address_byte (mflags m) m)])).
    rewrite dr_writes_app, Hs1. simpl.
    unfold w1, sent_address, loaded. simpl.
    rewrite !app_nil_r. reflexivity. }
  rewrite !count_if_app, Hst2, Hsta2, Hrd2, Hq1, Hq2, Hq3.
  change (count_if is_stop
            (GetReg STM32_I2C_SR1 (reg_read e w 0 STM32_I2C_SR1)
             :: address_setup (u8 (length m)) (mflags m) ++
                [PutReg STM32_I2C_DR (address_byte (mflags m) m)]))
    with (count_if is_stop
            (address_setup (u8 (length m)) (mflags m) ++
             [PutReg STM32_I2C_DR (address_byte (mflags m) m)])).
  change (count_if is_start
            (GetReg STM32_I2C_SR1 (reg_read e w 0 STM32_I2C_SR1)
             :: address_setup (u8 (length m)) (mflags m) ++
                [PutReg STM32_I2C_DR (address_byte (mflags m) m)]))
    with (count_if is_start
            (address_setup (u8 (length m)) (mflags m) ++
             [PutReg STM32_I2C_DR (address_byte (mflags m) m)])).
  change (count_if is_dr_read
            (GetReg STM32_I2C_SR1 (reg_read e w 0 STM32_I2C_SR1)
             :: address_setup (u8 (length m)) (mflags m) ++
                [PutReg STM32_I2C_DR (address_byte (mflags m) m)]))
    with (count_if is_dr_read
            (address_setup (u8 (length m)) (mflags m) ++
             [PutReg STM32_I2C_DR (address_byte (mflags m) m)])).
  rewrite !count_if_app, Hs2, Hs3, Hs4.
  split; [reflexivity|]. split; [reflexivity|]. split; [reflexivity|].
  split; [exact Hfin|]. split; [exact Hv3|].
  split.
  { intros H. apply Hint3. rewrite Hint2.
    unfold w1, sent_address, loaded. simpl. exact H. }
  rewrite Hmem3, Hmem2. reflexivity.
Qed.

(** The theorem at work: two bytes written to address 0x10. *)
Lemma write_message_run_witness :
  let e := {| cfg := cfg_polled;
              hw := hw_script [1; 128; 0; 128; 0; 128; 0];
              msgs := [ {| addr := 16; mflags := 0; buffer := 2000;
                           length := 2 |} ] |} in
  let w := {| w_priv := priv_armed 1;
              w_mem := fun a => if a =? 2000 then 171
                                else if a =? 2001 then 205 else 0;
              w_nreads := 0; w_nclock := 0; w_log := [] |} in
  exists w' new,
    run_isr e 4 w = Some (tt, w') /\
    accesses w' = new /\
    dr_writes new = [32; 171; 205] /\
    count_if is_stop new = 1%nat /\
    intstate (w_priv w') = INTSTATE_DONE.
Proof.
  intros e w.
  assert (Hw : trace_wf e w) by (repeat split; vm_compute; congruence).
  destruct (write_message_run e w 0 2 _ Hw eq_refl eq_refl eq_refl eq_refl
              eq_refl eq_refl)
    as (w' & new & Hrun & Hacc & Hdr & Hstop & _ & _ & _ & _ & Hint & _).
  - lia.
  - reflexivity.
  - intros j Hj. destruct j as [|[|[|j]]]; [reflexivity..|lia].
  - left. reflexivity.
  - exists w', new. split; [exact Hrun|]. split; [exact Hacc|].
    split; [exact Hdr|]. split; [exact Hstop|].
    apply Hint. left. reflexivity.
Defined.


(** ** A read message of three or more bytes from the address to STOP *)

Lemma dr_reads_app (l1 l2 : list access) :
  dr_reads (l1 ++ l2) = dr_reads l1 ++ dr_reads l2.
Proof. unfold dr_reads. apply flat_map_app. Qed.

(** The invocation that takes one byte while three or more are to go. *)
Lemma read_takes_byte (e : env) (w : world) :
  let st := reg_read e w 0 STM32_I2C_SR1 in
  let dr := reg_read e w 1 STM32_I2C_DR in
  let p := w_priv w in
  trace_wf e w ->
  isr_phase e st p = PhaseRead ->
  3 <= total_msg_len p ->
  bit_set st I2C_SR1_BTF = true ->
  3 <= dcnt p ->
  exists w',
    stm32_i2c_isr e w = Some (OK, w') /\
    trace_wf e w' /\
    accesses w' = accesses w ++
      [GetReg STM32_I2C_SR1 st] ++
      (if dcnt p =? 3 then [ModifyReg STM32_I2C_CR1 I2C_CR1_ACK 0] else []) ++
      [GetReg STM32_I2C_DR dr;
       GetReg STM32_I2C_SR2 (reg_read e w 2 STM32_I2C_SR2)] /\
    w_nreads w' = (3 + w_nreads w)%nat /\
    w_mem w' = (fun x => if x =? ptr p then u8 dr else w_mem w x) /\
    dcnt (w_priv w') = dcnt p - 1 /\
    ptr (w_priv w') = ptr p + 1 /\
    flags (w_priv w') = flags p /\
    total_msg_len (w_priv w') = total_msg_len p /\
    msgc (w_priv w') = msgc p /\
    check_addr_ACK (w_priv w') = check_addr_ACK p /\
    intstate (w_priv w') = intstate p.
Proof.
  intros st dr p Hw Hph Hlen Hbtf Hd. unfold p, st, dr in *.
  destruct (isr_entry_same_message e w Hw) as (i & t & n & Hok & ->).
  { unfold msg_advance_due. zbool. reflexivity. }
  unfold bind at 1. rewrite (read_mode_entered e w Hph).
  unfold isr_read_mode. unfold bind at 1. unfold gets at 1, id.
  simpl. rewrite Hbtf. zbool. simpl.
  destruct (Z.eq_dec (dcnt (w_priv w)) 3) as [H3|H3].
  - rewrite H3. simpl.
    run_code. repeat trace_step. shutdown_idle.
    eexists. split; [reflexivity|]. split; [trace_wf_now|].
    split; [accesses_now|]. simpl. rewrite H3. repeat split.
  - zbool. simpl.
    run_code. repeat trace_step. shutdown_idle.
    eexists. split; [reflexivity|]. split; [trace_wf_now|].
    split; [accesses_now|]. simpl. repeat split.
Qed.

(** The invocations that take the bytes of a long read one by one, until
    two are left. *)
Lemma read_bytes_run (e : env) (d : nat) :
  forall w,
    trace_wf e w ->
    bit_set (flags (w_priv w)) I2C_M_READ = true ->
    check_addr_ACK (w_priv w) = false ->
    3 <= total_msg_len (w_priv w) ->
    dcnt (w_priv w) = Z.of_nat d + 2 ->
    (forall j, (j < d)%nat ->
       read_ready (reg_read e w (3 * j) STM32_I2C_SR1) = true) ->
    exists w' new,
      run_isr e d w = Some (tt, w') /\
      trace_wf e w' /\
      accesses w' = accesses w ++ new /\
      List.length (dr_reads new) = d /\
      (forall j, (j < d)%nat ->
         w_mem w' (ptr (w_priv w) + Z.of_nat j) =
           u8 (nth j (dr_reads new) 0)) /\
      (forall x, x < ptr (w_priv w) \/ ptr (w_priv w) + Z.of_nat d <= x ->
         w_mem w' x = w_mem w x) /\
      dr_writes new = [] /\
      count_if is_stop new = 0%nat /\
      count_if is_start new = 0%nat /\
      count_if is_nack new = (if Nat.eqb d 0 then 0 else 1)%nat /\
      w_nreads w' = (3 * d + w_nreads w)%nat /\
      dcnt (w_priv w') = 2 /\
      ptr (w_priv w') = ptr (w_priv w) + Z.of_nat d /\
      flags (w_priv w') = flags (w_priv w) /\
      total_msg_len (w_priv w') = total_msg_len (w_priv w) /\
      msgc (w_priv w') = msgc (w_priv w) /\
      check_addr_ACK (w_priv w') = false /\
      intstate (w_priv w') = intstate (w_priv w).
Proof.
  induction d as [|d IH]; intros w Hw Hfl Hck Hlen Hd Hhw.
  - exists w, []. split; [reflexivity|]. split; [exact Hw|].
    split; [symmetry; apply app_nil_r|].
    split; [reflexivity|]. split; [intros j Hj; lia|].
    split; [reflexivity|].
    rewrite Z.add_0_r. repeat split; try reflexivity; try assumption.
  - assert (Hr0 := Hhw 0%nat ltac:(lia)). simpl in Hr0.
    unfold read_ready in Hr0. apply andb_prop in Hr0 as [Hr0 Hbtf].
    apply andb_prop in Hr0 as [Hsb Hrx]. apply negb_true_iff in Hsb.
    assert (Hph : isr_phase e (reg_read e w 0 STM32_I2C_SR1) (w_priv w)
                  = PhaseRead).
    { apply isr_phase_read. repeat split; try assumption;
        rewrite Hck in *; discriminate. }
    destruct (read_takes_byte e w Hw Hph Hlen Hbtf)
      as (w1 & Hrun & Hw1 & Hacc1 & Hnr1 & Hmem1 & Hd1 & Hp1 & Hf1 & Ht1
          & Hc1 & Hk1 & Hi1); [lia|].
    destruct (IH w1) as (w' & new & Hrun' & Hw' & Hacc & Hlenr & Hbytes
                         & Hframe & Hdw & Hst & Hsta & Hnk & Hnr & Hdc
                         & Hptr & Hflg & Htot & Hmc & Hck' & Hint).
    + exact Hw1.
    + rewrite Hf1. exact Hfl.
    + rewrite Hk1. exact Hck.
    + rewrite Ht1. exact Hlen.
    + rewrite Hd1, Hd. lia.
    + intros j Hj.
      rewrite (reg_read_shift e w w1 3 (3 * j)) by exact Hnr1.
      replace (3 * j + 3)%nat with (3 * S j)%nat by lia.
      apply Hhw. lia.
    + set (nack := if dcnt (w_priv w) =? 3
                   then [ModifyReg STM32_I2C_CR1 I2C_CR1_ACK 0] else [])
        in *.
      assert (Hnack : dr_reads nack = [] /\ dr_writes nack = [] /\
                      count_if is_stop nack = 0%nat /\
                      count_if is_start nack = 0%nat /\
                      count_if is_nack nack =
                        (if Nat.eqb d 0 then 1 else 0)%nat).
      { unfold nack. destruct d as [|d'].
        - replace (dcnt (w_priv w) =? 3) with true
            by (symmetry; apply Z.eqb_eq; lia).
          repeat split.
        - replace (dcnt (w_priv w) =? 3) with false
            by (symmetry; apply Z.eqb_neq; lia).
          repeat split. }
      destruct Hnack as (Hn1 & Hn2 & Hn3 & Hn4 & Hn5).
      exists w', ([GetReg STM32_I2C_SR1 (reg_read e w 0 STM32_I2C_SR1)] ++
                  nack ++
                  [GetReg STM32_I2C_DR (reg_read e w 1 STM32_I2C_DR);
                   GetReg STM32_I2C_SR2 (reg_read e w 2 STM32_I2C_SR2)] ++
                  new).
      assert (Hdr : dr_reads
                ([GetReg STM32_I2C_SR1 (reg_read e w 0 STM32_I2C_SR1)] ++
                 nack ++
                 [GetReg STM32_I2C_DR (reg_read e w 1 STM32_I2C_DR);
                  GetReg STM32_I2C_SR2 (reg_read e w 2 STM32_I2C_SR2)] ++
                 new) = reg_read e w 1 STM32_I2C_DR :: dr_reads new).
      { rewrite !dr_reads_app, Hn1. reflexivity. }
      split.
      { simpl. unfold bind. rewrite Hrun. exact Hrun'. }
      split; [exact Hw'|].
      split.
      { rewrite Hacc, Hacc1. rewrite <- !app_assoc. reflexivity. }
      split; [rewrite Hdr; simpl; rewrite Hlenr; reflexivity|].
      split.
      { intros j Hj. rewrite Hdr. destruct j as [|j].
        - rewrite Z.add_0_r. rewrite Hframe by (rewrite Hp1; lia).
          rewrite Hmem1. rewrite Z.eqb_refl. reflexivity.
        - simpl nth. rewrite <- (Hbytes j) by lia. rewrite Hp1.
          f_equal. lia. }
      split.
      { intros x Hx. rewrite Hframe by (rewrite Hp1; lia).
        rewrite Hmem1.
        replace (x =? ptr (w_priv w)) with false
          by (symmetry; apply Z.eqb_neq; lia).
        reflexivity. }
      split.
      { rewrite !dr_writes_app, Hn2, Hdw. reflexivity. }
      rewrite !count_if_app, Hn3, Hn4, Hn5, Hst, Hsta, Hnk.
      split; [reflexivity|]. split; [reflexivity|].
      split; [destruct d; reflexivity|].
      split; [rewrite Hnr, Hnr1; lia|].
      split; [exact Hdc|].
      split; [rewrite Hptr, Hp1; lia|].
      split; [congruence|]. split; [congruence|]. split; [congruence|].
      split; [exact Hck'|]. congruence.
Qed.

(** The invocation that sees the address of a long read acknowledged. *)
Lemma addr_acked_long (e : env) (w : world) :
  let st := reg_read e w 0 STM32_I2C_SR1 in
  let p := w_priv w in
  trace_wf e w ->
  isr_phase e st p = PhaseAddrAckedRead ->
  3 <= dcnt p ->
  exists w',
    stm32_i2c_isr e w = Some (OK, w') /\
    trace_wf e w' /\
    accesses w' = accesses w ++
      [GetReg STM32_I2C_SR1 st;
       GetReg STM32_I2C_SR2 (reg_read e w 1 STM32_I2C_SR2)] /\
    w_nreads w' = (2 + w_nreads w)%nat /\
    w_mem w' = w_mem w /\
    dcnt (w_priv w') = dcnt p /\
    ptr (w_priv w') = ptr p /\
    flags (w_priv w') = flags p /\
    total_msg_len (w_priv w') = total_msg_len p /\
    msgc (w_priv w') = msgc p /\
    check_addr_ACK (w_priv w') = false /\
    intstate (w_priv w') = intstate p.
Proof.
  intros st p Hw Hph Hd. unfold p, st in *.
  destruct (isr_entry_same_message e w Hw) as (i & t & n & Hok & ->).
  { unfold msg_advance_due. zbool. reflexivity. }
  unfold bind at 1. unfold isr_protocol. unfold bind at 1. unfold gets at 1, id.
  rewrite (isr_phase_ext e _ _ (w_priv w)) by reflexivity. rewrite Hph.
  unfold isr_address_acked_read.
  run_code. zbool. simpl.
  repeat trace_step. shutdown_idle.
  eexists. split; [reflexivity|]. split; [trace_wf_now|].
  split; [accesses_now|]. simpl. repeat split.
Qed.

(** The invocation that takes the last two bytes of the last message. *)
Lemma read_last_two_run (e : env) (w : world) :
  let st := reg_read e w 0 STM32_I2C_SR1 in
  let d1 := reg_read e w 1 STM32_I2C_DR in
  let d2 := reg_read e w 2 STM32_I2C_DR in
  let p := w_priv w in
  trace_wf e w ->
  isr_phase e st p = PhaseRead ->
  3 <= total_msg_len p ->
  bit_set st I2C_SR1_BTF = true ->
  dcnt p = 2 -> msgc p = 0 ->
  exists w' tl,
    stm32_i2c_isr e w = Some (OK, w') /\
    accesses w' = accesses w ++
      [GetReg STM32_I2C_SR1 st;
       ModifyReg STM32_I2C_CR1 I2C_CR1_ACK I2C_CR1_STOP;
       GetReg STM32_I2C_DR d1; GetReg STM32_I2C_DR d2;
       GetReg STM32_I2C_SR2 (reg_read e w 3 STM32_I2C_SR2)] ++ tl /\
    forallb shutdown_access tl = true /\
    w_mem w' = (fun x => if x =? ptr p + 1 then u8 d2
                         else if x =? ptr p then u8 d1 else w_mem w x) /\
    transfer_finished (w_priv w') = true /\
    msgv (w_priv w') = None /\
    (CONFIG_I2C_POLLED (cfg e) = true \/
     intstate p = INTSTATE_WAITING ->
     intstate (w_priv w') = INTSTATE_DONE).
Proof.
  intros st d1 d2 p Hw Hph Hlen Hbtf Hd Hc. unfold p, st, d1, d2 in *.
  destruct (isr_entry_same_message e w Hw) as (i & t & n & Hok & ->).
  { unfold msg_advance_due. zbool. reflexivity. }
  unfold bind at 1. rewrite (read_mode_entered e w Hph).
  unfold isr_read_mode. unfold bind at 1. unfold gets at 1, id.
  simpl. rewrite Hbtf. zbool. simpl.
  run_code_cbn. repeat trace_step.
  shutdown_step w' tl0 Hacc Htl Hsame Hwf' Hnot Hfin.
  destruct Hsame as (Hdc & Hmc & _ & _ & _ & _ & _ & Hmem).
  destruct Hfin as (Hv & Hp & Hirq).
  { unfold transfer_finished. simpl. rewrite Hc. reflexivity. }
  exists w', tl0. split; [reflexivity|].
  split; [rewrite Hacc; accesses_tail|].
  split; [exact Htl|].
  split; [rewrite Hmem; reflexivity|].
  split.
  { unfold transfer_finished. rewrite Hdc, Hmc. simpl. rewrite Hc.
    reflexivity. }
  split; [exact Hv|].
  destruct (CONFIG_I2C_POLLED (cfg e)) eqn:Hpoll.
  - intros _. apply Hp. reflexivity.
  - intros [H|H]; [discriminate H|].
    destruct (Hirq eq_refl) as (Hwait & _). apply Hwait. exact H.
Qed.

Lemma dr_reads_shutdown (tl : list access) :
  forallb shutdown_access tl = true ->
  dr_reads tl = [] /\ count_if is_nack tl = 0%nat.
Proof.
  induction tl as [|a tl IH]; intros H; [split; reflexivity|].
  simpl in H. apply andb_prop in H as [Ha Htl].
  destruct (IH Htl) as [H1 H2]. unfold count_if in *.
  destruct a as [[] v|[] v|r c s| |sec nsec]; simpl in *; try discriminate;
    split; assumption.
Qed.

(** X15.  A transfer of one read message of [N] bytes, 3 <= N <= 255, the
    hardware showing the start bit, then ADDR, then RXNE with BTF at every
    later invocation: after [N + 1] invocations the engine has written the
    address byte and nothing else to the data register, has read the data
    register [N] times and stored the bytes in order into the buffer,
    leaving the rest of memory alone; it has stopped acknowledging exactly
    once, requested STOP exactly once and START never; the transfer is
    finished with the cursor cleared and the waiting caller released. *)
Theorem read_message_run (e : env) (w : world) (k N : nat)
  (m : i2c_msg_s) :
  let p := w_priv w in
  trace_wf e w ->
  dcnt p = -1 -> msgc p = 1 -> msgv p = Some k ->
  msgs e !! k = Some m ->
  bit_set (mflags m) I2C_M_READ = true ->
  length m = Z.of_nat N -> (3 <= N <= 255)%nat ->
  bit_set (reg_read e w 0 STM32_I2C_SR1) I2C_SR1_SB = true ->
  bit_set (reg_read e w 1 STM32_I2C_SR1) I2C_SR1_SB = false ->
  bit_set (reg_read e w 1 STM32_I2C_SR1) I2C_SR1_ADDR = true ->
  (forall j, (j < N - 1)%nat ->
     read_ready (reg_read e w (3 + 3 * j) STM32_I2C_SR1) = true) ->
  exists w' new,
    run_isr e (N + 1) w = Some (tt, w') /\
    accesses w' = accesses w ++ new /\
    dr_writes new = [address_byte (mflags m) m] /\
    List.length (dr_reads new) = N /\
    (forall j, (j < N)%nat ->
       w_mem w' (buffer m + Z.of_nat j) = u8 (nth j (dr_reads new) 0)) /\
    (forall x, x < buffer m \/ buffer m + Z.of_nat N <= x ->
       w_mem w' x = w_mem w x) /\
    count_if is_stop new = 1%nat /\
    count_if is_start new = 0%nat /\
    count_if is_nack new = 1%nat /\
    transfer_finished (w_priv w') = true /\
    msgv (w_priv w') = None /\
    (CONFIG_I2C_POLLED (cfg e) = true \/ intstate p = INTSTATE_WAITING ->
     intstate (w_priv w') = INTSTATE_DONE).
Proof.
  intros p Hw Hd Hc Hv Hm Hrd Hlen HN Hsb Hsb1 Haddr1 Hhw. unfold p in *.
  assert (Hu8 : u8 (length m) = Z.of_nat N).
  { rewrite Hlen. unfold u8. apply Z.mod_small. lia. }
  (* the address *)
  destruct (isr_send_address e w m m Hw) as (i & t & n & Hok & Hrun0).
  { unfold msg_advance_due. rewrite Hd, Hc. reflexivity. }
  { unfold msgv_at. rewrite Hv. exact Hm. }
  { lia. }
  { unfold cursor_after_load. rewrite Hc, Hv. exact Hm. }
  { exact Hsb. }
  set (w1 := sent_address e w m m i t n) in *.
  assert (Hsetup : address_setup (u8 (length m)) (mflags m) =
                   [ModifyReg STM32_I2C_CR1 I2C_CR1_POS 0;
                    ModifyReg STM32_I2C_CR1 0 I2C_CR1_ACK]).
  { unfold address_setup. rewrite Hu8.
    replace (Z.of_nat N =? 1) with false by (symmetry; apply Z.eqb_neq; lia).
    replace (Z.of_nat N =? 2) with false by (symmetry; apply Z.eqb_neq; lia).
    reflexivity. }
  (* the acknowledge *)
  destruct (addr_acked_long e w1)
    as (w2 & Hrun1 & Hw2 & Hacc2 & Hnr2 & Hmem2 & Hd2 & Hp2 & Hf2 & Ht2
        & Hc2 & Hk2 & Hi2).
  { exact Hok. }
  { apply isr_phase_addr_acked_read.
    rewrite (reg_read_shift e w w1 1 0) by reflexivity.
    repeat split; try assumption. }
  { unfold w1, sent_address, loaded. simpl. lia. }
  (* the bytes but two *)
  destruct (read_bytes_run e (N - 2)%nat w2)
    as (w3 & new3 & Hrun3 & Hw3 & Hacc3 & Hlen3 & Hbytes3 & Hframe3 & Hdw3
        & Hst3 & Hsta3 & Hnk3 & Hnr3 & Hd3 & Hp3 & Hf3 & Ht3 & Hc3 & Hk3
        & Hi3).
  { exact Hw2. }
  { rewrite Hf2. unfold w1, sent_address, loaded. simpl. exact Hrd. }
  { exact Hk2. }
  { rewrite Ht2. unfold w1, sent_address, loaded. simpl. lia. }
  { rewrite Hd2. unfold w1, sent_address, loaded. simpl. lia. }
  { intros j Hj.
    rewrite (reg_read_shift e w w2 3 (3 * j))
      by (rewrite Hnr2; reflexivity).
    replace (3 * j + 3)%nat with (3 + 3 * j)%nat by lia.
    apply Hhw. lia. }
  (* the last two *)
  assert (Hr : read_ready (reg_read e w3 0 STM32_I2C_SR1) = true).
  { rewrite (reg_read_shift e w w3 (3 * (N - 2) + 3) 0)
      by (rewrite Hnr3, Hnr2; unfold w1, sent_address; simpl; lia).
    replace (0 + (3 * (N - 2) + 3))%nat with (3 + 3 * (N - 2))%nat by lia.
    apply Hhw. lia. }
  unfold read_ready in Hr. apply andb_prop in Hr as [Hr Hbtf].
  apply andb_prop in Hr as [Hsb3 Hrx3]. apply negb_true_iff in Hsb3.
  destruct (read_last_two_run e w3 Hw3)
    as (w4 & tl & Hrun4 & Hacc4 & Htl & Hmem4 & Hfin & Hv4 & Hint4).
  { apply isr_phase_read. rewrite Hf3, Hf2, Hk3.
    unfold w1, sent_address, loaded. simpl.
    repeat split; try assumption; discriminate. }
  { rewrite Ht3, Ht2. unfold w1, sent_address, loaded. simpl. lia. }
  { exact Hbtf. }
  { exact Hd3. }
  { rewrite Hc3, Hc2. unfold w1, sent_address, loaded. simpl. rewrite Hc.
    reflexivity. }
  destruct (shutdown_access_quiet tl Htl) as (Hq1 & Hq2 & Hq3).
  destruct (dr_reads_shutdown tl Htl) as (Hq4 & Hq5).
  pose proof (dr_writes_shutdown tl Htl) as Hq6.
  set (dA := reg_read e w3 1 STM32_I2C_DR) in *.
  set (dB := reg_read e w3 2 STM32_I2C_DR) in *.
  assert (Hptr3 : ptr (w_priv w3) = buffer m + Z.of_nat (N - 2)).
  { rewrite Hp3, Hp2. reflexivity. }
  exists w4,
    (([GetReg STM32_I2C_SR1 (reg_read e w 0 STM32_I2C_SR1);
       ModifyReg STM32_I2C_CR1 I2C_CR1_POS 0;
       ModifyReg STM32_I2C_CR1 0 I2C_CR1_ACK;
       PutReg STM32_I2C_DR (address_byte (mflags m) m)] ++
      [GetReg STM32_I2C_SR1 (reg_read e w1 0 STM32_I2C_SR1);
       GetReg STM32_I2C_SR2 (reg_read e w1 1 STM32_I2C_SR2)]) ++
     new3 ++
     [GetReg STM32_I2C_SR1 (reg_read e w3 0 STM32_I2C_SR1);
      ModifyReg STM32_I2C_CR1 I2C_CR1_ACK I2C_CR1_STOP;
      GetReg STM32_I2C_DR dA; GetReg STM32_I2C_DR dB;
      GetReg STM32_I2C_SR2 (reg_read e w3 3 STM32_I2C_SR2)] ++ tl).
  split.
  { replace (N + 1)%nat with (S (S ((N - 2) + 1))) by lia.
    simpl. unfold bind at 1. rewrite Hrun0. fold w1.
    unfold bind at 1. rewrite Hrun1.
    rewrite run_isr_app. unfold bind at 1. rewrite Hrun3.
    simpl. unfold bind. rewrite Hrun4. reflexivity. }
  split.
  { rewrite Hacc4, Hacc3, Hacc2. unfold w1 at 1.
    unfold sent_address, loaded, accesses. simpl.
    rewrite Hsetup. simpl. rewrite <- !app_assoc. reflexivity. }
  assert (Hreads : dr_reads
            (([GetReg STM32_I2C_SR1 (reg_read e w 0 STM32_I2C_SR1);
               ModifyReg STM32_I2C_CR1 I2C_CR1_POS 0;
               ModifyReg STM32_I2C_CR1 0 I2C_CR1_ACK;
               PutReg STM32_I2C_DR (address_byte (mflags m) m)] ++
              [GetReg STM32_I2C_SR1 (reg_read e w1 0 STM32_I2C_SR1);
               GetReg STM32_I2C_SR2 (reg_read e w1 1 STM32_I2C_SR2)]) ++
             new3 ++
             [GetReg STM32_I2C_SR1 (reg_read e w3 0 STM32_I2C_SR1);
              ModifyReg STM32_I2C_CR1 I2C_CR1_ACK I2C_CR1_STOP;
              GetReg STM32_I2C_DR dA; GetReg STM32_I2C_DR dB;
              GetReg STM32_I2C_SR2 (reg_read e w3 3 STM32_I2C_SR2)] ++ tl)
          = dr_reads new3 ++ [dA; dB]).
  { rewrite !dr_reads_app, Hq4. simpl. rewrite ?app_nil_r. reflexivity. }
  split.
  { rewrite !dr_writes_app, Hdw3, Hq6. reflexivity. }
  split.
  { rewrite Hreads, length_app, Hlen3. simpl. lia. }
  split.
  { intros j Hj. rewrite Hreads, Hmem4, Hptr3.
    destruct (Nat.lt_ge_cases j (N - 2)%nat) as [Hlt|Hge].
    - replace (buffer m + Z.of_nat j =? buffer m + Z.of_nat (N - 2) + 1)
        with false by (symmetry; apply Z.eqb_neq; lia).
      replace (buffer m + Z.of_nat j =? buffer m + Z.of_nat (N - 2))
        with false by (symmetry; apply Z.eqb_neq; lia).
      rewrite app_nth1 by (rewrite Hlen3; exact Hlt).
      rewrite <- (Hbytes3 j Hlt). rewrite Hp2. reflexivity.
    - rewrite app_nth2 by (rewrite Hlen3; exact Hge). rewrite Hlen3.
      destruct (Nat.eq_dec j (N - 2)%nat) as [->|Hne].
      + replace (buffer m + Z.of_nat (N - 2) =?
                 buffer m + Z.of_nat (N - 2) + 1)
          with false by (symmetry; apply Z.eqb_neq; lia).
        rewrite Z.eqb_refl, Nat.sub_diag. reflexivity.
      + replace (buffer m + Z.of_nat j =? buffer m + Z.of_nat (N - 2) + 1)
          with true by (symmetry; apply Z.eqb_eq; lia).
        replace (j - (N - 2))%nat with 1%nat by lia. reflexivity. }
  split.
  { intros x Hx. rewrite Hmem4, Hptr3.
    replace (x =? buffer m + Z.of_nat (N - 2) + 1)
      with false by (symmetry; apply Z.eqb_neq; lia).
    replace (x =? buffer m + Z.of_nat (N - 2))
      with false by (symmetry; apply Z.eqb_neq; lia).
    rewrite Hframe3 by (rewrite Hp2; unfold w1, sent_address, loaded;
                        simpl; lia).
    rewrite Hmem2. reflexivity. }
  rewrite !count_if_app, Hst3, Hsta3, Hnk3, Hq2, Hq3, Hq5.
  replace (Nat.eqb (N - 2)%nat 0%nat) with false
    by (symmetry; apply Nat.eqb_neq; lia).
  split; [reflexivity|]. split; [reflexivity|]. split; [reflexivity|].
  split; [exact Hfin|]. split; [exact Hv4|].
  intros H. apply Hint4. rewrite Hi3, Hi2.
  unfold w1, sent_address, loaded. simpl. exact H.
Qed.

(** The theorem at work: three bytes read from address 0x50. *)
Lemma read_message_run_witness :
  let e := {| cfg := cfg_irq;
              hw := hw_script [1; 2; 0; 68; 11; 0; 68; 22; 33; 0];
              msgs := [ {| addr := 80; mflags := I2C_M_READ;
                           buffer := 1000; length := 3 |} ] |} in
  let w := world_of (priv_armed 1) in
  exists w' new,
    run_isr e 4 w = Some (tt, w') /\
    accesses w' = new /\
    dr_reads new = [11; 22; 33] /\
    w_mem w' 1000 = 11 /\ w_mem w' 1001 = 22 /\ w_mem w' 1002 = 33 /\
    count_if is_stop new = 1%nat /\
    intstate (w_priv w') = INTSTATE_DONE.
Proof.
  intros e w.
  assert (Hw : trace_wf e w) by (repeat split; vm_compute; congruence).
  destruct (read_message_run e w 0 3 _ Hw eq_refl eq_refl eq_refl eq_refl
              eq_refl eq_refl)
    as (w' & new & Hrun & Hacc & _ & _ & _ & _ & Hstop & _ & _ & _ & _
        & Hint).
  - lia.
  - reflexivity.
  - reflexivity.
  - reflexivity.
  - intros j Hj. destruct j as [|[|j]]; [reflexivity..|lia].
  - exists w', new. split; [exact Hrun|]. split; [exact Hacc|].
    assert (E : run_isr e 4 w = Some (tt, w')) by exact Hrun.
    vm_compute in E. injection E as E.
    assert (Hn : new = accesses w') by (symmetry; exact Hacc).
    split; [rewrite Hn, <- E; reflexivity|].
    split; [rewrite <- E; reflexivity|].
    split; [rewrite <- E; reflexivity|].
    split; [rewrite <- E; reflexivity|].
    split; [exact Hstop|].
    apply Hint. right. reflexivity.
Defined.


(** ** A next message the write branch does not recognize *)

(** X16.  At the end of a written message, when the next message has
    flags that are not zero and contain neither the read nor the
    no-restart flag, the engine makes no progress: however often it is
    invoked with ADDR or TXE set, the byte counter stays 0, the message
    count and cursor stay, the transfer is never finished, the handshake
    state and memory are unchanged and no register is written.  Only the
    caller's timeout ends such a transfer. *)
Theorem unknown_flags_never_end (e : env) (k : nat) (m' : i2c_msg_s) :
  forall w,
    trace_wf e w ->
    bit_set (flags (w_priv w)) I2C_M_READ = false ->
    check_addr_ACK (w_priv w) = false ->
    dcnt (w_priv w) = 0 ->
    0 < msgc (w_priv w) ->
    msgv_at e (w_priv w) = Some m' ->
    mflags m' <> 0 ->
    bit_set (mflags m') I2C_M_READ = false ->
    bit_set (mflags m') I2C_M_NORESTART = false ->
    (forall j, (j < k)%nat ->
       write_ready (reg_read e w (2 * j) STM32_I2C_SR1) = true) ->
    exists w' new,
      run_isr e k w = Some (tt, w') /\
      accesses w' = accesses w ++ new /\
      count_if is_reg_write new = 0%nat /\
      dcnt (w_priv w') = 0 /\
      msgc (w_priv w') = msgc (w_priv w) /\
      msgv (w_priv w') = msgv (w_priv w) /\
      transfer_finished (w_priv w') = false /\
      intstate (w_priv w') = intstate (w_priv w) /\
      w_mem w' = w_mem w.
Proof.
  induction k as [|k IH]; intros w Hw Hfl Hck Hd Hc Hm Hnz Hrd Hnr Hhw.
  - exists w, []. split; [reflexivity|].
    split; [symmetry; apply app_nil_r|]. split; [reflexivity|].
    split; [exact Hd|]. split; [reflexivity|]. split; [reflexivity|].
    split; [unfold transfer_finished; rewrite Hd; reflexivity|].
    split; reflexivity.
  - assert (Hr0 := Hhw 0%nat ltac:(lia)). simpl in Hr0.
    unfold write_ready in Hr0. apply andb_prop in Hr0 as [Hsb Hat].
    apply negb_true_iff in Hsb.
    assert (Hph : isr_phase e (reg_read e w 0 STM32_I2C_SR1) (w_priv w)
                  = PhaseWrite).
    { apply isr_phase_write. repeat split; try assumption.
      rewrite Hck. discriminate. }
    destruct (write_end_flag_error e w Hw Hph Hd m' Hc Hm Hnz Hrd Hnr)
      as (i & t & n & Hok & Hrun).
    match type of Hrun with
    | _ = Some (OK, ?W) => set (w1 := W) in *
    end.
    destruct (IH w1) as (w' & new & Hrun' & Hacc & Hnw & Hdc & Hmc & Hmv
                         & Hnf & Hint & Hmem).
    + exact Hok.
    + exact Hfl.
    + reflexivity.
    + exact Hd.
    + exact Hc.
    + exact Hm.
    + exact Hnz.
    + exact Hrd.
    + exact Hnr.
    + intros j Hj.
      rewrite (reg_read_shift e w w1 2 (2 * j)) by reflexivity.
      replace (2 * j + 2)%nat with (2 * S j)%nat by lia.
      apply Hhw. lia.
    + exists w', (GetReg STM32_I2C_SR1 (reg_read e w 0 STM32_I2C_SR1)
                  :: GetReg STM32_I2C_SR2 (reg_read e w 1 STM32_I2C_SR2)
                  :: new).
      split.
      { simpl. unfold bind. rewrite Hrun. exact Hrun'. }
      split.
      { rewrite Hacc. unfold w1, accesses. simpl.
        rewrite <- !app_assoc. reflexivity. }
      split; [exact Hnw|]. split; [exact Hdc|]. split; [exact Hmc|].
      split; [exact Hmv|]. split; [exact Hnf|]. split; [exact Hint|].
      exact Hmem.
Qed.

(** The theorem at work: three invocations against a next message
    flagged ten-bit only. *)
Lemma unknown_flags_never_end_witness :
  let e := {| cfg := cfg_irq; hw := hw_const 128 0;
              msgs := [msg_ten_bit] |} in
  let w := world_of (set_check_addr_ACK false priv_write_done_pending) in
  exists w',
    run_isr e 3 w = Some (tt, w') /\
    dcnt (w_priv w') = 0 /\ msgc (w_priv w') = 1 /\
    transfer_finished (w_priv w') = false.
Proof.
  intros e w.
  assert (Hw : trace_wf e w) by (repeat split; vm_compute; congruence).
  assert (Hnz : mflags msg_ten_bit <> 0) by discriminate.
  destruct (unknown_flags_never_end e 3 msg_ten_bit w Hw eq_refl eq_refl
              eq_refl eq_refl eq_refl Hnz eq_refl eq_refl)
    as (w' & new & Hrun & _ & _ & Hd & Hc & _ & Hnf & _).
  - intros j Hj. reflexivity.
  - exists w'. split; [exact Hrun|]. split; [exact Hd|].
    split; [exact Hc | exact Hnf].
Defined.


(** ** What the tracer records *)

(** Runs the first [trace_upd] of the goal. *)
Ltac upd_step Hold :=
  match goal with
  | |- context [trace_upd ?f ?W] =>
      erewrite (trace_upd_exact f W);
      [ unfold with_priv; simpl
      | simpl; lia
      | simpl;
        first [ exact Hold
              | apply list_lookup_insert_eq; rewrite ?length_insert; lia ] ]
  end.

(** X17.  [stm32_i2c_tracenew] under the trace invariant.  A status equal
    to the one of the current entry, whose count is not zero, only
    increments that count (modulo 2^32).  A different status with the
    index at the last entry is dropped: nothing changes.  Otherwise the
    status opens an entry, at the current index when its count is zero
    and at the next index when not, with count 1, no event, parameter 0
    and the time of a fresh timer reading.  In every case the other
    entries, the session outside the trace, memory and the registers are
    left alone. *)
Theorem tracenew_records (e : env) (status16 : Z) (w : world)
  (old : stm32_trace_s) :
  let p := w_priv w in
  let st := u16 status16 in
  let last := CONFIG_I2C_NTRACE (cfg e) - 1 in
  trace_wf e w ->
  trace p !! Z.to_nat (tndx p) = Some old ->
  exists w',
    stm32_i2c_tracenew e status16 w = Some (tt, w') /\
    set_trace [] (set_tndx 0 (w_priv w')) = set_trace [] (set_tndx 0 p) /\
    w_mem w' = w_mem w /\ w_log w' = w_log w /\
    w_nreads w' = w_nreads w /\
    (forall j, j <> Z.to_nat (tndx (w_priv w')) ->
       trace (w_priv w') !! j = trace p !! j) /\
    (tr_count old <> 0 -> st = tr_status old ->
       tndx (w_priv w') = tndx p /\ w_nclock w' = w_nclock w /\
       trace (w_priv w') !! Z.to_nat (tndx p) =
         Some {| tr_status := tr_status old;
                 tr_count := u32 (tr_count old + 1);
                 tr_event := tr_event old; tr_parm := tr_parm old;
                 tr_time := tr_time old |}) /\
    (tr_count old <> 0 -> st <> tr_status old -> last <= tndx p ->
       w' = w) /\
    (tr_count old = 0 \/ (st <> tr_status old /\ tndx p < last) ->
       tndx (w_priv w') = (if tr_count old =? 0 then tndx p
                           else tndx p + 1) /\
       w_nclock w' = S (w_nclock w) /\
       trace (w_priv w') !! Z.to_nat (tndx (w_priv w')) =
         Some {| tr_status := st; tr_count := 1;
                 tr_event := I2CEVENT_NONE; tr_parm := 0;
                 tr_time := u32 (hw_clock (hw e) (w_nclock w)) |}).
Proof.
  intros p st last Hw Hold. unfold p, st, last in *. clear p st last.
  destruct Hw as [Hi Hl].
  unfold stm32_i2c_tracenew. unfold bind at 1. unfold trace_cur.
  replace (tndx (w_priv w) <? 0) with false
    by (symmetry; apply Z.ltb_ge; lia).
  rewrite Hold.
  destruct (Z.eqb_spec (tr_count old) 0) as [Hc0|Hc0]; simpl.
  - (* a fresh entry at the current index *)
    unfold stm32_i2c_traceclear.
    unfold bind at 1. upd_step Hold.
    unfold bind at 1. upd_step Hold.
    unfold bind at 1. upd_step Hold.
    unfold bind at 1. unfold clock_systimer at 1.
    upd_step Hold.
    eexists. split; [reflexivity|]. simpl.
    split; [destruct (w_priv w); reflexivity|].
    split; [reflexivity|]. split; [reflexivity|]. split; [reflexivity|].
    split.
    { intros j Hj. rewrite !list_lookup_insert_ne by congruence.
      reflexivity. }
    split; [intros H; contradiction|].
    split; [intros H; contradiction|].
    intros _. split; [reflexivity|]. split; [reflexivity|].
    rewrite list_lookup_insert_eq by (rewrite ?length_insert; lia).
    reflexivity.
  - destruct (Z.eqb_spec (u16 status16) (tr_status old)) as [Hs|Hs]; simpl.
    + (* the same status again *)
      upd_step Hold.
      eexists. split; [reflexivity|]. simpl.
      split; [destruct (w_priv w); reflexivity|].
      split; [reflexivity|]. split; [reflexivity|]. split; [reflexivity|].
      split.
      { intros j Hj. rewrite list_lookup_insert_ne by congruence.
        reflexivity. }
      split.
      { intros _ _. split; [reflexivity|]. split; [reflexivity|].
        rewrite list_lookup_insert_eq by lia. reflexivity. }
      split; [intros _ H; contradiction|].
      intros [H|[H _]]; contradiction.
    + unfold bind at 1. unfold gets at 1.
      destruct (Z.geb_spec (tndx (w_priv w))
                  (CONFIG_I2C_NTRACE (cfg e) - 1)) as [Hge|Hlt].
      * (* table full: dropped *)
        exists w. split; [reflexivity|].
        split; [reflexivity|]. split; [reflexivity|].
        split; [reflexivity|]. split; [reflexivity|].
        split; [intros j _; reflexivity|].
        split; [intros _ H; contradiction|].
        split; [intros _ _ _; reflexivity|].
        intros [H|[_ H]]; [contradiction | lia].
      * (* a fresh entry at the next index *)
        destruct (lookup_lt_is_Some_2 (trace (w_priv w))
                    (Z.to_nat (tndx (w_priv w) + 1))) as [nxt Hnxt]; [lia|].
        unfold bind at 1. unfold modify at 1.
        unfold stm32_i2c_traceclear.
        unfold bind at 1. upd_step Hnxt.
        unfold bind at 1. upd_step Hnxt.
        unfold bind at 1. upd_step Hnxt.
        unfold bind at 1. unfold clock_systimer at 1.
        upd_step Hnxt.
        eexists. split; [reflexivity|]. simpl.
        split; [destruct (w_priv w); reflexivity|].
        split; [reflexivity|]. split; [reflexivity|].
        split; [reflexivity|].
        split.
        { intros j Hj. rewrite !list_lookup_insert_ne by congruence.
          reflexivity. }
        split; [intros _ H; contradiction|].
        split; [intros _ _ H; lia|].
        intros _. split; [reflexivity|]. split; [reflexivity|].
        rewrite list_lookup_insert_eq by (rewrite ?length_insert; lia).
        reflexivity.
Qed.

(** The theorem at work: the first status of a transfer. *)
Lemma tracenew_records_witness :
  let e := {| cfg := cfg_irq; hw := hw_const 0 0; msgs := [] |} in
  let w := world_of priv_idle in
  exists w',
    stm32_i2c_tracenew e 1 w = Some (tt, w') /\
    tndx (w_priv w') = 0 /\
    trace (w_priv w') !! 0%nat =
      Some {| tr_status := 1; tr_count := 1; tr_event := I2CEVENT_NONE;
              tr_parm := 0; tr_time := 0 |}.
Proof.
  intros e w.
  assert (Hw : trace_wf e w) by (repeat split; vm_compute; congruence).
  destruct (tracenew_records e 1 w trace_zero Hw eq_refl)
    as (w' & Hrun & _ & _ & _ & _ & _ & _ & _ & Hnew).
  destruct (Hnew (or_introl eq_refl)) as (Hi & _ & Hent).
  exists w'. split; [exact Hrun|]. split; [exact Hi|].
  rewrite Hi in Hent. exact Hent.
Defined.


(** ** The 32-bit status word *)

(** X18.  [stm32_i2c_getstatus] reads SR1, then SR2, and packs them: the
    low half of the result is the SR1 value and the high half the SR2
    value, so both can be recovered; the session and memory are left
    alone. *)
Theorem getstatus_packs (e : env) (w : world) :
  let sr1 := reg_read e w 0 STM32_I2C_SR1 in
  let sr2 := reg_read e w 1 STM32_I2C_SR2 in
  exists v w',
    stm32_i2c_getstatus e w = Some (v, w') /\
    Z.land v 65535 = sr1 /\
    Z.shiftr v 16 = sr2 /\
    0 <= v < 4294967296 /\
    accesses w' = accesses w ++
      [GetReg STM32_I2C_SR1 sr1; GetReg STM32_I2C_SR2 sr2] /\
    w_priv w' = w_priv w /\ w_mem w' = w_mem w.
Proof.
  intros sr1 sr2.
  assert (H1 : 0 <= sr1 < 65536) by apply u16_range.
  assert (H2 : 0 <= sr2 < 65536) by apply u16_range.
  exists (Z.lor sr1 (Z.shiftl sr2 16)). eexists.
  split; [reflexivity|].
  assert (Hadd : Z.lor sr1 (Z.shiftl sr2 16) = sr1 + sr2 * 65536).
  { rewrite Z.shiftl_mul_pow2 by lia.
    assert (Hland : Z.land sr1 (sr2 * 2 ^ 16) = 0).
    { apply Z.bits_inj'. intros n Hn. rewrite Z.land_spec, Z.bits_0.
      destruct (Z.lt_ge_cases n 16) as [Hlt|Hge].
      - rewrite (Z.mul_pow2_bits_low sr2 16 n) by lia. apply andb_false_r.
      - rewrite <- (Z.mod_small sr1 (2 ^ 16)) by (simpl; lia).
        rewrite Z.mod_pow2_bits_high by lia. reflexivity. }
    rewrite <- Z.lxor_lor by exact Hland.
    symmetry. apply Z.add_nocarry_lxor. exact Hland. }
  split.
  { rewrite Hadd. change 65535 with (Z.ones 16).
    rewrite Z.land_ones by lia. change (2 ^ 16) with 65536.
    rewrite Z.mod_add by lia. apply Z.mod_small. lia. }
  split.
  { rewrite Hadd, Z.shiftr_div_pow2 by lia. change (2 ^ 16) with 65536.
    rewrite Z.div_add by lia.
    rewrite Z.div_small by lia. lia. }
  split; [rewrite Hadd; lia|].
  split; [|split; reflexivity].
  unfold accesses. simpl. rewrite <- app_assoc. reflexivity.
Qed.


(** ** Device instance (polled build)

    The operations of [struct i2c_ops_s] on an instance.  The exclusion
    semaphore [sem_excl] they take and [stm32_i2c_process] gives back has
    no effect in a single thread of control and is left out. *)

(** ** The transfer, cut at the wait *)

(** A transfer that returns has run the wait from an armed session (byte
    counter -1, the message count, the cursor at the first message) with
    the memory it started with, and returns with the memory the wait
    left. *)
Lemma process_wait_split (e : env) (fuel : nat) (frequency count : Z)
  (w w' : world) (r : Z) :
  1 <= CONFIG_I2C_NTRACE (cfg e) ->
  Z.of_nat (List.length (trace (w_priv w))) = CONFIG_I2C_NTRACE (cfg e) ->
  stm32_i2c_process e fuel frequency count w = Some (r, w') ->
  exists w0 w1 rw,
    trace_wf e w0 /\
    w_mem w0 = w_mem w /\
    dcnt (w_priv w0) = -1 /\
    msgc (w_priv w0) = u8 count /\
    msgv (w_priv w0) = Some 0%nat /\
    stm32_i2c_sem_waitdone e fuel w0 = Some (rw, w1) /\
    w_mem w' = w_mem w1.
Proof.
  intros Hn Hl Hrun. unfold stm32_i2c_process in Hrun.
  destruct (count =? 0); [discriminate|].
  apply bind_Some in Hrun as ([] & w1 & H1 & Hrun).
  destruct (sem_waitstop_returns e fuel w) as (Hws & _).
  destruct (Hws w1 H1) as (Hp1 & Hm1 & _). clear Hws H1.
  unfold bind at 1 in Hrun. unfold stm32_i2c_putreg at 1 in Hrun.
  unfold emit at 1 in Hrun.
  unfold bind at 1 in Hrun. unfold stm32_i2c_clrstart at 1 in Hrun.
  unfold stm32_i2c_modifyreg at 1 in Hrun. unfold emit at 1 in Hrun.
  unfold bind at 1 in Hrun. unfold modify at 1 in Hrun.
  unfold bind at 1 in Hrun. unfold modify at 1 in Hrun.
  simpl in Hrun.
  apply bind_Some in Hrun as ([] & w2 & H2 & Hrun).
  match type of H2 with
  | stm32_i2c_tracereset e ?W = _ =>
      destruct (tracereset_run e W Hn)
        as (w2' & H2' & Hw2 & _ & _ & _ & Hp2 & Hm2 & _);
        [simpl; rewrite Hp1; exact Hl|]
  end.
  rewrite H2' in H2. inversion H2; subst w2'. clear H2 H2'.
  simpl in Hm2.
  apply bind_Some in Hrun as ([] & w3 & H3 & Hrun).
  destruct (setclock_returns e frequency w2) as (Hsc & _).
  destruct (Hsc w3 H3) as (Hp3 & Hm3 & _). clear Hsc H3.
  unfold bind at 1 in Hrun. unfold modify at 1 in Hrun.
  unfold bind at 1 in Hrun. unfold modify at 1 in Hrun.
  unfold bind at 1 in Hrun. unfold stm32_i2c_sendstart at 1 in Hrun.
  unfold stm32_i2c_modifyreg at 1 in Hrun. unfold emit at 1 in Hrun.
  cbn [w_priv w_mem w_nreads w_nclock w_log] in Hrun.
  apply bind_Some in Hrun as (rw & w4 & H4 & Hrun).
  destruct (process_finish_returns e rw w4) as (w6 & H6 & _ & Hm6 & _).
  rewrite H6 in Hrun. inversion Hrun; subst r w6. clear Hrun H6.
  eexists _, w4, rw. split; [|split; [|split; [|split; [|split;
    [|split; [exact H4 | exact Hm6]]]]]].
  - unfold trace_wf. simpl. rewrite Hp3. exact Hw2.
  - simpl. rewrite Hm3, Hm2. exact Hm1.
  - reflexivity.
  - simpl. rewrite Hp3.
    assert (Hc : msgc (set_start_time 0 (set_tndx 0 (set_trace []
                   (w_priv w2)))) = u8 count) by (rewrite Hp2; reflexivity).
    exact Hc.
  - simpl. rewrite Hp3.
    assert (Hv : msgv (set_start_time 0 (set_tndx 0 (set_trace []
                   (w_priv w2)))) = Some 0%nat) by (rewrite Hp2; reflexivity).
    exact Hv.
Qed.

(** An invariant of the session, and a relation on memory that the
    engine keeps, are kept by the polling loop. *)
Lemma waitdone_loop_inv (e : env) (I : stm32_i2c_priv_s -> Prop)
  (R : (Z -> Z) -> (Z -> Z) -> Prop) :
  (forall f, R f f) ->
  (forall f g h, R f g -> R g h -> R f h) ->
  (forall w w' r,
     trace_wf e w -> I (w_priv w) -> stm32_i2c_isr e w = Some (r, w') ->
     I (w_priv w') /\ R (w_mem w) (w_mem w')) ->
  forall fuel start timeout w w',
    trace_wf e w -> I (w_priv w) ->
    waitdone_loop e fuel start timeout w = Some (tt, w') ->
    I (w_priv w') /\ R (w_mem w) (w_mem w').
Proof.
  intros Hrefl Htrans Hstep.
  induction fuel as [|fuel IH]; intros start timeout w w' Hw HI Hrun;
    [discriminate|].
  simpl in Hrun.
  apply bind_Some in Hrun as (r & w1 & Hisr & Hrun).
  destruct (isr_termination e w w1 r Hw Hisr) as (_ & Hw1 & _).
  destruct (Hstep w w1 r Hw HI Hisr) as (HI1 & HR1).
  unfold bind, clock_systimer, gets in Hrun. simpl in Hrun.
  destruct (negb (intstate_eqb (intstate (w_priv w1)) INTSTATE_DONE) &&
            (u32 (u32 (hw_clock (hw e) (w_nclock w1)) - start) <? timeout)).
  - apply IH in Hrun; [ | exact Hw1 | exact HI1 ].
    destruct Hrun as (HI' & HR'). split; [exact HI'|].
    exact (Htrans _ _ _ HR1 HR').
  - inversion Hrun; subst. simpl. split; [exact HI1 | exact HR1].
Qed.

(** The same for a number of invocations in a row. *)
Lemma run_isr_inv (e : env) (I : stm32_i2c_priv_s -> Prop)
  (R : (Z -> Z) -> (Z -> Z) -> Prop) :
  (forall f, R f f) ->
  (forall f g h, R f g -> R g h -> R f h) ->
  (forall w w' r,
     trace_wf e w -> I (w_priv w) -> stm32_i2c_isr e w = Some (r, w') ->
     I (w_priv w') /\ R (w_mem w) (w_mem w')) ->
  forall k w w',
    trace_wf e w -> I (w_priv w) ->
    run_isr e k w = Some (tt, w') ->
    trace_wf e w' /\ I (w_priv w') /\ R (w_mem w) (w_mem w').
Proof.
  intros Hrefl Htrans Hstep.
  induction k as [|k IH]; intros w w' Hw HI Hrun.
  - inversion Hrun; subst. split; [exact Hw|]. split; [exact HI|].
    apply Hrefl.
  - simpl in Hrun.
    apply bind_Some in Hrun as (r & w1 & Hisr & Hrun).
    destruct (isr_termination e w w1 r Hw Hisr) as (_ & Hw1 & _).
    destruct (Hstep w w1 r Hw HI Hisr) as (HI1 & HR1).
    destruct (IH w1 w' Hw1 HI1 Hrun) as (Hw' & HI' & HR').
    split; [exact Hw'|]. split; [exact HI'|].
    exact (Htrans _ _ _ HR1 HR').
Qed.

(** The same for the sleeping loop of the interrupt-driven build, for an
    invariant that does not read the handshake state. *)
Lemma waitdone_irq_loop_inv (e : env) (I : stm32_i2c_priv_s -> Prop)
  (R : (Z -> Z) -> (Z -> Z) -> Prop) :
  (forall f, R f f) ->
  (forall f g h, R f g -> R g h -> R f h) ->
  (forall w w' r,
     trace_wf e w -> I (w_priv w) -> stm32_i2c_isr e w = Some (r, w') ->
     I (w_priv w') /\ R (w_mem w) (w_mem w')) ->
  forall fuel w w' r,
    trace_wf e w -> I (w_priv w) ->
    waitdone_irq_loop e fuel w = Some (r, w') ->
    trace_wf e w' /\ I (w_priv w') /\ R (w_mem w) (w_mem w').
Proof.
  intros Hrefl Htrans Hstep.
  induction fuel as [|fuel IH]; intros w w' r Hw HI Hrun; [discriminate|].
  simpl in Hrun.
  unfold bind at 1 in Hrun. unfold clock_gettime at 1 in Hrun.
  apply bind_Some in Hrun as (abstime & w0 & Hdl & Hrun).
  assert (Hw0 : w0 = {| w_priv := w_priv w; w_mem := w_mem w;
                        w_nreads := w_nreads w; w_nclock := S (w_nclock w);
                        w_log := w_log w |}).
  { unfold timedwait_deadline in Hdl.
    repeat match type of Hdl with
           | (if ?c then _ else _) _ = _ => destruct c
           end;
      first [discriminate Hdl | inversion Hdl; reflexivity]. }
  subst w0. clear Hdl.
  apply bind_Some in Hrun as (o & w1 & Hwait & Hrun).
  unfold sem_timedwait in Hwait.
  unfold bind at 1 in Hwait. unfold emit at 1 in Hwait.
  apply bind_Some in Hwait as ([] & w2 & Hisrs & Hret).
  inversion Hret; subst o w2. clear Hret.
  apply (run_isr_inv e I R Hrefl Htrans Hstep) in Hisrs
    as (Hw1 & HI1 & HR1); [ | exact Hw | exact HI ].
  cbn [w_mem] in HR1.
  match type of Hrun with
  | (if ?c then _ else _) _ = _ => destruct c
  end.
  - inversion Hrun; subst. split; [exact Hw1|]. split; [exact HI1|exact HR1].
  - unfold bind at 1 in Hrun. unfold gets at 1 in Hrun.
    destruct (negb (intstate_eqb (intstate (w_priv w1)) INTSTATE_DONE)).
    + apply IH in Hrun as (Hw' & HI' & HR'); [ | exact Hw1 | exact HI1 ].
      split; [exact Hw'|]. split; [exact HI'|].
      exact (Htrans _ _ _ HR1 HR').
    + inversion Hrun; subst. split; [exact Hw1|].
      split; [exact HI1|exact HR1].
Qed.

(** Hence for the wait of either build. *)
Lemma sem_waitdone_inv (e : env) (I : stm32_i2c_priv_s -> Prop)
  (R : (Z -> Z) -> (Z -> Z) -> Prop) :
  (forall f, R f f) ->
  (forall f g h, R f g -> R g h -> R f h) ->
  (forall p s, I p -> I (set_intstate s p)) ->
  (forall w w' r,
     trace_wf e w -> I (w_priv w) -> stm32_i2c_isr e w = Some (r, w') ->
     I (w_priv w') /\ R (w_mem w) (w_mem w')) ->
  forall fuel w w' r,
    trace_wf e w -> I (w_priv w) ->
    stm32_i2c_sem_waitdone e fuel w = Some (r, w') ->
    I (w_priv w') /\ R (w_mem w) (w_mem w').
Proof.
  intros Hrefl Htrans Hint Hstep fuel w w' r Hw HI Hrun.
  unfold stm32_i2c_sem_waitdone in Hrun.
  destruct (CONFIG_I2C_POLLED (cfg e)).
  - unfold sem_waitdone_polled in Hrun.
    unfold bind at 1 in Hrun. unfold modify at 1 in Hrun.
    unfold bind at 1 in Hrun. unfold clock_systimer at 1 in Hrun.
    cbn [w_priv w_mem w_nreads w_nclock w_log] in Hrun.
    apply bind_Some in Hrun as ([] & w1 & Hloop & Hrun).
    apply (waitdone_loop_inv e I R Hrefl Htrans Hstep) in Hloop
      as (HI1 & HR1); [ | exact Hw | apply Hint; exact HI ].
    unfold bind, gets, modify, ret in Hrun.
    inversion Hrun; subst. cbn [w_priv w_mem].
    split; [apply Hint; exact HI1 | exact HR1].
  - unfold sem_waitdone_irq in Hrun.
    unfold bind at 1 in Hrun. unfold stm32_i2c_getreg at 1 in Hrun.
    unfold bind at 1 in Hrun. unfold stm32_i2c_putreg at 1 in Hrun.
    unfold emit at 1 in Hrun.
    unfold bind at 1 in Hrun. unfold modify at 1 in Hrun.
    cbn [w_priv w_mem w_nreads w_nclock w_log] in Hrun.
    apply bind_Some in Hrun as (rl & w1 & Hloop & Hrun).
    apply (waitdone_irq_loop_inv e I R Hrefl Htrans Hstep) in Hloop
      as (_ & HI1 & HR1); [ | exact Hw | apply Hint; exact HI ].
    unfold bind, modify, stm32_i2c_getreg, stm32_i2c_putreg, emit, ret
      in Hrun.
    inversion Hrun; subst. cbn [w_priv w_mem].
    split; [apply Hint; exact HI1 | exact HR1].
Qed.

Lemma sfm_refl (w : world) : same_flags_msgc w w.
Proof. split; [reflexivity | left; reflexivity]. Qed.

Lemma sfm_trans (w1 w2 w3 : world) :
  same_flags_msgc w1 w2 -> same_flags_msgc w2 w3 -> same_flags_msgc w1 w3.
Proof.
  intros [F1 C1] [F2 C2]. split; [congruence|].
  destruct C2 as [C2|C2]; [|right; exact C2].
  destruct C1 as [C1|C1]; [left|right]; congruence.
Qed.

Lemma sfm_retrace (w : world) (i : Z) (t : list stm32_trace_s) (n : nat) :
  same_flags_msgc w (retrace w i t n).
Proof. split; [reflexivity | left; reflexivity]. Qed.

Ltac sfm_walk :=
  pres_walk sfm_refl sfm_trans sfm_retrace;
  try (prim_step; repeat split; first [left; reflexivity | right; reflexivity]).

Lemma isr_protocol_sfm (e : env) (st : Z) :
  preserves (under_wf e same_flags_msgc) (isr_protocol e st).
Proof.
  unfold isr_protocol.
  apply (pres_bind _ _ sfm_trans); [apply (pres_gets _ _ sfm_refl)|].
  intros p. destruct (isr_phase e st p).
  - unfold isr_address_handling. sfm_walk.
  - unfold isr_address_nacked. sfm_walk.
  - unfold isr_address_acked_read. sfm_walk.
  - unfold isr_write_mode. sfm_walk.
  - unfold isr_read_mode, read_dr_to_buffer. sfm_walk.
  - unfold isr_empty_call. sfm_walk.
  - unfold isr_state_error. sfm_walk.
Qed.

(** From the protocol logic to the return. *)
Lemma isr_tail_sfm (e : env) (st : Z) (w w' : world) (r : Z) :
  trace_wf e w ->
  (isr_protocol e st ;; isr_shutdown e ;; ret OK) w = Some (r, w') ->
  same_flags_msgc w w'.
Proof.
  intros Hw Hrun.
  apply bind_Some in Hrun as ([] & w1 & Hp & Hrun).
  destruct (isr_protocol_sfm e st w tt w1 Hp Hw) as (Hw1 & Hf1).
  apply bind_Some in Hrun as ([] & w2 & Hsd & Hret).
  inversion Hret; subst r w2. clear Hret.
  destruct (isr_shutdown_run e w1 Hw1)
    as (w3 & tl & Hsd' & _ & _ & Hsame & _).
  rewrite Hsd' in Hsd. inversion Hsd; subst w3. clear Hsd Hsd'.
  destruct Hsame as (_ & Hmc & _ & Hfl & _).
  apply (sfm_trans _ _ _ Hf1). split; [exact Hfl | left; exact Hmc].
Qed.

Lemma isr_write_session (e : env) (m : i2c_msg_s) (w w' : world) (r : Z) :
  bit_set (mflags m) I2C_M_READ = false ->
  trace_wf e w ->
  write_session e m (w_priv w) ->
  stm32_i2c_isr e w = Some (r, w') ->
  write_session e m (w_priv w') /\ w_mem w' = w_mem w.
Proof.
  intros Hrd Hw HI Hrun.
  assert (Hfl : bit_set (flags (w_priv w')) I2C_M_READ = false /\
                msgc (w_priv w') = 0).
  { destruct HI as [(Hf & Hc)|(Hd & Hc & Hm)].
    - destruct (isr_entry_same_message e w Hw) as (i & t & n & Hok & Heq).
      { unfold msg_advance_due. rewrite Hc. apply andb_false_r. }
      rewrite Heq in Hrun.
      apply isr_tail_sfm in Hrun as (Hf' & Hc'); [|exact Hok].
      simpl in Hf', Hc'. rewrite Hf'. split; [exact Hf|].
      destruct Hc' as [Hc'|Hc']; congruence.
    - destruct (isr_entry_next_message e w m Hw) as (i & t & n & Hok & Heq).
      { unfold msg_advance_due. rewrite Hd, Hc. reflexivity. }
      { exact Hm. }
      rewrite Heq in Hrun.
      apply isr_tail_sfm in Hrun as (Hf' & Hc'); [|exact Hok].
      unfold loaded in Hf', Hc'. simpl in Hf', Hc'. rewrite Hc in Hc'.
      rewrite Hf'. split; [exact Hrd|].
      destruct Hc' as [Hc'|Hc']; [|exact Hc'].
      rewrite Hc'. reflexivity. }
  split; [left; exact Hfl|].
  destruct Hfl as (Hf & _).
  exact (proj1 (isr_data_enters_in_read_only e w w' r Hw Hrun Hf)).
Qed.

(** X19.  [stm32_i2c_write] on an instance without the read flag, such as
    [stm32_i2c_setaddress] leaves it, on the polled and on the
    interrupt-driven build: whenever the call returns, with whatever
    result, whatever the hardware answered and, on the interrupt-driven
    build, however many interrupts were served during each
    [sem_timedwait] and whatever it returned, no byte of memory has
    changed.  [stm32_i2c_setaddress] stores the address and makes the
    flags I2C_M_TEN for ten bits and zero otherwise. *)
Theorem i2c_write_leaves_memory (c : config) (h : hardware) (fuel : nat)
  (i : Inst.t) (addr nbits buf buflen : Z) (w w' : world) (r : Z) :
  let i' := fst (stm32_i2c_setaddress i addr nbits) in
  1 <= CONFIG_I2C_NTRACE c ->
  Z.of_nat (List.length (trace (w_priv w))) = CONFIG_I2C_NTRACE c ->
  stm32_i2c_write c h fuel i' buf buflen w = Some (r, w') ->
  Inst.address i' = addr /\
  Inst.flags i' = (if nbits =? 10 then I2C_M_TEN else 0) /\
  Inst.frequency i' = Inst.frequency i /\
  w_mem w' = w_mem w.
Proof.
  intros i' Hn Hl Hrun.
  split; [reflexivity|]. split; [reflexivity|]. split; [reflexivity|].
  unfold stm32_i2c_write in Hrun.
  set (m := inst_msg i' 0 buf buflen) in *.
  set (e := {| cfg := c; hw := h; msgs := [m] |}) in *.
  assert (Hrd : bit_set (mflags m) I2C_M_READ = false).
  { unfold m, inst_msg, i'. simpl. destruct (nbits =? 10); reflexivity. }
  destruct (process_wait_split e fuel _ 1 w w' r Hn Hl Hrun)
    as (w0 & w1 & rw & Hw0 & Hm0 & Hd0 & Hc0 & Hv0 & Hwait & Hm').
  assert (HI0 : write_session e m (w_priv w0)).
  { right. split; [exact Hd0|]. split; [exact Hc0|].
    unfold msgv_at. rewrite Hv0. reflexivity. }
  destruct (sem_waitdone_inv e (write_session e m) eq
              (fun f => eq_refl)
              (fun f g k (H1 : f = g) (H2 : g = k) => eq_trans H1 H2)
              (fun p s (H : write_session e m p) => H)
              (fun wa wb ra Hwa Ha Hisr =>
                 match isr_write_session e m wa wb ra Hrd Hwa Ha Hisr with
                 | conj HIb Hmb => conj HIb (eq_sym Hmb)
                 end)
              fuel w0 w1 rw Hw0 HI0 Hwait) as (_ & Hmem).
  congruence.
Qed.

(** The theorem at work: one byte written to address 0x10, polled, and
    interrupt-driven with three interrupts served during the wait. *)
Lemma i2c_write_leaves_memory_witness :
  let h := hw_script [0; 0; 1; 128; 0; 128; 0] in
  let hi := hw_served (hw_script [0; 0; 0; 1; 130; 0; 128; 0; 0; 0]) 3 in
  let i := fst (stm32_i2c_setaddress inst_initial 16 7) in
  let w := world_of priv_idle in
  (exists w',
     stm32_i2c_write cfg_polled h 10 i 2000 1 w = Some (0, w') /\
     w_mem w' = w_mem w) /\
  (exists w',
     stm32_i2c_write cfg_irq hi 10 i 2000 1 w = Some (0, w') /\
     dr_writes (accesses w') = [32; 0] /\
     w_mem w' = w_mem w).
Proof.
  intros h hi i w.
  assert (Hn : 1 <= CONFIG_I2C_NTRACE cfg_polled) by (vm_compute; congruence).
  split.
  - destruct (stm32_i2c_write cfg_polled h 10 i 2000 1 w)
      as [[r w']|] eqn:E; [|vm_compute in E; discriminate E].
    destruct (i2c_write_leaves_memory cfg_polled h 10 inst_initial 16 7
                2000 1 w w' r Hn eq_refl E) as (_ & _ & _ & Hm).
    assert (Hr : r = 0)
      by (vm_compute in E; injection E as Hr' _; rewrite <- Hr';
          reflexivity).
    subst r. exists w'. split; [reflexivity | exact Hm].
  - destruct (stm32_i2c_write cfg_irq hi 10 i 2000 1 w)
      as [[r w']|] eqn:E; [|vm_compute in E; discriminate E].
    destruct (i2c_write_leaves_memory cfg_irq hi 10 inst_initial 16 7
                2000 1 w w' r Hn eq_refl E) as (_ & _ & _ & Hm).
    vm_compute in E. injection E as Hr Hw'.
    exists w'. rewrite <- Hr. split; [reflexivity|].
    split; [rewrite <- Hw'; reflexivity | exact Hm].
Defined.


(** ** Stores stay inside the buffer *)

(** Turns the boolean facts of the context into arithmetic ones. *)
Ltac bool_facts :=
  repeat match goal with
  | H : _ && _ = true |- _ => apply andb_prop in H; destruct H
  | H : _ || _ = false |- _ => apply orb_false_elim in H; destruct H
  | H : negb _ = true |- _ => apply negb_true_iff in H
  | H : negb _ = false |- _ => apply negb_false_iff in H
  | H : (_ =? _) = true |- _ => apply Z.eqb_eq in H
  | H : (_ =? _) = false |- _ => apply Z.eqb_neq in H
  | H : (_ >=? _) = true |- _ => rewrite Z.geb_leb in H; apply Z.leb_le in H
  | H : (_ >=? _) = false |- _ => rewrite Z.geb_leb in H; apply Z.leb_gt in H
  | H : (_ >? _) = true |- _ => rewrite Z.gtb_ltb in H; apply Z.ltb_lt in H
  | H : (_ >? _) = false |- _ => rewrite Z.gtb_ltb in H; apply Z.ltb_ge in H
  end.

(** Splits the goal at the first conditional whose condition has no
    conditional inside. *)
Ltac split_if :=
  match goal with
  | |- context [if ?c then _ else _] =>
      lazymatch c with
      | context [if _ then _ else _] => fail
      | _ => destruct c eqn:?
      end
  end.

(** Splits the goal at a dereference of the message cursor; a NULL or
    stray cursor is undefined behaviour. *)
Ltac deref_split :=
  match goal with
  | |- context [match msgv ?p with _ => _ end] =>
      destruct (msgv p) as [?k|]; [|simpl; exact I]
  | |- context [match msgs ?E !! ?k with _ => _ end] =>
      destruct (msgs E !! k) as [?m|]; [|simpl; exact I]
  end.

Ltac budget_now :=
  unfold within_budget, store_budget; simpl;
  repeat match goal with
         | H : bit_set _ _ = _ |- _ => rewrite ?H
         end;
  repeat match goal with
         | |- context [Z.eqb ?a ?b] => destruct (Z.eqb_spec a b)
         | |- context [bit_set ?a ?b] => destruct (bit_set a b)
         end;
  simpl;
  (split; [lia|]); (split; [lia|]);
  let y := fresh "y" in let Hy := fresh "Hy" in intros y Hy;
  repeat match goal with
         | |- context [Z.eqb ?a ?b] => destruct (Z.eqb_spec a b)
         end;
  first [reflexivity | lia].

Lemma isr_read_mode_budget (e : env) (st : Z) (w : world) :
  trace_wf e w ->
  bit_set (flags (w_priv w)) I2C_M_READ = true ->
  match isr_read_mode e st w with
  | Some (_, w') => trace_wf e w' /\ within_budget w w'
  | None => True
  end.
Proof.
  intros Hw Hrd. unfold isr_read_mode.
  unfold bind at 1. unfold gets at 1, id.
  repeat split_if; bool_facts.
  all: run_code_cbn; repeat trace_step.
  all: (split; [trace_wf_now|]).
  all: budget_now.
Qed.

Lemma store_budget_nonneg (p : stm32_i2c_priv_s) : 0 <= store_budget p.
Proof.
  unfold store_budget.
  destruct ((dcnt p =? 0) && (total_msg_len p =? 1) &&
            bit_set (flags p) I2C_M_READ); lia.
Qed.

Lemma within_budget_refl (w : world) : within_budget w w.
Proof. unfold within_budget. repeat split; try lia. Qed.

Lemma within_budget_trans (w1 w2 w3 : world) :
  within_budget w1 w2 -> within_budget w2 w3 -> within_budget w1 w3.
Proof.
  intros (P1 & B1 & M1) (P2 & B2 & M2). unfold within_budget.
  split; [lia|]. split; [lia|].
  intros x Hx. rewrite M2 by lia. apply M1. lia.
Qed.

Lemma isr_write_mode_budget (e : env) (w : world) :
  trace_wf e w ->
  bit_set (flags (w_priv w)) I2C_M_READ = false ->
  match isr_write_mode e w with
  | Some (_, w') => trace_wf e w' /\ within_budget w w'
  | None => True
  end.
Proof.
  intros Hw Hrd. unfold isr_write_mode.
  unfold bind at 1. unfold stm32_i2c_getreg at 1.
  unfold bind at 1. unfold modify at 1.
  unfold bind at 1. unfold gets at 1, id.
  cbn [w_priv dcnt msgc set_check_addr_ACK].
  repeat split_if; bool_facts.
  all: run_code; unfold deref_msgv; simpl.
  all: repeat (first [ deref_split | split_if ]; bool_facts; simpl).
  all: repeat trace_step.
  all: (split; [trace_wf_now|]).
  all: budget_now.
Qed.

Lemma isr_other_modes_budget (e : env) (w : world) (m : M unit) :
  m = isr_address_handling e \/ m = isr_address_nacked e \/
  m = isr_address_acked_read e \/ m = isr_empty_call e \/
  m = isr_state_error e ->
  trace_wf e w ->
  match m w with
  | Some (_, w') => trace_wf e w' /\ within_budget w w'
  | None => True
  end.
Proof.
  intros Hm Hw.
  destruct Hm as [-> | [-> | [-> | [-> | ->]]]].
  - unfold isr_address_handling.
    unfold bind at 1. unfold gets at 1, id.
    repeat split_if; bool_facts.
    all: run_code; unfold deref_msgv; simpl.
    all: repeat trace_step.
    all: repeat (first [ deref_split | split_if ]; bool_facts; simpl).
    all: repeat trace_step.
    all: (split; [trace_wf_now|]).
    all: budget_now.
  - unfold isr_address_nacked. run_code. unfold deref_msgv. simpl.
    repeat (deref_split; simpl). repeat trace_step.
    split; [trace_wf_now|]. budget_now.
  - unfold isr_address_acked_read.
    unfold bind at 1. unfold modify at 1.
    unfold bind at 1. unfold stm32_i2c_getreg at 1.
    unfold bind at 1. unfold gets at 1, id.
    cbn [w_priv dcnt total_msg_len set_check_addr_ACK].
    repeat split_if; bool_facts.
    all: run_code; repeat trace_step.
    all: (split; [trace_wf_now|]).
    all: budget_now.
  - unfold isr_empty_call. run_code. repeat trace_step.
    split; [trace_wf_now|]. budget_now.
  - unfold isr_state_error.
    destruct (CONFIG_I2C_POLLED (cfg e)); run_code; repeat trace_step;
      (split; [trace_wf_now|]); budget_now.
Qed.

Lemma isr_protocol_budget (e : env) (st : Z) (w w' : world) :
  trace_wf e w ->
  isr_protocol e st w = Some (tt, w') ->
  trace_wf e w' /\ within_budget w w'.
Proof.
  intros Hw Hrun. unfold isr_protocol in Hrun.
  unfold bind at 1 in Hrun. unfold gets at 1, id in Hrun.
  destruct (isr_phase e st (w_priv w)) eqn:Hph.
  - pose proof (isr_other_modes_budget e w _ (or_introl eq_refl) Hw) as H.
    rewrite Hrun in H. exact H.
  - pose proof (isr_other_modes_budget e w _
                  (or_intror (or_introl eq_refl)) Hw) as H.
    rewrite Hrun in H. exact H.
  - pose proof (isr_other_modes_budget e w _
                  (or_intror (or_intror (or_introl eq_refl))) Hw) as H.
    rewrite Hrun in H. exact H.
  - apply isr_phase_write in Hph as (_ & Hrd & _).
    pose proof (isr_write_mode_budget e w Hw Hrd) as H.
    rewrite Hrun in H. exact H.
  - apply isr_phase_read in Hph as (_ & Hrd & _).
    pose proof (isr_read_mode_budget e st w Hw Hrd) as H.
    rewrite Hrun in H. exact H.
  - pose proof (isr_other_modes_budget e w _
                  (or_intror (or_intror (or_intror (or_introl eq_refl))))
                  Hw) as H.
    rewrite Hrun in H. exact H.
  - pose proof (isr_other_modes_budget e w _
                  (or_intror (or_intror (or_intror (or_intror eq_refl))))
                  Hw) as H.
    rewrite Hrun in H. exact H.
Qed.

(** From the protocol logic to the return. *)
Lemma isr_tail_budget (e : env) (st : Z) (w w' : world) (r : Z) :
  trace_wf e w ->
  (isr_protocol e st ;; isr_shutdown e ;; ret OK) w = Some (r, w') ->
  within_budget w w'.
Proof.
  intros Hw Hrun.
  apply bind_Some in Hrun as ([] & w1 & Hp & Hrun).
  destruct (isr_protocol_budget e st w w1 Hw Hp) as (Hw1 & Hb1).
  apply bind_Some in Hrun as ([] & w2 & Hsd & Hret).
  inversion Hret; subst r w2. clear Hret.
  destruct (isr_shutdown_run e w1 Hw1)
    as (w3 & tl & Hsd' & _ & _ & Hsame & _).
  rewrite Hsd' in Hsd. inversion Hsd; subst w3. clear Hsd Hsd'.
  destruct Hsame as (Hd & _ & Hp' & Hf & _ & Ht & _ & Hm).
  apply (within_budget_trans _ _ _ Hb1).
  unfold within_budget, store_budget. rewrite Hd, Hp', Hf, Ht, Hm.
  split; [lia|]. split; [lia|]. intros x _. reflexivity.
Qed.

Lemma isr_one_message_session (e : env) (m : i2c_msg_s) (w w' : world)
  (r : Z) :
  trace_wf e w ->
  one_message_session e m (w_priv w) ->
  stm32_i2c_isr e w = Some (r, w') ->
  one_message_session e m (w_priv w') /\
  same_outside (buffer m) (length m) (w_mem w) (w_mem w').
Proof.
  intros Hw HI Hrun.
  pose proof (store_budget_nonneg (w_priv w')) as Hnn.
  destruct HI as [(Hc & Hlo & Hhi)|(Hd & Hc & Hm)].
  - destruct (isr_entry_same_message e w Hw) as (i & t & n & Hok & Heq).
    { unfold msg_advance_due. rewrite Hc. apply andb_false_r. }
    rewrite Heq in Hrun.
    assert (Hwe : trace_wf e (entered e w i t n)) by exact Hok.
    pose proof (isr_tail_sfm e _ _ _ _ Hwe Hrun) as (_ & Hc').
    pose proof (isr_tail_budget e _ _ _ _ Hwe Hrun) as (Hp & Hb & Hmem).
    change (store_budget (w_priv (entered e w i t n)))
      with (store_budget (w_priv w)) in Hb.
    change (ptr (w_priv (entered e w i t n))) with (ptr (w_priv w))
      in Hp, Hb, Hmem.
    change (msgc (w_priv (entered e w i t n))) with (msgc (w_priv w)) in Hc'.
    change (w_mem (entered e w i t n)) with (w_mem w) in Hmem.
    split.
    + left. split; [destruct Hc'; congruence|]. split; lia.
    + intros x Hx. apply Hmem. lia.
  - destruct (isr_entry_next_message e w m Hw) as (i & t & n & Hok & Heq).
    { unfold msg_advance_due. rewrite Hd, Hc. reflexivity. }
    { exact Hm. }
    rewrite Heq in Hrun.
    assert (Hwe : trace_wf e (loaded e w m i t n)) by exact Hok.
    pose proof (isr_tail_sfm e _ _ _ _ Hwe Hrun) as (_ & Hc').
    pose proof (isr_tail_budget e _ _ _ _ Hwe Hrun) as (Hp & Hb & Hmem).
    assert (Hbud : store_budget (w_priv (loaded e w m i t n)) =
                   Z.max (length m) 0).
    { unfold store_budget, loaded. simpl.
      destruct (Z.eqb_spec (length m) 0) as [->|]; reflexivity. }
    rewrite Hbud in Hb.
    change (ptr (w_priv (loaded e w m i t n))) with (buffer m)
      in Hp, Hb, Hmem.
    change (msgc (w_priv (loaded e w m i t n)))
      with (u8 (msgc (w_priv w) - 1)) in Hc'.
    change (w_mem (loaded e w m i t n)) with (w_mem w) in Hmem.
    rewrite Hc in Hc'.
    split.
    + left. split; [destruct Hc' as [Hc'|Hc']; [rewrite Hc'|]; trivial|].
      split; lia.
    + intros x Hx. apply Hmem. lia.
Qed.

(** X20.  An invocation of the engine that loads no new message stores
    only at the addresses the buffer pointer moves over, the pointer
    never moves back, and it moves by no more than the byte counter
    allows: pointer plus remaining budget never grows.  This holds on
    every branch and for every status word. *)
Theorem engine_stores_within_budget (e : env) (w w' : world) (r : Z) :
  trace_wf e w ->
  msg_advance_due (w_priv w) = false ->
  stm32_i2c_isr e w = Some (r, w') ->
  ptr (w_priv w) <= ptr (w_priv w') /\
  ptr (w_priv w') + store_budget (w_priv w') <=
    ptr (w_priv w) + store_budget (w_priv w) /\
  forall x, x < ptr (w_priv w) \/ ptr (w_priv w') <= x ->
    w_mem w' x = w_mem w x.
Proof.
  intros Hw Hadv Hrun.
  destruct (isr_entry_same_message e w Hw Hadv) as (i & t & n & Hok & Heq).
  rewrite Heq in Hrun.
  assert (Hwe : trace_wf e (entered e w i t n)) by exact Hok.
  exact (isr_tail_budget e _ _ _ _ Hwe Hrun).
Qed.

(** The theorem at work: the last two bytes of a three-byte read. *)
Lemma engine_stores_within_budget_witness :
  let e := {| cfg := cfg_irq; hw := hw_script [68; 22; 33; 0];
              msgs := [] |} in
  let w := world_of (priv_reading 3 2) in
  exists w',
    stm32_i2c_isr e w = Some (OK, w') /\
    ptr (w_priv w') = 1002 /\ store_budget (w_priv w') = 0 /\
    forall x, x < 1000 \/ 1002 <= x -> w_mem w' x = w_mem w x.
Proof.
  intros e w.
  assert (Hw : trace_wf e w) by (repeat split; vm_compute; congruence).
  destruct (stm32_i2c_isr e w) as [[r w']|] eqn:E;
    [|vm_compute in E; discriminate E].
  destruct (engine_stores_within_budget e w w' r Hw eq_refl E)
    as (_ & _ & Hmem).
  vm_compute in E. injection E as Hr Hw'.
  assert (Hp : ptr (w_priv w') = 1002) by (rewrite <- Hw'; reflexivity).
  exists w'. rewrite <- Hr. split; [reflexivity|].
  split; [exact Hp|].
  split; [rewrite <- Hw'; reflexivity|].
  intros x Hx. apply Hmem. rewrite Hp. exact Hx.
Defined.

(** X21.  [stm32_i2c_read] writes only into the caller's buffer, on the
    polled and on the interrupt-driven build: whenever the call returns,
    with whatever result, whatever the hardware answered and, on the
    interrupt-driven build, however many interrupts were served during
    each [sem_timedwait] and whatever it returned, every byte of memory
    outside the [buflen] bytes from [buffer] is unchanged; with [buflen]
    zero or negative nothing is changed at all. *)
Theorem i2c_read_stays_in_buffer (c : config) (h : hardware) (fuel : nat)
  (i : Inst.t) (buf buflen : Z) (w w' : world) (r : Z) :
  1 <= CONFIG_I2C_NTRACE c ->
  Z.of_nat (List.length (trace (w_priv w))) = CONFIG_I2C_NTRACE c ->
  stm32_i2c_read c h fuel i buf buflen w = Some (r, w') ->
  forall x, x < buf \/ buf + Z.max buflen 0 <= x -> w_mem w' x = w_mem w x.
Proof.
  intros Hn Hl Hrun.
  unfold stm32_i2c_read in Hrun.
  set (m := inst_msg i I2C_M_READ buf buflen) in *.
  set (e := {| cfg := c; hw := h; msgs := [m] |}) in *.
  destruct (process_wait_split e fuel _ 1 w w' r Hn Hl Hrun)
    as (w0 & w1 & rw & Hw0 & Hm0 & Hd0 & Hc0 & Hv0 & Hwait & Hm').
  assert (HI0 : one_message_session e m (w_priv w0)).
  { right. split; [exact Hd0|]. split; [exact Hc0|].
    unfold msgv_at. rewrite Hv0. reflexivity. }
  destruct (sem_waitdone_inv e (one_message_session e m)
              (same_outside buf buflen)
              (fun f x _ => eq_refl)
              (fun f g k (H1 : same_outside buf buflen f g)
                         (H2 : same_outside buf buflen g k) x Hx =>
                 eq_trans (H2 x Hx) (H1 x Hx))
              (fun p s (H : one_message_session e m p) => H)
              (fun wa wb ra Hwa Ha Hisr =>
                 isr_one_message_session e m wa wb ra Hwa Ha Hisr)
              fuel w0 w1 rw Hw0 HI0 Hwait) as (_ & Hmem).
  intros x Hx. rewrite Hm', <- Hm0. apply Hmem. exact Hx.
Qed.

(** The theorem at work: three bytes read into the buffer at 1000,
    polled, and interrupt-driven with four interrupts served during the
    wait. *)
Lemma i2c_read_stays_in_buffer_witness :
  let h := hw_script [0; 0; 1; 2; 0; 68; 11; 0; 68; 22; 33; 0] in
  let hi := hw_served
              (hw_script [0; 0; 0; 1; 2; 0; 68; 11; 0; 68; 22; 33; 0; 0; 0])
              4 in
  let w := world_of priv_idle in
  (exists w',
     stm32_i2c_read cfg_polled h 10 inst_initial 1000 3 w = Some (0, w') /\
     w_mem w' 1000 = 11 /\ w_mem w' 1001 = 22 /\ w_mem w' 1002 = 33 /\
     forall x, x < 1000 \/ 1003 <= x -> w_mem w' x = w_mem w x) /\
  (exists w',
     stm32_i2c_read cfg_irq hi 10 inst_initial 1000 3 w = Some (0, w') /\
     w_mem w' 1000 = 11 /\ w_mem w' 1001 = 22 /\ w_mem w' 1002 = 33 /\
     forall x, x < 1000 \/ 1003 <= x -> w_mem w' x = w_mem w x).
Proof.
  intros h hi w.
  assert (Hn : 1 <= CONFIG_I2C_NTRACE cfg_polled) by (vm_compute; congruence).
  split.
  - destruct (stm32_i2c_read cfg_polled h 10 inst_initial 1000 3 w)
      as [[r w']|] eqn:E; [|vm_compute in E; discriminate E].
    pose proof (i2c_read_stays_in_buffer cfg_polled h 10 inst_initial 1000 3
                  w w' r Hn eq_refl E) as Hmem.
    vm_compute in E. injection E as Hr Hw'.
    exists w'. rewrite <- Hr. split; [reflexivity|].
    split; [rewrite <- Hw'; reflexivity|].
    split; [rewrite <- Hw'; reflexivity|].
    split; [rewrite <- Hw'; reflexivity|].
    exact Hmem.
  - destruct (stm32_i2c_read cfg_irq hi 10 inst_initial 1000 3 w)
      as [[r w']|] eqn:E; [|vm_compute in E; discriminate E].
    pose proof (i2c_read_stays_in_buffer cfg_irq hi 10 inst_initial 1000 3
                  w w' r Hn eq_refl E) as Hmem.
    vm_compute in E. injection E as Hr Hw'.
    exists w'. rewrite <- Hr. split; [reflexivity|].
    split; [rewrite <- Hw'; reflexivity|].
    split; [rewrite <- Hw'; reflexivity|].
    split; [rewrite <- Hw'; reflexivity|].
    exact Hmem.
Defined.


(** ** Bring-up, shutdown and bus reset

    Outside its register block the driver calls the reset and clock
    controller, the GPIO and interrupt layers, the semaphores and the heap.
    These calls are logged, in program order and together with the
    register accesses of the shim; what such a call returns is answered by
    an oracle.  [irqsave] and [irqrestore] have no effect in a single
    thread of control and are left out. *)

(** ** The reference count *)

Lemma powered_regs (l : list access) (cs : list call) :
  powered (List.map Reg l ++ cs) = powered cs.
Proof. induction l as [|a l IH]; [reflexivity | exact IH]. Qed.

Lemma sbind_Some {A B : Type} (m : Sys A) (k : A -> Sys B) (s s' : system)
  (b : B) :
  sbind m k s = Some (b, s') ->
  exists a s1, m s = Some (a, s1) /\ k a s1 = Some (b, s').
Proof.
  unfold sbind. destruct (m s) as [[a s1]|]; [|discriminate].
  intros H. exists a, s1. split; [reflexivity | exact H].
Qed.

Lemma lift_calls {A : Type} (m : M A) (s s' : system) (a : A) :
  lift m s = Some (a, s') ->
  exists l,
    sy_calls s' = List.map Reg l ++ sy_calls s /\
    sy_refs s' = sy_refs s /\ sy_nout s' = sy_nout s /\
    m (sy_world s) = Some (a, sy_world s').
Proof.
  unfold lift. destruct (m (sy_world s)) as [[a' w']|]; [|discriminate].
  intros H. inversion H; subst. simpl. eexists. repeat split.
Qed.

(** Steps through a lifted computation in a hypothesis. *)
Ltac lift_step H :=
  match type of H with
  | context [lift ?m ?s] =>
      let E := fresh "E" in
      let l := fresh "l" in
      let s1 := fresh "s" in
      let Hc := fresh "Hc" in
      let Hr := fresh "Hr" in
      let Hn := fresh "Hn" in
      destruct (lift m s) as [[[] s1]|] eqn:E; [|discriminate H];
      apply lift_calls in E as (l & Hc & Hr & Hn & _);
      cbn [sy_calls sy_refs sy_nout] in Hc, Hr, Hn
  end.

(** Inverts the first step of a sequence in hypothesis [H]. *)
Ltac sys_inv H :=
  let a := fresh "a" in
  let s1 := fresh "s" in
  let H1 := fresh "Hstep" in
  apply sbind_Some in H as (a & s1 & H1 & H);
  first
    [ apply lift_calls in H1 as (? & ? & ? & ? & _)
    | unfold modifyreg32, stm32_configgpio, stm32_unconfiggpio,
        stm32_gpiowrite, stm32_gpioread, up_udelay, kmm_malloc, do_call,
        ask, get_refs, set_refs, sret in H1;
      inversion H1; subst a s1; clear H1 ].

(** Bring-up, whenever it returns, leaves the clock on and the count
    alone. *)
Lemma init_powered (e : env) (b : stm32_i2c_config_s) (o : outside)
  (s s' : system) (r : Z) :
  clk_bit b <> 0 ->
  stm32_i2c_init e b o s = Some (r, s') ->
  powered (sy_calls s') = true /\ sy_refs s' = sy_refs s.
Proof.
  intros Hclk Hrun. unfold stm32_i2c_init in Hrun.
  assert (Hon : negb (clk_bit b =? 0) = true)
    by (apply negb_true_iff, Z.eqb_neq; exact Hclk).
  sys_inv Hrun. sys_inv Hrun. sys_inv Hrun. sys_inv Hrun.
  destruct (_ <? 0).
  { inversion Hrun; subst. simpl. split; [exact Hon | reflexivity]. }
  sys_inv Hrun.
  destruct (_ <? 0).
  { sys_inv Hrun. inversion Hrun; subst. simpl.
    split; [exact Hon | reflexivity]. }
  apply sbind_Some in Hrun as ([] & s1 & Hirq & Hrun).
  assert (Hs1 : powered (sy_calls s1) = true /\ sy_refs s1 = sy_refs s).
  { destruct (CONFIG_I2C_POLLED (cfg e)).
    - inversion Hirq; subst. simpl. split; [exact Hon | reflexivity].
    - sys_inv Hirq. sys_inv Hirq. sys_inv Hirq.
      unfold do_call in Hirq. inversion Hirq; subst. simpl.
      split; [exact Hon | reflexivity]. }
  destruct Hs1 as (Hp1 & Hr1).
  sys_inv Hrun. sys_inv Hrun. sys_inv Hrun.
  inversion Hrun; subst; clear Hrun.
  repeat match goal with
         | H : sy_calls _ = _ |- _ => rewrite H; clear H
         | H : sy_refs _ = _ |- _ => rewrite H; clear H
         end.
  rewrite !powered_regs. split; [exact Hp1 | reflexivity].
Qed.

(** Shutdown, whenever it returns, leaves the clock off and the count
    alone. *)
Lemma deinit_unpowered (e : env) (b : stm32_i2c_config_s)
  (s s' : system) (r : Z) :
  stm32_i2c_deinit e b s = Some (r, s') ->
  r = OK /\ powered (sy_calls s') = false /\ sy_refs s' = sy_refs s.
Proof.
  intros Hrun. unfold stm32_i2c_deinit in Hrun.
  unfold sbind at 1 in Hrun. lift_step Hrun.
  unfold sbind, modifyreg32, stm32_unconfiggpio, do_call, sret in Hrun.
  destruct (CONFIG_I2C_POLLED (cfg e)); cbn in Hrun;
    inversion Hrun; subst; clear Hrun; simpl;
    (split; [reflexivity|]); (split; [reflexivity | exact Hr]).
Qed.

Lemma initialize_contract (e : env) (b : stm32_i2c_config_s) (o : outside)
  (prt : Z) (s s' : system) (r : option Inst.t) :
  clk_bit b <> 0 ->
  refs_guard s ->
  up_i2cinitialize e b o prt s = Some (r, s') ->
  refs_guard s' /\
  (r = None -> sy_refs s' = sy_refs s /\ sy_world s' = sy_world s) /\
  (forall i, r = Some i ->
     i = inst_initial /\ sy_refs s' = sy_refs s + 1 /\
     prt = port b /\ 2000000 <= STM32_PCLK1_FREQUENCY (cfg e)).
Proof.
  intros Hclk [Hge Hpow] Hrun. unfold up_i2cinitialize in Hrun.
  destruct (Z.ltb_spec (STM32_PCLK1_FREQUENCY (cfg e)) 2000000) as [Hlt|Hpclk].
  { inversion Hrun; subst. split; [split; assumption|].
    split; [intros _; split; reflexivity | discriminate]. }
  destruct (Z.eqb_spec prt (port b)) as [Hport|Hport]; simpl in Hrun.
  2: { inversion Hrun; subst. split; [split; assumption|].
       split; [intros _; split; reflexivity | discriminate]. }
  unfold sbind at 1 in Hrun. unfold kmm_malloc, ask in Hrun.
  destruct (out_malloc o (sy_nout s)); cbn -[stm32_i2c_init] in Hrun.
  2: { inversion Hrun; subst. simpl. split; [split; assumption|].
       split; [intros _; split; reflexivity | discriminate]. }
  unfold sbind, get_refs, set_refs in Hrun. cbn -[stm32_i2c_init] in Hrun.
  destruct (Z.eqb_spec (sy_refs s) 0) as [H0|H0].
  - unfold stm32_i2c_sem_init, sbind, do_call, sret in Hrun.
    assert (Hex : exists s0 ri,
              sy_refs s0 = sy_refs s + 1 /\
              stm32_i2c_init e b o s0 = Some (ri, s') /\
              r = Some inst_initial).
    { destruct (CONFIG_I2C_POLLED (cfg e)); cbn -[stm32_i2c_init] in Hrun;
        match type of Hrun with
        | context [stm32_i2c_init e b o ?s0] =>
            destruct (stm32_i2c_init e b o s0) as [[ri s1]|] eqn:Ei;
              [|discriminate Hrun];
            inversion Hrun; subst; exists s0, ri;
            (split; [reflexivity|]); (split; [exact Ei | reflexivity])
        end. }
    destruct Hex as (s0 & ri & Hr0 & Ei & ->).
    apply (init_powered e b o _ _ _ Hclk) in Ei as (Hp1 & Hr1).
    split.
    { split; [lia|]. rewrite Hp1, Hr1, Hr0. symmetry. apply Z.ltb_lt. lia. }
    split; [discriminate|].
    intros i Hi. inversion Hi; subst i.
    repeat split; try assumption. lia.
  - inversion Hrun; subst; clear Hrun. unfold refs_guard. simpl.
    split.
    { split; [lia|]. rewrite Hpow.
      replace (0 <? sy_refs s) with true by (symmetry; apply Z.ltb_lt; lia).
      symmetry. apply Z.ltb_lt. lia. }
    split; [discriminate|].
    intros i Hi. inversion Hi; subst i. repeat split; assumption.
Qed.

Lemma uninitialize_contract (e : env) (b : stm32_i2c_config_s)
  (s s' : system) (r : Z) :
  refs_guard s ->
  up_i2cuninitialize e b s = Some (r, s') ->
  refs_guard s' /\
  (sy_refs s = 0 -> r = ERROR /\ s' = s) /\
  (sy_refs s <> 0 -> r = OK /\ sy_refs s' = sy_refs s - 1).
Proof.
  intros [Hge Hpow] Hrun. unfold up_i2cuninitialize in Hrun.
  unfold sbind at 1 in Hrun. unfold get_refs at 1 in Hrun.
  destruct (Z.eqb_spec (sy_refs s) 0) as [H0|H0].
  { inversion Hrun; subst. split; [split; assumption|].
    split; [intros _; split; reflexivity | contradiction]. }
  unfold sbind at 1 in Hrun. unfold set_refs at 1 in Hrun.
  destruct (Z.eqb_spec (sy_refs s - 1) 0) as [H1|H1]; simpl in Hrun.
  - apply sbind_Some in Hrun as (rd & s1 & Hd & Hrun).
    apply deinit_unpowered in Hd as (_ & Hp1 & Hr1). simpl in Hr1.
    unfold stm32_i2c_sem_destroy, sbind, do_call, sret in Hrun.
    assert (Hs' : powered (sy_calls s') = false /\
                  sy_refs s' = sy_refs s - 1 /\ r = OK).
    { destruct (CONFIG_I2C_POLLED (cfg e)); cbn in Hrun;
        inversion Hrun; subst; simpl;
        (split; [exact Hp1|]); (split; [exact Hr1 | reflexivity]). }
    destruct Hs' as (Hp' & Hr' & ->).
    split.
    { split; [lia|]. rewrite Hp', Hr', H1. reflexivity. }
    split; [intros; contradiction|]. intros _. split; [reflexivity | exact Hr'].
  - unfold sbind, do_call, sret in Hrun. inversion Hrun; subst; clear Hrun.
    unfold refs_guard. simpl.
    split.
    { split; [lia|]. rewrite Hpow.
      replace (0 <? sy_refs s) with true by (symmetry; apply Z.ltb_lt; lia).
      symmetry. apply Z.ltb_lt. lia. }
    split; [intros; contradiction|]. intros _. split; reflexivity.
Qed.

(** X22.  Over any sequence of [up_i2cinitialize] and [up_i2cuninitialize]
    calls, starting before the first instance, the reference count is
    never negative and the peripheral clock of the controller is on
    exactly while the count is positive: the first instance powers the
    controller up, the last one to go powers it down, and surplus
    uninitialize calls change nothing. *)
Theorem refs_guard_power (e : env) (b : stm32_i2c_config_s) (o : outside)
  (ops : list lifecycle_op) (w : world) (s' : system) :
  clk_bit b <> 0 ->
  run_lifecycle e b o ops (system_of w) = Some (tt, s') ->
  0 <= sy_refs s' /\ powered (sy_calls s') = (0 <? sy_refs s').
Proof.
  intros Hclk.
  assert (H0 : refs_guard (system_of w)) by (split; [simpl; lia | reflexivity]).
  revert H0. generalize (system_of w) as s.
  induction ops as [|[prt|] ops IH]; intros s Hs Hrun.
  - inversion Hrun; subst. exact Hs.
  - simpl in Hrun. apply sbind_Some in Hrun as (r & s1 & H1 & Hrun).
    apply (IH s1); [|exact Hrun].
    exact (proj1 (initialize_contract e b o prt s s1 r Hclk Hs H1)).
  - simpl in Hrun. apply sbind_Some in Hrun as (r & s1 & H1 & Hrun).
    apply (IH s1); [|exact Hrun].
    exact (proj1 (uninitialize_contract e b s s1 r Hs H1)).
Qed.

(** The theorem at work: two instances created and three destroyed. *)
Lemma refs_guard_power_witness :
  let e := {| cfg := cfg_irq; hw := hw_const 0 0; msgs := [] |} in
  exists s',
    run_lifecycle e board_i2c1 outside_ok
      [OpInitialize 1; OpInitialize 1; OpUninitialize; OpUninitialize;
       OpUninitialize] (system_of (world_of priv_idle)) = Some (tt, s') /\
    sy_refs s' = 0 /\ powered (sy_calls s') = false.
Proof.
  intros e.
  destruct (run_lifecycle e board_i2c1 outside_ok
              [OpInitialize 1; OpInitialize 1; OpUninitialize;
               OpUninitialize; OpUninitialize]
              (system_of (world_of priv_idle))) as [[[] s']|] eqn:E;
    [|vm_compute in E; discriminate E].
  assert (Hclk : clk_bit board_i2c1 <> 0) by discriminate.
  destruct (refs_guard_power e board_i2c1 outside_ok _ _ s' Hclk E)
    as (Hge & Hpow).
  assert (Hr : sy_refs s' = 0)
    by (vm_compute in E; injection E as E; rewrite <- E; reflexivity).
  exists s'. split; [reflexivity|]. split; [exact Hr|].
  rewrite Hpow, Hr. reflexivity.
Defined.


(** ** Bring-up and shutdown of the controller *)

Lemma lift_run {A : Type} (m : M A) (s : system) (a : A) (w' : world)
  (l : list access) :
  m (sy_world s) = Some (a, w') ->
  w_log w' = l ++ w_log (sy_world s) ->
  lift m s = Some (a, {| sy_world := w'; sy_refs := sy_refs s;
                         sy_calls := List.map Reg l ++ sy_calls s;
                         sy_nout := sy_nout s |}).
Proof.
  intros Hm Hl. unfold lift. rewrite Hm. unfold new_accesses.
  rewrite Hl, length_app.
  replace (List.length l + List.length (w_log (sy_world s)) -
           List.length (w_log (sy_world s)))%nat
    with (List.length l + 0)%nat by lia.
  rewrite firstn_app_2. simpl. rewrite app_nil_r. reflexivity.
Qed.

Lemma lift_putreg (r : reg) (v : Z) (s : system) :
  lift (stm32_i2c_putreg r v) s =
    Some (tt, {| sy_world := {| w_priv := w_priv (sy_world s);
                                w_mem := w_mem (sy_world s);
                                w_nreads := w_nreads (sy_world s);
                                w_nclock := w_nclock (sy_world s);
                                w_log := PutReg r (u16 v)
                                         :: w_log (sy_world s) |};
                 sy_refs := sy_refs s;
                 sy_calls := Reg (PutReg r (u16 v)) :: sy_calls s;
                 sy_nout := sy_nout s |}).
Proof. apply (lift_run _ s tt _ [PutReg r (u16 v)]); reflexivity. Qed.

Lemma lift_setclock_100k (e : env) (s : system) :
  let pclk := STM32_PCLK1_FREQUENCY (cfg e) in
  let cr1 := reg_read e (sy_world s) 0 STM32_I2C_CR1 in
  0 <= pclk < 4294967296 ->
  exists w',
    w_priv w' = w_priv (sy_world s) /\ w_mem w' = w_mem (sy_world s) /\
    lift (stm32_i2c_setclock e 100000) s =
      Some (tt, {| sy_world := w'; sy_refs := sy_refs s;
                   sy_calls :=
                     List.map Reg
                       (rev [GetReg STM32_I2C_CR1 cr1;
                             PutReg STM32_I2C_CR1
                               (u16 (Z.land cr1 (Z.lnot I2C_CR1_PE)));
                             PutReg STM32_I2C_CCR
                               (Z.max 4 (u16 (pclk / 200000)));
                             PutReg STM32_I2C_TRISE (pclk / 1000000 + 1);
                             PutReg STM32_I2C_OAR1 I2C_OAR1_ONE;
                             PutReg STM32_I2C_CR1 cr1])
                     ++ sy_calls s;
                   sy_nout := sy_nout s |}).
Proof.
  intros pclk cr1 Hp.
  destruct (setclock_standard e (sy_world s) Hp 100000) as (w' & Hrun & Hacc);
    [lia|].
  destruct (setclock_returns e 100000 (sy_world s)) as (Hfr & _).
  destruct (Hfr w' Hrun) as (Hpr & Hm & _).
  exists w'. split; [exact Hpr|]. split; [exact Hm|].
  apply lift_run; [exact Hrun|].
  unfold accesses in Hacc.
  apply (f_equal (@rev access)) in Hacc.
  rewrite rev_involutive, rev_app_distr, rev_involutive in Hacc.
  exact Hacc.
Qed.

Lemma init_returns (e : env) (b : stm32_i2c_config_s) (o : outside)
  (s : system) :
  let pclk := STM32_PCLK1_FREQUENCY (cfg e) in
  let a0 := out_configgpio o (sy_nout s) in
  let a1 := out_configgpio o (S (sy_nout s)) in
  let cr1 := reg_read e (sy_world s) 0 STM32_I2C_CR1 in
  0 <= pclk < 4294967296 ->
  exists r s',
    stm32_i2c_init e b o s = Some (r, s') /\
    r = (if (a0 <? 0) || (a1 <? 0) then ERROR else OK) /\
    sy_refs s' = sy_refs s /\
    w_priv (sy_world s') = w_priv (sy_world s) /\
    w_mem (sy_world s') = w_mem (sy_world s) /\
    calls s' = calls s ++ init_power_up b ++
      (if a0 <? 0 then [Configgpio (scl_pin b) a0]
       else if a1 <? 0 then
         [Configgpio (scl_pin b) a0; Configgpio (sda_pin b) a1;
          Unconfiggpio (scl_pin b)]
       else
         [Configgpio (scl_pin b) a0; Configgpio (sda_pin b) a1] ++
         init_irqs e b ++ init_registers e cr1).
Proof.
  intros pclk a0 a1 cr1 Hp. unfold stm32_i2c_init.
  unfold sbind at 1. unfold modifyreg32 at 1. unfold do_call at 1.
  unfold sbind at 1. unfold modifyreg32 at 1. unfold do_call at 1.
  unfold sbind at 1. unfold modifyreg32 at 1. unfold do_call at 1.
  unfold sbind at 1. unfold stm32_configgpio at 1. unfold ask at 1.
  cbn [sy_nout sy_world sy_refs sy_calls]. fold a0.
  destruct (a0 <? 0).
  { eexists _, _. split; [reflexivity|]. split; [reflexivity|].
    split; [reflexivity|]. split; [reflexivity|]. split; [reflexivity|].
    unfold calls. simpl. rewrite <- !app_assoc. reflexivity. }
  unfold sbind at 1. unfold stm32_configgpio at 1. unfold ask at 1.
  cbn [sy_nout sy_world sy_refs sy_calls]. fold a1.
  destruct (a1 <? 0).
  { eexists _, _. split; [reflexivity|]. split; [reflexivity|].
    split; [reflexivity|]. split; [reflexivity|]. split; [reflexivity|].
    unfold calls. simpl. rewrite <- !app_assoc. reflexivity. }
  unfold sbind at 1.
  assert (Hirq : exists s1,
            (if CONFIG_I2C_POLLED (cfg e) then sret tt
             else
               (do_call (IrqAttach (ev_irq b)) ;;
                do_call (IrqAttach (er_irq b)) ;;
                do_call (EnableIrq (ev_irq b)) ;;
                do_call (EnableIrq (er_irq b)))%sys)
              {| sy_world := sy_world s; sy_refs := sy_refs s;
                 sy_calls := Configgpio (sda_pin b) a1
                   :: Configgpio (scl_pin b) a0
                   :: Modifyreg32 STM32_RCC_APB1RSTR (reset_bit b) 0
                   :: Modifyreg32 STM32_RCC_APB1RSTR 0 (reset_bit b)
                   :: Modifyreg32 STM32_RCC_APB1ENR 0 (clk_bit b)
                   :: sy_calls s;
                 sy_nout := S (S (sy_nout s)) |} = Some (tt, s1) /\
            sy_world s1 = sy_world s /\ sy_refs s1 = sy_refs s /\
            sy_calls s1 = rev (init_irqs e b) ++
                   Configgpio (sda_pin b) a1
                   :: Configgpio (scl_pin b) a0
                   :: Modifyreg32 STM32_RCC_APB1RSTR (reset_bit b) 0
                   :: Modifyreg32 STM32_RCC_APB1RSTR 0 (reset_bit b)
                   :: Modifyreg32 STM32_RCC_APB1ENR 0 (clk_bit b)
                   :: sy_calls s).
  { unfold init_irqs. destruct (CONFIG_I2C_POLLED (cfg e));
      eexists; (split; [reflexivity|]); repeat split. }
  destruct Hirq as (s1 & -> & Hw1 & Hr1 & Hc1).
  unfold sbind at 1. rewrite lift_putreg.
  unfold sbind at 1.
  match goal with
  | |- context [lift (stm32_i2c_setclock e 100000) ?s2] =>
      destruct (lift_setclock_100k e s2 Hp) as (w3 & Hp3 & Hm3 & ->)
  end.
  unfold sbind at 1. rewrite lift_putreg.
  eexists _, _. split; [reflexivity|]. split; [reflexivity|].
  cbn [sy_world sy_refs sy_calls w_priv w_mem w_nreads] in *.
  split; [exact Hr1|].
  split; [rewrite Hp3, Hw1; reflexivity|].
  split; [rewrite Hm3, Hw1; reflexivity|].
  unfold calls. cbn [sy_calls]. rewrite Hc1.
  unfold init_registers, init_power_up. fold pclk.
  unfold reg_read. cbn [w_nreads sy_world]. rewrite Hw1.
  fold (reg_read e (sy_world s) 0 STM32_I2C_CR1). fold cr1.
  simpl. rewrite !rev_app_distr. simpl. rewrite rev_involutive.
  rewrite <- !app_assoc. simpl. reflexivity.
Qed.

Lemma deinit_returns (e : env) (b : stm32_i2c_config_s) (s : system) :
  exists s',
    stm32_i2c_deinit e b s = Some (OK, s') /\
    sy_refs s' = sy_refs s /\ sy_nout s' = sy_nout s /\
    w_priv (sy_world s') = w_priv (sy_world s) /\
    w_mem (sy_world s') = w_mem (sy_world s) /\
    w_nreads (sy_world s') = w_nreads (sy_world s) /\
    calls s' = calls s ++ deinit_calls e b.
Proof.
  unfold stm32_i2c_deinit. unfold sbind at 1. rewrite lift_putreg.
  unfold deinit_calls, deinit_irqs, calls.
  destruct (CONFIG_I2C_POLLED (cfg e));
    (eexists; split; [reflexivity|]);
    cbn [sy_world sy_refs sy_calls sy_nout w_priv w_mem w_nreads];
    repeat (split; [reflexivity|]);
    simpl; rewrite <- !app_assoc; reflexivity.
Qed.

(** X23.  [stm32_i2c_init], for a peripheral clock inside 32 bits, always
    returns.  It returns ERROR exactly when one of the two pin
    configurations fails: after a failure for SCL nothing more is done,
    after a failure for SDA the SCL pin is released again, and in both
    cases no register of the controller has been touched.  Otherwise it
    attaches and enables the interrupts (interrupt-driven build), writes
    the clock in MHz to CR2, programs the 100 kHz clock and, last of all,
    writes PE to CR1, and returns OK.  The reference count, the session
    and memory are unchanged. *)
Theorem i2c_init_result (e : env) (b : stm32_i2c_config_s) (o : outside)
  (s : system) :
  let pclk := STM32_PCLK1_FREQUENCY (cfg e) in
  let a0 := out_configgpio o (sy_nout s) in
  let a1 := out_configgpio o (S (sy_nout s)) in
  let cr1 := reg_read e (sy_world s) 0 STM32_I2C_CR1 in
  0 <= pclk < 4294967296 ->
  exists r s',
    stm32_i2c_init e b o s = Some (r, s') /\
    r = (if (a0 <? 0) || (a1 <? 0) then ERROR else OK) /\
    sy_refs s' = sy_refs s /\
    w_priv (sy_world s') = w_priv (sy_world s) /\
    w_mem (sy_world s') = w_mem (sy_world s) /\
    calls s' = calls s ++ init_power_up b ++
      (if a0 <? 0 then [Configgpio (scl_pin b) a0]
       else if a1 <? 0 then
         [Configgpio (scl_pin b) a0; Configgpio (sda_pin b) a1;
          Unconfiggpio (scl_pin b)]
       else
         [Configgpio (scl_pin b) a0; Configgpio (sda_pin b) a1] ++
         init_irqs e b ++ init_registers e cr1).
Proof. exact (init_returns e b o s). Qed.

(** The theorem at work: the SDA pin cannot be configured. *)
Lemma i2c_init_result_witness :
  let e := {| cfg := cfg_irq; hw := hw_const 0 0; msgs := [] |} in
  let o := {| out_configgpio := fun n => if Nat.eqb n 1 then -1 else 0;
              out_gpioread := fun _ => true; out_malloc := fun _ => true;
              gpio_port_pin_mask := 255; I2C_OUTPUT := 256 |} in
  exists s',
    stm32_i2c_init e board_i2c1 o (system_of (world_of priv_idle))
      = Some (ERROR, s') /\
    calls s' =
      [Modifyreg32 STM32_RCC_APB1ENR 0 2097152;
       Modifyreg32 STM32_RCC_APB1RSTR 0 2097152;
       Modifyreg32 STM32_RCC_APB1RSTR 2097152 0;
       Configgpio 22 0; Configgpio 23 (-1); Unconfiggpio 22].
Proof.
  intros e o.
  destruct (i2c_init_result e board_i2c1 o (system_of (world_of priv_idle)))
    as (r & s' & Hrun & Hr & _ & _ & _ & Hcalls).
  { vm_compute. split; congruence. }
  exists s'. split; [rewrite Hrun, Hr; reflexivity | exact Hcalls].
Defined.

(** Which calls of [up_i2cinitialize] return an instance. *)
Lemma initialize_result (e : env) (b : stm32_i2c_config_s) (o : outside)
  (prt : Z) (s s' : system) (r : option Inst.t) :
  up_i2cinitialize e b o prt s = Some (r, s') ->
  (r <> None <->
   2000000 <= STM32_PCLK1_FREQUENCY (cfg e) /\ prt = port b /\
   out_malloc o (sy_nout s) = true).
Proof.
  intros Hrun. unfold up_i2cinitialize in Hrun.
  destruct (Z.ltb_spec (STM32_PCLK1_FREQUENCY (cfg e)) 2000000) as [Hlt|Hpclk].
  { inversion Hrun; subst. split; [congruence | intros (H & _); lia]. }
  destruct (Z.eqb_spec prt (port b)) as [Hport|Hport]; cbn [negb] in Hrun.
  2: { inversion Hrun; subst.
       split; [congruence | intros (_ & H & _); contradiction]. }
  apply sbind_Some in Hrun as (ok & s1 & Hm & Hrun).
  unfold kmm_malloc, ask in Hm. inversion Hm; subst ok s1. clear Hm.
  destruct (out_malloc o (sy_nout s)); cbn [negb] in Hrun.
  2: { inversion Hrun; subst.
       split; [congruence | intros (_ & _ & H); discriminate H]. }
  apply sbind_Some in Hrun as (refs & s2 & _ & Hrun).
  apply sbind_Some in Hrun as ([] & s3 & _ & Hrun).
  apply sbind_Some in Hrun as ([] & s4 & _ & Hrun).
  inversion Hrun; subst.
  split; [intros _; repeat split; assumption | discriminate].
Qed.

(** With a peripheral clock inside 32 bits [up_i2cinitialize] returns. *)
Lemma initialize_returns (e : env) (b : stm32_i2c_config_s) (o : outside)
  (prt : Z) (s : system) :
  0 <= STM32_PCLK1_FREQUENCY (cfg e) < 4294967296 ->
  exists r s', up_i2cinitialize e b o prt s = Some (r, s').
Proof.
  intros Hp. unfold up_i2cinitialize.
  destruct (STM32_PCLK1_FREQUENCY (cfg e) <? 2000000);
    [eexists _, _; reflexivity|].
  destruct (prt =? port b); cbn [negb]; [|eexists _, _; reflexivity].
  unfold sbind at 1. unfold kmm_malloc, ask.
  destruct (out_malloc o (sy_nout s)); cbn [negb];
    [|eexists _, _; reflexivity].
  unfold sbind at 1. unfold get_refs at 1.
  unfold sbind at 1. unfold set_refs at 1.
  cbn [sy_refs sy_world sy_calls sy_nout].
  destruct (sy_refs s =? 0); [|eexists _, _; reflexivity].
  unfold sbind at 1. unfold sbind at 1.
  assert (Hsem : exists s1,
            stm32_i2c_sem_init e
              {| sy_world := sy_world s; sy_refs := sy_refs s + 1;
                 sy_calls := Malloc true :: sy_calls s;
                 sy_nout := S (sy_nout s) |} = Some (tt, s1)).
  { unfold stm32_i2c_sem_init, sbind, do_call, sret.
    destruct (CONFIG_I2C_POLLED (cfg e)); eexists; reflexivity. }
  destruct Hsem as (s1 & ->).
  unfold sbind at 1.
  destruct (init_returns e b o s1) as (ri & s2 & -> & _); [exact Hp|].
  eexists _, _. reflexivity.
Qed.

(** [up_i2cuninitialize] returns. *)
Lemma uninitialize_returns (e : env) (b : stm32_i2c_config_s) (s : system) :
  exists r s', up_i2cuninitialize e b s = Some (r, s').
Proof.
  unfold up_i2cuninitialize.
  unfold sbind at 1. unfold get_refs at 1.
  destruct (sy_refs s =? 0); [eexists _, _; reflexivity|].
  unfold sbind at 1. unfold set_refs at 1.
  destruct (sy_refs s - 1 =? 0); cbn [negb]; [|eexists _, _; reflexivity].
  unfold sbind at 1.
  match goal with
  | |- context [stm32_i2c_deinit e b ?s0] =>
      destruct (deinit_returns e b s0) as (s1 & -> & _)
  end.
  unfold stm32_i2c_sem_destroy, sbind, do_call, sret.
  destruct (CONFIG_I2C_POLLED (cfg e)); eexists _, _; reflexivity.
Qed.

(** X24.  The contract of the two calls that create and destroy
    instances, under the guard of the reference count.  [up_i2cinitialize]
    returns NULL, with the count and the session untouched, or the fresh
    instance (100 kHz, address 0, no flags) with the count incremented;
    an instance is returned exactly when the peripheral clock is at least
    2 MHz, the port is the one configured and the allocation succeeds,
    whether or not the bring-up of the hardware succeeds.
    [up_i2cuninitialize] returns ERROR, changing nothing, exactly when the
    count is zero, and otherwise OK with the count decremented.  Both
    calls do return, the first for a peripheral clock inside 32 bits. *)
Theorem instance_contract (e : env) (b : stm32_i2c_config_s) (o : outside)
  (s : system) :
  clk_bit b <> 0 ->
  refs_guard s ->
  (forall prt r s',
     up_i2cinitialize e b o prt s = Some (r, s') ->
     refs_guard s' /\
     (r <> None <->
      2000000 <= STM32_PCLK1_FREQUENCY (cfg e) /\ prt = port b /\
      out_malloc o (sy_nout s) = true) /\
     (r = None -> sy_refs s' = sy_refs s /\ sy_world s' = sy_world s) /\
     (forall i, r = Some i ->
        i = inst_initial /\ sy_refs s' = sy_refs s + 1 /\
        prt = port b /\ 2000000 <= STM32_PCLK1_FREQUENCY (cfg e))) /\
  (0 <= STM32_PCLK1_FREQUENCY (cfg e) < 4294967296 ->
   forall prt, exists r s', up_i2cinitialize e b o prt s = Some (r, s')) /\
  (2000000 <= STM32_PCLK1_FREQUENCY (cfg e) < 4294967296 ->
   out_malloc o (sy_nout s) = true ->
   exists s',
     up_i2cinitialize e b o (port b) s = Some (Some inst_initial, s')) /\
  (exists r s', up_i2cuninitialize e b s = Some (r, s')) /\
  (forall r s',
     up_i2cuninitialize e b s = Some (r, s') ->
     refs_guard s' /\
     (sy_refs s = 0 -> r = ERROR /\ s' = s) /\
     (sy_refs s <> 0 -> r = OK /\ sy_refs s' = sy_refs s - 1)).
Proof.
  intros Hclk Hg. split; [|split; [|split; [|split]]].
  - intros prt r s' Hrun.
    destruct (initialize_contract e b o prt s s' r Hclk Hg Hrun)
      as (Hg' & Hnone & Hsome).
    split; [exact Hg'|].
    split; [exact (initialize_result e b o prt s s' r Hrun)|].
    split; [exact Hnone | exact Hsome].
  - intros Hp prt. exact (initialize_returns e b o prt s Hp).
  - intros Hp Hm.
    destruct (initialize_returns e b o (port b) s) as (r & s' & Hrun); [lia|].
    destruct (initialize_contract e b o _ s s' r Hclk Hg Hrun)
      as (_ & _ & Hsome).
    destruct r as [i|].
    + destruct (Hsome i eq_refl) as (-> & _). exists s'. exact Hrun.
    + exfalso.
      apply (proj2 (initialize_result e b o _ s s' None Hrun));
        [|reflexivity].
      split; [lia|]. split; [reflexivity | exact Hm].
  - exact (uninitialize_returns e b s).
  - intros r s' Hrun.
    exact (uninitialize_contract e b s s' r Hg Hrun).
Qed.

(** The theorem at work: the bring-up fails and the instance is returned
    all the same; the allocation fails and NULL is returned. *)
Lemma instance_contract_witness :
  let e := {| cfg := cfg_irq; hw := hw_const 0 0; msgs := [] |} in
  let o := {| out_configgpio := fun _ => -1;
              out_gpioread := fun _ => true; out_malloc := fun _ => true;
              gpio_port_pin_mask := 255; I2C_OUTPUT := 256 |} in
  let nomem := {| out_configgpio := fun _ => 0;
                  out_gpioread := fun _ => true;
                  out_malloc := fun _ => false;
                  gpio_port_pin_mask := 255; I2C_OUTPUT := 256 |} in
  (exists s',
     up_i2cinitialize e board_i2c1 o 1 (system_of (world_of priv_idle))
       = Some (Some inst_initial, s') /\
     sy_refs s' = 1) /\
  (exists s',
     up_i2cinitialize e board_i2c1 nomem 1 (system_of (world_of priv_idle))
       = Some (None, s') /\
     sy_refs s' = 0).
Proof.
  intros e o nomem.
  assert (Hclk : clk_bit board_i2c1 <> 0) by discriminate.
  assert (Hg : refs_guard (system_of (world_of priv_idle)))
    by (split; [simpl; lia | reflexivity]).
  split.
  - destruct (instance_contract e board_i2c1 o _ Hclk Hg)
      as (Hi & _ & Hex & _).
    destruct Hex as (s' & Hrun);
      [vm_compute; split; congruence | reflexivity |].
    destruct (Hi 1 _ s' Hrun) as (_ & _ & _ & Hsome).
    destruct (Hsome inst_initial eq_refl) as (_ & Hr & _).
    exists s'. split; [exact Hrun | exact Hr].
  - destruct (instance_contract e board_i2c1 nomem _ Hclk Hg)
      as (Hi & Htot & _).
    destruct (Htot ltac:(vm_compute; split; congruence) 1)
      as (r & s' & Hrun).
    destruct (Hi 1 r s' Hrun) as (_ & Hiff & Hnone & _).
    destruct r as [i|].
    + exfalso.
      destruct (proj1 Hiff ltac:(discriminate)) as (_ & _ & Hm).
      discriminate Hm.
    + exists s'. split; [exact Hrun|].
      exact (proj1 (Hnone eq_refl)).
Defined.


(** ** Bus reset *)

Lemma calls_app (s s' : system) (l : list call) :
  calls s' = calls s ++ l <-> sy_calls s' = rev l ++ sy_calls s.
Proof.
  unfold calls. split; intros H.
  - apply (f_equal (@rev call)) in H.
    rewrite rev_involutive, rev_app_distr, rev_involutive in H. exact H.
  - rewrite H, rev_app_distr, rev_involutive. reflexivity.
Qed.

Lemma powered_bus_calls (scl : Z) (l rest : list call) :
  forallb (reset_bus_call scl) l = true ->
  powered (l ++ rest) = powered rest.
Proof.
  induction l as [|c l IH]; intros H; [reflexivity|].
  simpl in H. apply andb_prop in H as [Hc Hl].
  destruct c; simpl in *; try discriminate; exact (IH Hl).
Qed.

Lemma first_high_bound (reads : nat -> bool) (limit : nat) :
  forall n j, first_high reads n limit = Some j -> (j < limit)%nat.
Proof.
  induction limit as [|limit IH]; intros n j H; [discriminate|].
  simpl in H. destruct (reads n).
  - inversion H. lia.
  - destruct (first_high reads (S n) limit) as [j'|] eqn:E;
      [|discriminate].
    inversion H. apply IH in E. lia.
Qed.

Lemma stretch_calls_S (scl : Z) (j : nat) (last : bool) :
  stretch_calls scl (S j) last =
  Gpioread scl false :: Udelay 10 :: stretch_calls scl j last.
Proof. reflexivity. Qed.

(** The wait for the clock: with [limit] readings left before the code
    gives up, it reads SCL until the first high reading among them. *)
Lemma stretch_loop_run (o : outside) (scl : Z) (limit : nat) :
  forall (fuel : nat) (s : system),
    (1 <= limit <= 12)%nat -> (limit <= fuel)%nat ->
    reset_stretch_loop o scl fuel (12 - Z.of_nat limit) s =
      Some (match first_high (out_gpioread o) (sy_nout s) limit with
            | Some j =>
                (false,
                 {| sy_world := sy_world s; sy_refs := sy_refs s;
                    sy_calls := rev (stretch_calls scl j true) ++ sy_calls s;
                    sy_nout := (sy_nout s + S j)%nat |})
            | None =>
                (true,
                 {| sy_world := sy_world s; sy_refs := sy_refs s;
                    sy_calls := rev (stretch_calls scl (limit - 1) false)
                                ++ sy_calls s;
                    sy_nout := (sy_nout s + limit)%nat |})
            end).
Proof.
  induction limit as [|limit IH]; intros fuel s Hl Hf; [lia|].
  destruct fuel as [|fuel]; [lia|].
  cbn [reset_stretch_loop first_high].
  unfold sbind at 1. unfold stm32_gpioread, ask.
  destruct (out_gpioread o (sy_nout s)) eqn:Hv.
  - unfold sret. do 3 f_equal. lia.
  - destruct (Nat.eq_dec limit 0%nat) as [->|Hpos].
    + replace (12 - Z.of_nat 1%nat >? 10) with true by reflexivity.
      unfold sret. cbn [first_high option_map]. do 3 f_equal. lia.
    + replace (12 - Z.of_nat (S limit) >? 10) with false
        by (symmetry; rewrite Z.gtb_ltb; apply Z.ltb_ge; lia).
      unfold sbind at 1. unfold up_udelay, do_call.
      cbn [sy_world sy_refs sy_calls sy_nout].
      replace (u32 (12 - Z.of_nat (S limit) + 1)) with (12 - Z.of_nat limit)
        by (rewrite u32_small; lia).
      rewrite IH by lia.
      cbn [sy_world sy_refs sy_calls sy_nout].
      destruct (first_high (out_gpioread o) (S (sy_nout s)) limit) as [j|];
        cbn [option_map].
      * rewrite stretch_calls_S. cbn [rev]. rewrite <- !app_assoc.
        do 3 f_equal. lia.
      * replace (S limit - 1)%nat with (S (limit - 1)) by lia.
        rewrite stretch_calls_S. cbn [rev]. rewrite <- !app_assoc.
        do 3 f_equal. lia.
Qed.

(** The recovery loop does what the readings decide. *)
Lemma clock_loop_run (o : outside) (scl sda : Z) (sfuel : nat)
  (budget : nat) :
  (12 <= sfuel)%nat ->
  forall (fuel : nat) (s : system),
    (budget <= 11)%nat -> (S budget <= fuel)%nat ->
    let out := recovery (out_gpioread o) scl sda budget (sy_nout s) in
    reset_clock_loop o scl sda sfuel fuel (11 - Z.of_nat budget) s =
      Some (negb (fst (fst out)),
            {| sy_world := sy_world s; sy_refs := sy_refs s;
               sy_calls := rev (snd (fst out)) ++ sy_calls s;
               sy_nout := snd out |}).
Proof.
  intros Hsf.
  induction budget as [|budget IH]; intros fuel s Hb Hf;
    (destruct fuel as [|fuel]; [lia|]);
    cbn [reset_clock_loop recovery];
    unfold sbind at 1; unfold stm32_gpioread at 1; unfold ask at 1;
    destruct (out_gpioread o (sy_nout s)) eqn:Hv; try reflexivity.
  replace (11 - Z.of_nat (S budget) >? 10) with false
      by (symmetry; rewrite Z.gtb_ltb; apply Z.ltb_ge; lia).
    unfold sbind at 1.
    pose proof (stretch_loop_run o scl 12%nat sfuel
                  {| sy_world := sy_world s; sy_refs := sy_refs s;
                     sy_calls := Gpioread sda false :: sy_calls s;
                     sy_nout := S (sy_nout s) |}) as Hst.
    change (12 - Z.of_nat 12%nat) with 0 in Hst.
    rewrite Hst by lia. clear Hst.
    cbn [sy_world sy_refs sy_calls sy_nout].
    destruct (first_high (out_gpioread o) (S (sy_nout s)) 12) as [j|] eqn:Hj.
    + unfold sbind at 1. unfold stm32_gpiowrite at 1. unfold do_call at 1.
      unfold sbind at 1. unfold up_udelay at 1. unfold do_call at 1.
      unfold sbind at 1. unfold stm32_gpiowrite at 1. unfold do_call at 1.
      unfold sbind at 1. unfold up_udelay at 1. unfold do_call at 1.
      cbn [sy_world sy_refs sy_calls sy_nout].
      replace (u32 (11 - Z.of_nat (S budget) + 1)) with (11 - Z.of_nat budget)
        by (rewrite u32_small; lia).
      rewrite IH by lia.
      cbn [sy_world sy_refs sy_calls sy_nout fst snd].
      replace (S (sy_nout s) + S j)%nat with (S (sy_nout s + S j))%nat by lia.
      do 3 f_equal.
      change (Gpioread sda false :: ?l) with ([Gpioread sda false] ++ l).
      unfold pulse_calls.
      rewrite !rev_app_distr. cbn [rev app]. rewrite <- !app_assoc.
      reflexivity.
    + reflexivity.
Qed.

Lemma stretch_calls_bus (scl : Z) (j : nat) (last : bool) :
  forallb (reset_bus_call scl) (stretch_calls scl j last) = true /\
  List.filter (is_scl_pulse scl) (stretch_calls scl j last) = [].
Proof.
  induction j as [|j [IH1 IH2]]; [split; reflexivity|].
  rewrite stretch_calls_S. split; [exact IH1 | exact IH2].
Qed.

Lemma pulse_calls_bus (scl : Z) :
  forallb (reset_bus_call scl) (pulse_calls scl) = true /\
  List.filter (is_scl_pulse scl) (pulse_calls scl) = [Gpiowrite scl false].
Proof.
  unfold pulse_calls. simpl. rewrite Z.eqb_refl. split; reflexivity.
Qed.

(** The recovery makes at most as many pulses as it has left, and only
    reads pins, writes SCL and waits. *)
Lemma recovery_bus (reads : nat -> bool) (scl sda : Z) (budget : nat) :
  forall n,
    let l := snd (fst (recovery reads scl sda budget n)) in
    forallb (reset_bus_call scl) l = true /\
    (List.length (List.filter (is_scl_pulse scl) l) <= budget)%nat.
Proof.
  induction budget as [|budget IH]; intros n; cbn [recovery];
    destruct (reads n); try (split; [reflexivity | simpl; lia]).
  destruct (first_high reads (S n) 12) as [j|].
  - cbn [fst snd]. destruct (IH (S n + S j)%nat) as (Ha & Hp).
    destruct (stretch_calls_bus scl j true) as (Hs1 & Hs2).
    destruct (pulse_calls_bus scl) as (Hq1 & Hq2).
    change (Gpioread sda false :: ?l) with ([Gpioread sda false] ++ l).
    split.
    + rewrite !forallb_app, Hs1, Hq1, Ha. reflexivity.
    + rewrite !List.filter_app, Hs2, Hq2, !length_app. simpl in *. lia.
  - cbn [fst snd]. destruct (stretch_calls_bus scl 11 false) as (Hs1 & Hs2).
    change (Gpioread sda false :: ?l) with ([Gpioread sda false] ++ l).
    split.
    + rewrite !forallb_app, Hs1. reflexivity.
    + rewrite !List.filter_app, Hs2. simpl. lia.
Qed.

(** X25.  [up_i2creset], called with a reference held and a peripheral
    clock inside 32 bits, always returns, and the pin readings alone
    decide what it does.  It takes the exclusion semaphore, shuts the
    controller down, releases SDA and runs the recovery: SDA is read; a
    high reading ends the recovery with the bus free; a low reading is
    answered by waiting for SCL to read high, which is given twelve
    readings ten microseconds apart, and by one clock pulse on SCL, and
    after eleven pulses a twelfth low reading of SDA ends the recovery
    with the bus stuck, as does SCL low at all twelve readings of one
    wait.  With the bus stuck it returns ERROR and leaves the controller
    shut down, its clock off although the reference count is still
    positive, the pins neither released nor reconfigured.  With the bus
    free it generates START and STOP by hand, releases the two pins, runs
    the bring-up and returns OK whatever the bring-up returned, the clock
    on.  In both cases the semaphore is given back as the last call; the
    reference count, the session and memory are unchanged. *)
Theorem i2c_reset_result (e : env) (b : stm32_i2c_config_s) (o : outside)
  (fuel : nat) (s : system) :
  let scl := MKI2C_OUTPUT o (scl_pin b) in
  let sda := MKI2C_OUTPUT o (sda_pin b) in
  let out := recovery (out_gpioread o) scl sda 11 (sy_nout s) in
  let free := fst (fst out) in
  let loop := snd (fst out) in
  let cr1 := reg_read e (sy_world s) 0 STM32_I2C_CR1 in
  0 <= STM32_PCLK1_FREQUENCY (cfg e) < 4294967296 ->
  clk_bit b <> 0 ->
  0 < sy_refs s ->
  (12 <= fuel)%nat ->
  exists s',
    up_i2creset e b o fuel s = Some (if free then OK else ERROR, s') /\
    calls s' = calls s ++ [SemWait sem_excl] ++ deinit_calls e b ++
      [Gpiowrite sda true] ++ loop ++ reset_tail e b o free (snd out) cr1 /\
    powered (sy_calls s') = free /\
    forallb (reset_bus_call scl) loop = true /\
    (List.length (List.filter (is_scl_pulse scl) loop) <= 11)%nat /\
    sy_refs s' = sy_refs s /\
    w_priv (sy_world s') = w_priv (sy_world s) /\
    w_mem (sy_world s') = w_mem (sy_world s).
Proof.
  intros scl sda out free loop cr1 Hp Hclk Hrefs Hfuel. unfold up_i2creset.
  unfold sbind at 1. unfold get_refs at 1.
  replace (sy_refs s >? 0) with true
    by (symmetry; rewrite Z.gtb_ltb; apply Z.ltb_lt; exact Hrefs).
  cbn [negb].
  unfold sbind at 1. unfold do_call at 1.
  unfold sbind at 1.
  match goal with
  | |- context [stm32_i2c_deinit e b ?s0] =>
      destruct (deinit_returns e b s0)
        as (s1 & -> & Hr1 & Hn1 & Hp1 & Hm1 & Hnr1 & Hc1)
  end.
  apply calls_app in Hc1.
  cbn [sy_world sy_refs sy_calls sy_nout] in Hr1, Hn1, Hp1, Hm1, Hnr1, Hc1.
  cbv zeta. fold scl sda.
  unfold sbind at 1. unfold stm32_gpiowrite at 1. unfold do_call at 1.
  unfold sbind at 1.
  pose proof (clock_loop_run o scl sda fuel 11%nat Hfuel fuel
                {| sy_world := sy_world s1; sy_refs := sy_refs s1;
                   sy_calls := Gpiowrite sda true :: sy_calls s1;
                   sy_nout := sy_nout s1 |}) as Hloop.
  change (11 - Z.of_nat 11%nat) with 0 in Hloop.
  cbv zeta in Hloop. cbn [sy_world sy_refs sy_calls sy_nout] in Hloop.
  rewrite Hloop by lia. clear Hloop.
  rewrite Hn1.
  destruct (recovery_bus (out_gpioread o) scl sda 11 (sy_nout s))
    as (Hall & Hpulse).
  unfold free, loop. clear free loop.
  fold out. fold out in Hall, Hpulse. clearbody out.
  destruct out as [[free loop] n']. cbn [fst snd] in *.
  unfold reset_tail. fold scl sda.
  destruct free; cbn [negb].
  - (* the bus is free *)
    do 10 (unfold sbind at 1;
           first [ unfold stm32_gpiowrite at 1
                 | unfold up_udelay at 1
                 | unfold stm32_unconfiggpio at 1 ];
           unfold do_call at 1;
           cbn [sy_world sy_refs sy_calls sy_nout]).
    unfold sbind at 1.
    match goal with
    | |- context [stm32_i2c_init e b o ?s4] =>
        destruct (init_returns e b o s4 Hp)
          as (ri & s5 & Hinit & _ & Hr5 & Hp5 & Hm5 & Hc5)
    end.
    cbn [sy_world sy_refs sy_calls sy_nout] in Hr5, Hp5, Hm5, Hc5.
    assert (Hcr1 : reg_read e (sy_world s1) 0 STM32_I2C_CR1 = cr1).
    { unfold cr1, reg_read. rewrite Hnr1. reflexivity. }
    rewrite Hcr1 in Hc5.
    fold (bring_up_calls e b o n' cr1) in Hc5.
    rewrite Hinit.
    pose proof (init_powered e b o _ _ _ Hclk Hinit) as (Hpow5 & _).
    apply calls_app in Hc5. cbn [sy_calls] in Hc5.
    unfold sbind, do_call, sret.
    eexists. split; [reflexivity|].
    cbn [sy_world sy_refs sy_calls sy_nout].
    split.
    { apply calls_app. cbn [sy_calls]. rewrite Hc5, Hc1.
      unfold reset_start_stop.
      rewrite !rev_app_distr, ?rev_involutive.
      cbn [rev app].
      rewrite ?rev_app_distr, ?rev_involutive.
      cbn [rev app].
      rewrite <- ?app_assoc. cbn [app].
      reflexivity. }
    split; [cbn [powered]; exact Hpow5|].
    split; [exact Hall|]. split; [exact Hpulse|].
    split; [rewrite Hr5, Hr1; reflexivity|].
    split; [rewrite Hp5, Hp1; reflexivity|].
    rewrite Hm5, Hm1. reflexivity.
  - (* the bus is stuck *)
    unfold sbind, do_call, sret.
    eexists. split; [reflexivity|].
    cbn [sy_world sy_refs sy_calls sy_nout].
    split.
    { apply calls_app. cbn [sy_calls]. rewrite Hc1.
      rewrite !rev_app_distr, ?rev_involutive. cbn [rev app].
      rewrite <- ?app_assoc. reflexivity. }
    split.
    { cbn [powered].
      rewrite (powered_bus_calls scl (rev loop)).
      - rewrite Hc1. cbn [powered].
        unfold deinit_calls, deinit_irqs.
        destruct (CONFIG_I2C_POLLED (cfg e)); reflexivity.
      - rewrite forallb_forall in *. intros c Hc. apply Hall.
        apply in_rev. exact Hc. }
    split; [exact Hall|]. split; [exact Hpulse|].
    split; [exact Hr1|]. split; [exact Hp1 | exact Hm1].
Qed.

(** The theorem at work, interrupt-driven build: SDA held low with SCL
    free, and a bus that is free at the first reading. *)
Lemma i2c_reset_result_witness :
  let e := {| cfg := cfg_irq; hw := hw_const 0 0; msgs := [] |} in
  let stuck := {| out_configgpio := fun _ => 0; out_gpioread := Nat.odd;
                  out_malloc := fun _ => true; gpio_port_pin_mask := 255;
                  I2C_OUTPUT := 256 |} in
  let s := {| sy_world := world_of priv_idle; sy_refs := 1;
              sy_calls := []; sy_nout := 0 |} in
  (exists s',
     up_i2creset e board_i2c1 stuck 12 s = Some (ERROR, s') /\
     powered (sy_calls s') = false /\ sy_refs s' = 1 /\
     List.length (List.filter (is_scl_pulse 278) (calls s')) = 11%nat /\
     List.last (calls s') Free = SemPostCall sem_excl) /\
  (exists s',
     up_i2creset e board_i2c1 outside_ok 12 s = Some (OK, s') /\
     powered (sy_calls s') = true /\ sy_refs s' = 1 /\
     calls s' =
       [SemWait sem_excl; Reg (PutReg STM32_I2C_CR1 0);
        Unconfiggpio 22; Unconfiggpio 23; DisableIrq 31; DisableIrq 32;
        IrqDetach 31; IrqDetach 32;
        Modifyreg32 STM32_RCC_APB1ENR 2097152 0;
        Gpiowrite 279 true; Gpioread 279 true;
        Gpiowrite 279 false; Udelay 10; Gpiowrite 278 false; Udelay 10;
        Gpiowrite 278 true; Udelay 10; Gpiowrite 279 true; Udelay 10;
        Unconfiggpio 279; Unconfiggpio 278;
        Modifyreg32 STM32_RCC_APB1ENR 0 2097152;
        Modifyreg32 STM32_RCC_APB1RSTR 0 2097152;
        Modifyreg32 STM32_RCC_APB1RSTR 2097152 0;
        Configgpio 22 0; Configgpio 23 0;
        IrqAttach 31; IrqAttach 32; EnableIrq 31; EnableIrq 32;
        Reg (PutReg STM32_I2C_CR2 42); Reg (GetReg STM32_I2C_CR1 0);
        Reg (PutReg STM32_I2C_CR1 0); Reg (PutReg STM32_I2C_CCR 210);
        Reg (PutReg STM32_I2C_TRISE 43); Reg (PutReg STM32_I2C_OAR1 16384);
        Reg (PutReg STM32_I2C_CR1 0); Reg (PutReg STM32_I2C_CR1 1);
        SemPostCall sem_excl]).
Proof.
  intros e stuck s.
  assert (Hp : 0 <= STM32_PCLK1_FREQUENCY (cfg e) < 4294967296)
    by (vm_compute; split; congruence).
  assert (Hclk : clk_bit board_i2c1 <> 0) by discriminate.
  assert (Hrefs : 0 < sy_refs s) by reflexivity.
  split.
  - destruct (i2c_reset_result e board_i2c1 stuck 12 s Hp Hclk Hrefs)
      as (s' & Hrun & Hcalls & Hpow & _ & _ & Hr & _); [lia|].
    exists s'. split; [exact Hrun|]. split; [exact Hpow|].
    split; [exact Hr|]. rewrite Hcalls. split; reflexivity.
  - destruct (i2c_reset_result e board_i2c1 outside_ok 12 s Hp Hclk Hrefs)
      as (s' & Hrun & Hcalls & Hpow & _ & _ & Hr & _); [lia|].
    exists s'. split; [exact Hrun|]. split; [exact Hpow|].
    split; [exact Hr|]. rewrite Hcalls. reflexivity.
Defined.

(** ** C9: the values of the clock configurator, in range *)

(** C9, as the code has it.  For a peripheral clock inside 32 bits:
    with [0 < f <= 100000] and the quotient [pclk / (2 f)] inside 16 bits,
    the divider register receives the larger of 4 and [pclk / (2 f)] and
    the rise-time register [pclk / 1000000 + 1]; with [f > 100000] and
    [3 f] (or [25 f]) inside 32 bits, the divider register receives the
    larger of 1 and [pclk / (3 f)] plus the fast-mode bit (or the larger
    of 1 and [pclk / (25 f)] plus the duty and fast-mode bits) and the
    rise-time register [(pclk / 1000000) * 300 / 1000 + 1].  In both cases
    the last access writes back to CR1 the value read on entry, so the
    enable bit is as it was. *)
Theorem setclock_in_range (e : env) (w : world) (f : Z) :
  let pclk := STM32_PCLK1_FREQUENCY (cfg e) in
  let cr1 := reg_read e w 0 STM32_I2C_CR1 in
  let mhz := pclk / 1000000 in
  let duty := CONFIG_STM32_I2C_DUTY16_9 (cfg e) in
  let k := if duty then 25 else 3 in
  let mode := if duty then Z.lor I2C_CCR_DUTY I2C_CCR_FS else I2C_CCR_FS in
  0 <= pclk < 4294967296 ->
  (0 < f <= 100000 -> pclk / (2 * f) < 65536 ->
   exists w',
     stm32_i2c_setclock e f w = Some (tt, w') /\
     accesses w' = accesses w ++
       [GetReg STM32_I2C_CR1 cr1;
        PutReg STM32_I2C_CR1 (u16 (Z.land cr1 (Z.lnot I2C_CR1_PE)));
        PutReg STM32_I2C_CCR (Z.max 4 (pclk / (2 * f)));
        PutReg STM32_I2C_TRISE (mhz + 1);
        PutReg STM32_I2C_OAR1 I2C_OAR1_ONE;
        PutReg STM32_I2C_CR1 cr1] /\
     List.last (accesses w') SemPost = PutReg STM32_I2C_CR1 cr1) /\
  (100000 < f -> k * f < 4294967296 ->
   exists w',
     stm32_i2c_setclock e f w = Some (tt, w') /\
     accesses w' = accesses w ++
       [GetReg STM32_I2C_CR1 cr1;
        PutReg STM32_I2C_CR1 (u16 (Z.land cr1 (Z.lnot I2C_CR1_PE)));
        PutReg STM32_I2C_CCR (mode + Z.max 1 (pclk / (k * f)));
        PutReg STM32_I2C_TRISE (mhz * 300 / 1000 + 1);
        PutReg STM32_I2C_OAR1 I2C_OAR1_ONE;
        PutReg STM32_I2C_CR1 cr1] /\
     List.last (accesses w') SemPost = PutReg STM32_I2C_CR1 cr1).
Proof.
  intros pclk cr1 mhz duty k mode Hp. split.
  - intros Hf Hq.
    destruct (setclock_standard e w Hp f Hf) as (w' & Hrun & Hacc).
    fold pclk cr1 mhz in Hacc.
    assert (Hu : u16 (pclk / (2 * f)) = pclk / (2 * f)).
    { apply u16_small. split; [|exact Hq].
      apply Z.div_pos; lia. }
    rewrite Hu in Hacc.
    exists w'. split; [exact Hrun|]. split; [exact Hacc|].
    rewrite Hacc.
    change (accesses w ++ ?a :: ?b :: ?c :: ?d :: ?g :: [?h])
      with (accesses w ++ [a; b; c; d; g] ++ [h]).
    rewrite !app_assoc. apply last_last.
  - intros Hf Hk.
    destruct (setclock_fast e w Hp f Hf Hk) as (w' & Hrun & Hacc & Hsum).
    fold pclk cr1 mhz duty k mode in Hacc, Hsum.
    rewrite Hsum in Hacc.
    exists w'. split; [exact Hrun|]. split; [exact Hacc|].
    rewrite Hacc.
    change (accesses w ++ ?a :: ?b :: ?c :: ?d :: ?g :: [?h])
      with (accesses w ++ [a; b; c; d; g] ++ [h]).
    rewrite !app_assoc. apply last_last.
Qed.

(** The theorem at work: 42 MHz, standard mode at 100 kHz and fast mode
    at 400 kHz. *)
Lemma setclock_in_range_witness :
  let e := {| cfg := cfg_irq; hw := hw_const 0 0; msgs := [] |} in
  let w := world_of priv_idle in
  (exists w',
     stm32_i2c_setclock e 100000 w = Some (tt, w') /\
     accesses w' =
       [GetReg STM32_I2C_CR1 0; PutReg STM32_I2C_CR1 0;
        PutReg STM32_I2C_CCR 210; PutReg STM32_I2C_TRISE 43;
        PutReg STM32_I2C_OAR1 16384; PutReg STM32_I2C_CR1 0]) /\
  (exists w',
     stm32_i2c_setclock e 400000 w = Some (tt, w') /\
     accesses w' =
       [GetReg STM32_I2C_CR1 0; PutReg STM32_I2C_CR1 0;
        PutReg STM32_I2C_CCR 32803; PutReg STM32_I2C_TRISE 13;
        PutReg STM32_I2C_OAR1 16384; PutReg STM32_I2C_CR1 0]).
Proof.
  intros e w.
  assert (Hp : 0 <= STM32_PCLK1_FREQUENCY (cfg e) < 4294967296)
    by (vm_compute; split; congruence).
  destruct (setclock_in_range e w 100000 Hp) as (Hs & _).
  destruct (setclock_in_range e w 400000 Hp) as (_ & Hf).
  split.
  - destruct Hs as (w' & Hrun & Hacc & _);
      [lia | vm_compute; reflexivity |].
    exists w'. split; [exact Hrun | exact Hacc].
  - destruct Hf as (w' & Hrun & Hacc & _);
      [lia | vm_compute; reflexivity |].
    exists w'. split; [exact Hrun | exact Hacc].
Defined.

(** C9 as stated fails for a low frequency: at 42 MHz and 100 Hz the
    quotient 210000 does not fit the 16 bits it is kept in, and the
    divider register receives 13392. *)
Lemma setclock_in_range_counterexample :
  let e := {| cfg := cfg_irq; hw := hw_const 0 0; msgs := [] |} in
  let w := world_of priv_idle in
  100 <= 100000 /\
  Z.max 4 (STM32_PCLK1_FREQUENCY (cfg e) / (2 * 100)) = 210000 /\
  exists w',
    stm32_i2c_setclock e 100 w = Some (tt, w') /\
    List.filter (fun a => match a with
                          | PutReg STM32_I2C_CCR _ => true
                          | _ => false
                          end) (accesses w') = [PutReg STM32_I2C_CCR 13392].
Proof.
  intros e w. split; [lia|]. split; [reflexivity|].
  eexists. split; [vm_compute; reflexivity | reflexivity].
Qed.

(** ** C7: the classification of the final status *)

(** C7, as the code has it.  Once the wait is over [stm32_i2c_process]
    returns the negated error number of the status word the engine stored
    last, in the precedence bus error (EIO), arbitration lost (EAGAIN),
    acknowledge failure (ENXIO), overrun (EIO), PEC error (EPROTO),
    hardware timeout (ETIME), SMBus alert (EINTR); with none of these
    bits set it returns -ETIMEDOUT after a failed wait and 0, success,
    otherwise.  The busy bit of SR2 plays no part, after a failed wait
    either: the status is masked to 16 bits on both paths, and EBUSY is
    never the result. *)
Theorem process_status_precedence (e : env) (waitdone : Z) (w : world) :
  let st := status (w_priv w) in
  exists r w',
    process_finish e waitdone w = Some (r, w') /\
    (bit_set st I2C_SR1_BERR = true -> r = - EIO) /\
    (bit_set st I2C_SR1_BERR = false ->
     bit_set st I2C_SR1_ARLO = true -> r = - EAGAIN) /\
    (bit_set st I2C_SR1_BERR = false -> bit_set st I2C_SR1_ARLO = false ->
     bit_set st I2C_SR1_AF = true -> r = - ENXIO) /\
    (bit_set st I2C_SR1_BERR = false -> bit_set st I2C_SR1_ARLO = false ->
     bit_set st I2C_SR1_AF = false ->
     bit_set st I2C_SR1_OVR = true -> r = - EIO) /\
    (bit_set st I2C_SR1_BERR = false -> bit_set st I2C_SR1_ARLO = false ->
     bit_set st I2C_SR1_AF = false -> bit_set st I2C_SR1_OVR = false ->
     bit_set st I2C_SR1_PECERR = true -> r = - EPROTO) /\
    (bit_set st I2C_SR1_BERR = false -> bit_set st I2C_SR1_ARLO = false ->
     bit_set st I2C_SR1_AF = false -> bit_set st I2C_SR1_OVR = false ->
     bit_set st I2C_SR1_PECERR = false ->
     bit_set st I2C_SR1_TIMEOUT = true -> r = - ETIME) /\
    (bit_set st I2C_SR1_BERR = false -> bit_set st I2C_SR1_ARLO = false ->
     bit_set st I2C_SR1_AF = false -> bit_set st I2C_SR1_OVR = false ->
     bit_set st I2C_SR1_PECERR = false ->
     bit_set st I2C_SR1_TIMEOUT = false ->
     bit_set st I2C_SR1_SMBALERT = true -> r = - EINTR) /\
    (bit_set st I2C_SR1_ERRORMASK = false ->
     r = if waitdone <? 0 then - ETIMEDOUT else 0) /\
    r <> - EBUSY.
Proof.
  intros st.
  destruct (process_finish_returns e waitdone w)
    as (w' & Hrun & _ & _ & _ & Hnb).
  eexists _, w'. split; [exact Hrun|]. fold st in Hnb |- *.
  unfold error_of_status in *. unfold I2C_SR1_ERRORMASK.
  rewrite !bit_set_lor.
  destruct (bit_set st I2C_SR1_BERR), (bit_set st I2C_SR1_ARLO),
    (bit_set st I2C_SR1_AF), (bit_set st I2C_SR1_OVR),
    (bit_set st I2C_SR1_PECERR), (bit_set st I2C_SR1_TIMEOUT),
    (bit_set st I2C_SR1_SMBALERT), (waitdone <? 0);
    repeat split; intros; try discriminate; try reflexivity.
Qed.

(** C7 as stated fails after a failed wait: with no error bit in the
    status the engine stored last and no busy bit the result is
    -ETIMEDOUT, not success; and with SR2 reading busy when the status is
    fetched again the result is -ETIMEDOUT as well, not -EBUSY. *)
Lemma process_status_precedence_counterexample :
  let quiet := {| cfg := cfg_irq; hw := hw_const 0 0; msgs := [] |} in
  let busy := {| cfg := cfg_irq;
                 hw := {| hw_reg := fun _ r => match r with
                                               | STM32_I2C_SR2 => I2C_SR2_BUSY
                                               | _ => 0
                                               end;
                          hw_clock := fun n => Z.of_nat n;
                          hw_realtime := fun n => (Z.of_nat n, 0);
                          hw_wait := fun _ => wait_timeout |};
                 msgs := [] |} in
  let w := world_of priv_idle in
  bit_set (status (w_priv w)) I2C_SR1_ERRORMASK = false /\
  (exists w',
     process_finish quiet (- ETIMEDOUT) w = Some (- ETIMEDOUT, w') /\
     accesses w' =
       [GetReg STM32_I2C_SR1 0; GetReg STM32_I2C_SR2 0;
        ModifyReg STM32_I2C_CR1
          (Z.lor I2C_CR1_START (Z.lor I2C_CR1_STOP I2C_CR1_PEC)) 0]) /\
  (exists w',
     process_finish busy (- ETIMEDOUT) w = Some (- ETIMEDOUT, w') /\
     accesses w' =
       [GetReg STM32_I2C_SR1 0; GetReg STM32_I2C_SR2 I2C_SR2_BUSY;
        ModifyReg STM32_I2C_CR1
          (Z.lor I2C_CR1_START (Z.lor I2C_CR1_STOP I2C_CR1_PEC)) 0]) /\
  - ETIMEDOUT <> 0 /\ - ETIMEDOUT <> - EBUSY.
Proof.
  intros quiet busy w. split; [reflexivity|].
  split; [eexists; split; [vm_compute; reflexivity | reflexivity]|].
  split; [eexists; split; [vm_compute; reflexivity | reflexivity]|].
  split; discriminate.
Qed.

(** ** C5: the session after a transfer, and the termination step *)







